(** * Timeseries engine of the Talsim FEWS adapter

    A shallow embedding of [lib/timeseries.py] (class [Timeseries]) and the
    properties of its container operations, its aggregation, its
    synchronisation and its file codecs.

    Python objects live in a store: a [Timeseries] instance is a reference to
    a record of attributes, and its [nodes] attribute is a reference to a
    dictionary.  Methods are computations in a state-and-exception monad over
    that store, so aliasing and the state left behind by a raised exception
    are part of the model. *)

From Stdlib Require Import ZArith Floats List Ascii String Lia Bool.
From stdpp Require Import base decidable option countable gmap sets list
  strings sorting.

Local Open Scope Z_scope.
#[local] Set Warnings "-clear-no-such-hyp,-inexact-float,-unused-intro-pattern".

(** ** Dates and times: [datetime.datetime] without [tzinfo] *)

Module Datetime.

Record datetime := mkDatetime {
  year : Z; month : Z; day : Z;
  hour : Z; minute : Z; second : Z; microsecond : Z
}.

#[global] Instance datetime_eq_dec : EqDecision datetime.
Proof. solve_decision. Defined.

(** Python compares two naive datetimes field by field, most significant
    first. *)
Fixpoint lex_compare (xs ys : list Z) : comparison :=
  match xs, ys with
  | [], [] => Eq
  | [], _ :: _ => Lt
  | _ :: _, [] => Gt
  | x :: xs', y :: ys' =>
      match Z.compare x y with
      | Eq => lex_compare xs' ys'
      | c => c
      end
  end.

Definition fields (d : datetime) : list Z :=
  [year d; month d; day d; hour d; minute d; second d; microsecond d].

Definition of_fields (l : list Z) : datetime :=
  match l with
  | [y; mo; d; h; mi; s; us] => mkDatetime y mo d h mi s us
  | _ => mkDatetime 1 1 1 0 0 0 0
  end.

#[global] Instance datetime_countable : Countable datetime :=
  inj_countable' fields of_fields
    (λ d, match d with mkDatetime _ _ _ _ _ _ _ => eq_refl end).

Definition compare (a b : datetime) : comparison :=
  lex_compare (fields a) (fields b).

Definition ltb (a b : datetime) : bool :=
  match compare a b with Lt => true | _ => false end.
Definition leb (a b : datetime) : bool :=
  match compare a b with Gt => false | _ => true end.
Definition gtb (a b : datetime) : bool := ltb b a.
Definition geb (a b : datetime) : bool := leb b a.

Definition lt (a b : datetime) : Prop := compare a b = Lt.
Definition le (a b : datetime) : Prop := compare a b ≠ Gt.

#[global] Instance lt_dec a b : Decision (lt a b).
Proof. unfold lt. solve_decision. Defined.
#[global] Instance le_dec a b : Decision (le a b).
Proof. unfold le. solve_decision. Defined.

(** *** Calendar arithmetic, after CPython's [datetime] and [calendar] *)

Definition is_leap (y : Z) : bool :=
  (y mod 4 =? 0) && (negb (y mod 100 =? 0) || (y mod 400 =? 0)).

Definition days_in_month_table (m : Z) : Z :=
  match m with
  | 1 => 31 | 2 => 28 | 3 => 31 | 4 => 30 | 5 => 31 | 6 => 30
  | 7 => 31 | 8 => 31 | 9 => 30 | 10 => 31 | 11 => 30 | 12 => 31
  | _ => 0
  end.

Definition days_before_month_table (m : Z) : Z :=
  match m with
  | 1 => 0 | 2 => 31 | 3 => 59 | 4 => 90 | 5 => 120 | 6 => 151
  | 7 => 181 | 8 => 212 | 9 => 243 | 10 => 273 | 11 => 304 | 12 => 334
  | _ => 0
  end.

(** [calendar.monthrange(year, month)[1]] *)
Definition days_in_month (y m : Z) : Z :=
  days_in_month_table m + (if (m =? 2) && is_leap y then 1 else 0).

Definition days_before_year (y : Z) : Z :=
  let y' := y - 1 in y' * 365 + y' / 4 - y' / 100 + y' / 400.

Definition days_before_month (y m : Z) : Z :=
  days_before_month_table m + (if (2 <? m) && is_leap y then 1 else 0).

Definition ymd2ord (y m d : Z) : Z :=
  days_before_year y + days_before_month y m + d.

Definition DI400Y : Z := 146097.
Definition DI100Y : Z := 36524.
Definition DI4Y : Z := 1461.
Definition MAXORDINAL : Z := 3652059.

Definition ord2ymd (n0 : Z) : Z * Z * Z :=
  let n := n0 - 1 in
  let n400 := n / DI400Y in let n := n mod DI400Y in
  let y := n400 * 400 + 1 in
  let n100 := n / DI100Y in let n := n mod DI100Y in
  let n4 := n / DI4Y in let n := n mod DI4Y in
  let n1 := n / 365 in let n := n mod 365 in
  let y := y + n100 * 100 + n4 * 4 + n1 in
  if (n1 =? 4) || (n100 =? 4) then (y - 1, 12, 31)
  else
    let leapyear := (n1 =? 3) && (negb (n4 =? 24) || (n100 =? 3)) in
    let m := Z.shiftr (n + 50) 5 in
    let preceding :=
      days_before_month_table m + (if (2 <? m) && leapyear then 1 else 0) in
    if n <? preceding then
      let m' := m - 1 in
      let preceding' :=
        preceding
        - (days_in_month_table m' + (if (m' =? 2) && leapyear then 1 else 0)) in
      (y, m', n - preceding' + 1)
    else (y, m, n - preceding + 1).

Definition us_per_day : Z := 86400 * 1000000.

(** Microseconds since midnight. *)
Definition time_us (d : datetime) : Z :=
  ((hour d * 60 + minute d) * 60 + second d) * 1000000 + microsecond d.

(** [d + timedelta(microseconds = delta)]; [None] is Python's
    [OverflowError] ("date value out of range"). *)
Definition add_timedelta (d : datetime) (delta : Z) : option datetime :=
  let total :=
    ymd2ord (year d) (month d) (day d) * us_per_day + time_us d + delta in
  let days := total / us_per_day in
  let rest := total mod us_per_day in
  if (0 <? days) && (days <=? MAXORDINAL) then
    let '(y, m, dd) := ord2ymd days in
    let secs := rest / 1000000 in
    Some (mkDatetime y m dd (secs / 3600) ((secs mod 3600) / 60) (secs mod 60)
            (rest mod 1000000))
  else None.

(** [Timeseries.add_months(sourcedate, months)].  [int(year + month / 12)]
    truncates towards zero; [None] is the [ValueError] of [datetime.date] for
    a year outside 1..9999. *)
Definition add_months (sourcedate : datetime) (months : Z) : option datetime :=
  let m := month sourcedate - 1 + months in
  let y := Z.quot (year sourcedate * 12 + m) 12 in
  let m := m mod 12 + 1 in
  let d := Z.min (day sourcedate) (days_in_month y m) in
  if (1 <=? y) && (y <=? 9999) && (1 <=? d) then
    Some (mkDatetime y m d (hour sourcedate) (minute sourcedate)
            (second sourcedate) (microsecond sourcedate))
  else None.

End Datetime.

Export Datetime(datetime, mkDatetime).

(** ** Values, exceptions and the object store *)

(** A node value.  [np.nan] is one module-level object: the test
    [np.nan in values] of [aggregate] finds it by identity, and no other
    not-a-number float ([float("nan")], an arithmetic result) passes it. *)
Inductive value :=
  | NpNan                (* the object [np.nan] *)
  | Float (f : float).   (* any other float object *)

(** [np.isnan(v)] *)
Definition isnan (v : value) : bool :=
  match v with
  | NpNan => true
  | Float f => PrimFloat.is_nan f
  end.

(** [v is np.nan] *)
Definition is_np_nan (v : value) : bool :=
  match v with NpNan => true | Float _ => false end.

(** The float a value denotes. *)
Definition float_of (v : value) : float :=
  match v with NpNan => nan | Float f => f end.

Inductive exn :=
  | ValueError | KeyError | TypeError | AttributeError | IndexError
  | OverflowError | UnboundLocalError
  | FileNotFoundError
  | ParseError      (* [xml.etree.ElementTree.ParseError] *)
  | StructError     (* [struct.error] *)
  | Exception_      (* a plain [Exception(...)] *)
  | SystemExit.     (* [sys.exit()]; not a subclass of [Exception] *)

#[global] Instance exn_eq_dec : EqDecision exn.
Proof. solve_decision. Defined.

(** [except Exception] catches everything but [SystemExit]. *)
Definition is_Exception (e : exn) : bool :=
  match e with SystemExit => false | _ => true end.

(** The result of running a piece of Python: a value, a raised exception, or
    [Stuck] when a reference is followed that the store does not hold (no
    Python program reaches it). *)
Inductive outcome (A : Type) :=
  | Ok (a : A)
  | Raise (e : exn)
  | Stuck.
Arguments Ok {A} a.
Arguments Raise {A} e.
Arguments Stuck {A}.

Inductive Interpretation :=
  | Instantaneous | BlockRight | BlockLeft | Cumulative
  | CumulativePerTimestep | Undefined.

#[global] Instance Interpretation_eq_dec : EqDecision Interpretation.
Proof. solve_decision. Defined.

(** The [IntEnum] codes of [sydrodomain.ini]. *)
Definition Interpretation_code (i : Interpretation) : Z :=
  match i with
  | Instantaneous => 1 | BlockRight => 2 | BlockLeft => 3 | Cumulative => 4
  | CumulativePerTimestep => 5 | Undefined => 99
  end.

Definition ts_ref := positive.
Definition dict_ref := positive.

Inductive log_level := LogInfo | LogWarning | LogError.

(** What is passed as the [timestamp] of [add_node]. *)
Inductive pyobj :=
  | PyDatetime (d : datetime) (tzinfo : option Z)  (* offset in minutes *)
  | PyDate (y m d : Z)                             (* a [datetime.date] *)
  | PyOther.                                       (* anything else *)

(** An attribute that the decoders do not always set to a string:
    [read_fews] stores the text of [<units>], which is [None] for an empty
    element, and [read_zrx] stores the integer [0] as [station_id] when the
    file names no station. *)
Inductive pyattr :=
  | AStr (s : string)
  | ANone
  | AInt (n : Z).

(** The attributes of a [Timeseries] instance.  [nodes] refers to a
    dictionary of the store. *)
Module Attr.
Record t := Build {
  title : string;
  station_id : pyattr;
  station_name : string;
  param : string;
  unit : pyattr;
  location : string;
  lat : float;
  lon : float;
  z : float;
  interpretation : Interpretation;
  nodes : dict_ref
}.

Definition set_title (v : string) (o : t) : t :=
  Build v (station_id o) (station_name o) (param o) (unit o) (location o)
    (lat o) (lon o) (z o) (interpretation o) (nodes o).
Definition set_station_id (v : pyattr) (o : t) : t :=
  Build (title o) v (station_name o) (param o) (unit o) (location o)
    (lat o) (lon o) (z o) (interpretation o) (nodes o).
Definition set_station_name (v : string) (o : t) : t :=
  Build (title o) (station_id o) v (param o) (unit o) (location o)
    (lat o) (lon o) (z o) (interpretation o) (nodes o).
Definition set_param (v : string) (o : t) : t :=
  Build (title o) (station_id o) (station_name o) v (unit o) (location o)
    (lat o) (lon o) (z o) (interpretation o) (nodes o).
Definition set_unit (v : pyattr) (o : t) : t :=
  Build (title o) (station_id o) (station_name o) (param o) v (location o)
    (lat o) (lon o) (z o) (interpretation o) (nodes o).
Definition set_location (v : string) (o : t) : t :=
  Build (title o) (station_id o) (station_name o) (param o) (unit o) v
    (lat o) (lon o) (z o) (interpretation o) (nodes o).
Definition set_lat (v : float) (o : t) : t :=
  Build (title o) (station_id o) (station_name o) (param o) (unit o)
    (location o) v (lon o) (z o) (interpretation o) (nodes o).
Definition set_lon (v : float) (o : t) : t :=
  Build (title o) (station_id o) (station_name o) (param o) (unit o)
    (location o) (lat o) v (z o) (interpretation o) (nodes o).
Definition set_z (v : float) (o : t) : t :=
  Build (title o) (station_id o) (station_name o) (param o) (unit o)
    (location o) (lat o) (lon o) v (interpretation o) (nodes o).
Definition set_interpretation (v : Interpretation) (o : t) : t :=
  Build (title o) (station_id o) (station_name o) (param o) (unit o)
    (location o) (lat o) (lon o) (z o) v (nodes o).
Definition set_nodes (v : dict_ref) (o : t) : t :=
  Build (title o) (station_id o) (station_name o) (param o) (unit o)
    (location o) (lat o) (lon o) (z o) (interpretation o) v.
End Attr.

(** The store: the [Timeseries] instances, the dictionaries, what was
    handed to the module's [logger], and the files by name. *)
Record heap := Heap {
  objects : gmap ts_ref Attr.t;
  dicts : gmap dict_ref (gmap datetime value);
  log : list (log_level * string);
  files : gmap string (list ascii)   (* by name *)
}.

Definition empty_heap : heap := Heap ∅ ∅ [] ∅.

(** *** The monad of Python computations *)

Definition M (A : Type) : Type := heap → outcome A * heap.

#[global] Instance M_ret : MRet M := λ A a h, (Ok a, h).
#[global] Instance M_bind : MBind M := λ A B f m h,
  match m h with
  | (Ok a, h') => f a h'
  | (Raise e, h') => (Raise e, h')
  | (Stuck, h') => (Stuck, h')
  end.

Definition raise {A} (e : exn) : M A := λ h, (Raise e, h).
Definition stuck {A} : M A := λ h, (Stuck, h).

(** [try: body / except Exception: handler] *)
Definition try_except {A} (body : M A) (handler : exn → M A) : M A := λ h,
  match body h with
  | (Raise e, h') => if is_Exception e then handler e h' else (Raise e, h')
  | r => r
  end.

(** [try: body / except: handler] (a bare [except] catches everything) *)
Definition try_except_all {A} (body : M A) (handler : exn → M A) : M A := λ h,
  match body h with
  | (Raise e, h') => handler e h'
  | r => r
  end.

Definition lift_option {A} (e : exn) (o : option A) : M A :=
  match o with Some a => mret a | None => raise e end.

Definition get_obj (r : ts_ref) : M Attr.t := λ h,
  match objects h !! r with
  | Some o => (Ok o, h)
  | None => (Stuck, h)
  end.

Definition modify_obj (r : ts_ref) (f : Attr.t → Attr.t) : M () := λ h,
  match objects h !! r with
  | Some o => (Ok (), Heap (<[r := f o]> (objects h)) (dicts h) (log h) (files h))
  | None => (Stuck, h)
  end.

Definition alloc_obj (o : Attr.t) : M ts_ref := λ h,
  let r := fresh (dom (objects h)) in
  (Ok r, Heap (<[r := o]> (objects h)) (dicts h) (log h) (files h)).

Definition get_dict (r : dict_ref) : M (gmap datetime value) := λ h,
  match dicts h !! r with
  | Some d => (Ok d, h)
  | None => (Stuck, h)
  end.

Definition put_dict (r : dict_ref) (d : gmap datetime value) : M () := λ h,
  match dicts h !! r with
  | Some _ => (Ok (), Heap (objects h) (<[r := d]> (dicts h)) (log h) (files h))
  | None => (Stuck, h)
  end.

Definition alloc_dict (d : gmap datetime value) : M dict_ref := λ h,
  let r := fresh (dom (dicts h)) in
  (Ok r, Heap (objects h) (<[r := d]> (dicts h)) (log h) (files h)).

Definition logger (lvl : log_level) (msg : string) : M () := λ h,
  (Ok (), Heap (objects h) (dicts h) (log h ++ [(lvl, msg)]) (files h)).

(** [for x in xs: body x] *)
Fixpoint for_each {A} (xs : list A) (body : A → M ()) : M () :=
  match xs with
  | [] => mret ()
  | x :: xs' => body x ;; for_each xs' body
  end.

(** The dictionary a [Timeseries] reference leads to. *)
Definition nodes_of (h : heap) (r : ts_ref) : option (gmap datetime value) :=
  o ← objects h !! r; dicts h !! Attr.nodes o.

(** Every instance of the store has its dictionary in the store. *)
Definition heap_wf (h : heap) : Prop :=
  ∀ r o, objects h !! r = Some o → is_Some (dicts h !! Attr.nodes o).

(** ** Text: Python's [str] as the codecs use it *)

(** File contents and lines are lists of characters.  The predicates follow
    Python on ASCII text. *)
Abbreviation text := (list ascii).

Module Py.

(** A literal. *)
Definition lit (s : string) : text := list_ascii_of_string s.
Definition to_string (t : text) : string := string_of_list_ascii t.

Definition nl : ascii := ascii_of_nat 10.
Definition cr : ascii := ascii_of_nat 13.

(** [c.isspace()] *)
Definition is_space (c : ascii) : bool :=
  let n := nat_of_ascii c in
  ((9 <=? n) && (n <=? 13) || (28 <=? n) && (n <=? 32))%nat.

(** [c] is one of [0-9] *)
Definition is_digit (c : ascii) : bool :=
  let n := nat_of_ascii c in ((48 <=? n) && (n <=? 57))%nat.

Definition digit_value (c : ascii) : Z := Z.of_nat (nat_of_ascii c) - 48.
Definition digit_char (n : Z) : ascii := ascii_of_nat (Z.to_nat (48 + n)).

(** [s.lstrip()], [s.rstrip()], [s.strip()] *)
Fixpoint lstrip (s : text) : text :=
  match s with
  | c :: s' => if is_space c then lstrip s' else s
  | [] => []
  end.
Definition rstrip (s : text) : text := rev (lstrip (rev s)).
Definition strip (s : text) : text := rstrip (lstrip s).

(** [s.startswith(p)] *)
Fixpoint startswith (p s : text) : bool :=
  match p, s with
  | [], _ => true
  | a :: p', b :: s' => if Ascii.eqb a b then startswith p' s' else false
  | _ :: _, [] => false
  end.

(** [s[i:j]], [s[:j]] and [s[i:]] for indices that are not negative *)
Definition slice (s : text) (i j : nat) : text := take (j - i) (drop i s).

(** [s.ljust(n)] and [s.ljust(n, c)], [s.rjust(n)] *)
Definition ljust (n : nat) (c : ascii) (s : text) : text :=
  s ++ replicate (n - length s) c.
Definition rjust (n : nat) (c : ascii) (s : text) : text :=
  replicate (n - length s) c ++ s.

(** [s.split()]: the maximal runs without whitespace *)
Fixpoint split_go (cur : text) (s : text) : list text :=
  match s with
  | [] => match cur with [] => [] | _ => [rev cur] end
  | c :: s' =>
      if is_space c
      then match cur with [] => split_go [] s' | _ => rev cur :: split_go [] s' end
      else split_go (c :: cur) s'
  end.
Definition split (s : text) : list text := split_go [] s.

(** [p in s] for a text [p] *)
Fixpoint contains (p s : text) : bool :=
  startswith p s || match s with [] => false | _ :: s' => contains p s' end.

(** [s.split(sep)] for a separator that is not empty *)
Fixpoint split_on_go (fuel : nat) (sep cur s : text) : list text :=
  match fuel with
  | O => [rev cur ++ s]
  | S fuel' =>
      match s with
      | [] => [rev cur]
      | c :: s' =>
          if startswith sep s
          then rev cur :: split_on_go fuel' sep [] (drop (length sep) s)
          else split_on_go fuel' sep (c :: cur) s'
      end
  end.
Definition split_on (sep s : text) : list text :=
  split_on_go (S (length s)) sep [] s.

(** The lines of a file opened for reading in text mode: [\r\n] and [\r]
    become [\n], and each line keeps its [\n]. *)
Fixpoint universal_newlines (s : text) : text :=
  match s with
  | [] => []
  | c :: s' =>
      if Ascii.eqb c cr then
        match s' with
        | c' :: s'' =>
            if Ascii.eqb c' nl then nl :: universal_newlines s''
            else nl :: universal_newlines s'
        | [] => [nl]
        end
      else c :: universal_newlines s'
  end.

Fixpoint lines_go (cur : text) (s : text) : list text :=
  match s with
  | [] => match cur with [] => [] | _ => [rev cur] end
  | c :: s' =>
      if Ascii.eqb c nl then rev (c :: cur) :: lines_go [] s'
      else lines_go (c :: cur) s'
  end.
Definition readlines (content : text) : list text :=
  lines_go [] (universal_newlines content).

(** The decimal digits of a natural number, [str(n)] for [0 <= n]. *)
Fixpoint digits_go (fuel : nat) (n : Z) (acc : text) : text :=
  match fuel with
  | O => acc
  | S fuel' =>
      let acc' := digit_char (n mod 10) :: acc in
      if n / 10 =? 0 then acc' else digits_go fuel' (n / 10) acc'
  end.
Definition str_nat (n : Z) : text := digits_go (S (Z.to_nat n)) n [].

(** [str(n)] for an integer *)
Definition str_int (n : Z) : text :=
  if n <? 0 then lit "-" ++ str_nat (- n) else str_nat n.

(** [n] printed with at least [w] digits, as [%0wd] does *)
Definition zero_pad (w : nat) (n : Z) : text := rjust w "0"%char (str_nat n).

(** The value of a run of decimal digits. *)
Definition digits_value (s : text) : Z :=
  fold_left (λ acc c, acc * 10 + digit_value c) s 0.

(** The digits of an integer literal: digits with single underscores
    between them. *)
Fixpoint int_body (prev_digit : bool) (s : text) (acc : text) : option text :=
  match s with
  | [] => if prev_digit then Some (rev acc) else None
  | c :: s' =>
      if is_digit c then int_body true s' (c :: acc)
      else if Ascii.eqb c "_"%char then
        if prev_digit then int_body false s' acc else None
      else None
  end.

(** [int(s)]; [None] is [ValueError]. *)
Definition int (s : text) : option Z :=
  match strip s with
  | c :: s' =>
      if Ascii.eqb c "-"%char then Z.opp ∘ digits_value <$> int_body false s' []
      else if Ascii.eqb c "+"%char then digits_value <$> int_body false s' []
      else digits_value <$> int_body false (c :: s') []
  | [] => None
  end.

End Py.

(** ** [datetime.strptime] and [strftime] *)

Module Strptime.
Import Py.

Definition one_of (s : string) (c : ascii) : bool :=
  existsb (Ascii.eqb c) (lit s).

(** The regular expression of a directive, as [_strptime.TimeRE] has it: the
    alternatives in order, each a sequence of character classes. *)
Definition directive (c : ascii) : option (list (list (ascii → bool))) :=
  if Ascii.eqb c "Y" then Some [[is_digit; is_digit; is_digit; is_digit]]
  else if Ascii.eqb c "m" then
    Some [[one_of "1"; one_of "012"]; [one_of "0"; one_of "123456789"];
          [one_of "123456789"]]
  else if Ascii.eqb c "d" then
    Some [[one_of "3"; one_of "01"]; [one_of "12"; is_digit];
          [one_of "0"; one_of "123456789"]; [one_of "123456789"];
          [one_of " "; one_of "123456789"]]
  else if Ascii.eqb c "H" then
    Some [[one_of "2"; one_of "0123"]; [one_of "01"; is_digit]; [is_digit]]
  else if Ascii.eqb c "M" then Some [[one_of "012345"; is_digit]; [is_digit]]
  else if Ascii.eqb c "S" then
    Some [[one_of "6"; one_of "01"]; [one_of "012345"; is_digit]; [is_digit]]
  else None.

Inductive item :=
  | Group (name : ascii) (alternatives : list (list (ascii → bool)))
  | Whitespace                (* [\s+] *)
  | Literal (c : ascii).

(** The format compiled to a pattern; [None] for a directive that is not
    modelled. *)
Fixpoint compile (fmt : text) : option (list item) :=
  match fmt with
  | [] => Some []
  | c :: fmt' =>
      if Ascii.eqb c "%" then
        match fmt' with
        | d :: fmt'' =>
            alts ← directive d; rest ← compile fmt''; Some (Group d alts :: rest)
        | [] => None
        end
      else if is_space c then
        rest ← compile fmt';
        Some (match rest with Whitespace :: _ => rest | _ => Whitespace :: rest end)
      else rest ← compile fmt'; Some (Literal c :: rest)
  end.

Fixpoint match_seq (cs : list (ascii → bool)) (s : text)
  : option (text * text) :=
  match cs with
  | [] => Some ([], s)
  | p :: cs' =>
      match s with
      | c :: s' =>
          if p c then '(m, rest) ← match_seq cs' s'; Some (c :: m, rest)
          else None
      | [] => None
      end
  end.

Definition captures := list (ascii * text).

Section matcher.
Context (k : text → option (captures * text)).

(** The alternatives of a group in order; the first whose continuation
    matches wins. *)
Fixpoint match_alternatives (name : ascii)
    (alts : list (list (ascii → bool))) (s : text)
  : option (captures * text) :=
  match alts with
  | [] => None
  | a :: alts' =>
      match match_seq a s with
      | Some (m, rest) =>
          match k rest with
          | Some (caps, r) => Some ((name, m) :: caps, r)
          | None => match_alternatives name alts' s
          end
      | None => match_alternatives name alts' s
      end
  end.

(** [\s+]: greedy, giving characters back when the rest does not match. *)
Fixpoint match_whitespace (s : text) : option (captures * text) :=
  match s with
  | c :: s' =>
      if is_space c then
        match match_whitespace s' with
        | Some r => Some r
        | None => k s'
        end
      else None
  | [] => None
  end.
End matcher.

(** [re.match]: the pattern against a prefix of the text. *)
Fixpoint match_items (items : list item) (s : text)
  : option (captures * text) :=
  match items with
  | [] => Some ([], s)
  | Group name alts :: items' =>
      match_alternatives (match_items items') name alts s
  | Whitespace :: items' => match_whitespace (match_items items') s
  | Literal c :: items' =>
      match s with
      | c' :: s' => if Ascii.eqb c c' then match_items items' s' else None
      | [] => None
      end
  end.

Definition field (caps : captures) (name : ascii) (default : Z) : option Z :=
  match list_find (λ p, fst p = name) caps with
  | Some (_, (_, m)) => int m
  | None => Some default
  end.

(** [datetime(year, month, day, hour, minute, second)] checks its
    arguments. *)
Definition valid_datetime (d : datetime) : bool :=
  (1 <=? Datetime.year d) && (Datetime.year d <=? 9999) &&
  (1 <=? Datetime.month d) && (Datetime.month d <=? 12) &&
  (1 <=? Datetime.day d) &&
  (Datetime.day d <=? Datetime.days_in_month (Datetime.year d) (Datetime.month d)) &&
  (0 <=? Datetime.hour d) && (Datetime.hour d <=? 23) &&
  (0 <=? Datetime.minute d) && (Datetime.minute d <=? 59) &&
  (0 <=? Datetime.second d) && (Datetime.second d <=? 59) &&
  (0 <=? Datetime.microsecond d) && (Datetime.microsecond d <=? 999999).

(** [datetime.datetime.strptime(s, fmt)]; [None] is [ValueError]. *)
Definition strptime (s fmt : text) : option datetime :=
  items ← compile fmt;
  '(caps, rest) ← match_items items s;
  match rest with
  | _ :: _ => None            (* unconverted data remains *)
  | [] =>
      y ← field caps "Y" 1900; m ← field caps "m" 1; d ← field caps "d" 1;
      H ← field caps "H" 0; M ← field caps "M" 0; S ← field caps "S" 0;
      let dt := mkDatetime y m d H M S 0 in
      if valid_datetime dt then Some dt else None
  end.

(** [d.strftime(fmt)] for the directives above, for a year of four
    digits. *)
Fixpoint strftime (d : datetime) (fmt : text) : text :=
  match fmt with
  | [] => []
  | c :: fmt' =>
      if Ascii.eqb c "%" then
        match fmt' with
        | x :: fmt'' =>
            (if Ascii.eqb x "Y" then zero_pad 4 (Datetime.year d)
             else if Ascii.eqb x "m" then zero_pad 2 (Datetime.month d)
             else if Ascii.eqb x "d" then zero_pad 2 (Datetime.day d)
             else if Ascii.eqb x "H" then zero_pad 2 (Datetime.hour d)
             else if Ascii.eqb x "M" then zero_pad 2 (Datetime.minute d)
             else if Ascii.eqb x "S" then zero_pad 2 (Datetime.second d)
             else [c; x]) ++ strftime d fmt''
        | [] => [c]
        end
      else c :: strftime d fmt'
  end.

End Strptime.

(** ** The class [Timeseries] *)

Module Timeseries.

(** [Timeseries(title)]: [__init__] *)
Definition new (title : string) : M ts_ref :=
  r ← alloc_dict ∅;
  alloc_obj (Attr.Build title (AStr "0") "" "" (AStr "") "" 0%float 0%float
               0%float Undefined r).

(** [self.nodes], the dictionary itself *)
Definition get_nodes (self : ts_ref) : M (gmap datetime value) :=
  o ← get_obj self; get_dict (Attr.nodes o).

(** [d[key]] *)
Definition getitem (d : gmap datetime value) (key : datetime) : M value :=
  lift_option KeyError (d !! key).

Definition add_node (self : ts_ref) (timestamp : pyobj) (v : value) : M () :=
  (* check timestamp type *)
  ts ← match timestamp with
       | PyDatetime d tz => mret (d, tz)
       | PyDate y m d => mret (mkDatetime y m d 0 0 0 0, None)
       | PyOther => raise ValueError
       end;
  (* remove any timezone information *)
  let timestamp := fst ts in
  o ← get_obj self;
  d ← get_dict (Attr.nodes o);
  if decide (timestamp ∈ dom d) then raise KeyError
  else put_dict (Attr.nodes o) (<[timestamp := v]> d).

(** [self[key] = value]: [__setitem__] *)
Definition setitem (self : ts_ref) (key : pyobj) (v : value) : M () :=
  add_node self key v.

(** [self.nodes[key] = value]: assignment through the mapping *)
Definition nodes_setitem (self : ts_ref) (key : datetime) (v : value) : M () :=
  o ← get_obj self;
  d ← get_dict (Attr.nodes o);
  put_dict (Attr.nodes o) (<[key := v]> d).

(** [del self.nodes[key]] *)
Definition nodes_delitem (self : ts_ref) (key : datetime) : M () :=
  o ← get_obj self;
  d ← get_dict (Attr.nodes o);
  if decide (key ∈ dom d) then put_dict (Attr.nodes o) (delete key d)
  else raise KeyError.

(** [sorted(d.keys())] *)
Definition sorted_keys (d : gmap datetime value) : list datetime :=
  merge_sort Datetime.le (map fst (map_to_list d)).

(** The property [dates] *)
Definition dates (self : ts_ref) : M (list datetime) :=
  d ← get_nodes self; mret (sorted_keys d).

(** [__iter__], run to its end: the pairs [(date, self.nodes[date])] *)
Fixpoint lookup_all (d : gmap datetime value) (ks : list datetime)
  : M (list (datetime * value)) :=
  match ks with
  | [] => mret []
  | k :: ks' =>
      v ← getitem d k; rest ← lookup_all d ks'; mret ((k, v) :: rest)
  end.

Definition iter (self : ts_ref) : M (list (datetime * value)) :=
  d ← get_nodes self; lookup_all d (sorted_keys d).

Definition copy (self : ts_ref) : M ts_ref :=
  o ← get_obj self;
  c ← new (Attr.title o);
  modify_obj c (Attr.set_station_id (Attr.station_id o));;
  modify_obj c (Attr.set_station_name (Attr.station_name o));;
  modify_obj c (Attr.set_param (Attr.param o));;
  modify_obj c (Attr.set_unit (Attr.unit o));;
  modify_obj c (Attr.set_location (Attr.location o));;
  modify_obj c (Attr.set_lat (Attr.lat o));;
  modify_obj c (Attr.set_lon (Attr.lon o));;
  modify_obj c (Attr.set_z (Attr.z o));;
  d ← get_dict (Attr.nodes o);
  r ← alloc_dict d;                       (* [self.nodes.copy()] *)
  modify_obj c (Attr.set_nodes r);;
  mret c.

Definition copy_metadata (self ts : ts_ref) : M () :=
  o ← get_obj ts; modify_obj self (Attr.set_title (Attr.title o));;
  o ← get_obj ts; modify_obj self (Attr.set_station_id (Attr.station_id o));;
  o ← get_obj ts;
  modify_obj self (Attr.set_station_name (Attr.station_name o));;
  o ← get_obj ts; modify_obj self (Attr.set_param (Attr.param o));;
  o ← get_obj ts; modify_obj self (Attr.set_unit (Attr.unit o));;
  o ← get_obj ts; modify_obj self (Attr.set_location (Attr.location o));;
  o ← get_obj ts; modify_obj self (Attr.set_lat (Attr.lat o));;
  o ← get_obj ts; modify_obj self (Attr.set_lon (Attr.lon o));;
  o ← get_obj ts; modify_obj self (Attr.set_z (Attr.z o)).

(** The properties [start] and [end] *)
Definition start (self : ts_ref) : M datetime :=
  d ← get_nodes self; lift_option IndexError (head (sorted_keys d)).

Definition end_ (self : ts_ref) : M datetime :=
  d ← get_nodes self; lift_option IndexError (last (sorted_keys d)).

(** *** [cut] and [cut_bisect] *)

(** The loop of [cut] over the sorted dates; [new_nodes] is the dictionary
    being filled. *)
Fixpoint cut_loop (d : gmap datetime value) (start end_ : datetime)
    (ds : list datetime) (new_nodes : gmap datetime value)
  : M (gmap datetime value) :=
  match ds with
  | [] => mret new_nodes
  | date :: ds' =>
      if Datetime.ltb date start then cut_loop d start end_ ds' new_nodes
      else if Datetime.gtb date end_ then mret new_nodes   (* [break] *)
      else v ← getitem d date;
           cut_loop d start end_ ds' (<[date := v]> new_nodes)
  end.

Definition cut (self : ts_ref) (start end_ : datetime) : M () :=
  d ← get_nodes self;
  new_nodes ← cut_loop d start end_ (sorted_keys d) ∅;
  r ← alloc_dict new_nodes;
  modify_obj self (Attr.set_nodes r).

(** The [while lo < hi] loop of [bisect.bisect_left]; [None] when [fuel]
    iterations did not reach [lo >= hi]. *)
Fixpoint bisect_loop (fuel : nat) (a : list datetime) (x : datetime)
    (lo hi : nat) : option (outcome nat) :=
  if (lo <? hi)%nat then
    match fuel with
    | O => None
    | S fuel' =>
        let mid := ((lo + hi) / 2)%nat in
        match a !! mid with
        | None => Some (Raise IndexError)
        | Some am =>
            if Datetime.ltb am x then bisect_loop fuel' a x (mid + 1)%nat hi
            else bisect_loop fuel' a x lo mid
        end
    end
  else Some (Ok lo).

(** [bisect.bisect_left(a, x, lo)] with [hi = len(a)] *)
Definition bisect_left (a : list datetime) (x : datetime) (lo : nat) : M nat :=
  match bisect_loop (length a) a x lo (length a) with
  | Some (Ok i) => mret i
  | Some (Raise e) => raise e
  | _ => stuck
  end.

(** [a[i:j]] for [0 <= i] and [0 <= j] *)
Definition slice {A} (a : list A) (i j : nat) : list A :=
  take (j - i)%nat (drop i a).

Fixpoint copy_items (d : gmap datetime value) (ds : list datetime)
    (new_nodes : gmap datetime value) : M (gmap datetime value) :=
  match ds with
  | [] => mret new_nodes
  | date :: ds' =>
      v ← getitem d date; copy_items d ds' (<[date := v]> new_nodes)
  end.

Definition cut_bisect (self : ts_ref) (start end_ : datetime) : M () :=
  dates ← dates self;
  i_start ← bisect_left dates start 0;
  i_end ← bisect_left dates end_ i_start;
  d ← get_nodes self;
  new_nodes ← copy_items d (slice dates i_start (i_end + 1)) ∅;
  r ← alloc_dict new_nodes;
  modify_obj self (Attr.set_nodes r).

(** *** [aggregate] *)

Definition float_of_nat (n : nat) : float :=
  PrimFloat.of_uint63 (Uint63.of_Z (Z.of_nat n)).

(** [sum(values)]: additions from the integer [0], left to right. *)
Definition py_sum (values : list value) : float :=
  fold_left (λ acc v, (acc + float_of v)%float) values 0%float.

(** [t + timedelta(hours=1)], [t + timedelta(days=1)],
    [Timeseries.add_months(t, 1)] *)
Definition next_step (dt : string) (t : datetime) : M datetime :=
  if String.eqb dt "h" then
    lift_option OverflowError (Datetime.add_timedelta t (3600 * 1000000))
  else if String.eqb dt "d" then
    lift_option OverflowError (Datetime.add_timedelta t Datetime.us_per_day)
  else if String.eqb dt "M" then
    lift_option ValueError (Datetime.add_months t 1)
  else raise ValueError.

(** The value of a full timestep. *)
Definition agg_value (interpretation : string) (ignore_nan : bool)
    (values : list value) : value :=
  if (negb ignore_nan && existsb is_np_nan values) || forallb isnan values
  then NpNan
  else
    let values := List.filter (λ v, negb (isnan v)) values in
    if String.eqb interpretation "Sum" then Float (py_sum values)
    else Float (py_sum values / float_of_nat (length values))%float.

(** The loop of [aggregate]; its state is [nodes_agg], [t] and [values]. *)
Fixpoint aggregate_loop (dt : string) (start : datetime)
    (interpretation : string) (ignore_nan : bool)
    (items : list (datetime * value))
    (nodes_agg : gmap datetime value) (t : datetime) (values : list value)
  : M (gmap datetime value) :=
  match items with
  | [] => mret nodes_agg
  | (timestamp, v) :: items' =>
      if Datetime.ltb timestamp start then
        aggregate_loop dt start interpretation ignore_nan items'
          nodes_agg t values
      else
        t_next ← next_step dt t;
        if Datetime.geb timestamp t_next then
          (* timestep is full *)
          aggregate_loop dt start interpretation ignore_nan items'
            (<[t := agg_value interpretation ignore_nan values]> nodes_agg)
            t_next [v]
        else
          aggregate_loop dt start interpretation ignore_nan items'
            nodes_agg t (values ++ [v])
  end.

Definition aggregate (self : ts_ref) (dt : string) (start : datetime)
    (interpretation : string) (ignore_nan : bool) : M ts_ref :=
  (* check parameters *)
  (if String.eqb dt "h" || String.eqb dt "d" || String.eqb dt "M"
   then mret () else raise ValueError);;
  (if String.eqb interpretation "LinearInterpolation"
      || String.eqb interpretation "Sum"
   then mret () else raise ValueError);;
  items ← iter self;
  nodes_agg ← aggregate_loop dt start interpretation ignore_nan items
                ∅ start [];
  (* create a new time series with metadata copied from the original *)
  ts ← new "";
  copy_metadata ts self;;
  o ← get_obj ts;
  modify_obj ts (Attr.set_title (Attr.title o ++ " (" ++ dt ++ ")"));;
  r ← alloc_dict nodes_agg;
  modify_obj ts (Attr.set_nodes r);;
  mret ts.

(** *** [synchronize] *)

Definition synchronize (ts1 ts2 : ts_ref) : M (ts_ref * ts_ref) :=
  ds1 ← dates ts1;
  ds2 ← dates ts2;
  let ts1_dates : gset datetime := list_to_set ds1 in
  let ts2_dates : gset datetime := list_to_set ds2 in
  ts1_sync ← copy ts1;
  ts2_sync ← copy ts2;
  (* remove unwanted nodes from ts1 *)
  for_each (elements (ts1_dates ∖ ts2_dates)) (nodes_delitem ts1_sync);;
  (* remove unwanted nodes from ts2 *)
  for_each (elements (ts2_dates ∖ ts1_dates)) (nodes_delitem ts2_sync);;
  mret (ts1_sync, ts2_sync).

(** ** The codecs *)

(** What Python does with a binary64 value outside this module is taken as
    given: the codecs are written against this interface. *)
Class FloatLib := {
  (** [float(s)] for a text without surrounding whitespace; [None] is
      [ValueError] *)
  parse_float : text → option float;
  (** [str(x)] *)
  repr_float : float → text;
  (** ["%.9g" % x] and ["%9.6g" % x] *)
  format_9g : float → text;
  format_9_6g : float → text;
  (** [struct.pack("d", x)], eight bytes, and [struct.pack("f", x)], four
      bytes; [None] is the [OverflowError] of a value too large for single
      precision *)
  pack_d : float → text;
  pack_f : float → option text;
  (** [struct.unpack("d", b)] and [struct.unpack("f", b)] *)
  unpack_d : text → float;
  unpack_f : text → float;
  (** [td.total_seconds() / 3600.0] for a [timedelta] of so many
      microseconds *)
  hours_of_timedelta : Z → float;
  (** the microseconds of [datetime.timedelta(hours=x)]; [None] is its
      [OverflowError] or [ValueError] *)
  timedelta_of_hours : float → option Z
}.

(** [{location_id: {parameter_id: Timeseries or None}}]; a text that is
    [None] is a key like any other. *)
Abbreviation fews_result :=
  (gmap (option string) (gmap (option string) (option ts_ref))).

Section codecs.
Context `{FloatLib}.

(** [float(s)] *)
Definition float_ (s : text) : M float :=
  lift_option ValueError (parse_float (Py.strip s)).

(** [str(v)] and [f"{v}"] *)
Definition str_value (v : value) : text := repr_float (float_of v).

(** *** PI-XML: [read_fews] *)

(** The parsed document, as [xml.etree.ElementTree] hands it over.  A child
    of the header is absent ([None]), or present with its text, which is
    [None] for an empty element. *)
Record pi_header := PiHeader {
  h_type : option (option text);
  h_locationId : option (option text);
  h_parameterId : option (option text);
  h_stationName : option (option text);
  h_units : option (option text);
  h_missVal : option (option text)
}.

(** The attributes of an [event] element; [None] when the attribute is
    missing. *)
Record pi_event := PiEvent {
  ev_date : option text;
  ev_time : option text;
  ev_value : option text;
  ev_flag : option text
}.

Record pi_series := PiSeries {
  s_header : option pi_header;
  s_events : list pi_event
}.

(** [ET.parse(filename)]: a document that is not well-formed raises. *)
Inductive pi_document :=
  | NotWellFormed
  | Document (series : list pi_series).

(** [header.find("PI:<child>", ns).text] *)
Definition child_text (header : option pi_header)
    (child : pi_header → option (option text)) : M (option text) :=
  match header with
  | None => raise AttributeError          (* [None.find] *)
  | Some hd =>
      match child hd with
      | None => raise AttributeError      (* [None.text] *)
      | Some t => mret t
      end
  end.

(** [a + "." + b] for two texts that may be [None] *)
Definition dotted (a b : option text) : M text :=
  match a, b with
  | Some a, Some b => mret (a ++ Py.lit "." ++ b)
  | _, _ => raise TypeError
  end.

(** [event.attrib[name]] *)
Definition attrib (a : option text) : M text := lift_option KeyError a.

Definition read_event (ts : ts_ref) (error_value : option text)
    (event : pi_event) : M () :=
  date ← attrib (ev_date event);
  time ← attrib (ev_time event);
  flag_str ← attrib (ev_flag event);
  flag ← lift_option ValueError (Py.int flag_str);
  value_str ← attrib (ev_value event);
  (* value error checking *)
  v ← (if bool_decide (Py.strip value_str = [])
          || bool_decide (Some value_str = error_value)
       then mret NpNan
       else f ← float_ value_str; mret (Float f));
  (* parse date *)
  t ← lift_option ValueError
        (Strptime.strptime (date ++ Py.lit " " ++ time)
           (Py.lit "%Y-%m-%d %H:%M:%S"));
  (* add node *)
  add_node ts (PyDatetime t None) v.

(** The statements of the [try] block from [ts = Timeseries()] on. *)
Definition read_series_body (series : pi_series)
    (type_ location_id parameter_id station_name unit error_value
       : option text) : M ts_ref :=
  (* create a new timeseries *)
  ts ← new "";
  title ← dotted location_id parameter_id;
  modify_obj ts (Attr.set_title (Py.to_string title));;
  modify_obj ts
    (Attr.set_param (Py.to_string (default [] parameter_id)));;
  name ← dotted location_id station_name;
  modify_obj ts (Attr.set_station_name (Py.to_string name));;
  modify_obj ts
    (Attr.set_unit (from_option (AStr ∘ Py.to_string) ANone unit));;
  modify_obj ts
    (Attr.set_station_id (AStr (Py.to_string (default [] location_id))));;
  (* map type to interpretation *)
  (if bool_decide (type_ = Some (Py.lit "instantaneous"))
   then modify_obj ts (Attr.set_interpretation Instantaneous)
   else if bool_decide (type_ = Some (Py.lit "mean"))
   then modify_obj ts (Attr.set_interpretation BlockRight)
   else if bool_decide (type_ = Some (Py.lit "accumulative"))
   then modify_obj ts (Attr.set_interpretation CumulativePerTimestep)
   else raise Exception_);;
  (* read events and add nodes *)
  for_each (s_events series) (read_event ts error_value);;
  logger LogInfo "Read values";;
  mret ts.

(** The handler of the [try] block. *)
Definition log_series_error {A} (a : A) (e : exn) : M A :=
  logger LogError "Error while reading series";;
  logger LogError "the exception";;
  mret a.

Definition key_of (t : option text) : option string := Py.to_string <$> t.

(** One turn of the loop over the [series] elements.  The [try] block is
    cut in two around the writes to [result]: these raise nothing, and
    what they wrote stays when a later statement raises. *)
Definition read_series (result : fews_result) (series : pi_series)
  : M fews_result :=
  header ←
    try_except
      ((* read header *)
       type_ ← child_text (s_header series) h_type;
       location_id ← child_text (s_header series) h_locationId;
       parameter_id ← child_text (s_header series) h_parameterId;
       station_name ← child_text (s_header series) h_stationName;
       unit ← child_text (s_header series) h_units;
       error_value ← child_text (s_header series) h_missVal;
       mret (Some (type_, location_id, parameter_id, station_name, unit,
                   error_value)))
      (log_series_error None);
  match header with
  | None => mret result
  | Some (type_, location_id, parameter_id, station_name, unit, error_value)
    =>
      let loc := key_of location_id in
      let par := key_of parameter_id in
      let params := default ∅ (result !! loc) in
      (if decide (par ∈ dom params)
       then logger LogWarning "Duplicate parameterID found"
       else mret ());;
      let result := <[loc := <[par := None]> params]> result in
      ts ← try_except
             (ts ← read_series_body series type_ location_id parameter_id
                     station_name unit error_value;
              mret (Some ts))
             (log_series_error None);
      match ts with
      | Some ts => mret (<[loc := <[par := Some ts]> (<[par := None]> params)]> result)
      | None => mret result
      end
  end.

Fixpoint read_all_series (result : fews_result) (l : list pi_series)
  : M fews_result :=
  match l with
  | [] => mret result
  | series :: l' => result ← read_series result series; read_all_series result l'
  end.

Definition read_fews (doc : pi_document) : M fews_result :=
  logger LogInfo "Reading FEWS PI Timeseries XML file";;
  match doc with
  | NotWellFormed => raise ParseError
  | Document series => read_all_series ∅ series
  end.

End codecs.

(** *** Files *)

Section file_codecs.
Context `{FloatLib}.

(** [open(filename, "r")] and the text read from it *)
Definition open_read (filename : string) : M text := λ h,
  match files h !! filename with
  | Some content => (Ok content, h)
  | None => (Raise FileNotFoundError, h)
  end.

(** [open(filename, "w")]: the file is there and empty. *)
Definition open_write (filename : string) : M () := λ h,
  (Ok (), Heap (objects h) (dicts h) (log h) (<[filename := []]> (files h))).

(** [f.write(s)] *)
Definition fwrite (filename : string) (s : text) : M () := λ h,
  (Ok (), Heap (objects h) (dicts h) (log h)
            (<[filename := default [] (files h !! filename) ++ s]> (files h))).

(** [Path(filename).suffix]: what follows the last dot of the last
    component, the dot included, when the dot is neither its first nor its
    last character. *)
Fixpoint path_name_go (cur : text) (p : text) : text :=
  match p with
  | [] => rev cur
  | c :: p' =>
      if Ascii.eqb c "/" then path_name_go [] p' else path_name_go (c :: cur) p'
  end.
Definition path_name (p : text) : text := path_name_go [] p.

Fixpoint rfind_dot (i : nat) (s : text) : option nat :=
  match s with
  | [] => None
  | c :: s' =>
      match rfind_dot (S i) s' with
      | Some j => Some j
      | None => if Ascii.eqb c "." then Some i else None
      end
  end.

Definition suffix (filename : string) : text :=
  let name := path_name (Py.lit filename) in
  match rfind_dot 0 name with
  | Some i => if ((0 <? i) && (i <? length name - 1))%nat then drop i name else []
  | None => []
  end.

(** [s.lower()] on ASCII *)
Definition lower_char (c : ascii) : ascii :=
  let n := nat_of_ascii c in
  if ((65 <=? n) && (n <=? 90))%nat then ascii_of_nat (n + 32) else c.
Definition lower (s : text) : text := map lower_char s.

(** [s.lstrip(".")] *)
Fixpoint lstrip_dots (s : text) : text :=
  match s with
  | c :: s' => if Ascii.eqb c "." then lstrip_dots s' else s
  | [] => []
  end.

(** [format(a)] for an attribute *)
Definition format_attr (a : pyattr) : text :=
  match a with
  | AStr s => Py.lit s
  | ANone => Py.lit "None"
  | AInt n => Py.str_int n
  end.

(** A method of [str] called on an attribute: [None] and an [int] have
    none. *)
Definition attr_str (a : pyattr) : M text :=
  match a with
  | AStr s => mret (Py.lit s)
  | _ => raise AttributeError
  end.

Definition fmt_txt : text := Py.lit "%Y%m%d%H%M%S".
Definition fmt_csv : text := Py.lit "%Y-%m-%d %H:%M:%S".
Definition fmt_uvf : text := Py.lit "%Y%m%d%H%M".

(** *** [read_txt] *)

Definition read_txt_line (ts : ts_ref) (line : text) : M () :=
  if Py.startswith (Py.lit "#") line || bool_decide (Py.strip line = [])
  then mret ()
  else
    try_except_all
      (let date_str := Py.slice line 0 14 in
       datum ← lift_option ValueError (Strptime.strptime date_str fmt_txt);
       v ← float_ (drop 15 line);
       setitem ts (PyDatetime datum None) (Float v))
      (λ _, raise SystemExit).       (* [print(...)]; [sys.exit()] *)

Definition read_txt (filename : string) : M ts_ref :=
  ts ← new "";
  content ← open_read filename;
  for_each (Py.readlines content) (read_txt_line ts);;
  mret ts.

(** *** [read_uvf] *)

(** The variables of the loop of [read_uvf]. *)
Record uvf_state := UvfState {
  i_header : Z;
  is_header : bool;
  is_data : bool;
  century : Z;
  year : Z      (* two-digit year *)
}.

Definition read_uvf_header (ts : ts_ref) (st : uvf_state) (line : text)
  : M uvf_state :=
  let i := i_header st + 1 in
  let st := UvfState i (is_header st) (is_data st) (century st) (year st) in
  if i =? 1 then mret st
  else if i =? 2 then
    (* read the title, unit and the century *)
    modify_obj ts (Attr.set_title (Py.to_string (Py.slice line 0 15)));;
    modify_obj ts (Attr.set_unit (AStr (Py.to_string (Py.slice line 15 30))));;
    c ← lift_option ValueError (Py.int (Py.slice line 30 34));
    mret (UvfState i (is_header st) (is_data st) c (year st))
  else if i =? 3 then
    (* read the location *)
    try_except_all
      (modify_obj ts (Attr.set_location (Py.to_string (Py.slice line 0 15)));;
       lat ← float_ (Py.slice line 15 25); modify_obj ts (Attr.set_lat lat);;
       lon ← float_ (Py.slice line 25 35); modify_obj ts (Attr.set_lon lon);;
       z ← float_ (Py.slice line 35 45); modify_obj ts (Attr.set_z z))
      (λ _, mret ());;               (* [print(...)] *)
    mret st
  else if i =? 4 then mret st
  else
    (* section with data begins here *)
    mret (UvfState i false true (century st) (year st)).

Definition read_uvf_data (ts : ts_ref) (st : uvf_state) (line : text)
  : M uvf_state :=
  if (0 <? length (Py.strip line))%nat then
    let date_str := Py.slice line 0 10 in
    let value_str := Py.strip (drop 10 line) in
    v ← (if Py.startswith (Py.lit "-777") value_str
         then mret NpNan                (* convert error values to nan *)
         else f ← float_ value_str; mret (Float f));
    (* determine century by comparing with last two-digit year *)
    yy ← lift_option ValueError (Py.int (Py.slice date_str 0 2));
    let century := if yy <? year st then century st + 100 else century st in
    (* store the new two-digit year *)
    yy ← lift_option ValueError (Py.int (Py.slice date_str 0 2));
    (* complete the date string by prepending the century *)
    let date_str := Py.slice (Py.str_int century) 0 2 ++ date_str in
    (* parse date *)
    date ← lift_option ValueError (Strptime.strptime date_str fmt_uvf);
    (* store data *)
    setitem ts (PyDatetime date None) v;;
    mret (UvfState (i_header st) (is_header st) (is_data st) century yy)
  else mret st.

Definition read_uvf_line (ts : ts_ref) (st : uvf_state) (line : text)
  : M uvf_state :=
  let st :=
    if Py.startswith (Py.lit "*Z") line
    then UvfState (i_header st) true (is_data st) (century st) (year st)
    else st in
  st ← (if is_header st then read_uvf_header ts st line else mret st);
  if is_data st then read_uvf_data ts st line else mret st.

Fixpoint read_uvf_lines (ts : ts_ref) (st : uvf_state) (lines : list text)
  : M uvf_state :=
  match lines with
  | [] => mret st
  | line :: lines' =>
      st ← read_uvf_line ts st line; read_uvf_lines ts st lines'
  end.

Definition read_uvf (filename : string) : M ts_ref :=
  ts ← new "";
  content ← open_read filename;
  read_uvf_lines ts (UvfState 0 false false 1900 0) (Py.readlines content);;
  mret ts.

(** *** [read_zrx] *)

(** The dictionary [metadata], its keys in order. *)
Record zrx_metadata := ZrxMetadata {
  SANR : pyattr;
  SNAME : text;
  CNAME : text;
  CUNIT : text;
  RINVAL : text
}.

(** [for key in metadata.keys(): if block.startswith(key): ...] *)
Definition zrx_block (md : zrx_metadata) (block : text) : zrx_metadata :=
  let value (key : string) := drop (String.length key) block in
  let md := if Py.startswith (Py.lit "SANR") block
            then ZrxMetadata (AStr (Py.to_string (value "SANR"))) (SNAME md)
                   (CNAME md) (CUNIT md) (RINVAL md) else md in
  let md := if Py.startswith (Py.lit "SNAME") block
            then ZrxMetadata (SANR md) (value "SNAME") (CNAME md) (CUNIT md)
                   (RINVAL md) else md in
  let md := if Py.startswith (Py.lit "CNAME") block
            then ZrxMetadata (SANR md) (SNAME md) (value "CNAME") (CUNIT md)
                   (RINVAL md) else md in
  let md := if Py.startswith (Py.lit "CUNIT") block
            then ZrxMetadata (SANR md) (SNAME md) (CNAME md) (value "CUNIT")
                   (RINVAL md) else md in
  if Py.startswith (Py.lit "RINVAL") block
  then ZrxMetadata (SANR md) (SNAME md) (CNAME md) (CUNIT md) (value "RINVAL")
  else md.

(** One line; [data] is the variable of that name, unbound at first. *)
Definition read_zrx_line (ts : ts_ref)
    (st : zrx_metadata * option (list text)) (line : text)
  : M (zrx_metadata * option (list text)) :=
  let '(md, data) := st in
  if Py.startswith (Py.lit "##") line then mret st          (* skip comments *)
  else if Py.startswith (Py.lit "#") line then
    (* read metadata *)
    let line := drop 1 line in
    let data :=
      if Py.contains (Py.lit "|*|") line
      then Some (Py.split_on (Py.lit "|*|") line)
      else if Py.contains (Py.lit ";*;") line
      then Some (Py.split_on (Py.lit ";*;") line)
      else data in
    blocks ← lift_option UnboundLocalError data;
    mret (fold_left zrx_block blocks md, data)
  else
    match Py.split line with
    | date_str :: value_str :: _ =>
        (* parse date *)
        let date_str :=
          if (length date_str <? 14)%nat then Py.ljust 14 "0" date_str
          else date_str in
        date ← lift_option ValueError (Strptime.strptime date_str fmt_txt);
        (* parse value *)
        v ← (if Py.startswith (RINVAL md) value_str
             then mret NpNan
             else f ← float_ value_str; mret (Float f));
        (* store value as node *)
        setitem ts (PyDatetime date None) v;;
        mret st
    | _ => raise ValueError            (* not enough values to unpack *)
    end.

Fixpoint read_zrx_lines (ts : ts_ref)
    (st : zrx_metadata * option (list text)) (lines : list text)
  : M (zrx_metadata * option (list text)) :=
  match lines with
  | [] => mret st
  | line :: lines' =>
      st ← read_zrx_line ts st line; read_zrx_lines ts st lines'
  end.

Definition read_zrx (filename : string) : M ts_ref :=
  let metadata := ZrxMetadata (AInt 0) [] [] [] (Py.lit "-777.0") in
  ts ← new "";
  content ← open_read filename;
  st ← read_zrx_lines ts (metadata, None) (Py.readlines content);
  let md := fst st in
  (* store metadata *)
  modify_obj ts (Attr.set_title (Py.to_string (SNAME md)));;
  modify_obj ts (Attr.set_station_id (SANR md));;
  modify_obj ts (Attr.set_station_name (Py.to_string (SNAME md)));;
  modify_obj ts (Attr.set_param (Py.to_string (CNAME md)));;
  modify_obj ts (Attr.set_unit (AStr (Py.to_string (CUNIT md))));;
  mret ts.

(** *** The binary format *)

Definition epoch_1601 : datetime := mkDatetime 1601 1 1 0 0 0 0.

(** The microseconds of [a - b]. *)
Definition timedelta_us (a b : datetime) : Z :=
  (Datetime.ymd2ord (Datetime.year a) (Datetime.month a) (Datetime.day a)
   - Datetime.ymd2ord (Datetime.year b) (Datetime.month b) (Datetime.day b))
  * Datetime.us_per_day + Datetime.time_us a - Datetime.time_us b.

Definition date_to_double (timestamp : datetime) : float :=
  hours_of_timedelta (timedelta_us timestamp epoch_1601).

Definition double_to_date (rDate : float) : M datetime :=
  us ← lift_option OverflowError (timedelta_of_hours rDate);
  lift_option OverflowError (Datetime.add_timedelta epoch_1601 us).

(** [abs(value - -9999.999) < 0.0001] *)
Definition is_bin_error_value (v : float) : bool :=
  (PrimFloat.abs (v - (-9999.999)) <? 0.0001)%float.

(** The loop of [read_bin] on what is left of the file; [None] when
    [fuel] reads did not reach the end. *)
Fixpoint read_bin_records (fuel : nat) (ts : ts_ref) (rest : text)
  : option (M ()) :=
  match rest with
  | [] => Some (mret ())
  | _ :: _ =>
      match fuel with
      | O => None
      | S fuel' =>
          let chunk := take 12 rest in
          k ← read_bin_records fuel' ts (drop 12 rest);
          Some
            ((if (length chunk =? 12)%nat then mret () else raise StructError);;
             let rDate := unpack_d (take 8 chunk) in
             let v := unpack_f (drop 8 chunk) in
             (* convert double date to datetime *)
             timestamp ← double_to_date rDate;
             (* convert error values *)
             let v := if is_bin_error_value v then NpNan else Float v in
             (* store as node *)
             setitem ts (PyDatetime timestamp None) v;;
             k)
      end
  end.

Definition read_bin (filename : string) : M ts_ref :=
  ts ← new "";
  content ← open_read filename;
  (* skip the header *)
  let rest := drop 12 content in
  match read_bin_records (length rest) ts rest with
  | Some records => records;; mret ts
  | None => stuck
  end.

(** *** [read_file] *)

Definition read_file (filename : string) (format : option text)
  : M ts_ref :=
  let format :=
    match format with
    | None => lstrip_dots (suffix filename)       (* use file extension *)
    | Some f => f
    end in
  let format := lower format in
  if bool_decide (format = Py.lit "txt") then read_txt filename
  else if bool_decide (format = Py.lit "uvf") then read_uvf filename
  else if bool_decide (format = Py.lit "zrx") then read_zrx filename
  else if bool_decide (format = Py.lit "bin") then read_bin filename
  else raise Exception_.

(** *** [write_to_file] *)

Definition quote : ascii := ascii_of_nat 34.

Definition write_txt (self : ts_ref) (filename : string) : M () :=
  open_write filename;;
  o ← get_obj self;
  fwrite filename (Py.lit "#" ++ Py.lit (Attr.title o) ++ [Py.nl]);;
  items ← iter self;
  for_each items (λ '(date, v),
    fwrite filename (Strptime.strftime date fmt_txt ++ Py.lit " "
                     ++ str_value v ++ [Py.nl])).

Definition write_csv (self : ts_ref) (filename : string) : M () :=
  open_write filename;;
  o ← get_obj self;
  fwrite filename (Py.lit "#" ++ Py.lit (Attr.title o) ++ [Py.nl]);;
  fwrite filename (Py.lit "date,value" ++ [Py.nl]);;
  items ← iter self;
  for_each items (λ '(date, v),
    fwrite filename (Strptime.strftime date fmt_csv ++ Py.lit ","
                     ++ str_value v ++ [Py.nl])).

(** [str(year)[:2] + "00"] *)
Definition century_of (d : datetime) : text :=
  Py.slice (Py.str_int (Datetime.year d)) 0 2 ++ Py.lit "00".

Definition write_uvf (self : ts_ref) (filename : string) : M () :=
  open_write filename;;
  o ← get_obj self;
  fwrite filename (Py.lit "$sb Einheit: " ++ format_attr (Attr.unit o)
                   ++ [Py.nl]);;
  fwrite filename (Py.lit "$sb Beschreibung: " ++ Py.lit (Attr.title o)
                   ++ [Py.nl]);;
  fwrite filename (Py.lit "*Z" ++ [Py.nl]);;
  (* line with title, unit and start and end centuries *)
  date_begin ← start self;
  date_end ← end_ self;
  unit ← attr_str (Attr.unit o);
  fwrite filename
    (Py.ljust 15 " " (Py.slice (Py.lit (Attr.title o)) 0 15)
     ++ Py.ljust 15 " " unit
     ++ century_of date_begin ++ Py.lit " " ++ century_of date_end
     ++ [Py.nl]);;
  (* line with location and coordinates *)
  fwrite filename
    (Py.ljust 15 " " (Py.slice (Py.lit (Attr.location o)) 0 15)
     ++ Py.ljust 10 " " (format_9g (Attr.lat o))
     ++ Py.ljust 10 " " (format_9g (Attr.lon o))
     ++ Py.ljust 10 " " (format_9g (Attr.z o)) ++ [Py.nl]);;
  (* line with start and end date *)
  fwrite filename
    (drop 2 (Strptime.strftime date_begin fmt_uvf)
     ++ drop 2 (Strptime.strftime date_end fmt_uvf) ++ [Py.nl]);;
  items ← iter self;
  for_each items (λ '(date, v),
    fwrite filename (drop 2 (Strptime.strftime date fmt_uvf) ++ Py.lit " "
                     ++ format_9_6g (float_of v) ++ [Py.nl])).

Definition write_zrx (self : ts_ref) (filename : string)
    (REXCHANGE : option text) : M () :=
  open_write filename;;
  o ← get_obj self;
  fwrite filename (Py.lit "##" ++ Py.lit (Attr.title o) ++ [Py.nl]);;
  fwrite filename
    (Py.lit "#ZRXPVERSION3014.03|*|ZRXPCREATORSYDRO pyTimeseries|*|"
     ++ [Py.nl]);;
  fwrite filename
    (Py.lit "#SANR" ++ format_attr (Attr.station_id o) ++ Py.lit "|*|SNAME"
     ++ Py.lit (Attr.station_name o) ++ Py.lit "|*|" ++ [Py.nl]);;
  match REXCHANGE with
  | Some x =>
      fwrite filename (Py.lit "#REXCHANGE" ++ x ++ Py.lit "|*|" ++ [Py.nl])
  | None => mret ()
  end;;
  fwrite filename
    (Py.lit "#CNAME" ++ Py.lit (Attr.param o) ++ Py.lit "|*|CUNIT"
     ++ format_attr (Attr.unit o) ++ Py.lit "|*|RINVAL-777.0|*|" ++ [Py.nl]);;
  fwrite filename (Py.lit "#LAYOUT(timestamp,value,remark)|*|" ++ [Py.nl]);;
  items ← iter self;
  for_each items (λ '(date, v),
    if isnan v then
      fwrite filename (Strptime.strftime date fmt_txt ++ Py.lit " -777.0 "
                       ++ [quote] ++ str_value v ++ [quote] ++ [Py.nl])
    else
      fwrite filename (Strptime.strftime date fmt_txt ++ Py.lit " "
                       ++ str_value v ++ [Py.nl])).

(** [struct.pack("iii", 3319, 0, 0)] *)
Definition bin_header : text :=
  map ascii_of_nat [247; 12; 0; 0; 0; 0; 0; 0; 0; 0; 0; 0]%nat.

Definition write_bin (self : ts_ref) (filename : string) : M () :=
  open_write filename;;
  (* write a header *)
  fwrite filename bin_header;;
  (* write nodes *)
  items ← iter self;
  for_each items (λ '(date, v),
    (* convert date to double *)
    let rdate := date_to_double date in
    (* convert error values *)
    let x := if isnan v then (-9999.999)%float else float_of v in
    (* write record *)
    single ← lift_option OverflowError (pack_f x);
    fwrite filename (pack_d rdate ++ single)).

Definition write_to_file (self : ts_ref) (filename : string)
    (REXCHANGE : option text) : M () :=
  let ext := lower (suffix filename) in
  if bool_decide (ext = Py.lit ".txt") then write_txt self filename
  else if bool_decide (ext = Py.lit ".csv") then write_csv self filename
  else if bool_decide (ext = Py.lit ".uvf") then write_uvf self filename
  else if bool_decide (ext = Py.lit ".zrx")
  then write_zrx self filename REXCHANGE
  else if bool_decide (ext = Py.lit ".bin") then write_bin self filename
  else raise Exception_.

End file_codecs.

(** *** Lengths, values and NaN nodes *)

(** [len(self)]: [__len__] *)
Definition len (self : ts_ref) : M nat :=
  d ← get_nodes self; mret (size d).

(** The property [values]:
    [[self.nodes[date] for date in sorted(self.nodes.keys())]] *)
Fixpoint lookup_values (d : gmap datetime value) (ks : list datetime)
  : M (list value) :=
  match ks with
  | [] => mret []
  | k :: ks' => v ← getitem d k; rest ← lookup_values d ks'; mret (v :: rest)
  end.

Definition values (self : ts_ref) : M (list value) :=
  d ← get_nodes self; lookup_values d (sorted_keys d).

(** [len([v for v in self.values if not np.isnan(v)])] *)
Definition count_value_nodes (self : ts_ref) : M nat :=
  vs ← values self;
  mret (length (List.filter (λ v, negb (isnan v)) vs)).

Definition delete_nan_nodes (self : ts_ref) : M () :=
  (* find dates with NaN values *)
  items ← iter self;
  let dates_nan := map fst (List.filter (λ kv, isnan (snd kv)) items) in
  (* delete nodes *)
  for_each dates_nan (nodes_delitem self).

(** The deprecated methods [get_values], [get_dates], [get_start],
    [get_end], [get_start_year] and [get_end_year] *)
Definition get_values (self : ts_ref) : M (list value) := values self.
Definition get_dates (self : ts_ref) : M (list datetime) := dates self.
Definition get_start (self : ts_ref) : M datetime := start self.
Definition get_end (self : ts_ref) : M datetime := end_ self.
Definition get_start_year (self : ts_ref) : M Z :=
  d ← start self; mret (Datetime.year d).
Definition get_end_year (self : ts_ref) : M Z :=
  d ← end_ self; mret (Datetime.year d).

(** *** PI-XML: [write_fews] *)

(** An element as [xml.etree.ElementTree] holds it: tag, attributes in the
    order they were set, text, children. *)
#[local] Set Warnings "-register-all".
Inductive xml :=
  | Element (tag : string) (attrib : list (string * text))
      (text_ : pyattr) (children : list xml).

(** [xml.dom.minidom.parseString(ET.tostring(root, encoding="unicode",
    xml_declaration=True)).toprettyxml()]: the text of the document, or the
    exception of a tree that cannot be serialised (a text that is no
    string) or whose serialisation is not well-formed. *)
Class XmlLib := {
  toprettyxml : xml → exn + text
}.

Section write_fews.
Context `{FloatLib} `{XmlLib}.

(** [{location_id: {parameter_id: Timeseries}}], in the order of the
    dictionaries; an entry may be [None], as [read_fews] leaves it for a
    series it could not read. *)
Definition ts_dict : Type :=
  list (option string * list (option string * option ts_ref)).

Definition key_text (k : option string) : pyattr := from_option AStr ANone k.

(** type (interpretation) *)
Definition fews_type (i : Interpretation) : M string :=
  match i with
  | Instantaneous => mret "instantaneous"%string
  | BlockRight => mret "mean"%string
  | CumulativePerTimestep => mret "accumulative"%string
  | _ => raise Exception_
  end.

Definition fews_event (kv : datetime * value) : xml :=
  let value := if isnan kv.2 then Py.lit "-999.0" else str_value kv.2 in
  Element "event"
    [("date"%string, Strptime.strftime kv.1 (Py.lit "%Y-%m-%d"));
     ("time"%string, Strptime.strftime kv.1 (Py.lit "%H:%M:%S"));
     ("value"%string, value);
     ("flag"%string, Py.lit "2")]
    ANone [].

(** The body of the inner loop: the [series] element of one entry. *)
Definition fews_series (location_id parameter_id : option string)
    (ts : option ts_ref) : M xml :=
  ts ← lift_option AttributeError ts;        (* [None.interpretation] *)
  o ← get_obj ts;
  (* header *)
  type_ ← fews_type (Attr.interpretation o);
  startdate ← get_start ts;
  enddate ← get_end ts;
  (* events *)
  items ← iter ts;
  mret (Element "series" [] ANone
          (Element "header" [] ANone
             [Element "type" [] (AStr type_) [];
              Element "locationId" [] (key_text location_id) [];
              Element "parameterId" [] (key_text parameter_id) [];
              Element "timeStep" [("unit"%string, Py.lit "nonequidistant")]
                ANone [];
              Element "startDate"
                [("date"%string,
                  Strptime.strftime startdate (Py.lit "%Y-%m-%d"));
                 ("time"%string,
                  Strptime.strftime startdate (Py.lit "%H:%M:%S"))]
                ANone [];
              Element "endDate"
                [("date"%string,
                  Strptime.strftime enddate (Py.lit "%Y-%m-%d"));
                 ("time"%string,
                  Strptime.strftime enddate (Py.lit "%H:%M:%S"))]
                ANone [];
              Element "missVal" [] (AStr "-999.0") [];
              Element "stationName" [] (AStr (Attr.station_name o)) [];
              Element "units" [] (Attr.unit o) []]
           :: map fews_event items)).

Fixpoint fews_params (location_id : option string)
    (param_dict : list (option string * option ts_ref)) : M (list xml) :=
  match param_dict with
  | [] => mret []
  | (parameter_id, ts) :: rest =>
      s ← fews_series location_id parameter_id ts;
      ss ← fews_params location_id rest;
      mret (s :: ss)
  end.

Fixpoint fews_locations (d : ts_dict) : M (list xml) :=
  match d with
  | [] => mret []
  | (location_id, param_dict) :: rest =>
      ss ← fews_params location_id param_dict;
      ss' ← fews_locations rest;
      mret (ss ++ ss')
  end.

Definition fews_root (series : list xml) : xml :=
  Element "TimeSeries"
    [("xmlns"%string, Py.lit "http://www.wldelft.nl/fews/PI");
     ("xmlns:xsi"%string,
      Py.lit "http://www.w3.org/2001/XMLSchema-instance");
     ("xsi:schemaLocation"%string,
      Py.lit ("http://www.wldelft.nl/fews/PI "
              ++ "http://fews.wldelft.nl/schemas/version1.0/pi-schemas/"
              ++ "pi_timeseries.xsd"));
     ("version"%string, Py.lit "1.10")]
    ANone
    (Element "timeZone" [] (AStr "0.0") [] :: series).

Definition write_fews (filename : string) (d : ts_dict)
  : M () :=
  logger LogInfo "Writing FEWS PI Timeseries XML file";;
  (* build an xml tree structure *)
  series ← fews_locations d;
  match toprettyxml (fews_root series) with
  | inl e => raise e
  | inr xmlstring => open_write filename;; fwrite filename xmlstring
  end.

End write_fews.

(** *** [fill_gaps] *)

(** The step of the loop: the date after [date]. *)
Definition fill_step (dt : string) (date : datetime) : M datetime :=
  if String.eqb dt "M" then
    lift_option ValueError (Datetime.add_months date 1)
  else if String.eqb dt "d" then
    lift_option OverflowError
      (Datetime.add_timedelta date Datetime.us_per_day)
  else raise UnboundLocalError.

(** The loop that makes [date_list]; [last] is [date_list[-1]]. *)
Fixpoint fill_dates (fuel : nat) (self : ts_ref) (dt : string)
    (last : datetime) (date_list : list datetime) : M (list datetime) :=
  match fuel with
  | O => stuck
  | S fuel' =>
      date ← fill_step dt last;
      e ← end_ self;
      if Datetime.leb date e
      then fill_dates fuel' self dt date (date_list ++ [date])
      else mret date_list
  end.

(** A bound on the turns of the loop: each turn moves the date on by a
    day at least, and stops after [end]. *)
Definition fill_fuel (s e : datetime) : nat :=
  S (Z.to_nat ((Datetime.year e - Datetime.year s + 1) * 366)).

Definition fill_gaps (self : ts_ref) (dt : string) : M () :=
  (if String.eqb dt "d" || String.eqb dt "M"
   then mret () else raise ValueError);;
  (* construct a list of equidistant dates from start to end *)
  s ← start self;
  e ← end_ self;
  date_list ← fill_dates (fill_fuel s e) self dt s [s];
  (* get missing dates using set comparison *)
  dates_existing ← dates self;
  let dates_all : gset datetime := list_to_set date_list in
  let dates_existing : gset datetime := list_to_set dates_existing in
  let dates_missing := dates_all ∖ dates_existing in
  (* fill missing dates with NaN *)
  for_each (elements dates_missing)
    (λ date, setitem self (PyDatetime date None) NpNan).

End Timeseries.

(** ** Scenario data *)

Definition jan2021 (d : Z) : datetime := mkDatetime 2021 1 d 0 0 0 0.

(** A daily series with the values 1, 2, 3, 4 from 2021-01-01 on. *)
Definition daily_series : M ts_ref :=
  ts ← Timeseries.new "daily";
  Timeseries.setitem ts (PyDatetime (jan2021 1) None) (Float 1);;
  Timeseries.setitem ts (PyDatetime (jan2021 2) None) (Float 2);;
  Timeseries.setitem ts (PyDatetime (jan2021 3) None) (Float 3);;
  Timeseries.setitem ts (PyDatetime (jan2021 4) None) (Float 4);;
  mret ts.

Definition daily_heap : heap := snd (daily_series empty_heap).
Definition daily : ts_ref := 1%positive.

(** A series as [read_wel] makes them: interpretation [BlockRight]. *)
Definition gauge_series : M ts_ref :=
  ts ← Timeseries.new "gauge";
  modify_obj ts (Attr.set_station_name "gauge");;
  modify_obj ts (Attr.set_unit (AStr "m3/s"));;
  modify_obj ts (Attr.set_interpretation BlockRight);;
  Timeseries.add_node ts (PyDatetime (jan2021 1) None) (Float 5);;
  Timeseries.add_node ts (PyDatetime (jan2021 2) None) NpNan;;
  mret ts.

Definition gauge_heap : heap := snd (gauge_series empty_heap).
Definition gauge : ts_ref := 1%positive.

(** The daily series and a second one that shares two of its four days. *)
Definition overlap_series : M (ts_ref * ts_ref) :=
  a ← daily_series;
  b ← Timeseries.new "sim";
  Timeseries.setitem b (PyDatetime (jan2021 3) None) (Float 30);;
  Timeseries.setitem b (PyDatetime (jan2021 4) None) NpNan;;
  Timeseries.setitem b (PyDatetime (jan2021 5) None) (Float 50);;
  mret (a, b).

Definition overlap_heap : heap := snd (overlap_series empty_heap).
Definition sim : ts_ref := 2%positive.

(** The daily series with one more node, on 2021-02-01. *)
Definition daily_and_february : M ts_ref :=
  ts ← daily_series;
  Timeseries.setitem ts (PyDatetime (mkDatetime 2021 2 1 0 0 0 0) None)
    (Float 5);;
  mret ts.

(** ** An instance of the float interface for the examples *)

Import Timeseries.

Definition float_of_Z (n : Z) : float :=
  if n <? 0 then (- PrimFloat.of_uint63 (Uint63.of_Z (- n)))%float
  else PrimFloat.of_uint63 (Uint63.of_Z n).

(** The integer a float is, if it is one. *)
Definition float_to_Z (f : float) : option Z :=
  match Prim2SF f with
  | S754_zero _ => Some 0
  | S754_finite s m e =>
      let sign := if s then -1 else 1 in
      if 0 <=? e then Some (sign * Z.pos m * 2 ^ e)
      else if Z.pos m mod 2 ^ (- e) =? 0
           then Some (sign * (Z.pos m / 2 ^ (- e)))
           else None
  | _ => None
  end.

Fixpoint leading_digits (s : text) : text * text :=
  match s with
  | c :: s' =>
      if Py.is_digit c
      then let '(ds, rest) := leading_digits s' in (c :: ds, rest)
      else ([], s)
  | [] => ([], [])
  end.

(** [digits] or [digits.digits], at most fifteen digits in all: the
    quotient of two integers that binary64 holds exactly, so that one
    division rounds as [float] does. *)
Definition decimal_literal (s : text) : option float :=
  let '(int_part, rest) := leading_digits s in
  let frac_part :=
    match rest with
    | c :: r => if Ascii.eqb c "." then Some r else None
    | [] => Some []
    end in
  match frac_part with
  | Some frac =>
      if forallb Py.is_digit frac
         && (1 <=? length (int_part ++ frac))%nat
         && (length (int_part ++ frac) <=? 15)%nat
      then Some (float_of_Z (Py.digits_value (int_part ++ frac))
                 / float_of_Z (10 ^ Z.of_nat (length frac)))%float
      else None
  | None => None
  end.

Definition example_parse_float (s : text) : option float :=
  if bool_decide (s = Py.lit "nan") then Some nan
  else match s with
       | c :: s' =>
           if Ascii.eqb c "-" then PrimFloat.opp <$> decimal_literal s'
           else decimal_literal s
       | [] => None
       end.

Definition example_repr_float (f : float) : text :=
  if PrimFloat.is_nan f then Py.lit "nan"
  else match float_to_Z f with
       | Some n => Py.str_int n ++ Py.lit ".0"
       | None => Py.lit "?"
       end.

(** ["%.9g" % x] and ["%9.6g" % x] on the integers below a million. *)
Definition example_format_g (f : float) : text :=
  if PrimFloat.is_nan f then Py.lit "nan"
  else match float_to_Z f with
       | Some n => if Z.abs n <? 1000000 then Py.str_int n else Py.lit "?"
       | None => Py.lit "?"
       end.

(** *** IEEE 754 interchange encodings, little-endian *)

(** The bits of a float of precision [prec] and maximal exponent [emax]:
    sign, biased exponent, fraction. *)
Definition ieee_bits (prec emax : Z) (x : spec_float) : Z :=
  let mbits := prec - 1 in
  let ebits := Z.log2 emax + 1 in
  let emin := 3 - emax - prec in
  let sign (s : bool) := if s then 2 ^ (ebits + mbits) else 0 in
  match x with
  | S754_zero s => sign s
  | S754_infinity s => sign s + (2 ^ ebits - 1) * 2 ^ mbits
  | S754_nan => (2 ^ ebits - 1) * 2 ^ mbits + 2 ^ (mbits - 1)
  | S754_finite s m e =>
      if Z.pos m <? 2 ^ mbits then sign s + Z.pos m
      else sign s + (e - emin + 1) * 2 ^ mbits + (Z.pos m - 2 ^ mbits)
  end.

Definition ieee_of_bits (prec emax : Z) (bits : Z) : spec_float :=
  let mbits := prec - 1 in
  let ebits := Z.log2 emax + 1 in
  let emin := 3 - emax - prec in
  let s := Z.testbit bits (ebits + mbits) in
  let eb := (bits / 2 ^ mbits) mod 2 ^ ebits in
  let frac := bits mod 2 ^ mbits in
  if eb =? 0 then
    match frac with Z.pos m => S754_finite s m emin | _ => S754_zero s end
  else if eb =? 2 ^ ebits - 1 then
    if frac =? 0 then S754_infinity s else S754_nan
  else
    match frac + 2 ^ mbits with
    | Z.pos m => S754_finite s m (eb - 1 + emin)
    | _ => S754_nan
    end.

Fixpoint le_bytes (n : nat) (bits : Z) : text :=
  match n with
  | O => []
  | S n' => ascii_of_nat (Z.to_nat (bits mod 256)) :: le_bytes n' (bits / 256)
  end.

Definition of_le_bytes (b : text) : Z :=
  fold_right (λ c acc, Z.of_nat (nat_of_ascii c) + 256 * acc) 0 b.

(** A binary64 value rounded to single precision, to nearest even. *)
Definition to_single (x : spec_float) : spec_float :=
  match x with
  | S754_finite s m e => binary_normalize 24 128 (cond_Zopp s (Z.pos m)) e s
  | _ => x
  end.

Definition example_pack_d (f : float) : text :=
  le_bytes 8 (ieee_bits 53 1024 (Prim2SF f)).

Definition example_pack_f (f : float) : option text :=
  let x := Prim2SF f in
  match x, to_single x with
  | S754_finite _ _ _, S754_infinity _ => None
  | _, y => Some (le_bytes 4 (ieee_bits 24 128 y))
  end.

Definition example_unpack_d (b : text) : float :=
  SF2Prim (ieee_of_bits 53 1024 (of_le_bytes b)).
Definition example_unpack_f (b : text) : float :=
  SF2Prim (ieee_of_bits 24 128 (of_le_bytes b)).

(** The quotient [a / b] of two integers rounded to binary64, to nearest
    even, as the division of two [int]s is. *)
Definition round_div (a b : Z) : float :=
  if a =? 0 then 0%float
  else
    let k := 128 + Z.log2 b in
    let n := Z.abs a * 2 ^ k in
    let sticky := if n mod b =? 0 then 0 else 1 in
    let m := 2 * (n / b) + sticky in
    SF2Prim (binary_normalize 53 1024 (if a <? 0 then - m else m) (- (k + 1))
               false).

Definition example_hours_of_timedelta (us : Z) : float :=
  (round_div us 1000000 / 3600)%float.

(** The microseconds nearest to so many hours, ties to even; a
    [timedelta] holds less than a thousand million days. *)
Definition example_timedelta_of_hours (x : float) : option Z :=
  let rational :=
    match Prim2SF x with
    | S754_zero _ => Some (0, 1)
    | S754_finite s m e =>
        let n := cond_Zopp s (Z.pos m) * 3600000000 in
        Some (if 0 <=? e then (n * 2 ^ e, 1) else (n, 2 ^ (- e)))
    | _ => None
    end in
  '(n, d) ← rational;
  let q := n / d in
  let r := n mod d in
  let us := if 2 * r <? d then q
            else if d <? 2 * r then q + 1
            else if Z.even q then q else q + 1 in
  if Z.abs us <? 1000000000 * Datetime.us_per_day then Some us else None.

(** Python's [float], [str], [%] and [struct] on short decimal literals,
    on the integers, and on every binary64 value where the encodings are
    concerned. *)
#[global] Instance example_floats : FloatLib :=
  {| parse_float := example_parse_float;
     repr_float := example_repr_float;
     format_9g := example_format_g;
     format_9_6g := λ f, Py.rjust 9 " " (example_format_g f);
     pack_d := example_pack_d;
     pack_f := example_pack_f;
     unpack_d := example_unpack_d;
     unpack_f := example_unpack_f;
     hours_of_timedelta := example_hours_of_timedelta;
     timedelta_of_hours := example_timedelta_of_hours |}.

(** A PI document of two series: one of type [mean] with two events, and
    one whose type is none of the three that [read_fews] knows. *)
Definition pi_mean_series : pi_series :=
  PiSeries
    (Some (PiHeader (Some (Some (Py.lit "mean")))
             (Some (Some (Py.lit "L1"))) (Some (Some (Py.lit "Q")))
             (Some (Some (Py.lit "Gauge one"))) (Some (Some (Py.lit "m3/s")))
             (Some (Some (Py.lit "-999.0")))))
    [PiEvent (Some (Py.lit "2021-07-05")) (Some (Py.lit "16:30:00"))
       (Some (Py.lit "177")) (Some (Py.lit "2"));
     PiEvent (Some (Py.lit "2021-07-05")) (Some (Py.lit "17:30:00"))
       (Some (Py.lit "-999.0")) (Some (Py.lit "2"))].

Definition pi_cumulative_series : pi_series :=
  PiSeries
    (Some (PiHeader (Some (Some (Py.lit "cumulative")))
             (Some (Some (Py.lit "L2"))) (Some (Some (Py.lit "P")))
             (Some (Some (Py.lit "Gauge two"))) (Some (Some (Py.lit "mm")))
             (Some (Some (Py.lit "-999.0")))))
    [PiEvent (Some (Py.lit "2021-07-05")) (Some (Py.lit "16:30:00"))
       (Some (Py.lit "1.5")) (Some (Py.lit "2"))].

(** * The vocabulary of the properties *)

Section vocabulary.
Import Py Strptime Timeseries.
Context `{FloatLib}.
Implicit Types (h : heap) (o : Attr.t) (d : gmap datetime value).
Implicit Types (rows : list (datetime * value)) (st : uvf_state).

(** ** Stores and computations *)

(** The series [ts] of the store has its dictionary. *)
Definition live (h : heap) (ts : ts_ref) : Prop :=
  ∃ o d, objects h !! ts = Some o ∧ dicts h !! Attr.nodes o = Some d.

(** An outcome that [except Exception] lets through unharmed or catches. *)
Definition caught_or_ok {A} (r : outcome A) : Prop :=
  match r with
  | Ok _ => True
  | Raise e => is_Exception e = true
  | Stuck => False
  end.

(** Nothing ever takes an entry out of the log. *)
Definition log_grows {A} (m : M A) : Prop :=
  ∀ h, ∃ l, log (snd (m h)) = log h ++ l.

(** A computation that leaves the nodes of [ts] as they are, whatever it
    does to the attributes, and that may raise. *)
Definition keeps {A} (ts : ts_ref) (m : M A) : Prop :=
  ∀ h d, nodes_of h ts = Some d →
    ∃ r h', m h = (r, h') ∧ r ≠ Stuck ∧ nodes_of h' ts = Some d.

(** The store [h] with the text [c] in the file [filename]. *)
Definition with_file h (filename : string) (c : text) : heap :=
  Heap (objects h) (dicts h) (log h) (<[filename := c]> (files h)).

(** ** Dictionaries *)

(** The naive datetime [add_node] makes of its [timestamp] argument. *)
Definition naive_datetime (t : pyobj) : option datetime :=
  match t with
  | PyDatetime d _ => Some d
  | PyDate y m d => Some (mkDatetime y m d 0 0 0 0)
  | PyOther => None
  end.

(** The dictionary left by [del d[k]] for each [k] of [ks] in turn. *)
Definition remove_keys (ks : list datetime) (d : gmap datetime value)
  : gmap datetime value :=
  foldl (λ d k, delete k d) d ks.

(** [ts[k] = v] for each row in turn. *)
Definition fill (d : gmap datetime value) rows : gmap datetime value :=
  foldl (λ m kv, <[kv.1 := kv.2]> m) d rows.

(** The pairs [iter] yields. *)
Definition items (d : gmap datetime value) : list (datetime * value) :=
  omap (λ k, (k,.) <$> d !! k) (sorted_keys d).



(** ** Attributes *)

(** What [copy] makes of the attributes [o]: every attribute but
    [interpretation], which keeps the [Undefined] of [__init__]. *)
Definition copied_attrs (o : Attr.t) (r : dict_ref) : Attr.t :=
  Attr.Build (Attr.title o) (Attr.station_id o) (Attr.station_name o)
    (Attr.param o) (Attr.unit o) (Attr.location o)
    (Attr.lat o) (Attr.lon o) (Attr.z o) Undefined r.

(** Two instances carry the same metadata. *)
Definition same_metadata (o o' : Attr.t) : Prop :=
  Attr.title o = Attr.title o' ∧
  Attr.station_id o = Attr.station_id o' ∧
  Attr.station_name o = Attr.station_name o' ∧
  Attr.param o = Attr.param o' ∧
  Attr.unit o = Attr.unit o' ∧
  Attr.location o = Attr.location o' ∧
  Attr.lat o = Attr.lat o' ∧ Attr.lon o = Attr.lon o' ∧
  Attr.z o = Attr.z o' ∧
  Attr.interpretation o = Attr.interpretation o'.

(** The attributes [aggregate] gives its result. *)
Definition aggregated_attrs (o : Attr.t) (dt : string) (r : dict_ref)
  : Attr.t :=
  Attr.Build (Attr.title o ++ " (" ++ dt ++ ")") (Attr.station_id o)
    (Attr.station_name o) (Attr.param o) (Attr.unit o) (Attr.location o)
    (Attr.lat o) (Attr.lon o) (Attr.z o) Undefined r.

(** ** PI documents *)

(** One of the three types [read_fews] maps to an interpretation. *)
Definition known_type (type_ : option text) : bool :=
  bool_decide (type_ = Some (Py.lit "instantaneous"))
  || bool_decide (type_ = Some (Py.lit "mean"))
  || bool_decide (type_ = Some (Py.lit "accumulative")).

(** [result[loc][par]], when it is there. *)
Definition entry (result : fews_result) (loc par : option string)
  : option (option ts_ref) :=
  result !! loc ≫= (.!! par).

(** The keys under which a series is entered: those of its header, when
    the header has its six children. *)
Definition series_keys (series : pi_series)
  : option (option string * option string) :=
  hd ← s_header series;
  _ ← h_type hd; loc ← h_locationId hd; par ← h_parameterId hd;
  _ ← h_stationName hd; _ ← h_units hd; _ ← h_missVal hd;
  Some (key_of loc, key_of par).

(** ** Text *)

(** The pattern of a directive. *)
Definition group (c : ascii) : item := Group c (default [] (directive c)).

(** A datetime that [strftime] prints with four digits for the year and
    that the formats print in full: no fraction of a second. *)
Definition printable (d : datetime) : Prop :=
  valid_datetime d = true ∧ 1000 ≤ Datetime.year d ∧
  Datetime.microsecond d = 0.

(** A line without its end: no [\n] and no [\r] inside. *)
Definition no_newline (body : text) : bool :=
  forallb (λ c, negb (Ascii.eqb c nl) && negb (Ascii.eqb c cr)) body.

(** The text of a file written line by line. *)
Definition file_of_lines (bodies : list text) : text :=
  flat_map (λ b, b ++ [nl]) bodies.

(** No character of the text is whitespace. *)
Definition no_space (s : text) : bool := forallb (λ c, negb (is_space c)) s.

(** No character of the text is a bar. *)
Definition no_bar (s : text) : bool :=
  forallb (λ c, negb (Ascii.eqb "|" c)) s.

(** [str] and [float] are inverse on [x]: [str(x)] is a word, and
    [float] makes [x] of it again, or a NaN of a NaN. *)
Definition str_float_inverse (x : float) : Prop :=
  repr_float x ≠ [] ∧ no_space (repr_float x) = true ∧
  ∃ f, parse_float (repr_float x) = Some f ∧
       if PrimFloat.is_nan x then PrimFloat.is_nan f = true else f = x.

(** The timestamps and values of a series that the text formats hold in
    full. *)
Definition text_nodes (d : gmap datetime value) : Prop :=
  map_Forall (λ k v, printable k ∧ str_float_inverse (float_of v)) d.

(** ** UVF files *)

(** A data line as [write_uvf] lays it out: the date without its century,
    then the field of the value. *)
Definition uvf_line (d : datetime) (field : text) : text :=
  drop 2 (strftime d fmt_uvf) ++ field.

(** The value [read_uvf] takes from the field of a data line; [None] is
    the [ValueError] of [float]. *)
Definition uvf_value (field : text) : option value :=
  let value_str := strip (field ++ [nl]) in
  if startswith (lit "-777") value_str then Some NpNan
  else Float <$> parse_float (strip value_str).

(** The century the loop arrives at for each date in turn is the century
    of the date. *)
Fixpoint tracks (c yy : Z) (ds : list datetime) : Prop :=
  match ds with
  | [] => True
  | d :: ds' =>
      let c' := if Datetime.year d mod 100 <? yy then c + 100 else c in
      c' / 100 = Datetime.year d / 100 ∧
      tracks c' (Datetime.year d mod 100) ds'
  end.

(** [b] comes after [a], and less than a century of calendar years
    later. *)
Definition follows (a b : datetime) : Prop :=
  Datetime.lt a b ∧ Datetime.year b ≤ Datetime.year a + 99.

(** A row of data: the date, the field of the value as the file has it,
    and the value. *)
Definition uvf_row : Type := datetime * text * value.

Definition row_date (r : uvf_row) : datetime := r.1.1.

Definition row_line (r : uvf_row) : text := uvf_line r.1.1 r.1.2.

Definition row_node (r : uvf_row) : datetime * value := (r.1.1, r.2).

(** The row is one that [write_uvf] can have written: a date of whole
    minutes with a year of four digits, and a field [read_uvf] can
    decode. *)
Definition row_ok (r : uvf_row) : Prop :=
  printable r.1.1 ∧ Datetime.second r.1.1 = 0 ∧ uvf_value r.1.2 = Some r.2.

(** The loop is at a line of data: past the fourth line of the header. *)
Definition at_data st : Prop :=
  (is_header st = false ∧ is_data st = true) ∨
  (is_header st = true ∧ 4 ≤ i_header st).

(** ** Files of the formats [txt] and [zrx] *)


(** The value [read_txt] makes of the text of [v]. *)
Definition reread_txt (v : value) : value :=
  match parse_float (str_value v) with Some f => Float f | None => NpNan end.

(** A line of data as [write_zrx] lays it out. *)
Definition zrx_body (kv : datetime * value) : text :=
  if isnan kv.2
  then strftime kv.1 fmt_txt ++ lit " -777.0 " ++ [quote] ++ str_value kv.2
       ++ [quote]
  else strftime kv.1 fmt_txt ++ lit " " ++ str_value kv.2.

(** The lines of the header that [write_zrx] writes. *)
Definition zrx_header o (REXCHANGE : option text) : list text :=
  [lit "##" ++ lit (Attr.title o);
   lit "#ZRXPVERSION3014.03|*|ZRXPCREATORSYDRO pyTimeseries|*|";
   lit "#SANR" ++ format_attr (Attr.station_id o) ++ lit "|*|SNAME"
   ++ lit (Attr.station_name o) ++ lit "|*|"]
  ++ match REXCHANGE with
     | Some x => [lit "#REXCHANGE" ++ x ++ lit "|*|"]
     | None => []
     end
  ++ [lit "#CNAME" ++ lit (Attr.param o) ++ lit "|*|CUNIT"
      ++ format_attr (Attr.unit o) ++ lit "|*|RINVAL-777.0|*|";
      lit "#LAYOUT(timestamp,value,remark)|*|"].

(** The value [read_zrx] makes of the line of [v]. *)
Definition reread_zrx (v : value) : value :=
  if isnan v then NpNan else reread_txt v.

(** The values that [read_zrx] does not take for the error value. *)
Definition zrx_row_ok (kv : datetime * value) : Prop :=
  printable kv.1 ∧ str_float_inverse (float_of kv.2) ∧
  (isnan kv.2 = false → startswith (lit "-777.0") (str_value kv.2) = false).

(** No value of [d] that is a number prints as the error value of the
    format does. *)
Definition zrx_nodes (d : gmap datetime value) : Prop :=
  map_Forall
    (λ _ v, isnan v = false → startswith (lit "-777.0") (str_value v) = false)
    d.

End vocabulary.

(** ** Files and series for the examples *)





(** A series with one node, twenty minutes past midnight. *)
Definition twenty_past_series : M ts_ref :=
  ts ← Timeseries.new "level";
  Timeseries.setitem ts (PyDatetime (mkDatetime 2021 1 1 0 20 0 0) None)
    (Float 1.5);;
  mret ts.

(** * Further vocabulary *)

(** The nodes of [d] from [start] to [end_], both included. *)
Definition period (start end_ : datetime) (d : gmap datetime value)
  : gmap datetime value :=
  filter (λ kv, Datetime.le start kv.1 ∧ Datetime.le kv.1 end_) d.

(** The instance [o'] is [o] with another dictionary for its nodes. *)
Definition same_but_nodes (o o' : Attr.t) : Prop :=
  Attr.set_nodes (Attr.nodes o) o' = o.

(** The nodes of [d] whose value is no NaN. *)
Definition value_nodes (d : gmap datetime value) : gmap datetime value :=
  filter (λ kv, isnan kv.2 = false) d.

(** The store of the daily series with the node on 2021-02-01. *)
Definition february_heap : heap := snd (daily_and_february empty_heap).

(** ** PI events *)

Section events.
Context `{FloatLib}.

(** The node an [event] element stands for, when its four attributes are
    there, the flag is an integer, the value is blank, the missing value
    or a number, and date and time are a timestamp. *)
Definition event_node (error_value : option text) (event : pi_event)
  : option (datetime * value) :=
  date ← ev_date event;
  time ← ev_time event;
  flag_str ← ev_flag event;
  _ ← Py.int flag_str;
  value_str ← ev_value event;
  v ← (if bool_decide (Py.strip value_str = [])
          || bool_decide (Some value_str = error_value)
       then Some NpNan
       else Float <$> parse_float (Py.strip value_str));
  t ← Strptime.strptime (date ++ Py.lit " " ++ time)
        (Py.lit "%Y-%m-%d %H:%M:%S");
  Some (t, v).

(** The interpretation [read_fews] gives a type. *)
Definition type_interpretation (type_ : text) : option Interpretation :=
  if bool_decide (type_ = Py.lit "instantaneous") then Some Instantaneous
  else if bool_decide (type_ = Py.lit "mean") then Some BlockRight
  else if bool_decide (type_ = Py.lit "accumulative")
  then Some CumulativePerTimestep
  else None.

(** The attributes [read_fews] gives the series of a header. *)
Definition pi_attrs (loc par sname : text) (unit : option text)
    (i : Interpretation) (r : dict_ref) : Attr.t :=
  Attr.Build (Py.to_string (loc ++ Py.lit "." ++ par))
    (AStr (Py.to_string loc))
    (Py.to_string (loc ++ Py.lit "." ++ sname))
    (Py.to_string par)
    (from_option (AStr ∘ Py.to_string) ANone unit)
    "" 0%float 0%float 0%float i r.

End events.

(** ** What a computation leaves alone *)

(** The store [h'] has every instance and every dictionary of [h], as
    they are in [h]. *)
Definition frame (h h' : heap) : Prop :=
  (∀ x o, objects h !! x = Some o → objects h' !! x = Some o) ∧
  (∀ x d, dicts h !! x = Some d → dicts h' !! x = Some d) ∧
  files h' = files h.

(** The store has grown from [h0] by the instance [ts] and its
    dictionary. *)
Definition own (h0 : heap) (ts : ts_ref) (h : heap) : Prop :=
  frame h0 h ∧ objects h0 !! ts = None ∧
  ∃ o, objects h !! ts = Some o ∧ dicts h0 !! Attr.nodes o = None.

(** A computation under which [J] is invariant. *)
Definition preserves (J : heap → Prop) {A} (m : M A) : Prop :=
  ∀ h, J h → J (snd (m h)).

(** ** UVF files, as [write_to_file] writes them *)

Section uvf_files.
Import Py Strptime Timeseries.
Context `{FloatLib}.
Implicit Types (o : Attr.t) (d : gmap datetime value).

(** The field of a value in a line of data. *)
Definition uvf_field (v : value) : text :=
  lit " " ++ format_9_6g (float_of v).

(** The line of a node. *)
Definition uvf_body (kv : datetime * value) : text :=
  uvf_line kv.1 (uvf_field kv.2).

(** The lines before the header. *)
Definition uvf_attributes o : list text :=
  [lit "$sb Einheit: " ++ format_attr (Attr.unit o);
   lit "$sb Beschreibung: " ++ lit (Attr.title o)].

(** The four lines of the header, for the unit [unit] and the first and
    the last date [s] and [e]. *)
Definition uvf_header o (unit : text) (s e : datetime) : list text :=
  [lit "*Z";
   ljust 15 " " (Py.slice (lit (Attr.title o)) 0 15) ++ ljust 15 " " unit
   ++ century_of s ++ lit " " ++ century_of e;
   ljust 15 " " (Py.slice (lit (Attr.location o)) 0 15)
   ++ ljust 10 " " (format_9g (Attr.lat o))
   ++ ljust 10 " " (format_9g (Attr.lon o))
   ++ ljust 10 " " (format_9g (Attr.z o));
   drop 2 (strftime s fmt_uvf) ++ drop 2 (strftime e fmt_uvf)].

(** The value [read_uvf] makes of the field of [v]. *)
Definition reread_uvf (v : value) : value :=
  default NpNan (uvf_value (uvf_field v)).

(** The timestamps and values of a series that a UVF file holds:
    timestamps of whole minutes with a year of four digits, and values
    whose field is one line that [read_uvf] can decode. *)
Definition uvf_nodes d : Prop :=
  map_Forall (λ k v, printable k ∧ Datetime.second k = 0 ∧
                     is_Some (uvf_value (uvf_field v)) ∧
                     no_newline (uvf_field v) = true) d.

End uvf_files.


(** ** PI documents written *)

Section written_documents.
Import Timeseries.
Implicit Types (h : heap).

(** An interpretation that has a type in a PI document. *)
Definition fews_supported (i : Interpretation) : bool :=
  match i with
  | Instantaneous | BlockRight | CumulativePerTimestep => true
  | _ => false
  end.

(** What keeps an entry out of a PI document: it is [None], its
    interpretation has no type, or it has no nodes. *)
Definition fews_error h (ts : option ts_ref) : option exn :=
  match ts with
  | None => Some AttributeError
  | Some r =>
      match objects h !! r with
      | Some o =>
          if fews_supported (Attr.interpretation o) then
            match dicts h !! Attr.nodes o with
            | Some d => if decide (dom d = ∅) then Some IndexError else None
            | None => None
            end
          else Some Exception_
      | None => None
      end
  end.

(** The first of them, in the order of the entries. *)
Fixpoint first_error h (l : list (option ts_ref)) : option exn :=
  match l with
  | [] => None
  | ts :: l' =>
      match fews_error h ts with
      | Some x => Some x
      | None => first_error h l'
      end
  end.

(** The series of a dictionary, in the order of the loops of
    [write_fews]. *)
Definition fews_entries (d : ts_dict) : list (option ts_ref) :=
  flat_map (λ lp, lp.2.*2) d.

(** The store after the first line of [write_fews]. *)
Definition writing h : heap :=
  Heap (objects h) (dicts h)
    (log h ++ [(LogInfo, "Writing FEWS PI Timeseries XML file"%string)])
    (files h).

End written_documents.

(** ** An instance of the XML interface for the examples *)

(** The layout of [toprettyxml], for trees whose texts need no escaping:
    an element without text and children closes itself, an element with a
    text holds it on its line, the children of an element are indented by
    a tab. *)
Fixpoint example_pretty (indent : text) (e : Timeseries.xml) : text :=
  match e with
  | Timeseries.Element tag attrib t children =>
      let open_ :=
        indent ++ Py.lit "<" ++ Py.lit tag
        ++ flat_map (λ kv : string * text,
                       Py.lit " " ++ Py.lit kv.1 ++ Py.lit "="
                       ++ [Timeseries.quote] ++ kv.2 ++ [Timeseries.quote])
             attrib in
      match t, children with
      | AStr s, [] =>
          if String.eqb s "" then open_ ++ Py.lit "/>" ++ [Py.nl]
          else open_ ++ Py.lit ">" ++ Py.lit s ++ Py.lit "</" ++ Py.lit tag
               ++ Py.lit ">" ++ [Py.nl]
      | _, [] => open_ ++ Py.lit "/>" ++ [Py.nl]
      | _, _ =>
          open_ ++ Py.lit ">" ++ [Py.nl]
          ++ flat_map (example_pretty (indent ++ [ascii_of_nat 9])) children
          ++ indent ++ Py.lit "</" ++ Py.lit tag ++ Py.lit ">" ++ [Py.nl]
      end
  end.

(** A text that is an integer cannot be serialised. *)
Fixpoint example_serialisable (e : Timeseries.xml) : bool :=
  match e with
  | Timeseries.Element _ _ t children =>
      match t with AInt _ => false | _ => true end
      && forallb example_serialisable children
  end.

#[global] Instance example_xml : Timeseries.XmlLib :=
  {| Timeseries.toprettyxml := λ e,
       if example_serialisable e
       then inr (Py.lit "<?xml version=" ++ [Timeseries.quote] ++ Py.lit "1.0"
                 ++ [Timeseries.quote] ++ Py.lit " ?>" ++ [Py.nl]
                 ++ example_pretty [] e)
       else inl TypeError |}.

(** ** Monthly dates *)

(** The months from the year 0 to the month of a date. *)
Definition month_index (t : datetime) : Z :=
  Datetime.year t * 12 + (Datetime.month t - 1).

(** [t], [add_months(t, 1)], [add_months(add_months(t, 1), 1)] and so
    on, [n] steps from [t]. *)
Fixpoint month_dates (n : nat) (t : datetime) : list datetime :=
  t :: match n with
       | O => []
       | S n' => from_option (month_dates n') [] (Datetime.add_months t 1)
       end.

(** ** The proleptic Gregorian calendar *)

(** The month and the day of the [n]th day of a year, counted from 0, as
    [ord2ymd] finds them. *)
Definition month_day (leapyear : bool) (n : Z) : Z * Z :=
  let m := Z.shiftr (n + 50) 5 in
  let preceding :=
    Datetime.days_before_month_table m
    + (if (2 <? m) && leapyear then 1 else 0) in
  if n <? preceding then
    let m' := m - 1 in
    let preceding' :=
      preceding
      - (Datetime.days_in_month_table m'
         + (if (m' =? 2) && leapyear then 1 else 0)) in
    (m', n - preceding' + 1)
  else (m, n - preceding + 1).

(** They are a month and a day of the year, and the day is the [n]th. *)
Definition month_day_ok (leapyear : bool) (n : Z) : bool :=
  let '(m, d) := month_day leapyear n in
  (1 <=? m) && (m <=? 12) && (1 <=? d)
  && (d <=? Datetime.days_in_month_table m
            + (if (m =? 2) && leapyear then 1 else 0))
  && (Datetime.days_before_month_table m
      + (if (2 <? m) && leapyear then 1 else 0) + d =? n + 1).

(** [t.toordinal()] *)
Definition toordinal (t : datetime) : Z :=
  Datetime.ymd2ord (Datetime.year t) (Datetime.month t) (Datetime.day t).

(** The microseconds of [t - datetime.datetime(1, 1, 1)], and a day. *)
Definition since_start (t : datetime) : Z :=
  toordinal t * Datetime.us_per_day + Datetime.time_us t.

(** ** Daily dates *)

(** [t], [t + timedelta(1)], [t + timedelta(1) + timedelta(1)] and so on,
    [n] steps from [t]. *)
Fixpoint day_dates (n : nat) (t : datetime) : list datetime :=
  t :: match n with
       | O => []
       | S n' =>
           from_option (day_dates n') []
             (Datetime.add_timedelta t Datetime.us_per_day)
       end.
(** * Properties *)

(** ** The order on datetimes is a decidable total order *)

Module DatetimeFacts.
Import Datetime.

Lemma lex_compare_refl xs : lex_compare xs xs = Eq.
Proof. induction xs as [|x xs IH]; simpl; [done|]. by rewrite Z.compare_refl. Qed.

Lemma lex_compare_eq xs ys : lex_compare xs ys = Eq → xs = ys.
Proof.
  revert ys. induction xs as [|x xs IH]; intros [|y ys]; simpl; try done.
  destruct (Z.compare_spec x y) as [->|_|_]; try done.
  intros Hc. f_equal. auto.
Qed.

Lemma lex_compare_antisym xs ys :
  lex_compare ys xs = CompOpp (lex_compare xs ys).
Proof.
  revert ys. induction xs as [|x xs IH]; intros [|y ys]; simpl; try done.
  rewrite (Z.compare_antisym x y).
  destruct (Z.compare x y); simpl; auto.
Qed.

Lemma lex_compare_lt_trans xs ys zs :
  lex_compare xs ys = Lt → lex_compare ys zs = Lt → lex_compare xs zs = Lt.
Proof.
  revert ys zs. induction xs as [|x xs IH]; intros [|y ys] [|z zs]; simpl;
    try done.
  destruct (Z.compare_spec x y) as [Hxy|Hxy|Hxy],
    (Z.compare_spec y z) as [Hyz|Hyz|Hyz]; try done; subst; intros H1 H2.
  - rewrite Z.compare_refl. eauto.
  - by apply Z.compare_lt_iff in Hyz as ->.
  - by apply Z.compare_lt_iff in Hxy as ->.
  - assert (x < z) as ->%Z.compare_lt_iff by lia. done.
Qed.

Lemma fields_inj a b : fields a = fields b → a = b.
Proof. destruct a, b; unfold fields; simpl. by intros [= -> -> -> -> -> -> ->]. Qed.

Lemma compare_refl a : compare a a = Eq.
Proof. apply lex_compare_refl. Qed.

Lemma compare_eq a b : compare a b = Eq ↔ a = b.
Proof.
  split; [|intros ->; apply compare_refl].
  intros H. by apply fields_inj, lex_compare_eq.
Qed.

Lemma compare_antisym a b : compare b a = CompOpp (compare a b).
Proof. apply lex_compare_antisym. Qed.

Lemma lt_trans a b c : lt a b → lt b c → lt a c.
Proof. apply lex_compare_lt_trans. Qed.

Lemma lt_irrefl a : ¬ lt a a.
Proof. unfold lt. by rewrite compare_refl. Qed.

Lemma le_lteq a b : le a b ↔ lt a b ∨ a = b.
Proof.
  unfold le, lt. rewrite <- compare_eq.
  destruct (compare a b); intuition congruence.
Qed.

Lemma lt_gt a b : lt a b ↔ compare b a = Gt.
Proof. unfold lt. rewrite (compare_antisym a b). destruct (compare a b); naive_solver. Qed.

Lemma not_le_lt a b : ¬ le a b ↔ lt b a.
Proof.
  rewrite lt_gt. unfold le. destruct (compare a b); naive_solver.
Qed.

Lemma not_lt_le a b : ¬ lt a b ↔ le b a.
Proof.
  unfold le. rewrite <- lt_gt. done.
Qed.

Lemma lt_le_incl a b : lt a b → le a b.
Proof. rewrite le_lteq. auto. Qed.

Lemma le_lt_trans a b c : le a b → lt b c → lt a c.
Proof. rewrite le_lteq. intros [?| ->]; eauto using lt_trans. Qed.

Lemma lt_le_trans a b c : lt a b → le b c → lt a c.
Proof. rewrite le_lteq. intros ? [?| <-]; eauto using lt_trans. Qed.

#[global] Instance le_refl : Reflexive le.
Proof. intros a. apply le_lteq. auto. Qed.

#[global] Instance le_trans : Transitive le.
Proof.
  intros a b c. rewrite !le_lteq.
  intros [?| ->] [?| <-]; eauto using lt_trans.
Qed.

#[global] Instance le_total : Total le.
Proof.
  intros a b. destruct (decide (le a b)) as [|H]; [by left|right].
  by apply lt_le_incl, not_le_lt.
Qed.

#[global] Instance le_antisym : AntiSymm (=) le.
Proof.
  intros a b. rewrite !le_lteq. intros [H1| ->] [H2|H2]; try done.
  destruct (lt_irrefl a). eauto using lt_trans.
Qed.

Lemma ltb_lt a b : ltb a b = true ↔ lt a b.
Proof. unfold ltb, lt. destruct (compare a b); naive_solver. Qed.

Lemma leb_le a b : leb a b = true ↔ le a b.
Proof. unfold leb, le. destruct (compare a b); naive_solver. Qed.

Lemma gtb_lt a b : gtb a b = true ↔ lt b a.
Proof. apply ltb_lt. Qed.

Lemma geb_le a b : geb a b = true ↔ le b a.
Proof. apply leb_le. Qed.

Lemma ltb_ge a b : ltb a b = false ↔ le b a.
Proof. rewrite <- not_lt_le, <- ltb_lt. destruct (ltb a b); naive_solver. Qed.

End DatetimeFacts.
Import DatetimeFacts.

(** ** Running the store primitives *)

Section primitives.
Implicit Types (h : heap) (o : Attr.t) (d : gmap datetime value).

Lemma bind_ok {A B} (m : M A) (f : A → M B) h a h' :
  m h = (Ok a, h') → (m ≫= f) h = f a h'.
Proof. unfold mbind, M_bind. by intros ->. Qed.

Lemma bind_raise {A B} (m : M A) (f : A → M B) h e h' :
  m h = (Raise e, h') → (m ≫= f) h = (Raise e, h').
Proof. unfold mbind, M_bind. by intros ->. Qed.

Lemma bind_inv_ok {A B} (m : M A) (f : A → M B) h b h2 :
  (m ≫= f) h = (Ok b, h2) →
  ∃ a h1, m h = (Ok a, h1) ∧ f a h1 = (Ok b, h2).
Proof.
  unfold mbind, M_bind. destruct (m h) as [[a|e|] h1]; try done. eauto.
Qed.

Lemma get_obj_ok h r o :
  objects h !! r = Some o → get_obj r h = (Ok o, h).
Proof. unfold get_obj. by intros ->. Qed.

Lemma get_dict_ok h r d :
  dicts h !! r = Some d → get_dict r h = (Ok d, h).
Proof. unfold get_dict. by intros ->. Qed.

Lemma put_dict_ok h r d d' :
  dicts h !! r = Some d →
  put_dict r d' h = (Ok (), Heap (objects h) (<[r := d']> (dicts h)) (log h) (files h)).
Proof. unfold put_dict. by intros ->. Qed.

Lemma modify_obj_ok h r o f :
  objects h !! r = Some o →
  modify_obj r f h
  = (Ok (), Heap (<[r := f o]> (objects h)) (dicts h) (log h) (files h)).
Proof. unfold modify_obj. by intros ->. Qed.

Lemma get_nodes_ok h r o d :
  objects h !! r = Some o → dicts h !! Attr.nodes o = Some d →
  Timeseries.get_nodes r h = (Ok d, h).
Proof.
  intros Ho Hd. unfold Timeseries.get_nodes.
  erewrite bind_ok by by apply get_obj_ok. by apply get_dict_ok.
Qed.

Lemma nodes_of_Some h r d :
  nodes_of h r = Some d ↔
  ∃ o, objects h !! r = Some o ∧ dicts h !! Attr.nodes o = Some d.
Proof.
  unfold nodes_of. destruct (objects h !! r) as [o|]; simpl.
  - split; [eauto|]. by intros (? & [= <-] & ?).
  - split; [done|]. by intros (? & ? & ?).
Qed.
End primitives.

(** ** [add_node] and assignment through the mapping *)

Section add_node.
Import Timeseries.
Implicit Types (h : heap) (o : Attr.t) (d : gmap datetime value).

Lemma add_node_new h self o d t k v :
  objects h !! self = Some o → dicts h !! Attr.nodes o = Some d →
  naive_datetime t = Some k → k ∉ dom d →
  add_node self t v h
  = (Ok (), Heap (objects h) (<[Attr.nodes o := <[k := v]> d]> (dicts h))
              (log h) (files h)).
Proof.
  intros Ho Hd Ht Hk. unfold add_node.
  destruct t; simplify_eq/=; unfold mbind, M_bind, mret, M_ret; simpl;
    rewrite (get_obj_ok _ _ _ Ho), (get_dict_ok _ _ _ Hd);
    (destruct (decide _) as [|_]; [contradiction|]);
    by erewrite put_dict_ok.
Qed.

Lemma add_node_duplicate h self o d t k v :
  objects h !! self = Some o → dicts h !! Attr.nodes o = Some d →
  naive_datetime t = Some k → k ∈ dom d →
  add_node self t v h = (Raise KeyError, h).
Proof.
  intros Ho Hd Ht Hk. unfold add_node.
  destruct t; simplify_eq/=; unfold mbind, M_bind, mret, M_ret; simpl;
    rewrite (get_obj_ok _ _ _ Ho), (get_dict_ok _ _ _ Hd);
    (destruct (decide _) as [_|]; [done|contradiction]).
Qed.

Lemma add_node_not_a_date h self v :
  add_node self PyOther v h = (Raise ValueError, h).
Proof. done. Qed.

Lemma add_node_raise_inv h self t v e h' :
  add_node self t v h = (Raise e, h') →
  h' = h ∧
  ((t = PyOther ∧ e = ValueError) ∨
   (e = KeyError ∧
    ∃ k d, naive_datetime t = Some k ∧ nodes_of h self = Some d ∧
           k ∈ dom d)).
Proof.
  assert (∀ k, (o ← get_obj self; d ← get_dict (Attr.nodes o);
                if decide (k ∈ dom d) then raise KeyError
                else put_dict (Attr.nodes o) (<[k := v]> d)) h
               = (Raise e, h') →
          h' = h ∧ e = KeyError ∧
          ∃ d, nodes_of h self = Some d ∧ k ∈ dom d) as Hbody.
  { intros k. unfold nodes_of, mbind, M_bind, get_obj, get_dict, put_dict.
    destruct (objects h !! self) as [o|]; simpl; [|done].
    destruct (dicts h !! Attr.nodes o) as [d|] eqn:Hd; simpl; [|done].
    destruct (decide _) as [Hin|_]; [|by rewrite Hd].
    intros [= <- <-]. eauto. }
  unfold add_node. destruct t as [k tz|y m dd|].
  - intros (-> & -> & d & ? & ?)%Hbody. split; [done|right]. eauto 10.
  - intros (-> & -> & d & ? & ?)%Hbody. split; [done|right]. eauto 10.
  - intros [= <- <-]. eauto.
Qed.

Lemma nodes_setitem_ok h self o d k v :
  objects h !! self = Some o → dicts h !! Attr.nodes o = Some d →
  nodes_setitem self k v h
  = (Ok (), Heap (objects h) (<[Attr.nodes o := <[k := v]> d]> (dicts h))
              (log h) (files h)).
Proof.
  intros Ho Hd. unfold nodes_setitem, mbind, M_bind.
  rewrite (get_obj_ok _ _ _ Ho), (get_dict_ok _ _ _ Hd).
  by erewrite put_dict_ok.
Qed.

Lemma nodes_delitem_ok h self o d k :
  objects h !! self = Some o → dicts h !! Attr.nodes o = Some d →
  k ∈ dom d →
  nodes_delitem self k h
  = (Ok (), Heap (objects h) (<[Attr.nodes o := delete k d]> (dicts h))
              (log h) (files h)).
Proof.
  intros Ho Hd Hk. unfold nodes_delitem, mbind, M_bind.
  rewrite (get_obj_ok _ _ _ Ho), (get_dict_ok _ _ _ Hd).
  destruct (decide _); [|contradiction]. by erewrite put_dict_ok.
Qed.
End add_node.

Section claims_add_node.
Import Timeseries.
Implicit Types (h : heap) (o : Attr.t) (d : gmap datetime value).

(** C7. For a series whose nodes already hold the timestamp [k],
    [add_node] at [k] raises [KeyError] whatever the value (and whatever
    timezone the argument carries), whereas [self.nodes[k] = v] returns
    normally, stores [v] at [k], leaves every other node as it was, and
    changes no attribute of any series nor any other dictionary. *)
Theorem add_node_existing_raises_assignment_overwrites
    h self o d k tz v :
  objects h !! self = Some o → dicts h !! Attr.nodes o = Some d →
  k ∈ dom d →
  add_node self (PyDatetime k tz) v h = (Raise KeyError, h) ∧
  ∃ h' d',
    nodes_setitem self k v h = (Ok (), h') ∧
    nodes_of h' self = Some d' ∧
    d' !! k = Some v ∧
    (∀ k', k' ≠ k → d' !! k' = d !! k') ∧
    objects h' = objects h ∧
    (∀ r, r ≠ Attr.nodes o → dicts h' !! r = dicts h !! r).
Proof.
  intros Ho Hd Hk. split.
  - by eapply add_node_duplicate.
  - eexists _, (<[k := v]> d). split; [by apply nodes_setitem_ok|].
    split_and!; simpl.
    + apply nodes_of_Some. exists o. simpl. by rewrite lookup_insert_eq.
    + apply lookup_insert_eq.
    + intros k' Hne. by apply lookup_insert_ne.
    + done.
    + intros r Hne. by apply lookup_insert_ne.
Qed.

Lemma add_node_existing_raises_assignment_overwrites_witness :
  let h := daily_heap in
  let k := jan2021 2 in
  add_node daily (PyDatetime k None) (Float 7) h
    = (Raise KeyError, h) ∧
  ∃ h' d',
    nodes_setitem daily k (Float 7) h = (Ok (), h') ∧
    nodes_of h' daily = Some d' ∧
    d' !! k = Some (Float 7) ∧
    (∀ k', k' ≠ k →
       d' !! k' = (default ∅ (nodes_of h daily)) !! k') ∧
    objects h' = objects h ∧
    (∀ r, r ≠ 1%positive → dicts h' !! r = dicts h !! r).
Proof.
  intros h k.
  refine (add_node_existing_raises_assignment_overwrites h daily
            (Attr.Build "daily" (AStr "0") "" "" (AStr "") "" 0 0 0 Undefined
     1%positive)
            (default ∅ (nodes_of h daily)) k None (Float 7)
            _ _ _).
  - vm_compute. reflexivity.
  - reflexivity.
  - apply elem_of_dom. vm_compute. eauto.
Defined.

(** C10. A call of [add_node] that raises leaves the whole store as it
    was: the nodes and the attributes of the series (and of every other
    series) are unchanged. *)
Theorem add_node_failure_is_atomic h self t v e h' :
  add_node self t v h = (Raise e, h') → h' = h.
Proof. intros H. by apply add_node_raise_inv in H as [-> _]. Qed.

Lemma add_node_failure_is_atomic_witness :
  add_node daily (PyDatetime (jan2021 2) None) NpNan
    daily_heap = (Raise KeyError, daily_heap) ∧
  add_node daily PyOther NpNan daily_heap
    = (Raise ValueError, daily_heap).
Proof.
  assert (add_node daily (PyDatetime (jan2021 2) None)
            NpNan daily_heap
          = (Raise KeyError,
             snd (add_node daily
                    (PyDatetime (jan2021 2) None) NpNan
                    daily_heap))) as H1
    by (vm_compute; reflexivity).
  assert (add_node daily PyOther NpNan daily_heap
          = (Raise ValueError,
             snd (add_node daily PyOther NpNan
                    daily_heap))) as H2
    by (vm_compute; reflexivity).
  split.
  - etransitivity; [exact H1|].
    apply (f_equal (pair (Raise KeyError))).
    exact (add_node_failure_is_atomic _ _ _ _ _ _ H1).
  - etransitivity; [exact H2|].
    apply (f_equal (pair (Raise ValueError))).
    exact (add_node_failure_is_atomic _ _ _ _ _ _ H2).
Defined.
End claims_add_node.

(** ** Sorted keys and iteration *)

Section sorted_keys.
Import Timeseries.
Implicit Types (h : heap) (o : Attr.t) (d : gmap datetime value).

Lemma sorted_keys_Permutation d : sorted_keys d ≡ₚ (map_to_list d).*1.
Proof. apply merge_sort_Permutation. Qed.

Lemma elem_of_sorted_keys d k : k ∈ sorted_keys d ↔ k ∈ dom d.
Proof.
  rewrite sorted_keys_Permutation, elem_of_dom.
  rewrite list_elem_of_fmap. split.
  - intros [[k' v] [-> Hkv]]. apply elem_of_map_to_list in Hkv. eauto.
  - intros [v Hv]. exists (k, v). split; [done|].
    by apply elem_of_map_to_list.
Qed.

Lemma NoDup_sorted_keys d : NoDup (sorted_keys d).
Proof. rewrite sorted_keys_Permutation. apply NoDup_fst_map_to_list. Qed.

Lemma sorted_keys_sorted d : StronglySorted Datetime.le (sorted_keys d).
Proof. apply StronglySorted_merge_sort; apply _. Qed.

Lemma list_to_set_sorted_keys d :
  list_to_set (sorted_keys d) =@{gset datetime} dom d.
Proof.
  apply set_eq. intros k.
  by rewrite elem_of_list_to_set, elem_of_sorted_keys.
Qed.

(** Strict sortedness: no two keys are equal. *)
Lemma sorted_keys_strictly_sorted d :
  StronglySorted Datetime.lt (sorted_keys d).
Proof.
  pose proof (sorted_keys_sorted d) as Hs.
  pose proof (NoDup_sorted_keys d) as Hn.
  induction Hs as [|k ks Hs IH Hall]; [constructor|].
  apply NoDup_cons in Hn as [Hk Hn]. constructor; [auto|].
  rewrite Forall_forall in Hall |- *. intros k' Hk'.
  pose proof (Hall k' Hk') as Hle.
  apply le_lteq in Hle as [?| ->]; [done|].
  by destruct Hk.
Qed.

Lemma lookup_all_ok d ks h :
  Forall (λ k, k ∈ dom d) ks →
  lookup_all d ks h = (Ok (omap (λ k, (k,.) <$> d !! k) ks), h).
Proof.
  induction 1 as [|k ks Hk _ IH]; [done|].
  apply elem_of_dom in Hk as [v Hv]. simpl.
  unfold mbind at 1, M_bind, getitem. rewrite Hv. simpl.
  unfold mbind at 1, M_bind. by rewrite IH.
Qed.

Lemma iter_ok h self o d :
  objects h !! self = Some o → dicts h !! Attr.nodes o = Some d →
  iter self h
  = (Ok (omap (λ k, (k,.) <$> d !! k) (sorted_keys d)), h).
Proof.
  intros Ho Hd. unfold iter.
  erewrite bind_ok by by eapply get_nodes_ok.
  apply lookup_all_ok, Forall_forall. intros k.
  by rewrite elem_of_sorted_keys.
Qed.

Lemma dates_ok h self o d :
  objects h !! self = Some o → dicts h !! Attr.nodes o = Some d →
  dates self h = (Ok (sorted_keys d), h).
Proof.
  intros Ho Hd. unfold dates. by erewrite bind_ok by by eapply get_nodes_ok.
Qed.
End sorted_keys.

(** ** [copy] and [copy_metadata] *)

Section copy.
Import Timeseries.
Implicit Types (h : heap) (o : Attr.t) (d : gmap datetime value).

Lemma fresh_dict_ne h r :
  is_Some (dicts h !! r) → r ≠ fresh (dom (dicts h)).
Proof.
  intros Hr%elem_of_dom ->. by apply is_fresh in Hr.
Qed.

Lemma fresh_obj_ne h r :
  is_Some (objects h !! r) → r ≠ fresh (dom (objects h)).
Proof.
  intros Hr%elem_of_dom ->. by apply is_fresh in Hr.
Qed.

Lemma fresh_lookup_None {V} (m : gmap positive V) :
  m !! fresh (dom m) = None.
Proof. apply not_elem_of_dom, is_fresh. Qed.

Lemma copy_ok h self o d :
  objects h !! self = Some o → dicts h !! Attr.nodes o = Some d →
  let c := fresh (dom (objects h)) in
  let r0 := fresh (dom (dicts h)) in
  let r := fresh (dom (<[r0 := ∅]> (dicts h))) in
  copy self h
  = (Ok c, Heap (<[c := copied_attrs o r]> (objects h))
             (<[r := d]> (<[r0 := ∅]> (dicts h))) (log h) (files h)).
Proof.
  intros Ho Hd c r0 r.
  assert (Attr.nodes o ≠ r0) as Hne by (apply fresh_dict_ne; eauto).
  unfold copy, new.
  unfold mbind, M_bind, mret, M_ret, get_obj, alloc_dict, alloc_obj,
    modify_obj, get_dict. simpl.
  rewrite Ho. simpl. fold r0. fold c.
  repeat (rewrite lookup_insert_eq; simpl; rewrite insert_insert_eq).
  rewrite lookup_insert_ne by done. rewrite Hd. simpl.
  rewrite lookup_insert_eq. simpl. rewrite insert_insert_eq. done.
Qed.

Lemma add_node_frame h self o t v out h' :
  objects h !! self = Some o → add_node self t v h = (out, h') →
  objects h' = objects h ∧ log h' = log h ∧ files h' = files h ∧
  (∀ r, r ≠ Attr.nodes o → dicts h' !! r = dicts h !! r).
Proof.
  intros Ho. unfold add_node.
  assert (∀ k, (o ← get_obj self; d ← get_dict (Attr.nodes o);
                if decide (k ∈ dom d) then raise KeyError
                else put_dict (Attr.nodes o) (<[k := v]> d)) h
               = (out, h') →
          objects h' = objects h ∧ log h' = log h ∧ files h' = files h ∧
          (∀ r, r ≠ Attr.nodes o → dicts h' !! r = dicts h !! r)) as Hbody.
  { intros k. unfold mbind, M_bind, get_obj, get_dict, put_dict.
    rewrite Ho. simpl.
    destruct (dicts h !! Attr.nodes o) as [d|] eqn:Hd; simpl;
      [|by intros [= <- <-]].
    destruct (decide _) as [Hin|_]; [by intros [= <- <-]|].
    rewrite Hd. intros [= <- <-]. simpl. split_and!; [done..|].
    intros r Hr. by rewrite lookup_insert_ne. }
  destruct t; [apply Hbody..|]. by intros [= <- <-].
Qed.

Lemma nodes_delitem_frame h self o k out h' :
  objects h !! self = Some o → nodes_delitem self k h = (out, h') →
  objects h' = objects h ∧ log h' = log h ∧ files h' = files h ∧
  (∀ r, r ≠ Attr.nodes o → dicts h' !! r = dicts h !! r).
Proof.
  intros Ho. unfold nodes_delitem, mbind, M_bind, get_obj, get_dict, put_dict.
  rewrite Ho. simpl.
  destruct (dicts h !! Attr.nodes o) as [d|] eqn:Hd; simpl;
    [|by intros [= <- <-]].
  destruct (decide _) as [Hin|_]; [|by intros [= <- <-]].
  rewrite Hd. intros [= <- <-]. simpl. split_and!; [done..|].
  intros r Hr. by rewrite lookup_insert_ne.
Qed.

(** What [copy] does, for every series of a store: the new instance has
    the attributes of the original except [interpretation], and a
    dictionary of its own with the same nodes; writing to the copy never
    reaches the original. *)
Lemma copy_spec h self o d :
  objects h !! self = Some o → dicts h !! Attr.nodes o = Some d →
  ∃ c h' oc,
    copy self h = (Ok c, h') ∧
    objects h !! c = None ∧ objects h' !! c = Some oc ∧
    Attr.title oc = Attr.title o ∧
    Attr.station_id oc = Attr.station_id o ∧
    Attr.station_name oc = Attr.station_name o ∧
    Attr.param oc = Attr.param o ∧
    Attr.unit oc = Attr.unit o ∧
    Attr.location oc = Attr.location o ∧
    Attr.lat oc = Attr.lat o ∧ Attr.lon oc = Attr.lon o ∧
    Attr.z oc = Attr.z o ∧
    Attr.interpretation oc = Undefined ∧
    dicts h !! Attr.nodes oc = None ∧
    dicts h' !! Attr.nodes oc = Some d ∧
    (∀ r, r ≠ c → objects h' !! r = objects h !! r) ∧
    (∀ r, is_Some (dicts h !! r) → dicts h' !! r = dicts h !! r) ∧
    (∀ t v out h'', add_node c t v h' = (out, h'') →
                    nodes_of h'' self = Some d) ∧
    (∀ k out h'', nodes_delitem c k h' = (out, h'') →
                  nodes_of h'' self = Some d).
Proof.
  intros Ho Hd. pose proof (copy_ok h self o d Ho Hd) as Hc.
  simpl in Hc.
  set (c := fresh (dom (objects h))) in *.
  set (r0 := fresh (dom (dicts h))) in *.
  set (r := fresh (dom (<[r0 := ∅]> (dicts h)))) in *.
  assert (self ≠ c) as Hsc by (apply fresh_obj_ne; eauto).
  assert (dicts h !! r = None) as Hr.
  { pose proof (fresh_lookup_None (<[r0 := ∅]> (dicts h))) as Hf.
    fold r in Hf. apply lookup_insert_None in Hf as [? _]. done. }
  assert (∀ r', is_Some (dicts h !! r') →
            <[r := d]> (<[r0 := ∅]> (dicts h)) !! r' = dicts h !! r')
    as Hframe.
  { intros r' Hr'. rewrite !lookup_insert_ne; [done|..].
    - intros <-. by apply fresh_dict_ne in Hr'.
    - intros <-. rewrite Hr in Hr'. by destruct Hr'. }
  assert (objects (Heap (<[c := copied_attrs o r]> (objects h))
                     (<[r := d]> (<[r0 := ∅]> (dicts h))) (log h) (files h))
            !! self = Some o) as Ho'.
  { simpl. by rewrite lookup_insert_ne. }
  assert (objects (Heap (<[c := copied_attrs o r]> (objects h))
                     (<[r := d]> (<[r0 := ∅]> (dicts h))) (log h) (files h))
            !! c = Some (copied_attrs o r)) as Hoc.
  { simpl. by rewrite lookup_insert_eq. }
  eexists c, _, (copied_attrs o r). split; [exact Hc|].
  split_and!; simpl; try done.
  all: try (by rewrite lookup_insert_eq).
  all: try apply fresh_lookup_None.
  - intros r' Hr'. by rewrite lookup_insert_ne.
  - intros t v out h'' Hrun.
    destruct (add_node_frame _ _ _ _ _ _ _ Hoc Hrun) as (Hobj & _ & _ & Hd').
    apply nodes_of_Some. exists o. rewrite Hobj. split; [done|].
    rewrite Hd'; simpl; [|intros Heq; by rewrite Heq, Hr in Hd].
    rewrite Hframe; eauto.
  - intros k out h'' Hrun.
    destruct (nodes_delitem_frame _ _ _ _ _ _ Hoc Hrun) as (Hobj & _ & _ & Hd').
    apply nodes_of_Some. exists o. rewrite Hobj. split; [done|].
    rewrite Hd'; simpl; [|intros Heq; by rewrite Heq, Hr in Hd].
    rewrite Hframe; eauto.
Qed.
End copy.

Section claims_copy.
Import Timeseries.

(** C6, on the code.  The copy of a series whose interpretation is
    [BlockRight] has the interpretation [Undefined]: [copy] carries the
    nine other attributes and the nodes over, not the interpretation. *)
Theorem copy_loses_interpretation :
  fst (copy gauge gauge_heap) = Ok 2%positive ∧
  Attr.interpretation <$> objects gauge_heap !! gauge = Some BlockRight ∧
  Attr.interpretation <$> objects (snd (copy gauge gauge_heap)) !! 2%positive
    = Some Undefined ∧
  Attr.unit <$> objects (snd (copy gauge gauge_heap)) !! 2%positive
    = Some (AStr "m3/s") ∧
  map_to_list <$> nodes_of (snd (copy gauge gauge_heap)) 2%positive
    = map_to_list <$> nodes_of gauge_heap gauge.
Proof. vm_compute. done. Qed.
End claims_copy.

(** ** [synchronize] *)

Section synchronize.
Import Timeseries.
Implicit Types (h : heap) (o : Attr.t) (d : gmap datetime value).

Lemma lookup_remove_keys ks d k :
  remove_keys ks d !! k = if decide (k ∈ ks) then None else d !! k.
Proof.
  revert d. induction ks as [|k' ks IH]; intros d.
  - destruct (decide (k ∈ [])) as [Hin|_]; [|done].
    by apply elem_of_nil in Hin.
  - unfold remove_keys in *. simpl. rewrite IH.
    destruct (decide (k ∈ ks)) as [Hin|Hin].
    + rewrite decide_True by by right. done.
    + destruct (decide (k = k')) as [->|Hne].
      * rewrite decide_True by by left. apply lookup_delete_eq.
      * rewrite decide_False by by intros [?|?]%elem_of_cons.
        by apply lookup_delete_ne.
Qed.

Lemma remove_keys_difference (d d2 : gmap datetime value) :
  remove_keys (elements (dom d ∖ dom d2)) d
  = filter (λ kv, kv.1 ∈ dom d2) d.
Proof.
  apply map_eq. intros k.
  rewrite lookup_remove_keys, map_lookup_filter.
  destruct (d !! k) as [v|] eqn:Hk; simpl.
  - destruct (decide (k ∈ dom d2)) as [Hin|Hin].
    + rewrite decide_False; [by rewrite option_guard_True|].
      rewrite elem_of_elements. set_solver.
    + rewrite decide_True; [by rewrite option_guard_False|].
      rewrite elem_of_elements. apply elem_of_difference.
      split; [|done]. apply elem_of_dom. eauto.
  - by destruct (decide _).
Qed.

Lemma for_each_delitem ks h self o d :
  objects h !! self = Some o → dicts h !! Attr.nodes o = Some d →
  NoDup ks → (∀ k, k ∈ ks → k ∈ dom d) →
  ∃ h', for_each ks (nodes_delitem self) h = (Ok (), h') ∧
        objects h' = objects h ∧ log h' = log h ∧ files h' = files h ∧
        dicts h' = <[Attr.nodes o := remove_keys ks d]> (dicts h).
Proof.
  revert h d. induction ks as [|k ks IH]; intros h d Ho Hd Hnd Hin.
  - exists h. split_and!; try done. simpl. by rewrite insert_id.
  - apply NoDup_cons in Hnd as [Hk Hnd]. simpl.
    erewrite bind_ok; last first.
    { eapply nodes_delitem_ok; [done..|]. apply Hin. by left. }
    edestruct (IH (Heap (objects h)
                     (<[Attr.nodes o := delete k d]> (dicts h)) (log h) (files h))
                 (delete k d)) as (h' & Hrun & Hobj & Hlog & Hfiles & Hdicts);
      simpl; try done.
    { by rewrite lookup_insert_eq. }
    { intros k' Hk'. rewrite dom_delete_L. apply elem_of_difference.
      split; [apply Hin; by right|]. set_solver. }
    exists h'. split_and!; try done.
    simpl in Hdicts. by rewrite Hdicts, insert_insert_eq.
Qed.

Lemma synchronize_ok h a b oa ob da db :
  objects h !! a = Some oa → dicts h !! Attr.nodes oa = Some da →
  objects h !! b = Some ob → dicts h !! Attr.nodes ob = Some db →
  ∃ a' b' h1 ra rb,
    synchronize a b h = (Ok (a', b'), h1) ∧
    objects h !! a' = None ∧ objects h !! b' = None ∧ a' ≠ b' ∧
    dicts h !! ra = None ∧ dicts h !! rb = None ∧ ra ≠ rb ∧
    objects h1 !! a' = Some (copied_attrs oa ra) ∧
    objects h1 !! b' = Some (copied_attrs ob rb) ∧
    dicts h1 !! ra = Some (filter (λ kv, kv.1 ∈ dom db) da) ∧
    dicts h1 !! rb = Some (filter (λ kv, kv.1 ∈ dom da) db) ∧
    (∀ r, is_Some (objects h !! r) → objects h1 !! r = objects h !! r) ∧
    (∀ r, is_Some (dicts h !! r) → dicts h1 !! r = dicts h !! r).
Proof.
  intros Hoa Hda Hob Hdb. unfold synchronize.
  erewrite bind_ok by by eapply dates_ok.
  erewrite bind_ok by by eapply dates_ok.
  rewrite !list_to_set_sorted_keys.
  (* the two copies *)
  destruct (copy_spec h a oa da Hoa Hda)
    as (a' & h1 & oa' & Hrun1 & Hna' & Hoa' & ? & ? & ? & ? & ? & ? & ? & ?
        & ? & ? & Hnra & Hdra & Hfo1 & Hfd1 & _).
  erewrite bind_ok by exact Hrun1.
  assert (objects h1 !! b = Some ob) as Hob1.
  { rewrite Hfo1; [done|]. intros ->. by rewrite Hna' in Hob. }
  assert (dicts h1 !! Attr.nodes ob = Some db) as Hdb1.
  { rewrite Hfd1; eauto. }
  destruct (copy_spec h1 b ob db Hob1 Hdb1)
    as (b' & h2 & ob' & Hrun2 & Hnb' & Hob' & ? & ? & ? & ? & ? & ? & ? & ?
        & ? & ? & Hnrb & Hdrb & Hfo2 & Hfd2 & _).
  erewrite bind_ok by exact Hrun2.
  assert (a' ≠ b') as Hab by (intros ->; by rewrite Hnb' in Hoa').
  assert (Attr.nodes oa' ≠ Attr.nodes ob') as Hrab.
  { intros Heq. by rewrite Heq, Hnrb in Hdra. }
  assert (objects h2 !! a' = Some oa') as Hoa2 by by rewrite Hfo2.
  assert (dicts h2 !! Attr.nodes oa' = Some da) as Hda2.
  { rewrite Hfd2; eauto. }
  (* the nodes of [ts1] that [ts2] lacks are deleted *)
  destruct (for_each_delitem (elements (dom da ∖ dom db)) h2 a' oa' da)
    as (h3 & Hrun3 & Hobj3 & _ & _ & Hd3); try done.
  { apply NoDup_elements. }
  { intros k. rewrite elem_of_elements. set_solver. }
  erewrite bind_ok by exact Hrun3.
  assert (objects h3 !! b' = Some ob') as Hob3 by by rewrite Hobj3.
  assert (dicts h3 !! Attr.nodes ob' = Some db) as Hdb3.
  { rewrite Hd3, lookup_insert_ne by done. done. }
  destruct (for_each_delitem (elements (dom db ∖ dom da)) h3 b' ob' db)
    as (h4 & Hrun4 & Hobj4 & _ & _ & Hd4); try done.
  { apply NoDup_elements. }
  { intros k. rewrite elem_of_elements. set_solver. }
  erewrite bind_ok by exact Hrun4.
  rewrite !remove_keys_difference in *.
  assert (oa' = copied_attrs oa (Attr.nodes oa')) as Hca.
  { destruct oa', oa; simpl in *; by simplify_eq. }
  assert (ob' = copied_attrs ob (Attr.nodes ob')) as Hcb.
  { destruct ob', ob; simpl in *; by simplify_eq. }
  assert (dicts h !! Attr.nodes ob' = None) as Hnrb0.
  { destruct (dicts h !! Attr.nodes ob') eqn:E; [|done].
    rewrite <- Hfd1 in E by eauto. by rewrite Hnrb in E. }
  exists a', b', h4, (Attr.nodes oa'), (Attr.nodes ob').
  split; [done|]. split_and!; try done.
  - destruct (objects h !! b') eqn:E; [|done].
    rewrite <- Hfo1 in E; [by rewrite Hnb' in E|].
    intros ->. by rewrite Hna' in E.
  - rewrite Hobj4, Hobj3, Hoa2. by f_equal.
  - rewrite Hobj4, Hobj3, Hob'. by f_equal.
  - rewrite Hd4, lookup_insert_ne by done.
    by rewrite Hd3, lookup_insert_eq.
  - by rewrite Hd4, lookup_insert_eq.
  - intros r Hr. rewrite Hobj4, Hobj3.
    assert (r ≠ a') by (intros ->; rewrite Hna' in Hr; by destruct Hr).
    rewrite <- (Hfo1 r) by done. apply Hfo2.
    intros ->. rewrite <- (Hfo1 b'), Hnb' in Hr by done. by destruct Hr.
  - intros r Hr.
    assert (r ≠ Attr.nodes oa')
      by (intros ->; rewrite Hnra in Hr; by destruct Hr).
    assert (r ≠ Attr.nodes ob')
      by (intros ->; rewrite Hnrb0 in Hr; by destruct Hr).
    rewrite Hd4, lookup_insert_ne by done.
    rewrite Hd3, lookup_insert_ne by done.
    rewrite Hfd2, Hfd1; [done..|]. rewrite Hfd1; done.
Qed.
End synchronize.

Section claims_synchronize.
Import Timeseries.
Implicit Types (h : heap) (o : Attr.t) (d : gmap datetime value).

Lemma dom_filter_dom (d d2 : gmap datetime value) :
  dom (filter (λ kv : datetime * value, kv.1 ∈ dom d2) d) = dom d ∩ dom d2.
Proof.
  apply dom_filter_L. intros k. rewrite elem_of_intersection, elem_of_dom.
  unfold is_Some. naive_solver.
Qed.

Lemma lookup_filter_dom (d d2 : gmap datetime value) k :
  k ∈ dom d2 →
  filter (λ kv : datetime * value, kv.1 ∈ dom d2) d !! k = d !! k.
Proof.
  intros Hk. rewrite map_lookup_filter.
  destruct (d !! k); simpl; [|done]. by rewrite option_guard_True.
Qed.

(** C8. [synchronize(a, b)] returns two new series whose timestamps are
    exactly the timestamps common to [a] and [b], each with the values
    its input had there; [a] and [b] (their attributes and their nodes)
    are as before; and synchronising the two results again returns two
    series with the same metadata and the same nodes as those results. *)
Theorem synchronize_intersection_idempotent h a b oa ob da db :
  objects h !! a = Some oa → dicts h !! Attr.nodes oa = Some da →
  objects h !! b = Some ob → dicts h !! Attr.nodes ob = Some db →
  ∃ a' b' h1 da' db',
    synchronize a b h = (Ok (a', b'), h1) ∧
    (* two new series *)
    objects h !! a' = None ∧ objects h !! b' = None ∧ a' ≠ b' ∧
    nodes_of h1 a' = Some da' ∧ nodes_of h1 b' = Some db' ∧
    (* the common timestamps, with the values of the inputs *)
    dom da' = dom da ∩ dom db ∧ dom db' = dom da ∩ dom db ∧
    (∀ k, k ∈ dom da ∩ dom db → da' !! k = da !! k ∧ db' !! k = db !! k) ∧
    (* the inputs are untouched *)
    objects h1 !! a = Some oa ∧ objects h1 !! b = Some ob ∧
    nodes_of h1 a = Some da ∧ nodes_of h1 b = Some db ∧
    (* idempotence *)
    ∃ a'' b'' h2 oa' ob' oa'' ob'',
      synchronize a' b' h1 = (Ok (a'', b''), h2) ∧
      objects h1 !! a' = Some oa' ∧ objects h1 !! b' = Some ob' ∧
      objects h2 !! a'' = Some oa'' ∧ objects h2 !! b'' = Some ob'' ∧
      same_metadata oa'' oa' ∧ same_metadata ob'' ob' ∧
      nodes_of h2 a'' = Some da' ∧ nodes_of h2 b'' = Some db'.
Proof.
  intros Hoa Hda Hob Hdb.
  destruct (synchronize_ok h a b oa ob da db Hoa Hda Hob Hdb)
    as (a' & b' & h1 & ra & rb & Hrun & Hna & Hnb & Hab & Hnra & Hnrb
        & Hrab & Hoa' & Hob' & Hda' & Hdb' & Hfo & Hfd).
  set (da' := filter (λ kv : datetime * value, kv.1 ∈ dom db) da) in *.
  set (db' := filter (λ kv : datetime * value, kv.1 ∈ dom da) db) in *.
  assert (dom da' = dom da ∩ dom db) as Hdoma by apply dom_filter_dom.
  assert (dom db' = dom da ∩ dom db) as Hdomb.
  { unfold db'. rewrite dom_filter_dom. set_solver. }
  exists a', b', h1, da', db'. split; [done|].
  split_and!; try done.
  - apply nodes_of_Some. eauto.
  - apply nodes_of_Some. eauto.
  - intros k [Hka Hkb]%elem_of_intersection. split.
    + by apply lookup_filter_dom.
    + by apply lookup_filter_dom.
  - rewrite Hfo; eauto.
  - rewrite Hfo; eauto.
  - apply nodes_of_Some. exists oa. rewrite Hfo, Hfd; eauto.
  - apply nodes_of_Some. exists ob. rewrite Hfo, Hfd; eauto.
  - destruct (synchronize_ok h1 a' b' _ _ da' db' Hoa' Hda' Hob' Hdb')
      as (a'' & b'' & h2 & ra' & rb' & Hrun' & _ & _ & _ & _ & _ & _
          & Hoa'' & Hob'' & Hda'' & Hdb'' & _).
    exists a'', b'', h2, (copied_attrs oa ra), (copied_attrs ob rb),
      (copied_attrs (copied_attrs oa ra) ra'),
      (copied_attrs (copied_attrs ob rb) rb').
    split; [done|]. split_and!; try done.
    + apply nodes_of_Some. eexists. split; [done|]. simpl.
      rewrite Hda''. f_equal. apply map_filter_id.
      intros k v Hk. simpl. rewrite Hdomb, <- Hdoma.
      apply elem_of_dom. eauto.
    + apply nodes_of_Some. eexists. split; [done|]. simpl.
      rewrite Hdb''. f_equal. apply map_filter_id.
      intros k v Hk. simpl. rewrite Hdoma, <- Hdomb.
      apply elem_of_dom. eauto.
Qed.

Lemma synchronize_intersection_idempotent_witness :
  ∃ a' b' h1 da' db',
    synchronize daily sim overlap_heap = (Ok (a', b'), h1) ∧
    nodes_of h1 a' = Some da' ∧ nodes_of h1 b' = Some db' ∧
    dom da' = dom db' ∧
    da' !! jan2021 3 = Some (Float 3) ∧ db' !! jan2021 3 = Some (Float 30) ∧
    da' !! jan2021 1 = None ∧ db' !! jan2021 5 = None.
Proof.
  destruct (synchronize_intersection_idempotent overlap_heap daily sim
              (Attr.Build "daily" (AStr "0") "" "" (AStr "") "" 0 0 0 Undefined
     1%positive)
              (Attr.Build "sim" (AStr "0") "" "" (AStr "") "" 0 0 0 Undefined
     2%positive)
              (default ∅ (nodes_of overlap_heap daily))
              (default ∅ (nodes_of overlap_heap sim)))
    as (a' & b' & h1 & da' & db' & Hrun & _ & _ & _ & Ha & Hb & Hda & Hdb
        & Hv & _).
  - vm_compute. reflexivity.
  - reflexivity.
  - vm_compute. reflexivity.
  - reflexivity.
  - exists a', b', h1, da', db'.
    assert (∀ k v w,
              default ∅ (nodes_of overlap_heap daily) !! k = Some v →
              default ∅ (nodes_of overlap_heap sim) !! k = Some w →
              k ∈ dom (default ∅ (nodes_of overlap_heap daily))
                ∩ dom (default ∅ (nodes_of overlap_heap sim))) as Hboth.
    { intros k v w Hk1 Hk2.
      apply elem_of_intersection; split; apply elem_of_dom; eauto. }
    split; [exact Hrun|]. split; [exact Ha|]. split; [exact Hb|].
    split_and!.
    + congruence.
    + destruct (Hv (jan2021 3)) as [-> _].
      * apply (Hboth _ (Float 3) (Float 30)); vm_compute; reflexivity.
      * vm_compute; reflexivity.
    + destruct (Hv (jan2021 3)) as [_ ->].
      * apply (Hboth _ (Float 3) (Float 30)); vm_compute; reflexivity.
      * vm_compute; reflexivity.
    + apply not_elem_of_dom. rewrite Hda, elem_of_intersection.
      intros [_ Hin]. apply elem_of_dom in Hin as [w Hw].
      vm_compute in Hw. discriminate Hw.
    + apply not_elem_of_dom. rewrite Hdb, elem_of_intersection.
      intros [Hin _]. apply elem_of_dom in Hin as [w Hw].
      vm_compute in Hw. discriminate Hw.
Defined.
End claims_synchronize.

(** ** [aggregate] *)

Section aggregate.
Import Timeseries.
Implicit Types (h : heap) (o : Attr.t) (d : gmap datetime value).

(** The loop reads no object and writes none. *)
Lemma aggregate_loop_pure dt start interp ign items :
  ∀ nodes_agg t values h,
    snd (aggregate_loop dt start interp ign items nodes_agg t values h) = h.
Proof.
  induction items as [|[ts v] items IH]; intros nodes_agg t values h;
    simpl; [done|].
  destruct (Datetime.ltb ts start); [apply IH|].
  unfold mbind, M_bind, next_step.
  repeat (destruct (String.eqb dt _));
    try (destruct (Datetime.add_timedelta _ _); simpl;
         [destruct (Datetime.geb _ _); apply IH|done]);
    try (destruct (Datetime.add_months _ _); simpl;
         [destruct (Datetime.geb _ _); apply IH|done]);
    done.
Qed.

(** As long as no timestamp reaches the end of the first timestep, no
    value is stored: the values gathered last are never aggregated. *)
Lemma aggregate_loop_no_rollover dt start interp ign t_next items :
  ∀ nodes_agg values h,
    next_step dt start h = (Ok t_next, h) →
    Forall (λ kv, Datetime.lt kv.1 t_next) items →
    fst (aggregate_loop dt start interp ign items nodes_agg start values h)
    = Ok nodes_agg.
Proof.
  induction items as [|[ts v] items IH]; intros nodes_agg values h Hn Hall;
    simpl; [done|].
  apply Forall_cons in Hall as [Hts Hall]. simpl in Hts.
  destruct (Datetime.ltb ts start); [by apply IH|].
  unfold mbind, M_bind. rewrite Hn.
  assert (Datetime.geb ts t_next = false) as ->.
  { unfold Datetime.geb, Datetime.leb. apply lt_gt in Hts. by rewrite Hts. }
  by apply IH.
Qed.

Lemma copy_metadata_ok h self ts o0 o :
  objects h !! self = Some o0 → objects h !! ts = Some o → self ≠ ts →
  copy_metadata self ts h
  = (Ok (), Heap (<[self := Attr.Build (Attr.title o) (Attr.station_id o)
                     (Attr.station_name o) (Attr.param o) (Attr.unit o)
                     (Attr.location o) (Attr.lat o) (Attr.lon o) (Attr.z o)
                     (Attr.interpretation o0) (Attr.nodes o0)]> (objects h))
              (dicts h) (log h) (files h)).
Proof.
  intros Ho0 Ho Hne. unfold copy_metadata.
  unfold mbind, M_bind, get_obj, modify_obj. simpl.
  rewrite Ho, Ho0. simpl.
  repeat (rewrite lookup_insert_ne by done; rewrite Ho; simpl;
          rewrite lookup_insert_eq; simpl; rewrite insert_insert_eq).
  done.
Qed.

(** [aggregate] either raises out of its loop, leaving the store as it
    was, or returns a new series with the aggregated nodes, the metadata
    of the source, the title suffixed, and the interpretation
    [Undefined]. *)
Lemma aggregate_ok h self o d dt start interp ign :
  objects h !! self = Some o → dicts h !! Attr.nodes o = Some d →
  (dt = "h" ∨ dt = "d" ∨ dt = "M")%string →
  (interp = "LinearInterpolation" ∨ interp = "Sum")%string →
  let items := omap (λ k, (k,.) <$> d !! k) (sorted_keys d) in
  let c := fresh (dom (objects h)) in
  let r0 := fresh (dom (dicts h)) in
  let r := fresh (dom (<[r0 := ∅]> (dicts h))) in
  aggregate self dt start interp ign h
  = match fst (aggregate_loop dt start interp ign items ∅ start [] h) with
    | Ok nodes_agg =>
        (Ok c, Heap (<[c := aggregated_attrs o dt r]> (objects h))
                 (<[r := nodes_agg]> (<[r0 := ∅]> (dicts h))) (log h) (files h))
    | Raise e => (Raise e, h)
    | Stuck => (Stuck, h)
    end.
Proof.
  intros Ho Hd Hdt Hint items c r0 r. unfold aggregate.
  assert (String.eqb dt "h" || String.eqb dt "d" || String.eqb dt "M"
          = true) as ->.
  { destruct Hdt as [->|[->| ->]]; done. }
  assert (String.eqb interp "LinearInterpolation" || String.eqb interp "Sum"
          = true) as ->.
  { destruct Hint as [->| ->]; done. }
  unfold mbind at 1 2, M_bind at 1 2, mret at 1 2, M_ret at 1 2.
  rewrite (bind_ok _ _ _ _ _ (iter_ok _ _ _ _ Ho Hd)). fold items.
  pose proof (aggregate_loop_pure dt start interp ign items ∅ start [] h)
    as Hpure.
  unfold mbind at 1, M_bind at 1.
  destruct (aggregate_loop dt start interp ign items ∅ start [] h)
    as [[nodes_agg|e|] h'] eqn:Hloop; simpl in *; subst h'; try done.
  assert (self ≠ c) as Hsc by (apply fresh_obj_ne; eauto).
  unfold new. unfold mbind at 1 2, M_bind at 1 2, alloc_dict, alloc_obj.
  simpl. fold r0. fold c.
  erewrite copy_metadata_ok;
    [|simpl; apply lookup_insert_eq|simpl; by rewrite lookup_insert_ne|done].
  unfold mbind, M_bind, get_obj, modify_obj, alloc_dict, mret, M_ret. simpl.
  rewrite insert_insert_eq, lookup_insert_eq. simpl.
  rewrite lookup_insert_eq, insert_insert_eq. simpl. fold r.
  rewrite lookup_insert_eq, insert_insert_eq. done.
Qed.
End aggregate.

Section claims_aggregate.
Import Timeseries.
Implicit Types (h : heap) (o : Attr.t) (d : gmap datetime value).

(** Whenever [aggregate] returns, its result is a new series with the
    source's metadata, the title suffixed with the timestep, and the
    interpretation [Undefined]; the source is as before. *)
Lemma aggregate_metadata h self o d dt start interp ign ts h' :
  objects h !! self = Some o → dicts h !! Attr.nodes o = Some d →
  aggregate self dt start interp ign h = (Ok ts, h') →
  ∃ r, objects h' !! ts = Some (aggregated_attrs o dt r) ∧
       objects h !! ts = None ∧ objects h' !! self = Some o.
Proof.
  intros Ho Hd Hrun.
  assert ((dt = "h" ∨ dt = "d" ∨ dt = "M")%string) as Hdt.
  { unfold aggregate, mbind at 1, M_bind at 1 in Hrun.
    destruct (String.eqb dt "h") eqn:E1; [apply String.eqb_eq in E1; auto|].
    destruct (String.eqb dt "d") eqn:E2; [apply String.eqb_eq in E2; auto|].
    destruct (String.eqb dt "M") eqn:E3; [apply String.eqb_eq in E3; auto|].
    done. }
  assert ((interp = "LinearInterpolation" ∨ interp = "Sum")%string) as Hi.
  { unfold aggregate, mbind at 1 2, M_bind at 1 2 in Hrun.
    destruct (String.eqb dt "h" || String.eqb dt "d" || String.eqb dt "M");
      [|done]. simpl in Hrun.
    destruct (String.eqb interp "LinearInterpolation") eqn:E1;
      [apply String.eqb_eq in E1; auto|].
    destruct (String.eqb interp "Sum") eqn:E2;
      [apply String.eqb_eq in E2; auto|].
    done. }
  rewrite (aggregate_ok h self o d dt start interp ign Ho Hd Hdt Hi) in Hrun.
  destruct (fst _) in Hrun; simplify_eq. simpl.
  eexists. rewrite lookup_insert_eq. split; [done|].
  split; [apply fresh_lookup_None|].
  rewrite lookup_insert_ne; [done|]. apply not_eq_sym, fresh_obj_ne. eauto.
Qed.

(** C4, on the code.  The daily aggregate of a series whose
    interpretation is [BlockRight] is a new series with the title
    suffixed, the other metadata kept, and the interpretation
    [Undefined], not [BlockRight]. *)
Theorem aggregate_result_interpretation_is_Undefined :
  fst (aggregate gauge "d" (jan2021 1) "Sum" false gauge_heap)
    = Ok 2%positive ∧
  objects gauge_heap !! gauge
    = Some (Attr.Build "gauge" (AStr "0") "gauge" "" (AStr "m3/s") "" 0 0 0
              BlockRight 1%positive) ∧
  objects (snd (aggregate gauge "d" (jan2021 1) "Sum" false gauge_heap))
    !! 2%positive
    = Some (Attr.Build "gauge (d)" (AStr "0") "gauge" "" (AStr "m3/s") "" 0 0 0
              Undefined 3%positive).
Proof. vm_compute. done. Qed.

(** C1, on the code.  The monthly sum of the four daily values from
    2021-01-01 on has no node at all: the timestep that holds the four
    values is never closed. *)
Theorem aggregate_month_of_four_days_is_empty :
  fst (aggregate daily "M" (jan2021 1) "Sum" false daily_heap)
    = Ok 2%positive ∧
  map_to_list <$>
    nodes_of (snd (aggregate daily "M" (jan2021 1) "Sum" false daily_heap))
      2%positive
    = Some [].
Proof. vm_compute. done. Qed.

(** With a later node that closes January, the sum is there. *)
Lemma aggregate_month_closed_by_february :
  let run := (ts ← daily_and_february;
              aggregate ts "M" (jan2021 1) "Sum" false) empty_heap in
  fst run = Ok 2%positive ∧
  map_to_list <$> nodes_of (snd run) 2%positive
    = Some [(jan2021 1, Float 10)].
Proof. vm_compute. done. Qed.
End claims_aggregate.

(** ** [cut] and [cut_bisect] *)

Section claims_cut.
Import Timeseries.
Implicit Types (h : heap) (o : Attr.t) (d : gmap datetime value).

(** C2, on the code.  On the daily series of four days, cutting to
    2021-01-01 .. 2021-01-02T12:00 keeps two nodes with [cut] and three
    with [cut_bisect], which also keeps the first node after an end that
    is no node; and cutting to a start after the end keeps nothing with
    [cut] and one node with [cut_bisect]. *)
Theorem cut_bisect_keeps_a_node_after_end :
  let noon2 := mkDatetime 2021 1 2 12 0 0 0 in
  fst (iter daily (snd (cut daily (jan2021 1) noon2 daily_heap)))
    = Ok [(jan2021 1, Float 1); (jan2021 2, Float 2)] ∧
  fst (iter daily (snd (cut_bisect daily (jan2021 1) noon2 daily_heap)))
    = Ok [(jan2021 1, Float 1); (jan2021 2, Float 2); (jan2021 3, Float 3)] ∧
  fst (iter daily (snd (cut daily (jan2021 3) (jan2021 2) daily_heap)))
    = Ok [] ∧
  fst (iter daily (snd (cut_bisect daily (jan2021 3) (jan2021 2) daily_heap)))
    = Ok [(jan2021 3, Float 3)].
Proof. vm_compute. done. Qed.
End claims_cut.

(** ** [read_fews]: the errors of a series are logged, not raised *)

Section read_fews.
Import Timeseries.
Context `{FloatLib}.
Implicit Types (h : heap) (o : Attr.t) (d : gmap datetime value).

Lemma try_except_returns {A} (body : M A) (a : A) h :
  caught_or_ok (fst (body h)) →
  ∃ r h', try_except body (log_series_error a) h = (Ok r, h').
Proof.
  unfold try_except. destruct (body h) as [[x|e|] h']; simpl; [eauto| |done].
  intros ->. unfold log_series_error, mbind, M_bind, logger. simpl. eauto.
Qed.

Lemma live_modify_obj h ts f :
  live h ts → (∀ o, Attr.nodes (f o) = Attr.nodes o) →
  ∃ h', modify_obj ts f h = (Ok (), h') ∧ live h' ts.
Proof.
  intros (o & d & Ho & Hd) Hf. unfold modify_obj. rewrite Ho.
  eexists. split; [done|]. exists (f o), d. simpl.
  rewrite lookup_insert_eq, Hf. done.
Qed.

Lemma live_add_node h ts t v :
  live h ts →
  caught_or_ok (fst (add_node ts t v h)) ∧ live (snd (add_node ts t v h)) ts.
Proof.
  intros (o & d & Ho & Hd).
  destruct (naive_datetime t) as [k|] eqn:Ht.
  - destruct (decide (k ∈ dom d)) as [Hin|Hin].
    + erewrite add_node_duplicate by done. simpl. split; [done|].
      by exists o, d.
    + erewrite add_node_new by done. simpl. split; [done|].
      exists o, (<[k := v]> d). simpl. by rewrite lookup_insert_eq.
  - destruct t; try done. simpl. split; [done|]. by exists o, d.
Qed.

Lemma live_read_event h ts error_value event :
  live h ts →
  caught_or_ok (fst (read_event ts error_value event h)) ∧
  live (snd (read_event ts error_value event h)) ts.
Proof.
  intros Hlive. unfold read_event, attrib, mbind, M_bind, lift_option.
  destruct (ev_date event); simpl; [|done].
  destruct (ev_time event); simpl; [|done].
  destruct (ev_flag event); simpl; [|done].
  destruct (Py.int _); simpl; [|done].
  destruct (ev_value event) as [value_str|]; simpl; [|done].
  destruct (bool_decide _ || bool_decide _); simpl.
  - destruct (Strptime.strptime _ _); simpl; [|done]. by apply live_add_node.
  - unfold float_, lift_option, mbind, M_bind.
    destruct (parse_float _); simpl; [|done].
    destruct (Strptime.strptime _ _); simpl; [|done]. by apply live_add_node.
Qed.

Lemma live_for_each_read_event ts error_value events :
  ∀ h, live h ts →
       caught_or_ok
         (fst (for_each events (read_event ts error_value) h)) ∧
       live (snd (for_each events (read_event ts error_value) h)) ts.
Proof.
  induction events as [|ev events IH]; intros h Hlive; simpl; [done|].
  destruct (live_read_event h ts error_value ev Hlive) as [Hok Hlive'].
  unfold mbind, M_bind.
  destruct (read_event ts error_value ev h) as [[[]|e|] h']; simpl in *;
    try done.
  by apply IH.
Qed.

Lemma log_grows_ret {A} (a : A) : log_grows (mret a).
Proof. intros h. exists []. by rewrite app_nil_r. Qed.

Lemma log_grows_raise {A} e : log_grows (raise (A:=A) e).
Proof. intros h. exists []. by rewrite app_nil_r. Qed.

Lemma log_grows_bind {A B} (m : M A) (f : A → M B) :
  log_grows m → (∀ a, log_grows (f a)) → log_grows (m ≫= f).
Proof.
  intros Hm Hf h. unfold mbind, M_bind. destruct (Hm h) as [l Hl].
  destruct (m h) as [[a|e|] h']; simpl in *; eauto.
  destruct (Hf a h') as [l' Hl']. exists (l ++ l').
  by rewrite Hl', Hl, app_assoc.
Qed.

Lemma log_grows_try_except {A} (body : M A) handler :
  log_grows body → (∀ e, log_grows (handler e)) →
  log_grows (try_except body handler).
Proof.
  intros Hm Hf h. unfold try_except. destruct (Hm h) as [l Hl].
  destruct (body h) as [[a|e|] h']; simpl in *; eauto.
  destruct (is_Exception e); simpl; eauto.
  destruct (Hf e h') as [l' Hl']. exists (l ++ l').
  by rewrite Hl', Hl, app_assoc.
Qed.

Lemma log_grows_lift_option {A} e (x : option A) :
  log_grows (lift_option e x).
Proof. destruct x; [apply log_grows_ret|apply log_grows_raise]. Qed.

Lemma log_grows_logger lvl msg : log_grows (logger lvl msg).
Proof. intros h. by eexists. Qed.

Lemma log_grows_modify_obj r f : log_grows (modify_obj r f).
Proof.
  intros h. unfold modify_obj. exists [].
  destruct (objects h !! r); simpl; by rewrite app_nil_r.
Qed.

Lemma log_grows_new title : log_grows (new title).
Proof. intros h. exists []. simpl. by rewrite app_nil_r. Qed.

Lemma log_grows_add_node ts t v : log_grows (add_node ts t v).
Proof.
  intros h. exists []. rewrite app_nil_r.
  destruct (objects h !! ts) as [o|] eqn:Ho.
  - destruct (add_node ts t v h) as [out h'] eqn:Hrun.
    by destruct (add_node_frame _ _ _ _ _ _ _ Ho Hrun) as (_ & Hl & _).
  - unfold add_node.
    destruct t; simpl; unfold mbind, M_bind, mret, M_ret, get_obj; simpl;
      by rewrite ?Ho.
Qed.

Lemma log_grows_for_each {A} (l : list A) body :
  (∀ a, log_grows (body a)) → log_grows (for_each l body).
Proof.
  intros Hb. induction l as [|a l IH]; simpl; [apply log_grows_ret|].
  apply log_grows_bind; auto.
Qed.

Create HintDb log_grows discriminated.
#[local] Hint Resolve log_grows_ret log_grows_raise log_grows_lift_option
  log_grows_logger log_grows_modify_obj log_grows_new log_grows_add_node
  : log_grows.
#[local] Hint Extern 2 (log_grows (_ ≫= _)) =>
  apply log_grows_bind; [|intros ?] : log_grows.
#[local] Hint Extern 2 (log_grows (try_except _ _)) =>
  apply log_grows_try_except; [|intros ?] : log_grows.
#[local] Hint Extern 2 (log_grows (for_each _ _)) =>
  apply log_grows_for_each; intros ? : log_grows.
#[local] Hint Extern 3 (log_grows (if ?b then _ else _)) =>
  destruct b : log_grows.
#[local] Hint Extern 3 (log_grows (match ?x with _ => _ end)) =>
  destruct x : log_grows.

Lemma log_grows_read_event ts error_value event :
  log_grows (read_event ts error_value event).
Proof.
  unfold read_event, attrib, float_. auto 20 with log_grows.
Qed.

Lemma log_grows_read_series result series :
  log_grows (read_series result series).
Proof.
  pose proof log_grows_read_event.
  unfold read_series, read_series_body, child_text, dotted, log_series_error.
  auto 40 with log_grows.
Qed.

Lemma new_live title h :
  ∃ ts h', new title h = (Ok ts, h') ∧ live h' ts.
Proof.
  unfold new, mbind, M_bind, alloc_dict, alloc_obj. simpl.
  eexists _, _. split; [done|]. eexists _, ∅. simpl.
  split; [apply lookup_insert_eq|]. simpl. apply lookup_insert_eq.
Qed.

Ltac live_step Hlive :=
  match goal with
  | |- context [modify_obj ?ts ?f ?h] =>
      let h' := fresh "h" in
      let Hrun := fresh "Hrun" in
      let Hl := fresh "Hlive" in
      destruct (live_modify_obj h ts f Hlive) as (h' & Hrun & Hl);
      [by intros []|]; rewrite Hrun; simpl; clear Hrun
  end.

Lemma read_series_body_caught series type_ loc par sname unit missval h :
  caught_or_ok
    (fst (read_series_body series type_ loc par sname unit missval h)).
Proof.
  unfold read_series_body.
  destruct (new_live "" h) as (ts & h1 & Hnew & Hlive).
  unfold mbind at 1, M_bind at 1. rewrite Hnew.
  unfold dotted. destruct loc as [loc|], par as [par|]; try done.
  unfold mbind, M_bind, mret, M_ret. simpl.
  live_step Hlive. live_step Hlive0.
  destruct sname as [sname|]; [|done].
  live_step Hlive1. live_step Hlive2. live_step Hlive3.
  assert (∀ hh i, live hh ts →
            ∃ h', modify_obj ts (Attr.set_interpretation i) hh
                  = (Ok (), h') ∧ live h' ts) as Hint.
  { intros hh i Hl. apply live_modify_obj; [done|by intros []]. }
  assert (∀ h', live h' ts →
            caught_or_ok
              (fst (let (o, h'0) :=
                      for_each (s_events series) (read_event ts missval) h' in
                    match o with
                    | Ok _ =>
                        let (o0, h'1) := logger LogInfo "Read values" h'0 in
                        match o0 with
                        | Ok _ => (Ok ts, h'1)
                        | Raise e => (Raise e, h'1)
                        | Stuck => (Stuck, h'1)
                        end
                    | Raise e => (Raise e, h'0)
                    | Stuck => (Stuck, h'0)
                    end))) as Hevents.
  { intros h' Hl.
    destruct (live_for_each_read_event ts missval (s_events series) h' Hl)
      as [Hok _].
    by destruct (for_each _ _ h') as [[[]|e|] h'']. }
  repeat case_bool_decide; simpl; try done.
  all: match goal with
       | |- context [modify_obj _ (Attr.set_interpretation ?i) ?hh] =>
           destruct (Hint hh i) as (h' & -> & Hl); [assumption|]
       end; by apply Hevents.
Qed.

Lemma read_series_body_unknown_type series type_ loc par sname unit missval h :
  known_type type_ = false →
  ∃ h', read_series_body series type_ (Some loc) (Some par) (Some sname)
          unit missval h = (Raise Exception_, h').
Proof.
  intros Hty. unfold known_type in Hty.
  apply orb_false_iff in Hty as [[Hi Hm]%orb_false_iff Ha].
  unfold read_series_body. rewrite Hi, Hm, Ha.
  destruct (new_live "" h) as (ts & h1 & Hnew & Hlive).
  unfold mbind at 1, M_bind at 1. rewrite Hnew.
  unfold dotted, mbind, M_bind, mret, M_ret. simpl.
  live_step Hlive. live_step Hlive0. live_step Hlive1. live_step Hlive2.
  live_step Hlive3. eauto.
Qed.

(** A turn of the loop returns, whatever the series. *)
Lemma read_series_returns result series h :
  ∃ result' h', read_series result series h = (Ok result', h').
Proof.
  unfold read_series.
  set (header := try_except _ _).
  assert (∃ r h', header h = (Ok r, h')) as (r & h1 & Hhdr).
  { apply try_except_returns. unfold child_text, mbind, M_bind, mret, M_ret.
    destruct (s_header series) as [hd|]; [|done].
    destruct (h_type hd); [|done]. destruct (h_locationId hd); [|done].
    destruct (h_parameterId hd); [|done]. destruct (h_stationName hd); [|done].
    destruct (h_units hd); [|done]. destruct (h_missVal hd); done. }
  unfold mbind at 1, M_bind at 1. rewrite Hhdr.
  destruct r as [[[[[[type_ loc] par] sname] unit] missval]|];
    [|by eexists _, _].
  set (warn := if decide _ then _ else _).
  assert (∃ h2, warn h1 = (Ok (), h2)) as (h2 & Hwarn).
  { unfold warn. destruct (decide _); by eexists. }
  unfold mbind at 1, M_bind at 1. rewrite Hwarn.
  set (body := try_except _ _).
  assert (∃ r h', body h2 = (Ok r, h')) as (r & h3 & Hbody).
  { apply try_except_returns. unfold mbind, M_bind.
    pose proof (read_series_body_caught series type_ loc par sname unit
                  missval h2) as Hc.
    by destruct (read_series_body _ _ _ _ _ _ _ h2) as [[ts|e|] h']. }
  unfold mbind, M_bind. rewrite Hbody. destruct r; by eexists _, _.
Qed.

Lemma read_all_series_returns l :
  ∀ result h, ∃ result' h', read_all_series result l h = (Ok result', h').
Proof.
  induction l as [|s l IH]; intros result h; simpl; [by eexists _, _|].
  destruct (read_series_returns result s h) as (r1 & h1 & Hs).
  unfold mbind, M_bind. rewrite Hs. apply IH.
Qed.

(** Errors inside a series never leave [read_fews]: it returns for every
    parsed document. *)
Lemma read_fews_returns series h :
  ∃ result h', read_fews (Document series) h = (Ok result, h').
Proof.
  unfold read_fews, mbind, M_bind, logger. simpl. apply read_all_series_returns.
Qed.
End read_fews.

Section claims_read_fews.
Import Timeseries.
Implicit Types (h : heap) (result : fews_result).

Lemma entry_insert_same result loc par x params :
  entry (<[loc := <[par := x]> params]> result) loc par = Some x.
Proof. unfold entry. rewrite lookup_insert_eq. simpl. apply lookup_insert_eq. Qed.

Lemma entry_insert_other result loc par loc' par' x :
  (loc', par') ≠ (loc, par) →
  entry (<[loc' := <[par' := x]> (default ∅ (result !! loc'))]> result)
    loc par
  = entry result loc par.
Proof.
  intros Hne. unfold entry.
  destruct (decide (loc' = loc)) as [->|Hl].
  - rewrite lookup_insert_eq. simpl.
    rewrite lookup_insert_ne by congruence.
    destruct (result !! loc); simpl; [done|]. apply lookup_empty.
  - by rewrite lookup_insert_ne.
Qed.

Context `{FloatLib}.

Lemma read_series_unknown_type result series h hd type_ loc par sname unit mv :
  s_header series = Some hd →
  h_type hd = Some type_ → known_type type_ = false →
  h_locationId hd = Some (Some loc) → h_parameterId hd = Some (Some par) →
  h_stationName hd = Some (Some sname) →
  h_units hd = Some unit → h_missVal hd = Some mv →
  ∃ result' h',
    read_series result series h = (Ok result', h') ∧
    entry result' (Some (Py.to_string loc)) (Some (Py.to_string par))
      = Some None ∧
    (LogError, "Error while reading series"%string) ∈ log h'.
Proof.
  intros Hhd Hty Hknown Hloc Hpar Hsname Hunit Hmv.
  unfold read_series, try_except, child_text, mbind at 1, M_bind at 1.
  rewrite Hhd, Hty, Hloc, Hpar, Hsname, Hunit, Hmv.
  unfold mbind at 1 2 3 4 5 6, M_bind at 1 2 3 4 5 6, mret, M_ret. simpl.
  set (warn := if decide _ then _ else _).
  assert (∃ h2, warn h = (Ok (), h2)) as (h2 & Hwarn).
  { unfold warn. destruct (decide _); by eexists. }
  unfold mbind at 1, M_bind at 1. rewrite Hwarn.
  destruct (read_series_body_unknown_type series type_ loc par sname unit mv
              h2 Hknown) as (h3 & Hbody).
  unfold mbind, M_bind. rewrite Hbody. simpl.
  eexists _, _. split; [done|]. split; [apply entry_insert_same|].
  simpl. set_solver.
Qed.

Lemma read_series_other_entry result series h result' h' loc par :
  series_keys series ≠ Some (loc, par) →
  read_series result series h = (Ok result', h') →
  entry result' loc par = entry result loc par.
Proof.
  unfold series_keys, read_series, try_except, child_text.
  destruct (s_header series) as [hd|]; simpl;
    [|by intros _ [= <- _]].
  unfold mbind at 7, M_bind at 1.
  destruct (h_type hd) as [type_|]; simpl; [|by intros _ [= <- _]].
  destruct (h_locationId hd) as [loc'|]; simpl; [|by intros _ [= <- _]].
  destruct (h_parameterId hd) as [par'|]; simpl; [|by intros _ [= <- _]].
  destruct (h_stationName hd) as [sname|]; simpl; [|by intros _ [= <- _]].
  destruct (h_units hd) as [unit|]; simpl; [|by intros _ [= <- _]].
  destruct (h_missVal hd) as [mv|]; simpl; [|by intros _ [= <- _]].
  intros Hne. assert ((key_of loc', key_of par') ≠ (loc, par)) as Hne'
    by congruence.
  unfold mbind, M_bind.
  destruct (decide _); unfold logger, mret, M_ret; simpl.
  all: match goal with
       | |- context [read_series_body ?a ?b ?c ?d ?e ?f ?g ?hh] =>
           destruct (read_series_body a b c d e f g hh) as [[ts|e'|] h2]
       end; simpl.
  all: try done.
  all: try (intros [= <- _]; rewrite insert_insert_eq, insert_insert_eq;
            by apply entry_insert_other).
  all: destruct (is_Exception e'); [|done]; simpl; intros [= <- _];
       by apply entry_insert_other.
Qed.

Lemma read_all_series_other_entries l loc par :
  Forall (λ s, series_keys s ≠ Some (loc, par)) l →
  ∀ result h result' h',
    read_all_series result l h = (Ok result', h') →
    entry result' loc par = entry result loc par ∧
    ∀ x, x ∈ log h → x ∈ log h'.
Proof.
  induction 1 as [|s l Hs _ IH]; intros result h result' h'; simpl.
  - by intros [= <- <-].
  - intros (r1 & h1 & Hrun1 & Hrun)%bind_inv_ok.
    apply IH in Hrun as [-> Hlog].
    split; [by eapply read_series_other_entry|].
    intros x Hx. apply Hlog.
    destruct (log_grows_read_series result s h) as [l' Hl].
    rewrite Hrun1 in Hl. simpl in Hl. rewrite Hl. set_solver.
Qed.

(** C5, as the code has it.  A series whose type is none of
    [instantaneous], [mean] and [accumulative] makes [read_fews] raise
    nothing: the exception is caught inside and logged as an error,
    [read_fews] returns its result for the whole document, and in it the
    location and parameter of that series are entered with [None] (unless
    a later series has the same location and parameter). *)
Theorem read_fews_unknown_type_is_logged_and_skipped
    before series after h hd type_ loc par sname unit mv :
  s_header series = Some hd →
  h_type hd = Some type_ → known_type type_ = false →
  h_locationId hd = Some (Some loc) → h_parameterId hd = Some (Some par) →
  h_stationName hd = Some (Some sname) →
  h_units hd = Some unit → h_missVal hd = Some mv →
  Forall (λ s, series_keys s
               ≠ Some (Some (Py.to_string loc), Some (Py.to_string par)))
    after →
  ∃ result h',
    read_fews (Document (before ++ series :: after)) h = (Ok result, h') ∧
    entry result (Some (Py.to_string loc)) (Some (Py.to_string par))
      = Some None ∧
    (LogError, "Error while reading series"%string) ∈ log h'.
Proof.
  intros Hhd Hty Hknown Hloc Hpar Hsname Hunit Hmv Hafter.
  destruct (read_fews_returns (before ++ series :: after) h)
    as (result & h' & Hrun).
  exists result, h'. split; [done|].
  unfold read_fews, mbind at 1, M_bind at 1, logger in Hrun. simpl in Hrun.
  revert Hrun. generalize (∅ : fews_result).
  generalize (Heap (objects h) (dicts h)
                (log h ++ [(LogInfo,
                            "Reading FEWS PI Timeseries XML file"%string)])
                (files h)).
  induction before as [|s0 before IH]; intros h0 r0 Hrun; simpl in Hrun.
  - apply bind_inv_ok in Hrun as (r1 & h1 & Hrun1 & Hrun).
    destruct (read_series_unknown_type r0 series h0 hd type_ loc par sname
                unit mv) as (r1' & h1' & Hrun1' & Hentry & Hlog); try done.
    rewrite Hrun1 in Hrun1'. simplify_eq.
    destruct (read_all_series_other_entries after _ _ Hafter _ _ _ _ Hrun)
      as [-> Hlog']. auto.
  - apply bind_inv_ok in Hrun as (r1 & h1 & _ & Hrun). by eapply IH.
Qed.
End claims_read_fews.

Lemma read_fews_unknown_type_is_logged_and_skipped_witness :
  ∃ result h',
    read_fews (Document [pi_mean_series; pi_cumulative_series]) empty_heap
      = (Ok result, h') ∧
    entry result (Some "L2"%string) (Some "P"%string) = Some None ∧
    (LogError, "Error while reading series"%string) ∈ log h'.
Proof.
  exact (read_fews_unknown_type_is_logged_and_skipped
           [pi_mean_series] pi_cumulative_series [] empty_heap
           _ _ _ _ _ _ _
           eq_refl eq_refl eq_refl eq_refl eq_refl eq_refl eq_refl eq_refl
           (List.Forall_nil _)).
Defined.

(** C5 as stated fails: for a document whose only series has the type
    [cumulative], [read_fews] returns, with the series entered as [None]. *)
Lemma read_fews_unknown_type_returns :
  match fst (read_fews (Document [pi_cumulative_series]) empty_heap) with
  | Ok result => entry result (Some "L2"%string) (Some "P"%string) = Some None
  | Raise _ | Stuck => False
  end.
Proof. vm_compute. reflexivity. Qed.

(** ** Text: digits, lines and dates *)

Section text_facts.
Import Py Strptime.

(** A property decided on a range of integers holds on the range. *)
Lemma forall_range (P : Z → bool) (lo hi : Z) :
  forallb P (seqZ lo (hi - lo + 1)) = true → ∀ z, lo ≤ z ≤ hi → P z = true.
Proof.
  intros Hall z Hz. rewrite forallb_forall in Hall. apply Hall.
  apply list_elem_of_In, elem_of_seqZ. lia.
Qed.

Lemma text_eqb_eq (a b : text) : bool_decide (a = b) = true ↔ a = b.
Proof. apply bool_decide_eq_true. Qed.

(** Two digits *)
Lemma zero_pad_2 v :
  0 ≤ v ≤ 99 →
  zero_pad 2 v = [digit_char (v / 10); digit_char (v mod 10)].
Proof.
  intros Hv. apply (bool_decide_eq_true_1 _). revert v Hv.
  apply (forall_range
           (λ v, bool_decide (zero_pad 2 v
                              = [digit_char (v / 10); digit_char (v mod 10)]))
           0 99).
  vm_compute. reflexivity.
Qed.

Lemma zero_pad_4 y :
  1000 ≤ y ≤ 9999 →
  zero_pad 4 y = zero_pad 2 (y / 100) ++ zero_pad 2 (y mod 100).
Proof.
  intros Hy. apply (bool_decide_eq_true_1 _). revert y Hy.
  apply (forall_range
           (λ y, bool_decide (zero_pad 4 y
                              = zero_pad 2 (y / 100) ++ zero_pad 2 (y mod 100)))
           1000 9999).
  vm_compute. reflexivity.
Qed.

Lemma str_int_century c :
  1000 ≤ c ≤ 9999 → slice (str_int c) 0 2 = zero_pad 2 (c / 100).
Proof.
  intros Hc. apply (bool_decide_eq_true_1 _). revert c Hc.
  apply (forall_range
           (λ c, bool_decide (slice (str_int c) 0 2 = zero_pad 2 (c / 100)))
           1000 9999).
  vm_compute. reflexivity.
Qed.

Lemma int_zero_pad_2 v : 0 ≤ v ≤ 99 → int (zero_pad 2 v) = Some v.
Proof.
  intros Hv. apply (bool_decide_eq_true_1 _). revert v Hv.
  apply (forall_range
           (λ v, bool_decide (int (zero_pad 2 v) = Some v))
           0 99).
  vm_compute. reflexivity.
Qed.

Lemma int_zero_pad_4 y : 1000 ≤ y ≤ 9999 → int (zero_pad 4 y) = Some y.
Proof.
  intros Hy. apply (bool_decide_eq_true_1 _). revert y Hy.
  apply (forall_range
           (λ y, bool_decide (int (zero_pad 4 y) = Some y))
           1000 9999).
  vm_compute. reflexivity.
Qed.

Lemma digit_char_is_digit n : 0 ≤ n ≤ 9 → is_digit (digit_char n) = true.
Proof.
  intros Hn. revert n Hn.
  apply (forall_range
           (λ n, is_digit (digit_char n))
           0 9).
  vm_compute. reflexivity.
Qed.

Lemma is_digit_not_space c : is_digit c = true → is_space c = false.
Proof. destruct c as [[] [] [] [] [] [] [] []]; by vm_compute. Qed.

Lemma is_digit_not_nl c : is_digit c = true → c ≠ nl ∧ c ≠ cr.
Proof. destruct c as [[] [] [] [] [] [] [] []]; by vm_compute. Qed.

Lemma length_zero_pad_2 v : 0 ≤ v ≤ 99 → length (zero_pad 2 v) = 2%nat.
Proof. intros Hv. by rewrite zero_pad_2. Qed.

Lemma Forall_is_digit_zero_pad_2 v :
  0 ≤ v ≤ 99 → Forall (λ c, is_digit c = true) (zero_pad 2 v).
Proof.
  intros Hv. rewrite zero_pad_2 by done.
  pose proof (Z.div_mod v 10 ltac:(lia)).
  pose proof (Z.mod_pos_bound v 10 ltac:(lia)).
  apply Forall_cons_2; [apply digit_char_is_digit; lia|].
  apply Forall_cons_2; [apply digit_char_is_digit; lia|]. apply Forall_nil_2.
Qed.

(** Case analysis on an integer of a small range. *)
Ltac range_cases v lo hi :=
  let Hin := fresh "Hin" in
  assert (v ∈ seqZ lo (hi - lo + 1)) as Hin by (apply elem_of_seqZ; lia);
  let l := eval vm_compute in (seqZ lo (hi - lo + 1)) in
  change (seqZ lo (hi - lo + 1)) with l in Hin;
  repeat (apply elem_of_cons in Hin as [->|Hin]; [|]);
  [..|by apply elem_of_nil in Hin].

Ltac match_two_digits Hk :=
  match goal with
  | |- context [zero_pad 2 ?v] =>
      let t := eval vm_compute in (zero_pad 2 v) in
      change (zero_pad 2 v) with t
  end;
  unfold group; cbn;
  repeat match goal with
         | |- context [is_digit ?c] =>
             let b := eval vm_compute in (is_digit c) in
             change (is_digit c) with b
         end;
  cbn; rewrite Hk; reflexivity.

Lemma match_group_m v items s caps r :
  1 ≤ v ≤ 12 → match_items items s = Some (caps, r) →
  match_items (group "m" :: items) (zero_pad 2 v ++ s)
  = Some (("m"%char, zero_pad 2 v) :: caps, r).
Proof. intros Hv Hk. range_cases v 1 12; match_two_digits Hk. Qed.

Lemma match_group_d v items s caps r :
  1 ≤ v ≤ 31 → match_items items s = Some (caps, r) →
  match_items (group "d" :: items) (zero_pad 2 v ++ s)
  = Some (("d"%char, zero_pad 2 v) :: caps, r).
Proof. intros Hv Hk. range_cases v 1 31; match_two_digits Hk. Qed.

Lemma match_group_H v items s caps r :
  0 ≤ v ≤ 23 → match_items items s = Some (caps, r) →
  match_items (group "H" :: items) (zero_pad 2 v ++ s)
  = Some (("H"%char, zero_pad 2 v) :: caps, r).
Proof. intros Hv Hk. range_cases v 0 23; match_two_digits Hk. Qed.

Lemma match_group_M v items s caps r :
  0 ≤ v ≤ 59 → match_items items s = Some (caps, r) →
  match_items (group "M" :: items) (zero_pad 2 v ++ s)
  = Some (("M"%char, zero_pad 2 v) :: caps, r).
Proof. intros Hv Hk. range_cases v 0 59; match_two_digits Hk. Qed.

Lemma match_group_S v items s caps r :
  0 ≤ v ≤ 59 → match_items items s = Some (caps, r) →
  match_items (group "S" :: items) (zero_pad 2 v ++ s)
  = Some (("S"%char, zero_pad 2 v) :: caps, r).
Proof. intros Hv Hk. range_cases v 0 59; match_two_digits Hk. Qed.

Lemma match_group_Y y items s caps r :
  1000 ≤ y ≤ 9999 → match_items items s = Some (caps, r) →
  match_items (group "Y" :: items) (zero_pad 4 y ++ s)
  = Some (("Y"%char, zero_pad 4 y) :: caps, r).
Proof.
  intros Hy Hk.
  pose proof (Z.div_mod y 100 ltac:(lia)).
  pose proof (Z.mod_pos_bound y 100 ltac:(lia)).
  assert (0 ≤ y / 100 ≤ 99) as Hhi by lia.
  assert (0 ≤ y mod 100 ≤ 99) as Hlo by lia.
  pose proof (Forall_is_digit_zero_pad_2 _ Hhi) as Hd1.
  pose proof (Forall_is_digit_zero_pad_2 _ Hlo) as Hd2.
  rewrite zero_pad_4 by done.
  rewrite (zero_pad_2 (y / 100)), (zero_pad_2 (y mod 100)) in * by done.
  apply Forall_cons in Hd1 as [Ha [Hb _]%Forall_cons].
  apply Forall_cons in Hd2 as [Hc [Hd _]%Forall_cons].
  unfold group. cbn. rewrite Ha, Hb, Hc, Hd. cbn. by rewrite Hk.
Qed.

Lemma days_in_month_le y m : Datetime.days_in_month y m ≤ 31.
Proof.
  unfold Datetime.days_in_month, Datetime.days_in_month_table.
  destruct (_ && _) eqn:E.
  - apply andb_prop in E as [->%Z.eqb_eq _]. lia.
  - repeat (destruct m as [|m|m]; try lia).
Qed.

Lemma valid_datetime_ranges d :
  valid_datetime d = true →
  1 ≤ Datetime.year d ≤ 9999 ∧ 1 ≤ Datetime.month d ≤ 12 ∧
  1 ≤ Datetime.day d ≤ 31 ∧ 0 ≤ Datetime.hour d ≤ 23 ∧
  0 ≤ Datetime.minute d ≤ 59 ∧ 0 ≤ Datetime.second d ≤ 59.
Proof.
  unfold valid_datetime. rewrite !andb_true_iff, !Z.leb_le.
  pose proof (days_in_month_le (Datetime.year d) (Datetime.month d)). lia.
Qed.

Lemma field_here name m caps default :
  field ((name, m) :: caps) name default = int m.
Proof. unfold field. simpl. by rewrite decide_True. Qed.

Lemma strptime_eq s fmt items caps :
  compile fmt = Some items → match_items items s = Some (caps, []) →
  strptime s fmt
  = (y ← field caps "Y" 1900; m ← field caps "m" 1; d ← field caps "d" 1;
     H ← field caps "H" 0; M ← field caps "M" 0; S ← field caps "S" 0;
     let dt := mkDatetime y m d H M S 0 in
     if valid_datetime dt then Some dt else None).
Proof. intros Hc Hm. unfold strptime. rewrite Hc. simpl. by rewrite Hm. Qed.

Lemma strptime_strftime_txt d :
  printable d →
  strptime (strftime d Timeseries.fmt_txt) Timeseries.fmt_txt = Some d.
Proof.
  intros (Hvalid & Hy & Hus).
  destruct (valid_datetime_ranges d Hvalid) as (? & ? & ? & ? & ? & ?).
  change (strftime d Timeseries.fmt_txt)
    with (zero_pad 4 (Datetime.year d) ++ zero_pad 2 (Datetime.month d)
          ++ zero_pad 2 (Datetime.day d) ++ zero_pad 2 (Datetime.hour d)
          ++ zero_pad 2 (Datetime.minute d) ++ zero_pad 2 (Datetime.second d)
          ++ []).
  erewrite (strptime_eq _ _
              [group "Y"; group "m"; group "d"; group "H"; group "M";
               group "S"]); [|reflexivity|].
  2:{ apply match_group_Y; [lia|]. apply match_group_m; [lia|].
      apply match_group_d; [lia|]. apply match_group_H; [lia|].
      apply match_group_M; [lia|]. apply match_group_S; [lia|].
      reflexivity. }
  unfold field. simpl.
  rewrite int_zero_pad_4 by lia. simpl.
  rewrite !int_zero_pad_2 by lia. simpl.
  destruct d as [y mo dd hh mi ss us]. simpl in *. subst us.
  by rewrite Hvalid.
Qed.

Lemma strptime_strftime_uvf d :
  printable d → Datetime.second d = 0 →
  strptime (strftime d Timeseries.fmt_uvf) Timeseries.fmt_uvf = Some d.
Proof.
  intros (Hvalid & Hy & Hus) Hs.
  destruct (valid_datetime_ranges d Hvalid) as (? & ? & ? & ? & ? & ?).
  change (strftime d Timeseries.fmt_uvf)
    with (zero_pad 4 (Datetime.year d) ++ zero_pad 2 (Datetime.month d)
          ++ zero_pad 2 (Datetime.day d) ++ zero_pad 2 (Datetime.hour d)
          ++ zero_pad 2 (Datetime.minute d) ++ []).
  erewrite (strptime_eq _ _
              [group "Y"; group "m"; group "d"; group "H"; group "M"]);
    [|reflexivity|].
  2:{ apply match_group_Y; [lia|]. apply match_group_m; [lia|].
      apply match_group_d; [lia|]. apply match_group_H; [lia|].
      apply match_group_M; [lia|]. reflexivity. }
  unfold field. simpl.
  rewrite int_zero_pad_4 by lia. simpl.
  rewrite !int_zero_pad_2 by lia. simpl.
  destruct d as [y mo dd hh mi ss us]. simpl in *. subst us ss.
  by rewrite Hvalid.
Qed.
End text_facts.

(** ** Lines of text *)

Section lines.
Import Py.

Lemma no_newline_app a b : no_newline (a ++ b) = no_newline a && no_newline b.
Proof. apply forallb_app. Qed.

Lemma universal_newlines_line body rest :
  no_newline body = true →
  universal_newlines (body ++ nl :: rest) = body ++ nl :: universal_newlines rest.
Proof.
  induction body as [|c body IH]; intros Hb; [done|].
  simpl in Hb. apply andb_prop in Hb as [Hc Hb].
  apply andb_prop in Hc as [_ Hcr]. apply negb_true_iff in Hcr.
  simpl. rewrite Hcr. by rewrite IH.
Qed.

Lemma lines_go_line cur body rest :
  no_newline body = true →
  lines_go cur (body ++ nl :: rest)
  = (rev cur ++ body ++ [nl]) :: lines_go [] rest.
Proof.
  revert cur. induction body as [|c body IH]; intros cur Hb.
  - done.
  - simpl in Hb. apply andb_prop in Hb as [Hc Hb].
    apply andb_prop in Hc as [Hnl _]. apply negb_true_iff in Hnl.
    simpl. rewrite Hnl, IH by done. simpl. by rewrite <- app_assoc.
Qed.

Lemma universal_newlines_file bodies :
  forallb no_newline bodies = true →
  universal_newlines (file_of_lines bodies) = file_of_lines bodies.
Proof.
  induction bodies as [|b bodies IH]; intros Hb; [done|].
  simpl in Hb. apply andb_prop in Hb as [Hb Hbs]. simpl.
  rewrite <- app_assoc. simpl.
  rewrite universal_newlines_line by done. by rewrite IH.
Qed.

Lemma readlines_file bodies :
  forallb no_newline bodies = true →
  readlines (file_of_lines bodies) = map (λ b, b ++ [nl]) bodies.
Proof.
  intros Hb. unfold readlines. rewrite universal_newlines_file by done.
  induction bodies as [|b bodies IH]; [done|].
  simpl in Hb. apply andb_prop in Hb as [Hb Hbs]. simpl.
  rewrite <- app_assoc. simpl. rewrite lines_go_line by done.
  simpl. by rewrite IH.
Qed.

Lemma file_of_lines_app a b :
  file_of_lines (a ++ b) = file_of_lines a ++ file_of_lines b.
Proof. unfold file_of_lines. apply flat_map_app. Qed.

(** [strip] of a text that begins with a character that is no space *)
Lemma lstrip_app_not_space s c :
  is_space c = false → lstrip (s ++ [c]) ≠ [].
Proof.
  intros Hc. induction s as [|a s IH]; simpl.
  - by rewrite Hc.
  - by destruct (is_space a).
Qed.

Lemma strip_not_empty c s :
  is_space c = false → (0 < length (strip (c :: s)))%nat.
Proof.
  intros Hc. unfold strip, rstrip. simpl lstrip. rewrite Hc.
  rewrite length_rev. simpl rev.
  pose proof (lstrip_app_not_space (rev s) c Hc).
  destruct (lstrip _); [done|simpl; lia].
Qed.
End lines.

(** ** A dictionary filled from a list of rows *)

Section filled.
Import Timeseries.
Implicit Types (h : heap) (o : Attr.t) (d : gmap datetime value).
Implicit Types (rows : list (datetime * value)).

Lemma fill_list_to_map d rows :
  fill d rows = list_to_map (rev rows) ∪ d.
Proof.
  revert d. induction rows as [|[k v] rows IH]; intros d; simpl.
  - by rewrite (left_id_L ∅ (∪)).
  - rewrite IH, list_to_map_app. simpl.
    rewrite <- (assoc_L (∪)). f_equal.
    rewrite <- insert_union_l, (left_id_L ∅ (∪)). done.
Qed.

Lemma fill_empty rows :
  NoDup rows.*1 → fill ∅ rows = list_to_map rows.
Proof.
  intros Hnd. rewrite fill_list_to_map, (right_id_L ∅ (∪)).
  apply list_to_map_proper; [|symmetry; apply Permutation_rev].
  by rewrite <- (Permutation_rev rows).
Qed.

Lemma dom_fill d rows k :
  k ∈ dom (fill d rows) ↔ k ∈ dom d ∨ k ∈ rows.*1.
Proof.
  revert d. induction rows as [|[k' v] rows IH]; intros d; simpl.
  - set_solver.
  - rewrite IH. set_solver.
Qed.






Lemma fst_items d (l : list datetime) :
  Forall (λ k, k ∈ dom d) l → (omap (λ k, (k,.) <$> d !! k) l).*1 = l.
Proof.
  induction 1 as [|x l Hx _ IH]; [done|].
  apply elem_of_dom in Hx as [w Hw]. simpl. rewrite Hw. simpl.
  f_equal. exact IH.
Qed.

(** What [iter] gives is the dictionary, as a list. *)
Lemma list_to_map_items d :
  (list_to_map (omap (λ k, (k,.) <$> d !! k) (sorted_keys d))
   : gmap datetime value) = d.
Proof.
  assert (Forall (λ k, k ∈ dom d) (sorted_keys d)) as Hall.
  { apply Forall_forall. intros. by apply elem_of_sorted_keys. }
  apply map_eq. intros k.
  destruct (d !! k) as [v|] eqn:Hk.
  - apply elem_of_list_to_map_1.
    + rewrite fst_items by done. apply NoDup_sorted_keys.
    + apply list_elem_of_omap. exists k. rewrite Hk. split; [|done].
      apply elem_of_sorted_keys, elem_of_dom. eauto.
  - apply not_elem_of_list_to_map_1. rewrite fst_items by done.
    rewrite elem_of_sorted_keys. by apply not_elem_of_dom.
Qed.
End filled.

(** ** [read_uvf]: the century of two-digit years *)

Section uvf_text.
Import Py Strptime Timeseries.
Context `{FloatLib}.

Lemma strftime_uvf d :
  1000 ≤ Datetime.year d ≤ 9999 →
  strftime d fmt_uvf
  = zero_pad 2 (Datetime.year d / 100) ++ zero_pad 2 (Datetime.year d mod 100)
    ++ zero_pad 2 (Datetime.month d) ++ zero_pad 2 (Datetime.day d)
    ++ zero_pad 2 (Datetime.hour d) ++ zero_pad 2 (Datetime.minute d).
Proof.
  intros Hy.
  change (strftime d fmt_uvf)
    with (zero_pad 4 (Datetime.year d) ++ zero_pad 2 (Datetime.month d)
          ++ zero_pad 2 (Datetime.day d) ++ zero_pad 2 (Datetime.hour d)
          ++ zero_pad 2 (Datetime.minute d) ++ []).
  by rewrite zero_pad_4, app_nil_r, <- app_assoc by done.
Qed.

Lemma digit_char_not_star n :
  0 ≤ n ≤ 9 → Ascii.eqb "*" (digit_char n) = false.
Proof.
  intros Hn. apply negb_true_iff. revert n Hn.
  apply (forall_range (λ n, negb (Ascii.eqb "*" (digit_char n))) 0 9).
  vm_compute. reflexivity.
Qed.

Lemma year_parts y :
  1000 ≤ y ≤ 9999 → 10 ≤ y / 100 ≤ 99 ∧ 0 ≤ y mod 100 ≤ 99.
Proof.
  intros Hy. pose proof (Z.div_mod y 100 ltac:(lia)).
  pose proof (Z.mod_pos_bound y 100 ltac:(lia)). lia.
Qed.

Lemma digits_of v :
  0 ≤ v ≤ 99 → 0 ≤ v / 10 ≤ 9 ∧ 0 ≤ v mod 10 ≤ 9.
Proof.
  intros Hv. pose proof (Z.div_mod v 10 ltac:(lia)).
  pose proof (Z.mod_pos_bound v 10 ltac:(lia)). lia.
Qed.

(** What [read_uvf] takes from a data line. *)
Lemma uvf_line_parts d field :
  printable d →
  let line := uvf_line d field ++ [nl] in
  startswith (lit "*Z") line = false ∧
  (0 <? length (strip line))%nat = true ∧
  drop 10 line = field ++ [nl] ∧
  Py.slice (Py.slice line 0 10) 0 2 = zero_pad 2 (Datetime.year d mod 100) ∧
  ∀ c, 1000 ≤ c ≤ 9999 → c / 100 = Datetime.year d / 100 →
       Py.slice (str_int c) 0 2 ++ Py.slice line 0 10 = strftime d fmt_uvf.
Proof.
  intros (Hvalid & Hy & Hus).
  destruct (valid_datetime_ranges d Hvalid) as (Hy' & ? & ? & ? & ? & ?).
  assert (1000 ≤ Datetime.year d ≤ 9999) as Hyear by lia.
  destruct (year_parts _ Hyear) as [Hhi Hlo].
  intros line. subst line. unfold uvf_line.
  assert (∀ c, 1000 ≤ c ≤ 9999 → c / 100 = Datetime.year d / 100 →
               Py.slice (str_int c) 0 2 = zero_pad 2 (Datetime.year d / 100))
    as Hc.
  { intros c Hc <-. by apply str_int_century. }
  rewrite strftime_uvf by done.
  destruct (digits_of (Datetime.year d mod 100)) as [Ha Hb]; [lia|].
  pose proof (digit_char_not_star _ Ha) as Hstar.
  pose proof (is_digit_not_space _ (digit_char_is_digit _ Ha)) as Hsp.
  rewrite (zero_pad_2 (Datetime.year d / 100)) by lia.
  rewrite (zero_pad_2 (Datetime.year d mod 100)) by lia.
  rewrite (zero_pad_2 (Datetime.month d)) by lia.
  rewrite (zero_pad_2 (Datetime.day d)) by lia.
  rewrite (zero_pad_2 (Datetime.hour d)) by lia.
  rewrite (zero_pad_2 (Datetime.minute d)) by lia.
  split_and!.
  - cbn [drop app]. unfold lit. cbn [list_ascii_of_string startswith].
    by rewrite Hstar.
  - apply Nat.ltb_lt. cbn [drop app]. by apply strip_not_empty.
  - done.
  - done.
  - intros c Hc1 Hc2. rewrite (Hc c Hc1 Hc2).
    rewrite (zero_pad_2 (Datetime.year d / 100)) by lia. done.
Qed.

Lemma lt_year a b : Datetime.lt a b → Datetime.year a ≤ Datetime.year b.
Proof.
  unfold Datetime.lt, Datetime.compare, Datetime.fields.
  destruct a as [ya ? ? ? ? ? ?], b as [yb ? ? ? ? ? ?]. simpl.
  destruct (Z.compare_spec ya yb); try done; lia.
Qed.

Lemma follows_tracks c a ds :
  c / 100 = Datetime.year a / 100 →
  Sorted follows (a :: ds) →
  tracks c (Datetime.year a mod 100) ds.
Proof.
  revert c a. induction ds as [|b ds IH]; intros c a Hc Hs; [done|].
  apply Sorted_inv in Hs as [Hs Hhd].
  apply HdRel_inv in Hhd as [Hlt Hgap]. apply lt_year in Hlt.
  pose proof (Z.div_mod (Datetime.year a) 100 ltac:(lia)).
  pose proof (Z.mod_pos_bound (Datetime.year a) 100 ltac:(lia)).
  pose proof (Z.div_mod (Datetime.year b) 100 ltac:(lia)).
  pose proof (Z.mod_pos_bound (Datetime.year b) 100 ltac:(lia)).
  pose proof (Z.div_mod c 100 ltac:(lia)).
  pose proof (Z.mod_pos_bound c 100 ltac:(lia)).
  assert ((if Datetime.year b mod 100 <? Datetime.year a mod 100
           then c + 100 else c) / 100 = Datetime.year b / 100) as Hb.
  { destruct (Z.ltb_spec (Datetime.year b mod 100)
                (Datetime.year a mod 100)).
    - replace (c + 100) with (c + 1 * 100) by lia.
      rewrite Z.div_add by lia. lia.
    - lia. }
  simpl. split; [done|]. by apply IH.
Qed.

Lemma follows_tracks_first c0 (ds : list datetime) :
  match ds with
  | a :: _ => c0 / 100 = Datetime.year a / 100 ∧ 0 ≤ Datetime.year a
  | [] => True
  end →
  Sorted follows ds → tracks c0 0 ds.
Proof.
  destruct ds as [|a ds]; [done|]. intros [Hc Hy] Hs. simpl.
  pose proof (Z.mod_pos_bound (Datetime.year a) 100 ltac:(lia)).
  destruct (Z.ltb_spec (Datetime.year a mod 100) 0); [lia|].
  split; [done|]. by apply follows_tracks.
Qed.

Lemma follows_strictly_sorted (ds : list datetime) :
  Sorted follows ds → StronglySorted Datetime.lt ds.
Proof.
  intros Hs. apply Sorted_StronglySorted.
  { intros a b c. apply DatetimeFacts.lt_trans. }
  induction Hs as [|a l _ IH Hhd]; constructor; [done|].
  destruct Hhd as [|b l [Hlt _]]; constructor. done.
Qed.
End uvf_text.

Section read_uvf.
Import Py Strptime Timeseries.
Context `{FloatLib}.
Implicit Types (h : heap) (o : Attr.t) (d : gmap datetime value).
Implicit Types (st : uvf_state).

Lemma uvf_value_ok field v h :
  uvf_value field = Some v →
  (if startswith (lit "-777") (strip (field ++ [nl]))
   then mret NpNan
   else f ← float_ (strip (field ++ [nl])); mret (Float f)) h = (Ok v, h).
Proof.
  unfold uvf_value. cbv zeta.
  destruct (startswith _ _); [by intros [= <-]|].
  unfold float_. destruct (parse_float _) as [f|]; [|done].
  by intros [= <-].
Qed.

Lemma read_uvf_data_row ts st r h o d :
  objects h !! ts = Some o → dicts h !! Attr.nodes o = Some d →
  row_ok r →
  let c := if Datetime.year (row_date r) mod 100 <? year st
           then century st + 100 else century st in
  c / 100 = Datetime.year (row_date r) / 100 →
  row_date r ∉ dom d →
  read_uvf_data ts st (row_line r ++ [nl]) h
  = (Ok (UvfState (i_header st) (is_header st) (is_data st) c
           (Datetime.year (row_date r) mod 100)),
     Heap (objects h) (<[Attr.nodes o := <[row_date r := r.2]> d]> (dicts h))
       (log h) (files h)).
Proof.
  destruct r as [[dt field] v]. unfold row_ok, row_date, row_line. simpl.
  intros Ho Hd (Hp & Hs & Hv) Hc Hfresh.
  destruct (uvf_line_parts dt field Hp) as (_ & Hlen & Hdrop & Hyy & Hfull).
  pose proof Hp as (Hvalid & Hy & Hus).
  destruct (valid_datetime_ranges dt Hvalid) as (Hy' & _).
  destruct (year_parts (Datetime.year dt)) as [Hhi Hlo]; [lia|].
  set (c := if Datetime.year dt mod 100 <? year st
            then century st + 100 else century st) in *.
  assert (1000 ≤ c ≤ 9999) as Hrange.
  { pose proof (Z.div_mod c 100 ltac:(lia)).
    pose proof (Z.mod_pos_bound c 100 ltac:(lia)). lia. }
  unfold read_uvf_data. cbv zeta.
  rewrite Hlen, Hdrop, Hyy.
  rewrite (bind_ok _ _ _ _ _ (uvf_value_ok _ _ h Hv)).
  rewrite int_zero_pad_2 by done. simpl lift_option.
  unfold mbind at 1, M_bind at 1, mret at 1, M_ret at 1.
  unfold mbind at 1, M_bind at 1, mret at 1, M_ret at 1.
  fold c. rewrite Hfull by done.
  rewrite strptime_strftime_uvf by done. simpl lift_option.
  unfold mbind at 1, M_bind at 1, mret at 1, M_ret at 1.
  unfold setitem.
  erewrite bind_ok; [|by eapply add_node_new]. done.
Qed.

(** One line of data, read from the states the loop can be in there. *)
Lemma read_uvf_line_row ts st r h o d :
  objects h !! ts = Some o → dicts h !! Attr.nodes o = Some d →
  at_data st → row_ok r →
  let c := if Datetime.year (row_date r) mod 100 <? year st
           then century st + 100 else century st in
  c / 100 = Datetime.year (row_date r) / 100 →
  row_date r ∉ dom d →
  ∃ st',
    read_uvf_line ts st (row_line r ++ [nl]) h
    = (Ok st',
       Heap (objects h)
         (<[Attr.nodes o := <[row_date r := r.2]> d]> (dicts h))
         (log h) (files h)) ∧
    at_data st' ∧ century st' = c ∧
    year st' = Datetime.year (row_date r) mod 100.
Proof.
  intros Ho Hd Hst Hr c Hc Hfresh.
  destruct (uvf_line_parts r.1.1 r.1.2 (proj1 Hr)) as (Hstar & _).
  unfold read_uvf_line. fold (row_line r) in Hstar. rewrite Hstar.
  destruct st as [i hd dat cen yy]. unfold at_data in Hst. simpl in *.
  destruct Hst as [[-> ->]|[-> Hi]].
  - unfold mbind at 1, M_bind at 1, mret at 1, M_ret at 1. simpl.
    eexists. split;
      [by eapply (read_uvf_data_row ts (UvfState i false true cen yy))|].
    simpl. split_and!; try done. by left.
  - unfold read_uvf_header. simpl.
    destruct (Z.eqb_spec (i + 1) 1); [lia|].
    destruct (Z.eqb_spec (i + 1) 2); [lia|].
    destruct (Z.eqb_spec (i + 1) 3); [lia|].
    destruct (Z.eqb_spec (i + 1) 4); [lia|].
    unfold mbind at 1, M_bind at 1, mret at 1, M_ret at 1. simpl.
    eexists. split;
      [by eapply (read_uvf_data_row ts (UvfState (i + 1) false true cen yy))|].
    simpl. split_and!; try done. by left.
Qed.

(** The lines of data, from a state the loop can be in at the first. *)
Lemma read_uvf_lines_rows ts (rows : list uvf_row) : ∀ st h o d,
  objects h !! ts = Some o → dicts h !! Attr.nodes o = Some d →
  at_data st → Forall row_ok rows →
  tracks (century st) (year st) (row_date <$> rows) →
  StronglySorted Datetime.lt (row_date <$> rows) →
  (∀ k, k ∈ dom d → k ∉ row_date <$> rows) →
  ∃ st',
    read_uvf_lines ts st ((λ r, row_line r ++ [nl]) <$> rows) h
    = (Ok st',
       Heap (objects h)
         (<[Attr.nodes o := fill d (row_node <$> rows)]> (dicts h))
         (log h) (files h)).
Proof.
  induction rows as [|r rows IH]; intros st h o d Ho Hd Hst Hok Htr Hs Hdom.
  - simpl. eexists. unfold mret, M_ret. do 2 f_equal.
    destruct h as [ob di lg fi]. simpl in *. f_equal.
    by rewrite insert_id.
  - apply Forall_cons in Hok as [Hr Hok]. simpl in Htr.
    destruct Htr as [Hc Htr].
    rewrite fmap_cons in Hs. apply StronglySorted_inv in Hs as [Hs Hlt].
    assert (row_date r ∉ dom d) as Hfresh.
    { intros Hin. apply (Hdom _ Hin). rewrite fmap_cons. left. }
    destruct (read_uvf_line_row ts st r h o d Ho Hd Hst Hr Hc Hfresh)
      as (st1 & Hrun & Hst1 & Hcen & Hyy).
    rewrite fmap_cons. simpl read_uvf_lines.
    rewrite (bind_ok _ _ _ _ _ Hrun).
    rewrite <- Hcen, <- Hyy in Htr.
    destruct (IH st1
                (Heap (objects h)
                   (<[Attr.nodes o := <[row_date r := r.2]> d]> (dicts h))
                   (log h) (files h))
                o (<[row_date r := r.2]> d)) as (st' & Hrun');
      [done|apply lookup_insert_eq|done|done|done|done| |].
    + intros k Hk Hin. apply elem_of_dom in Hk.
      rewrite lookup_insert_is_Some in Hk.
      destruct Hk as [<-|[_ Hk]].
      * rewrite Forall_forall in Hlt.
        by apply (DatetimeFacts.lt_irrefl (row_date r)), Hlt.
      * apply (Hdom k); [by apply elem_of_dom|]. rewrite fmap_cons. by right.
    + exists st'. rewrite Hrun'. simpl. by rewrite insert_insert_eq.
Qed.

(** *** The header *)

Lemma keeps_ret {A} ts (a : A) : keeps ts (mret a).
Proof. intros h d Hd. by exists (Ok a), h. Qed.

Lemma keeps_lift_option {A} ts e (x : option A) : keeps ts (lift_option e x).
Proof. intros h d Hd. destruct x; simpl; by eexists _, h. Qed.

Lemma keeps_bind {A B} ts (m : M A) (f : A → M B) :
  keeps ts m → (∀ a, keeps ts (f a)) → keeps ts (m ≫= f).
Proof.
  intros Hm Hf h d Hd. destruct (Hm h d Hd) as (r & h1 & Hrun & Hr & Hd1).
  unfold mbind, M_bind. rewrite Hrun. destruct r as [a|e|]; [|by eauto|done].
  by apply Hf.
Qed.

Lemma modify_obj_nodes h ts f d :
  nodes_of h ts = Some d → (∀ o, Attr.nodes (f o) = Attr.nodes o) →
  ∃ h', modify_obj ts f h = (Ok (), h') ∧ nodes_of h' ts = Some d.
Proof.
  intros (o & Ho & Hd)%nodes_of_Some Hf. unfold modify_obj. rewrite Ho.
  eexists. split; [done|]. apply nodes_of_Some. exists (f o). simpl.
  by rewrite lookup_insert_eq, Hf.
Qed.

Lemma keeps_modify_obj ts f :
  (∀ o, Attr.nodes (f o) = Attr.nodes o) → keeps ts (modify_obj ts f).
Proof.
  intros Hf h d Hd. destruct (modify_obj_nodes h ts f d Hd Hf) as (h' & ? & ?).
  by exists (Ok ()), h'.
Qed.

Lemma try_except_all_keeps ts (body : M ()) h d :
  keeps ts body → nodes_of h ts = Some d →
  ∃ h', try_except_all body (λ _, mret ()) h = (Ok (), h') ∧
        nodes_of h' ts = Some d.
Proof.
  intros Hb Hd. destruct (Hb h d Hd) as (r & h' & Hrun & Hr & Hd').
  unfold try_except_all. rewrite Hrun. exists h'.
  by destruct r as [[]|e|].
Qed.

Lemma read_uvf_lines_app ts (a b : list text) : ∀ st h,
  read_uvf_lines ts st (a ++ b) h
  = (st' ← read_uvf_lines ts st a; read_uvf_lines ts st' b) h.
Proof.
  induction a as [|x a IH]; intros st h; [done|]. simpl.
  unfold mbind, M_bind in *.
  destruct (read_uvf_line ts st x h) as [[st1|e|] h1]; [|done..].
  apply IH.
Qed.

(** The lines before the header *)
Lemma read_uvf_lines_attributes ts (attrs : list text) st h :
  is_header st = false → is_data st = false →
  Forall (λ a, startswith (lit "*Z") a = false) attrs →
  read_uvf_lines ts st attrs h = (Ok st, h).
Proof.
  intros Hh Hdat. induction 1 as [|a attrs Ha _ IH]; [done|]. simpl.
  unfold read_uvf_line at 1. rewrite Ha, Hh. simpl.
  unfold mbind at 2, M_bind at 2, mret at 1, M_ret at 1.
  rewrite Hdat. unfold mbind, M_bind, mret at 1, M_ret at 1. apply IH.
Qed.

Lemma header_state i cen yy line :
  (if startswith (lit "*Z") line then UvfState i true false cen yy
   else UvfState i true false cen yy) = UvfState i true false cen yy.
Proof. by destruct (startswith _ _). Qed.

(** The line [*Z] *)
Lemma read_uvf_line_1 ts l1 h :
  startswith (lit "*Z") l1 = true →
  read_uvf_line ts (UvfState 0 false false 1900 0) l1 h
  = (Ok (UvfState 1 true false 1900 0), h).
Proof. intros Hstar. unfold read_uvf_line. by rewrite Hstar. Qed.

(** The line of the title, the unit and the century *)
Lemma read_uvf_line_2 ts l2 c0 h d :
  nodes_of h ts = Some d → int (Py.slice l2 30 34) = Some c0 →
  ∃ h',
    read_uvf_line ts (UvfState 1 true false 1900 0) l2 h
    = (Ok (UvfState 2 true false c0 0), h') ∧
    nodes_of h' ts = Some d.
Proof.
  intros Hd Hc0. unfold read_uvf_line. rewrite header_state.
  destruct (modify_obj_nodes h ts
              (Attr.set_title (to_string (Py.slice l2 0 15))) d Hd)
    as (h1 & Hrun1 & Hd1); [done|].
  destruct (modify_obj_nodes h1 ts
              (Attr.set_unit (AStr (to_string (Py.slice l2 15 30)))) d Hd1)
    as (h2 & Hrun2 & Hd2); [done|].
  exists h2. split; [|done].
  unfold read_uvf_header. simpl. rewrite Hc0.
  unfold mbind, M_bind. rewrite Hrun1, Hrun2. done.
Qed.

(** The line of the location *)
Lemma read_uvf_line_3 ts l3 c0 h d :
  nodes_of h ts = Some d →
  ∃ h',
    read_uvf_line ts (UvfState 2 true false c0 0) l3 h
    = (Ok (UvfState 3 true false c0 0), h') ∧
    nodes_of h' ts = Some d.
Proof.
  intros Hd. unfold read_uvf_line. rewrite header_state.
  unfold read_uvf_header. simpl.
  match goal with
  | |- context [try_except_all ?body _] =>
      destruct (try_except_all_keeps ts body h d) as (h' & Hrun & Hd');
        [|done|]
  end.
  { repeat first
      [ apply keeps_bind; [|intros ?]
      | by apply keeps_modify_obj
      | apply keeps_lift_option ]. }
  exists h'. split; [|done].
  erewrite bind_ok; [|erewrite bind_ok; [|exact Hrun]; reflexivity].
  done.
Qed.

(** The line of the first and the last date *)
Lemma read_uvf_line_4 ts l4 c0 h :
  read_uvf_line ts (UvfState 3 true false c0 0) l4 h
  = (Ok (UvfState 4 true false c0 0), h).
Proof. unfold read_uvf_line. by rewrite header_state. Qed.

(** The four lines of the header *)
Lemma read_uvf_lines_header ts l1 l2 l3 l4 c0 h d :
  nodes_of h ts = Some d →
  startswith (lit "*Z") l1 = true →
  int (Py.slice l2 30 34) = Some c0 →
  ∃ h',
    read_uvf_lines ts (UvfState 0 false false 1900 0) [l1; l2; l3; l4] h
    = (Ok (UvfState 4 true false c0 0), h') ∧
    nodes_of h' ts = Some d.
Proof.
  intros Hd Hstar Hc0.
  destruct (read_uvf_line_2 ts l2 c0 h d Hd Hc0) as (h2 & Hrun2 & Hd2).
  destruct (read_uvf_line_3 ts l3 c0 h2 d Hd2) as (h3 & Hrun3 & Hd3).
  exists h3. split; [|done].
  cbn [read_uvf_lines].
  rewrite (bind_ok _ _ _ _ _ (read_uvf_line_1 ts l1 h Hstar)).
  rewrite (bind_ok _ _ _ _ _ Hrun2), (bind_ok _ _ _ _ _ Hrun3).
  by rewrite (bind_ok _ _ _ _ _ (read_uvf_line_4 ts l4 c0 h3)).
Qed.
End read_uvf.

Section claims_read_uvf.
Import Py Strptime Timeseries.
Context `{FloatLib}.
Implicit Types (h : heap) (o : Attr.t) (d : gmap datetime value).

Lemma new_nodes title h :
  ∃ ts h', new title h = (Ok ts, h') ∧ nodes_of h' ts = Some ∅ ∧
           files h' = files h.
Proof.
  unfold new, mbind, M_bind, alloc_dict, alloc_obj. simpl.
  eexists _, _. split; [done|]. split; [|done].
  apply nodes_of_Some. eexists. simpl.
  split; [apply lookup_insert_eq|]. simpl. apply lookup_insert_eq.
Qed.

End claims_read_uvf.


(** ** Text without whitespace *)

Section words.
Import Py Strptime.

Lemma not_space_not_newline c :
  is_space c = false → negb (Ascii.eqb c nl) && negb (Ascii.eqb c cr) = true.
Proof. destruct c as [[] [] [] [] [] [] [] []]; by vm_compute. Qed.

Lemma no_space_no_newline s : no_space s = true → no_newline s = true.
Proof.
  unfold no_space, no_newline. rewrite !forallb_forall. intros Hs c Hc.
  apply not_space_not_newline, negb_true_iff. by apply Hs.
Qed.

Lemma no_space_app a b : no_space (a ++ b) = no_space a && no_space b.
Proof. apply forallb_app. Qed.

Lemma no_space_rev s : no_space (rev s) = no_space s.
Proof.
  unfold no_space. induction s as [|c s IH]; [done|]. simpl.
  rewrite forallb_app, IH. simpl. rewrite andb_true_r. apply andb_comm.
Qed.

Lemma lstrip_no_space s : no_space s = true → lstrip s = s.
Proof.
  destruct s as [|c s]; [done|]. intros Hs.
  apply andb_prop in Hs as [Hc _]. apply negb_true_iff in Hc.
  cbn [lstrip]. by rewrite Hc.
Qed.

Lemma strip_no_space s : no_space s = true → strip s = s.
Proof.
  intros Hs. unfold strip, rstrip. rewrite (lstrip_no_space s) by done.
  rewrite lstrip_no_space by by rewrite no_space_rev. apply rev_involutive.
Qed.


Lemma digit_char_not_space n : 0 ≤ n ≤ 9 → is_space (digit_char n) = false.
Proof. intros Hn. by apply is_digit_not_space, digit_char_is_digit. Qed.

Lemma no_space_zero_pad_2 v : 0 ≤ v ≤ 99 → no_space (zero_pad 2 v) = true.
Proof.
  intros Hv. rewrite zero_pad_2 by done.
  pose proof (Z.div_mod v 10 ltac:(lia)).
  pose proof (Z.mod_pos_bound v 10 ltac:(lia)).
  unfold no_space. simpl. by rewrite !digit_char_not_space by lia.
Qed.

(** [split]: a word, then whitespace *)
Lemma split_go_word cur w c rest :
  no_space w = true → is_space c = true → cur ≠ [] ∨ w ≠ [] →
  split_go cur (w ++ c :: rest) = (rev cur ++ w) :: split_go [] rest.
Proof.
  revert cur. induction w as [|a w IH]; intros cur Hw Hc Hne.
  - cbn [app split_go]. rewrite Hc, app_nil_r.
    destruct cur; [by destruct Hne|done].
  - apply andb_prop in Hw as [Ha Hw].
    apply negb_true_iff in Ha. cbn [app split_go]. rewrite Ha.
    rewrite IH by (done || by left). simpl. by rewrite <- app_assoc.
Qed.

(** The date as [%Y%m%d%H%M%S] prints it *)
Lemma strftime_txt d :
  1000 ≤ Datetime.year d ≤ 9999 →
  strftime d Timeseries.fmt_txt
  = zero_pad 2 (Datetime.year d / 100) ++ zero_pad 2 (Datetime.year d mod 100)
    ++ zero_pad 2 (Datetime.month d) ++ zero_pad 2 (Datetime.day d)
    ++ zero_pad 2 (Datetime.hour d) ++ zero_pad 2 (Datetime.minute d)
    ++ zero_pad 2 (Datetime.second d).
Proof.
  intros Hy.
  change (strftime d Timeseries.fmt_txt)
    with (zero_pad 4 (Datetime.year d) ++ zero_pad 2 (Datetime.month d)
          ++ zero_pad 2 (Datetime.day d) ++ zero_pad 2 (Datetime.hour d)
          ++ zero_pad 2 (Datetime.minute d) ++ zero_pad 2 (Datetime.second d)
          ++ []).
  by rewrite zero_pad_4, app_nil_r, <- app_assoc by done.
Qed.

Lemma digit_char_not_hash n :
  0 ≤ n ≤ 9 → Ascii.eqb "#" (digit_char n) = false.
Proof.
  intros Hn. apply negb_true_iff. revert n Hn.
  apply (forall_range (λ n, negb (Ascii.eqb "#" (digit_char n))) 0 9).
  vm_compute. reflexivity.
Qed.

(** What the decoders of the text formats take from a line that begins
    with a date of fourteen digits. *)
Lemma stamp_line_parts d rest :
  printable d →
  let stamp := strftime d Timeseries.fmt_txt in
  no_space stamp = true ∧ stamp ≠ [] ∧
  startswith (lit "#") (stamp ++ rest) = false ∧
  startswith (lit "##") (stamp ++ rest) = false ∧
  bool_decide (strip (stamp ++ rest) = []) = false ∧
  Py.slice (stamp ++ rest) 0 14 = stamp ∧
  drop 14 (stamp ++ rest) = rest ∧
  (length stamp <? 14)%nat = false.
Proof.
  intros (Hvalid & Hy & Hus).
  destruct (valid_datetime_ranges d Hvalid) as (Hy' & ? & ? & ? & ? & ?).
  assert (1000 ≤ Datetime.year d ≤ 9999) as Hyear by lia.
  destruct (year_parts _ Hyear) as [Hhi Hlo].
  intros stamp. subst stamp.
  assert (no_space (strftime d Timeseries.fmt_txt) = true) as Hns.
  { rewrite strftime_txt, !no_space_app by done.
    by rewrite !no_space_zero_pad_2 by lia. }
  split; [done|]. clear Hns.
  rewrite strftime_txt by done.
  destruct (digits_of (Datetime.year d / 100)) as [Ha Hb]; [lia|].
  pose proof (digit_char_not_hash _ Ha) as Hhash.
  pose proof (digit_char_not_space _ Ha) as Hsp.
  rewrite (zero_pad_2 (Datetime.year d / 100)) by lia.
  rewrite (zero_pad_2 (Datetime.year d mod 100)) by lia.
  rewrite (zero_pad_2 (Datetime.month d)) by lia.
  rewrite (zero_pad_2 (Datetime.day d)) by lia.
  rewrite (zero_pad_2 (Datetime.hour d)) by lia.
  rewrite (zero_pad_2 (Datetime.minute d)) by lia.
  rewrite (zero_pad_2 (Datetime.second d)) by lia.
  split_and!; try done.
  - cbn [app]. unfold lit. cbn [list_ascii_of_string startswith].
    by rewrite Hhash.
  - cbn [app]. unfold lit. cbn [list_ascii_of_string startswith].
    by rewrite Hhash.
  - apply bool_decide_eq_false. cbn [app]. intros Hempty.
    match type of Hempty with strip (_ :: ?t) = [] =>
      pose proof (strip_not_empty _ t Hsp) as Hlen end.
    rewrite Hempty in Hlen. simpl in Hlen. lia.
Qed.
End words.

(** ** Writing a text file and reading it back *)

Section written_files.
Import Py Strptime Timeseries.
Context `{FloatLib}.
Implicit Types (h : heap) (o : Attr.t) (d : gmap datetime value).

Lemma fst_items_sorted d : (items d).*1 = sorted_keys d.
Proof.
  apply fst_items, Forall_forall. intros k. by rewrite elem_of_sorted_keys.
Qed.

Lemma elem_of_items d k v : (k, v) ∈ items d ↔ d !! k = Some v.
Proof.
  unfold items. rewrite list_elem_of_omap. split.
  - intros (x & _ & Hx). destruct (d !! x) eqn:E; by simplify_eq/=.
  - intros Hk. exists k. rewrite Hk. split; [|done].
    apply elem_of_sorted_keys, elem_of_dom. eauto.
Qed.

(** The dictionary read back from rows that hold the values of [d] as the
    decoder [dec] takes them. *)
Lemma fill_decoded d (dec : value → value) :
  fill ∅ ((λ kv, (kv.1, dec kv.2)) <$> items d) = dec <$> d.
Proof.
  assert (((λ kv : datetime * value, (kv.1, dec kv.2)) <$> items d).*1
          = sorted_keys d) as Hfst.
  { rewrite <- list_fmap_compose. apply fst_items_sorted. }
  rewrite fill_empty by (rewrite Hfst; apply NoDup_sorted_keys).
  rewrite <- (list_to_map_items d) at 2. fold (items d).
  by rewrite <- list_to_map_fmap.
Qed.

Lemma for_each_ext {A} (f g : A → M ()) (l : list A) :
  (∀ x, f x = g x) → for_each l f = for_each l g.
Proof.
  intros Hfg. induction l as [|x l IH]; [done|]. simpl. by rewrite Hfg, IH.
Qed.

(** [f.write] for each element in turn *)
Lemma for_each_fwrite {A} (g : A → text) filename (l : list A) : ∀ h c,
  files h !! filename = Some c →
  for_each l (λ x, fwrite filename (g x)) h
  = (Ok (), Heap (objects h) (dicts h) (log h)
              (<[filename := c ++ flat_map g l]> (files h))).
Proof.
  induction l as [|x l IH]; intros h c Hc.
  - simpl. rewrite app_nil_r, insert_id by done. by destruct h.
  - simpl. unfold mbind, M_bind, fwrite at 1. rewrite Hc. simpl.
    erewrite IH by apply lookup_insert_eq. simpl.
    by rewrite insert_insert_eq, <- app_assoc.
Qed.

Lemma flat_map_fmap {A B C} (f : B → list C) (g : A → B) (l : list A) :
  flat_map f (g <$> l) = flat_map (f ∘ g) l.
Proof. induction l as [|x l IH]; [done|]. simpl. f_equal. exact IH. Qed.

(** *** The format [txt] *)




End written_files.

Section read_txt.
Import Py Strptime Timeseries.
Context `{FloatLib}.
Implicit Types (h : heap) (o : Attr.t) (d : gmap datetime value).



End read_txt.

(** *** The format [zrx] *)

Section write_zrx.
Import Py Strptime Timeseries.
Context `{FloatLib}.
Implicit Types (h : heap) (o : Attr.t) (d : gmap datetime value).

Lemma open_write_ok filename h :
  open_write filename h = (Ok (), with_file h filename []).
Proof. done. Qed.

Lemma fwrite_with_file filename s h c :
  fwrite filename s (with_file h filename c)
  = (Ok (), with_file h filename (c ++ s)).
Proof.
  unfold fwrite, with_file. simpl.
  by rewrite lookup_insert_eq, insert_insert_eq.
Qed.

Lemma for_each_fwrite_with_file {A} (g : A → text) filename (l : list A) h c :
  for_each l (λ x, fwrite filename (g x)) (with_file h filename c)
  = (Ok (), with_file h filename (c ++ flat_map g l)).
Proof.
  erewrite for_each_fwrite by apply lookup_insert_eq.
  unfold with_file. simpl. by rewrite insert_insert_eq.
Qed.

Lemma iter_with_file self filename c h o d :
  objects h !! self = Some o → dicts h !! Attr.nodes o = Some d →
  iter self (with_file h filename c) = (Ok (items d), with_file h filename c).
Proof. intros Ho Hd. by apply (iter_ok _ _ o d). Qed.

Lemma write_zrx_ok self filename REXCHANGE h o d :
  objects h !! self = Some o → dicts h !! Attr.nodes o = Some d →
  write_zrx self filename REXCHANGE h
  = (Ok (),
     with_file h filename
       (file_of_lines (zrx_header o REXCHANGE ++ (zrx_body <$> items d)))).
Proof.
  intros Ho Hd. unfold write_zrx.
  rewrite (bind_ok _ _ _ _ _ (open_write_ok filename h)).
  erewrite bind_ok by by apply get_obj_ok.
  rewrite (bind_ok _ _ _ _ _ (fwrite_with_file _ _ _ _)).
  rewrite (bind_ok _ _ _ _ _ (fwrite_with_file _ _ _ _)).
  rewrite (bind_ok _ _ _ _ _ (fwrite_with_file _ _ _ _)).
  destruct REXCHANGE as [x|];
    [rewrite (bind_ok _ _ _ _ _ (fwrite_with_file _ _ _ _))
    |erewrite (bind_ok (mret ())) by reflexivity];
    rewrite (bind_ok _ _ _ _ _ (fwrite_with_file _ _ _ _));
    rewrite (bind_ok _ _ _ _ _ (fwrite_with_file _ _ _ _));
    rewrite (bind_ok _ _ _ _ _ (iter_with_file self filename _ h o d Ho Hd));
    rewrite (for_each_ext _ (λ x, fwrite filename (zrx_body x ++ [nl])))
      by (intros [k v]; unfold zrx_body; cbn [fst snd];
          destruct (isnan v); by rewrite <- ?app_assoc);
    rewrite for_each_fwrite_with_file; do 2 f_equal;
    unfold file_of_lines, zrx_header;
    rewrite !flat_map_app, flat_map_fmap; cbn [flat_map];
    rewrite ?app_nil_r, <- ?app_assoc; cbn [app]; reflexivity.
Qed.
End write_zrx.

Section read_zrx.
Import Py Strptime Timeseries.
Context `{FloatLib}.
Implicit Types (h : heap) (o : Attr.t) (d : gmap datetime value).
Implicit Types (md : zrx_metadata).

Lemma startswith_app p s : startswith p (p ++ s) = true.
Proof. induction p as [|c p IH]; [done|]. simpl. by rewrite Ascii.eqb_refl. Qed.

Lemma contains_unfold p s :
  contains p s
  = startswith p s || match s with [] => false | _ :: s' => contains p s' end.
Proof. by destruct s. Qed.

Lemma contains_here p s : contains p (p ++ s) = true.
Proof. by rewrite contains_unfold, startswith_app. Qed.

Lemma contains_app_r p a s : contains p s = true → contains p (a ++ s) = true.
Proof.
  intros Hs. induction a as [|c a IH]; [done|].
  rewrite contains_unfold. simpl. rewrite IH. apply orb_true_r.
Qed.

Lemma no_bar_app a b : no_bar (a ++ b) = no_bar a && no_bar b.
Proof. apply forallb_app. Qed.

(** [split("|*|")]: a block without a bar, then the separator *)
Lemma split_on_go_word w : ∀ fuel cur rest,
  no_bar w = true → (length w < fuel)%nat →
  split_on_go fuel (lit "|*|") cur (w ++ lit "|*|" ++ rest)
  = (rev cur ++ w)
    :: split_on_go (fuel - length w - 1) (lit "|*|") [] rest.
Proof.
  induction w as [|a w IH]; intros fuel cur rest Hw Hlen.
  - destruct fuel as [|fuel]; [simpl in Hlen; lia|].
    cbn. by rewrite app_nil_r, Nat.sub_0_r.
  - destruct fuel as [|fuel]; [simpl in Hlen; lia|].
    apply andb_prop in Hw as [Ha Hw]. apply negb_true_iff in Ha.
    cbn [app split_on_go]. unfold lit at 1.
    cbn [list_ascii_of_string startswith]. rewrite Ha.
    rewrite IH by (done || simpl in Hlen; lia).
    simpl. by rewrite <- app_assoc.
Qed.

Lemma split_on_go_newline fuel :
  split_on_go fuel (lit "|*|") [] [nl] = [[nl]].
Proof. by destruct fuel as [|[|fuel]]. Qed.


Lemma read_zrx_line_comment ts st body h :
  read_zrx_line ts st (lit "##" ++ body) h = (Ok st, h).
Proof. by destruct st. Qed.

Lemma read_zrx_line_metadata ts md data line h :
  startswith (lit "##") line = false → startswith (lit "#") line = true →
  contains (lit "|*|") (drop 1 line) = true →
  read_zrx_line ts (md, data) line h
  = (Ok (fold_left zrx_block (split_on (lit "|*|") (drop 1 line)) md,
         Some (split_on (lit "|*|") (drop 1 line))), h).
Proof. intros H2 H1 Hc. unfold read_zrx_line. by rewrite H2, H1, Hc. Qed.


Lemma read_zrx_line_row ts md data k v h o d :
  objects h !! ts = Some o → dicts h !! Attr.nodes o = Some d →
  RINVAL md = lit "-777.0" →
  printable k → str_float_inverse (float_of v) →
  (isnan v = false → startswith (lit "-777.0") (str_value v) = false) →
  k ∉ dom d →
  read_zrx_line ts (md, data) (zrx_body (k, v) ++ [nl]) h
  = (Ok (md, data),
     Heap (objects h) (<[Attr.nodes o := <[k := reread_zrx v]> d]> (dicts h))
       (log h) (files h)).
Proof.
  intros Ho Hd HR Hk (Hne & Hns & f & Hf & _) Hsentinel Hfresh.
  pose proof (strptime_strftime_txt k Hk) as Hdate.
  unfold zrx_body, reread_zrx. cbn [fst snd].
  destruct (isnan v) eqn:Hnan.
  - rewrite <- !app_assoc.
    destruct (stamp_line_parts k
                (lit " -777.0 " ++ [quote] ++ str_value v ++ [quote] ++ [nl])
                Hk)
      as (Hstamp & Hstampne & Hhash & Hhash2 & _ & _ & _ & Hlen).
    unfold read_zrx_line. rewrite Hhash2, Hhash.
    unfold split.
    change (lit " -777.0 " ++ [quote] ++ str_value v ++ [quote] ++ [nl])
      with (" "%char :: lit "-777.0"
            ++ " "%char :: [quote] ++ str_value v ++ [quote] ++ [nl]).
    rewrite split_go_word by (done || by right).
    rewrite split_go_word by (done || by right).
    cbn [rev app]. rewrite Hlen, Hdate, HR.
    change (startswith (lit "-777.0") (lit "-777.0")) with true.
    unfold lift_option, setitem, mbind, M_bind, mret, M_ret.
    cbv beta iota.
    by rewrite (add_node_new h ts o d (PyDatetime k None) k NpNan).
  - rewrite <- !app_assoc.
    destruct (stamp_line_parts k (lit " " ++ str_value v ++ [nl]) Hk)
      as (Hstamp & Hstampne & Hhash & Hhash2 & _ & _ & _ & Hlen).
    unfold read_zrx_line. rewrite Hhash2, Hhash.
    unfold split.
    change (lit " " ++ str_value v ++ [nl])
      with (" "%char :: str_value v ++ nl :: []).
    rewrite split_go_word by (done || by right).
    rewrite split_go_word by (done || by right).
    cbn [rev app split_go]. rewrite Hlen, Hdate, HR.
    rewrite (Hsentinel eq_refl).
    unfold float_. rewrite strip_no_space by done.
    unfold reread_txt, str_value in *. rewrite Hf.
    unfold lift_option, setitem, mbind, M_bind, mret, M_ret.
    cbv beta iota.
    by rewrite (add_node_new h ts o d (PyDatetime k None) k (Float f)).
Qed.
End read_zrx.

Section read_zrx_file.
Import Py Strptime Timeseries.
Context `{FloatLib}.
Implicit Types (h : heap) (o : Attr.t) (d : gmap datetime value).
Implicit Types (md : zrx_metadata).

Lemma read_zrx_rows ts md data (rows : list (datetime * value)) : ∀ h o d,
  objects h !! ts = Some o → dicts h !! Attr.nodes o = Some d →
  RINVAL md = lit "-777.0" →
  Forall zrx_row_ok rows →
  NoDup rows.*1 → (∀ k, k ∈ dom d → k ∉ rows.*1) →
  read_zrx_lines ts (md, data) (map (λ kv, zrx_body kv ++ [nl]) rows) h
  = (Ok (md, data),
     Heap (objects h)
       (<[Attr.nodes o := fill d ((λ kv, (kv.1, reread_zrx kv.2)) <$> rows)]>
          (dicts h))
       (log h) (files h)).
Proof.
  intros h o d Ho Hd HR. revert h d Ho Hd.
  induction rows as [|[k v] rows IH]; intros h d Ho Hd Hok Hnd Hdom.
  - simpl. unfold mret, M_ret. rewrite insert_id by done. by destruct h.
  - apply Forall_cons in Hok as [(Hk & Hv & Hs) Hok]. simpl in Hk, Hv, Hs.
    rewrite fmap_cons in Hnd. apply NoDup_cons in Hnd as [Hnotin Hnd].
    assert (k ∉ dom d) as Hfresh.
    { intros Hin. apply (Hdom _ Hin). rewrite fmap_cons. left. }
    rewrite fmap_cons. cbn [map read_zrx_lines fill foldl].
    rewrite (bind_ok _ _ _ _ _
               (read_zrx_line_row ts md data k v h o d Ho Hd HR Hk Hv Hs
                  Hfresh)).
    erewrite IH; [|done|apply lookup_insert_eq|done|done|].
    + simpl. by rewrite insert_insert_eq.
    + intros k' Hk' Hin. apply elem_of_dom in Hk'.
      rewrite lookup_insert_is_Some in Hk'.
      destruct Hk' as [<-|[_ Hk']]; [done|].
      apply (Hdom k'); [by apply elem_of_dom|]. rewrite fmap_cons. by right.
Qed.

Lemma read_zrx_lines_app ts (a b : list text) : ∀ st h,
  read_zrx_lines ts st (a ++ b) h
  = (st' ← read_zrx_lines ts st a; read_zrx_lines ts st' b) h.
Proof.
  induction a as [|x a IH]; intros st h; [done|]. simpl.
  unfold mbind, M_bind in *.
  destruct (read_zrx_line ts st x h) as [[st1|e|] h1]; [|done..].
  apply IH.
Qed.


End read_zrx_file.

Section read_zrx_written.
Import Py Strptime Timeseries.
Context `{FloatLib}.
Implicit Types (h : heap) (o : Attr.t) (d : gmap datetime value).

Lemma zrx_nodes_items d :
  text_nodes d → zrx_nodes d → Forall zrx_row_ok (items d).
Proof.
  intros Ht Hz. apply Forall_forall. intros [k v] Hkv.
  apply elem_of_items in Hkv. destruct (Ht k v Hkv) as [Hk Hv].
  split_and!; [done..|]. by apply (Hz k v).
Qed.

Lemma no_newline_zrx_body k v :
  printable k → str_float_inverse (float_of v) →
  no_newline (zrx_body (k, v)) = true.
Proof.
  intros Hk (_ & Hns & _). unfold zrx_body.
  destruct (stamp_line_parts k [] Hk) as (Hstamp & _).
  cbn [fst snd]. destruct (isnan v); rewrite !no_newline_app;
    rewrite (no_space_no_newline _ Hstamp);
    by rewrite (no_space_no_newline (str_value v)) by done.
Qed.

End read_zrx_written.

(** ** [write_to_file], then [read_file] *)

Section claims_round_trip.
Import Py Strptime Timeseries.
Context `{FloatLib}.
Implicit Types (h : heap) (o : Attr.t) (d : gmap datetime value).

Lemma lower_char_dot c : Ascii.eqb (lower_char c) "." = Ascii.eqb c ".".
Proof. destruct c as [[] [] [] [] [] [] [] []]; by vm_compute. Qed.

Lemma lower_lstrip_dots s : lower (lstrip_dots s) = lstrip_dots (lower s).
Proof.
  induction s as [|c s IH]; [done|]. simpl. rewrite lower_char_dot.
  by destruct (Ascii.eqb c ".").
Qed.


End claims_round_trip.



(** And for [bin] the timestamps are not all kept: the hours since 1601 of
    2021-01-01 00:20:00 as a binary64 value are read back as a microsecond
    later; the value is kept. *)
Lemma write_to_file_bin_moves_a_timestamp :
  let run :=
    (ts ← twenty_past_series;
     Timeseries.write_to_file ts "level.bin" None;;
     ts' ← Timeseries.read_file "level.bin" None;
     Timeseries.iter ts') empty_heap in
  fst run = Ok [(mkDatetime 2021 1 1 0 20 0 1, Float 1.5)].
Proof. vm_compute. reflexivity. Qed.

(** ** [cut] and [cut_bisect], for every series *)

Section cut.
Import Timeseries.
Implicit Types (h : heap) (o : Attr.t) (d : gmap datetime value).

Lemma lookup_period start end_ d k :
  period start end_ d !! k
  = if decide (Datetime.le start k ∧ Datetime.le k end_) then d !! k
    else None.
Proof.
  unfold period. destruct (decide _) as [Hin|Hout].
  - destruct (d !! k) as [v|] eqn:Hk.
    + by apply map_lookup_filter_Some_2.
    + apply map_lookup_filter_None_2. by left.
  - apply map_lookup_filter_None_2. right. intros v _. done.
Qed.

(** The loop of [cut] on dates in strict order. *)
Lemma cut_loop_ok d start end_ ds : ∀ acc h,
  Forall (λ k, k ∈ dom d) ds → StronglySorted Datetime.lt ds →
  ∃ acc',
    cut_loop d start end_ ds acc h = (Ok acc', h) ∧
    ∀ k, acc' !! k
         = if decide (k ∈ ds ∧ Datetime.le start k ∧ Datetime.le k end_)
           then d !! k else acc !! k.
Proof.
  induction ds as [|date ds IH]; intros acc h Hdom Hs.
  - exists acc. split; [done|]. intros k.
    destruct (decide _) as [[Hin _]|_]; [|done]. by apply elem_of_nil in Hin.
  - apply Forall_cons in Hdom as [Hdate Hdom].
    apply StronglySorted_inv in Hs as [Hs Hlt].
    rewrite Forall_forall in Hlt. simpl.
    destruct (Datetime.ltb date start) eqn:Hbefore.
    { apply ltb_lt in Hbefore.
      destruct (IH acc h Hdom Hs) as (acc' & Hrun & Hacc').
      exists acc'. split; [done|]. intros k. rewrite Hacc'.
      apply decide_ext. split; intros (Hin & Hs' & He').
      - split; [by right|done].
      - apply elem_of_cons in Hin as [->|Hin]; [|done].
        by apply not_lt_le in Hs'. }
    destruct (Datetime.gtb date end_) eqn:Hafter.
    { apply gtb_lt in Hafter. exists acc. split; [done|]. intros k.
      destruct (decide _) as [(Hin & _ & He)|_]; [|done].
      apply not_lt_le in He. destruct He.
      apply elem_of_cons in Hin as [->|Hin]; [done|].
      eapply lt_trans; [done|]. by apply Hlt. }
    apply elem_of_dom in Hdate as [v Hv].
    unfold mbind at 1, M_bind at 1, getitem. rewrite Hv. simpl.
    destruct (IH (<[date := v]> acc) h Hdom Hs) as (acc' & Hrun & Hacc').
    exists acc'. split; [done|]. intros k. rewrite Hacc'.
    apply ltb_ge in Hbefore.
    assert (Datetime.le date end_) as Hend.
    { apply not_lt_le. intros Hgt. apply gtb_lt in Hgt. congruence. }
    destruct (decide (k = date)) as [->|Hne].
    + rewrite lookup_insert_eq.
      rewrite (decide_True (P := date ∈ date :: ds ∧ _))
        by (split; [left|done]).
      rewrite Hv. by destruct (decide _).
    + rewrite lookup_insert_ne by done.
      apply decide_ext. split; intros (Hin & Hr).
      * split; [by right|done].
      * apply elem_of_cons in Hin as [->|Hin]; done.
Qed.

Lemma cut_ok h self o d start end_ :
  objects h !! self = Some o → dicts h !! Attr.nodes o = Some d →
  cut self start end_ h
  = (Ok (),
     Heap (<[self := Attr.set_nodes (fresh (dom (dicts h))) o]> (objects h))
       (<[fresh (dom (dicts h)) := period start end_ d]> (dicts h))
       (log h) (files h)).
Proof.
  intros Ho Hd. unfold cut.
  rewrite (bind_ok _ _ _ _ _ (get_nodes_ok _ _ _ _ Ho Hd)).
  destruct (cut_loop_ok d start end_ (sorted_keys d) ∅ h)
    as (acc & Hrun & Hacc).
  { apply Forall_forall. intros k. by rewrite elem_of_sorted_keys. }
  { apply sorted_keys_strictly_sorted. }
  rewrite (bind_ok _ _ _ _ _ Hrun).
  assert (acc = period start end_ d) as ->.
  { apply map_eq. intros k. rewrite Hacc, lookup_period.
    destruct (decide (k ∈ sorted_keys d ∧ _)) as [(Hin & Hr)|Hn].
    - by rewrite decide_True.
    - rewrite lookup_empty. destruct (decide _) as [Hr|]; [|done].
      destruct (d !! k) eqn:Hk; [|done]. destruct Hn. split; [|done].
      apply elem_of_sorted_keys, elem_of_dom. eauto. }
  unfold mbind, M_bind, alloc_dict, modify_obj. simpl. by rewrite Ho.
Qed.

(** In a list in strict order the element at a smaller index is the
    smaller one. *)
Lemma sorted_lookup_lt (a : list datetime) :
  StronglySorted Datetime.lt a →
  ∀ i j x y, (i < j)%nat → a !! i = Some x → a !! j = Some y →
             Datetime.lt x y.
Proof.
  induction 1 as [|x0 l _ IH Hall]; intros i j x y Hij Hi Hj; [done|].
  destruct j as [|j]; [lia|]. simpl in Hj.
  destruct i as [|i]; simpl in Hi.
  - simplify_eq. rewrite Forall_forall in Hall.
    apply Hall. by eapply list_elem_of_lookup_2.
  - apply (IH i j); [lia|done..].
Qed.

Lemma bisect_loop_unfold fuel a x lo hi :
  bisect_loop fuel a x lo hi
  = if (lo <? hi)%nat then
      match fuel with
      | O => None
      | S fuel' =>
          let mid := ((lo + hi) / 2)%nat in
          match a !! mid with
          | None => Some (Raise IndexError)
          | Some am =>
              if Datetime.ltb am x
              then bisect_loop fuel' a x (mid + 1)%nat hi
              else bisect_loop fuel' a x lo mid
          end
      end
    else Some (Ok lo).
Proof. by destruct fuel. Qed.

(** [bisect_left] on a list in strict order: the loop ends within its
    bound on the iterations, at the first index from [lo] on whose
    element is not less than [x]. *)
Lemma bisect_loop_ok (a : list datetime) x :
  StronglySorted Datetime.lt a →
  ∀ fuel lo hi,
    (lo ≤ hi ≤ length a)%nat → (hi - lo ≤ fuel)%nat →
    ∃ i, bisect_loop fuel a x lo hi = Some (Ok i) ∧
         (lo ≤ i ≤ hi)%nat ∧
         (∀ j y, (lo ≤ j < i)%nat → a !! j = Some y → Datetime.lt y x) ∧
         (∀ j y, (i ≤ j < hi)%nat → a !! j = Some y → ¬ Datetime.lt y x).
Proof.
  intros Hs. induction fuel as [|fuel IH]; intros lo hi Hb Hf;
    rewrite bisect_loop_unfold.
  - destruct (Nat.ltb_spec lo hi); [lia|].
    exists lo. split_and!; [done|lia|lia|intros; lia|intros; lia].
  - destruct (Nat.ltb_spec lo hi) as [Hlt|Hge].
    2:{ exists lo. split_and!; [done|lia|lia|intros; lia|intros; lia]. }
    cbv zeta. set (mid := ((lo + hi) / 2)%nat).
    assert (lo ≤ mid < hi)%nat as Hmid.
    { unfold mid. pose proof (Nat.div_mod_eq (lo + hi) 2).
      pose proof (Nat.mod_upper_bound (lo + hi) 2). lia. }
    destruct (lookup_lt_is_Some_2 a mid) as [am Ham]; [lia|].
    rewrite Ham. destruct (Datetime.ltb am x) eqn:Hcmp.
    + apply ltb_lt in Hcmp.
      destruct (IH (mid + 1)%nat hi) as (i & Hrun & Hi & Hbelow & Habove);
        [lia..|].
      exists i. split_and!; [done|lia|lia| |done].
      intros j y Hj Hy. destruct (decide (j < mid)%nat) as [Hjm|Hjm].
      * eapply lt_trans; [|done]. by eapply (sorted_lookup_lt a Hs j mid).
      * destruct (decide (j = mid)) as [->|Hne]; [by simplify_eq|].
        apply (Hbelow j); [lia|done].
    + apply ltb_ge in Hcmp.
      destruct (IH lo mid) as (i & Hrun & Hi & Hbelow & Habove); [lia..|].
      exists i. split_and!; [done|lia|lia|done|].
      intros j y Hj Hy Hlty. destruct (decide (j < mid)%nat) as [Hjm|Hjm].
      * apply (Habove j y); [lia|done..].
      * apply not_lt_le in Hcmp. apply Hcmp.
        destruct (decide (j = mid)) as [->|Hne]; [by simplify_eq|].
        eapply lt_trans; [|done].
        apply (sorted_lookup_lt a Hs mid j); [lia|done..].
Qed.

Lemma bisect_left_ok (a : list datetime) x lo h :
  StronglySorted Datetime.lt a → (lo ≤ length a)%nat →
  ∃ i, bisect_left a x lo h = (Ok i, h) ∧
       (lo ≤ i ≤ length a)%nat ∧
       (∀ j y, (lo ≤ j < i)%nat → a !! j = Some y → Datetime.lt y x) ∧
       (∀ j y, (i ≤ j)%nat → a !! j = Some y → ¬ Datetime.lt y x).
Proof.
  intros Hs Hlo.
  destruct (bisect_loop_ok a x Hs (length a) lo (length a))
    as (i & Hrun & Hi & Hbelow & Habove); [lia..|].
  exists i. unfold bisect_left. rewrite Hrun. split_and!; [done|lia|lia|done|].
  intros j y Hj Hy. apply (Habove j); [|done].
  split; [done|]. by eapply lookup_lt_Some.
Qed.

Lemma copy_items_ok d ds : ∀ acc h,
  Forall (λ k, k ∈ dom d) ds →
  ∃ acc',
    copy_items d ds acc h = (Ok acc', h) ∧
    ∀ k, acc' !! k = if decide (k ∈ ds) then d !! k else acc !! k.
Proof.
  induction ds as [|date ds IH]; intros acc h Hdom.
  - exists acc. split; [done|]. intros k.
    destruct (decide _) as [Hin|_]; [|done]. by apply elem_of_nil in Hin.
  - apply Forall_cons in Hdom as [Hdate Hdom].
    apply elem_of_dom in Hdate as [v Hv]. simpl.
    unfold mbind at 1, M_bind at 1, getitem. rewrite Hv. simpl.
    destruct (IH (<[date := v]> acc) h Hdom) as (acc' & Hrun & Hacc').
    exists acc'. split; [done|]. intros k. rewrite Hacc'.
    destruct (decide (k = date)) as [->|Hne].
    + rewrite lookup_insert_eq, (decide_True (P := date ∈ date :: ds))
        by left.
      rewrite Hv. by destruct (decide _).
    + rewrite lookup_insert_ne by done. apply decide_ext.
      rewrite elem_of_cons. naive_solver.
Qed.

Lemma elem_of_slice (a : list datetime) i j k :
  k ∈ slice a i (j + 1) ↔ ∃ n, (i ≤ n ≤ j)%nat ∧ a !! n = Some k.
Proof.
  unfold slice. rewrite list_elem_of_lookup. split.
  - intros (n & Hn). apply lookup_take_Some in Hn as [Hn Hlt].
    rewrite lookup_drop in Hn. exists (i + n)%nat. split; [lia|done].
  - intros (n & Hn & Hk). exists (n - i)%nat.
    apply lookup_take_Some. split; [|lia].
    rewrite lookup_drop. by replace (i + (n - i))%nat with n by lia.
Qed.

(** [cut_bisect] does what [cut] does when [start] is not after [end_]
    and [end_] is a node or after every node. *)
Lemma cut_bisect_ok h self o d start end_ :
  objects h !! self = Some o → dicts h !! Attr.nodes o = Some d →
  Datetime.le start end_ →
  end_ ∈ dom d ∨ (∀ k, k ∈ dom d → Datetime.lt k end_) →
  cut_bisect self start end_ h
  = (Ok (),
     Heap (<[self := Attr.set_nodes (fresh (dom (dicts h))) o]> (objects h))
       (<[fresh (dom (dicts h)) := period start end_ d]> (dicts h))
       (log h) (files h)).
Proof.
  intros Ho Hd Hse Hend. unfold cut_bisect.
  rewrite (bind_ok _ _ _ _ _ (dates_ok _ _ _ _ Ho Hd)).
  pose proof (sorted_keys_strictly_sorted d) as Hs.
  set (a := sorted_keys d) in *.
  destruct (bisect_left_ok a start 0 h Hs) as (i1 & Hrun1 & Hi1 & Hlt1 & Hge1);
    [lia|].
  rewrite (bind_ok _ _ _ _ _ Hrun1).
  destruct (bisect_left_ok a end_ i1 h Hs) as (i2 & Hrun2 & Hi2 & Hlt2 & Hge2);
    [lia|].
  rewrite (bind_ok _ _ _ _ _ Hrun2).
  rewrite (bind_ok _ _ _ _ _ (get_nodes_ok _ _ _ _ Ho Hd)).
  destruct (copy_items_ok d (slice a i1 (i2 + 1)) ∅ h) as (acc & Hrun & Hacc).
  { apply Forall_forall. intros k (n & _ & Hn)%elem_of_slice.
    apply elem_of_sorted_keys. by eapply list_elem_of_lookup_2. }
  rewrite (bind_ok _ _ _ _ _ Hrun).
  assert (acc = period start end_ d) as ->.
  { apply map_eq. intros k. rewrite Hacc, lookup_period, lookup_empty.
    destruct (d !! k) as [v|] eqn:Hk.
    2:{ by repeat destruct (decide _). }
    assert (k ∈ a) as Hka.
    { apply elem_of_sorted_keys, elem_of_dom. eauto. }
    apply list_elem_of_lookup in Hka as [n Hn].
    apply decide_ext. rewrite elem_of_slice.
    destruct Hend as [Hend|Hend].
    - (* [end_] is a node, the one at [i2] *)
      apply elem_of_sorted_keys, list_elem_of_lookup in Hend as [j0 Hj0].
      fold a in Hj0.
      assert (j0 = i2) as ->.
      { destruct (decide (j0 < i1)%nat).
        { destruct (proj2 (not_lt_le end_ start) Hse).
          apply (Hlt1 j0); [lia|done]. }
        destruct (decide (j0 < i2)%nat).
        { destruct (lt_irrefl end_). apply (Hlt2 j0); [lia|done]. }
        destruct (decide (i2 < j0)%nat); [|lia].
        destruct (lookup_lt_is_Some_2 a i2) as [y Hy].
        { apply lookup_lt_Some in Hj0. lia. }
        destruct (Hge2 i2 y); [lia|done|].
        by apply (sorted_lookup_lt a Hs i2 j0). }
      split.
      + intros (n' & Hn' & Hkn'). split.
        * apply not_lt_le. apply (Hge1 n'); [lia|done].
        * destruct (decide (n' = i2)) as [->|Hne]; [by simplify_eq|].
          apply lt_le_incl, (sorted_lookup_lt a Hs n' i2); [lia|done..].
      + intros [Hsk Hke]. exists n. split; [|done]. split.
        * destruct (decide (i1 ≤ n)%nat); [done|].
          apply not_lt_le in Hsk. destruct Hsk. apply (Hlt1 n); [lia|done].
        * destruct (decide (n ≤ i2)%nat); [done|].
          apply not_lt_le in Hke. destruct Hke.
          apply (sorted_lookup_lt a Hs i2 n); [lia|done..].
    - (* every node is before [end_] *)
      split.
      + intros (n' & Hn' & Hkn'). split.
        * apply not_lt_le. apply (Hge1 n'); [lia|done].
        * apply lt_le_incl, Hend, elem_of_dom. eauto.
      + intros [Hsk Hke]. exists n. split; [|done]. split.
        * destruct (decide (i1 ≤ n)%nat); [done|].
          apply not_lt_le in Hsk. destruct Hsk. apply (Hlt1 n); [lia|done].
        * destruct (decide (n ≤ i2)%nat); [done|].
          destruct (Hge2 n k); [lia|done|].
          apply Hend, elem_of_dom. eauto. }
  unfold mbind, M_bind, alloc_dict, modify_obj. simpl. by rewrite Ho.
Qed.
End cut.

Section extras_cut.
Import Timeseries.
Implicit Types (h : heap) (o : Attr.t) (d : gmap datetime value).

(** X1.  [cut(start, end)] returns for every series and leaves it with
    exactly the nodes whose timestamps are from [start] to [end], both
    included, each with its value, in a new dictionary; the attributes
    stay, and so do the other series and the dictionary the series had
    before. *)
Theorem cut_keeps_the_period h self o d start end_ :
  objects h !! self = Some o → dicts h !! Attr.nodes o = Some d →
  ∃ h' o',
    cut self start end_ h = (Ok (), h') ∧
    objects h' !! self = Some o' ∧ same_but_nodes o o' ∧
    dicts h' !! Attr.nodes o' = Some (period start end_ d) ∧
    (∀ k v, period start end_ d !! k = Some v
            ↔ d !! k = Some v ∧ Datetime.le start k ∧ Datetime.le k end_) ∧
    (∀ r, r ≠ self → objects h' !! r = objects h !! r) ∧
    (∀ r, is_Some (dicts h !! r) → dicts h' !! r = dicts h !! r).
Proof.
  intros Ho Hd. eexists _, _. split; [by apply cut_ok|]. simpl.
  split_and!.
  - apply lookup_insert_eq.
  - by destruct o.
  - simpl. apply lookup_insert_eq.
  - intros k v. rewrite lookup_period.
    destruct (decide _); naive_solver.
  - intros r Hr. by apply lookup_insert_ne.
  - intros r [x Hx]. apply lookup_insert_ne. intros <-.
    by rewrite fresh_lookup_None in Hx.
Qed.

(** X2.  When [start] is not after [end] and [end] is the timestamp of
    a node, or after every node, [cut_bisect(start, end)] and
    [cut(start, end)] leave the same store: the series with the nodes of
    the period. *)
Theorem cut_bisect_agrees_with_cut h self o d start end_ :
  objects h !! self = Some o → dicts h !! Attr.nodes o = Some d →
  Datetime.le start end_ →
  end_ ∈ dom d ∨ (∀ k, k ∈ dom d → Datetime.lt k end_) →
  cut_bisect self start end_ h = cut self start end_ h ∧
  fst (cut self start end_ h) = Ok () ∧
  nodes_of (snd (cut self start end_ h)) self = Some (period start end_ d).
Proof.
  intros Ho Hd Hse Hend.
  rewrite (cut_bisect_ok h self o d start end_ Ho Hd Hse Hend).
  rewrite (cut_ok h self o d start end_ Ho Hd). split_and!; [done..|].
  apply nodes_of_Some. eexists. simpl.
  split; [apply lookup_insert_eq|]. apply lookup_insert_eq.
Qed.
End extras_cut.

Lemma cut_keeps_the_period_witness :
  ∃ h' o',
    Timeseries.cut daily (jan2021 2) (mkDatetime 2021 1 3 12 0 0 0) daily_heap
    = (Ok (), h') ∧
    objects h' !! daily = Some o' ∧
    fst (Timeseries.iter daily h')
    = Ok [(jan2021 2, Float 2); (jan2021 3, Float 3)].
Proof.
  destruct (cut_keeps_the_period daily_heap daily
              (Attr.Build "daily" (AStr "0") "" "" (AStr "") "" 0 0 0
                 Undefined 1%positive)
              (default ∅ (nodes_of daily_heap daily))
              (jan2021 2) (mkDatetime 2021 1 3 12 0 0 0))
    as (h' & o' & Hrun & Ho' & _); [by vm_compute|reflexivity|].
  exists h', o'. split; [exact Hrun|]. split; [exact Ho'|].
  apply (f_equal snd) in Hrun. simpl in Hrun. subst h'.
  vm_compute. reflexivity.
Defined.

Lemma cut_bisect_agrees_with_cut_witness :
  Timeseries.cut_bisect daily (jan2021 2) (jan2021 3) daily_heap
  = Timeseries.cut daily (jan2021 2) (jan2021 3) daily_heap ∧
  fst (Timeseries.cut daily (jan2021 2) (jan2021 3) daily_heap) = Ok () ∧
  nodes_of (snd (Timeseries.cut daily (jan2021 2) (jan2021 3) daily_heap))
    daily
  = Some (period (jan2021 2) (jan2021 3)
            (default ∅ (nodes_of daily_heap daily))).
Proof.
  apply (cut_bisect_agrees_with_cut daily_heap daily
           (Attr.Build "daily" (AStr "0") "" "" (AStr "") "" 0 0 0
              Undefined 1%positive)
           (default ∅ (nodes_of daily_heap daily))).
  - by vm_compute.
  - reflexivity.
  - by vm_compute.
  - left. apply elem_of_dom. exists (Float 3). by vm_compute.
Defined.

(** ** Dates, values and iteration *)

Section aligned.
Import Timeseries.
Implicit Types (h : heap) (o : Attr.t) (d : gmap datetime value).

Lemma lookup_values_ok d ks h :
  Forall (λ k, k ∈ dom d) ks →
  lookup_values d ks h = (Ok (omap (λ k, d !! k) ks), h).
Proof.
  induction 1 as [|k ks Hk _ IH]; [done|].
  apply elem_of_dom in Hk as [v Hv]. simpl.
  unfold mbind at 1, M_bind, getitem. rewrite Hv. simpl.
  unfold mbind at 1, M_bind. by rewrite IH.
Qed.

Lemma values_ok h self o d :
  objects h !! self = Some o → dicts h !! Attr.nodes o = Some d →
  values self h = (Ok (items d).*2, h).
Proof.
  intros Ho Hd. unfold values.
  rewrite (bind_ok _ _ _ _ _ (get_nodes_ok _ _ _ _ Ho Hd)).
  rewrite lookup_values_ok
    by (apply Forall_forall; intros k; by rewrite elem_of_sorted_keys).
  do 2 f_equal. unfold items.
  assert (Forall (λ k, k ∈ dom d) (sorted_keys d)) as Hall.
  { apply Forall_forall. intros k. by rewrite elem_of_sorted_keys. }
  induction Hall as [|k ks Hk _ IH]; [done|].
  apply elem_of_dom in Hk as [v Hv]. simpl. rewrite Hv. simpl.
  f_equal. exact IH.
Qed.

Lemma length_items d : length (items d) = size d.
Proof.
  rewrite <- (length_fmap fst), fst_items_sorted.
  rewrite sorted_keys_Permutation, length_fmap.
  apply length_map_to_list.
Qed.

Lemma items_Permutation d : items d ≡ₚ map_to_list d.
Proof.
  apply NoDup_Permutation.
  - apply (NoDup_fmap_1 fst). rewrite fst_items_sorted.
    apply NoDup_sorted_keys.
  - apply NoDup_map_to_list.
  - intros [k v]. by rewrite elem_of_items, elem_of_map_to_list.
Qed.

Lemma length_filter_Permutation {A} (f : A → bool) (l l' : list A) :
  l ≡ₚ l' → length (List.filter f l) = length (List.filter f l').
Proof.
  induction 1 as [|x l l' _ IH|x y l|l l' l'' _ IH1 _ IH2]; simpl.
  - done.
  - destruct (f x); simpl; by rewrite IH.
  - by destruct (f x), (f y).
  - by rewrite IH1.
Qed.

Lemma length_filter_snd {A B} (f : B → bool) (l : list (A * B)) :
  length (List.filter f l.*2) = length (List.filter (λ kv, f kv.2) l).
Proof.
  induction l as [|[k v] l IH]; [done|]. simpl.
  destruct (f v); simpl; [f_equal|]; exact IH.
Qed.

Lemma size_value_nodes d :
  length (List.filter (λ kv, negb (isnan kv.2)) (map_to_list d))
  = size (value_nodes d).
Proof.
  unfold value_nodes.
  induction d as [|k v d Hk IH] using map_ind.
  - by rewrite map_to_list_empty, map_filter_empty, map_size_empty.
  - rewrite (length_filter_Permutation _ _ _ (map_to_list_insert d k v Hk)).
    simpl. destruct (isnan v) eqn:Hv; simpl.
    + rewrite map_filter_insert_not'; [done|simpl; congruence|].
      intros y Hy. congruence.
    + rewrite map_filter_insert_True by done.
      rewrite map_size_insert_None; [by rewrite IH|].
      apply map_lookup_filter_None_2. by left.
Qed.

Lemma count_value_nodes_ok h self o d :
  objects h !! self = Some o → dicts h !! Attr.nodes o = Some d →
  count_value_nodes self h = (Ok (size (value_nodes d)), h).
Proof.
  intros Ho Hd. unfold count_value_nodes.
  rewrite (bind_ok _ _ _ _ _ (values_ok _ _ _ _ Ho Hd)).
  unfold mret, M_ret. do 2 f_equal.
  rewrite length_filter_snd.
  rewrite (length_filter_Permutation _ _ _ (items_Permutation d)).
  apply size_value_nodes.
Qed.

Lemma len_ok h self o d :
  objects h !! self = Some o → dicts h !! Attr.nodes o = Some d →
  len self h = (Ok (size d), h).
Proof.
  intros Ho Hd. unfold len.
  by rewrite (bind_ok _ _ _ _ _ (get_nodes_ok _ _ _ _ Ho Hd)).
Qed.

Lemma NoDup_filter_fst {A B} (f : A * B → bool) (l : list (A * B)) :
  NoDup l.*1 → NoDup (map fst (List.filter f l)).
Proof.
  induction l as [|[k v] l IH]; [done|]. rewrite fmap_cons.
  intros [Hk Hnd]%NoDup_cons. simpl. destruct (f (k, v)); [|by apply IH].
  simpl. apply NoDup_cons. split; [|by apply IH].
  intros Hin. apply Hk.
  apply list_elem_of_In, in_map_iff in Hin as ([k' v'] & <- & Hin).
  apply filter_In in Hin as [Hin _].
  apply list_elem_of_fmap. exists (k', v'). by rewrite list_elem_of_In.
Qed.

Lemma delete_nan_nodes_ok h self o d :
  objects h !! self = Some o → dicts h !! Attr.nodes o = Some d →
  delete_nan_nodes self h
  = (Ok (), Heap (objects h) (<[Attr.nodes o := value_nodes d]> (dicts h))
              (log h) (files h)).
Proof.
  intros Ho Hd. unfold delete_nan_nodes.
  rewrite (bind_ok _ _ _ _ _ (iter_ok _ _ _ _ Ho Hd)). fold (items d).
  set (ks := map fst (List.filter (λ kv, isnan kv.2) (items d))).
  assert (∀ k, k ∈ ks ↔ ∃ v, d !! k = Some v ∧ isnan v = true) as Hks.
  { intros k. unfold ks. rewrite list_elem_of_In, in_map_iff. split.
    - intros ([k' v] & <- & Hin). apply filter_In in Hin as [Hin Hv].
      apply list_elem_of_In, elem_of_items in Hin. eauto.
    - intros (v & Hk & Hv). exists (k, v). split; [done|].
      apply filter_In. split; [|done].
      by apply list_elem_of_In, elem_of_items. }
  destruct (for_each_delitem ks h self o d Ho Hd)
    as (h' & Hrun & Hobj & Hlog & Hfiles & Hdicts).
  { apply NoDup_filter_fst. rewrite fst_items_sorted.
    apply NoDup_sorted_keys. }
  { intros k (v & Hk & _)%Hks. apply elem_of_dom. eauto. }
  rewrite Hrun. f_equal. destruct h' as [ob di lg fi]. simpl in *.
  subst. f_equal. f_equal.
  apply map_eq. intros k. rewrite lookup_remove_keys. unfold value_nodes.
  destruct (d !! k) as [v|] eqn:Hk.
  - destruct (isnan v) eqn:Hv.
    + rewrite decide_True by (apply Hks; eauto).
      symmetry. apply map_lookup_filter_None_2. right.
      intros v' Hv'. simpl. simplify_eq. by rewrite Hv.
    + rewrite decide_False.
      { symmetry. by apply map_lookup_filter_Some_2. }
      intros (v' & Hv' & Hnan)%Hks. simplify_eq. congruence.
  - rewrite decide_False.
    { symmetry. apply map_lookup_filter_None_2. by left. }
    intros (v' & Hv' & _)%Hks. congruence.
Qed.

Lemma value_nodes_idemp d : value_nodes (value_nodes d) = value_nodes d.
Proof.
  unfold value_nodes. apply map_filter_id.
  intros k v Hkv. by apply map_lookup_filter_Some_1_2 in Hkv.
Qed.
End aligned.

Section extras_aligned.
Import Timeseries.
Implicit Types (h : heap) (o : Attr.t) (d : gmap datetime value).

(** X3.  For every series, [dates], [values], iteration and [len] are
    aligned and leave the store as it is: the dates are the timestamps of
    the nodes in strictly increasing order, the values are the values at
    these dates in that order, iteration yields the pairs of the two, and
    the length is their number. *)
Theorem dates_values_iter_aligned h self o d :
  objects h !! self = Some o → dicts h !! Attr.nodes o = Some d →
  ∃ ks vs,
    dates self h = (Ok ks, h) ∧ values self h = (Ok vs, h) ∧
    iter self h = (Ok (zip ks vs), h) ∧ len self h = (Ok (length ks), h) ∧
    length vs = length ks ∧
    StronglySorted Datetime.lt ks ∧
    (∀ k, k ∈ ks ↔ k ∈ dom d) ∧
    (∀ k v, (k, v) ∈ zip ks vs ↔ d !! k = Some v).
Proof.
  intros Ho Hd. exists (items d).*1, (items d).*2.
  rewrite zip_fst_snd, !length_fmap, length_items, fst_items_sorted.
  split_and!.
  - by apply (dates_ok _ _ o d).
  - by apply (values_ok _ _ o d).
  - by apply (iter_ok _ _ o d).
  - by apply (len_ok _ _ o d).
  - done.
  - apply sorted_keys_strictly_sorted.
  - apply elem_of_sorted_keys.
  - apply elem_of_items.
Qed.

Lemma sorted_last_le (l : list datetime) e :
  StronglySorted Datetime.le l → last l = Some e →
  ∀ k, k ∈ l → Datetime.le k e.
Proof.
  induction 1 as [|x l Hs IH Hall]; intros Hlast k Hk; [done|].
  destruct l as [|y l].
  - simpl in Hlast. apply list_elem_of_singleton in Hk. simplify_eq.
    apply le_refl.
  - change (last (x :: y :: l)) with (last (y :: l)) in Hlast.
    apply elem_of_cons in Hk as [->|Hk]; [|by apply IH].
    rewrite Forall_forall in Hall.
    assert (e ∈ y :: l) as He by by apply last_Some_elem_of.
    by apply Hall.
Qed.

(** X4.  [start] and [end] of a series without nodes raise
    [IndexError]; of any other series they are the timestamps of two of
    its nodes, with every node from the first to the second. *)
Theorem start_end_bound h self o d :
  objects h !! self = Some o → dicts h !! Attr.nodes o = Some d →
  (d = ∅ → start self h = (Raise IndexError, h) ∧
           end_ self h = (Raise IndexError, h)) ∧
  (d ≠ ∅ → ∃ s e,
     start self h = (Ok s, h) ∧ end_ self h = (Ok e, h) ∧
     s ∈ dom d ∧ e ∈ dom d ∧
     ∀ k, k ∈ dom d → Datetime.le s k ∧ Datetime.le k e).
Proof.
  intros Ho Hd. unfold start, end_.
  rewrite !(bind_ok _ _ _ _ _ (get_nodes_ok _ _ _ _ Ho Hd)).
  pose proof (sorted_keys_sorted d) as Hs. split.
  - intros ->. unfold sorted_keys. by rewrite map_to_list_empty.
  - intros Hne.
    destruct (sorted_keys d) as [|s l] eqn:Hks.
    { destruct Hne. apply map_empty. intros k.
      apply not_elem_of_dom. rewrite <- elem_of_sorted_keys, Hks.
      apply not_elem_of_nil. }
    destruct (last (s :: l)) as [e|] eqn:Hlast.
    2:{ by apply last_None in Hlast. }
    exists s, e. split_and!; [done|done| | |].
    + apply elem_of_sorted_keys. rewrite Hks. left.
    + apply elem_of_sorted_keys. rewrite Hks.
      by apply last_Some_elem_of.
    + intros k Hk. apply elem_of_sorted_keys in Hk. rewrite Hks in Hk.
      split; [|by eapply sorted_last_le].
      apply StronglySorted_inv in Hs as [_ Hall].
      rewrite Forall_forall in Hall.
      apply elem_of_cons in Hk as [->|Hk]; [apply le_refl|by apply Hall].
Qed.

(** X5.  [delete_nan_nodes] returns for every series and deletes, in the
    dictionary the series has, exactly the nodes whose value is a NaN:
    the other nodes keep their values, nothing else in the store changes,
    and a second call changes nothing. *)
Theorem delete_nan_nodes_keeps_the_numbers h self o d :
  objects h !! self = Some o → dicts h !! Attr.nodes o = Some d →
  ∃ h',
    delete_nan_nodes self h = (Ok (), h') ∧
    objects h' = objects h ∧ log h' = log h ∧ files h' = files h ∧
    dicts h' !! Attr.nodes o = Some (value_nodes d) ∧
    (∀ k v, value_nodes d !! k = Some v ↔ d !! k = Some v ∧ isnan v = false) ∧
    (∀ r, r ≠ Attr.nodes o → dicts h' !! r = dicts h !! r) ∧
    delete_nan_nodes self h' = (Ok (), h').
Proof.
  intros Ho Hd. eexists. split; [by apply delete_nan_nodes_ok|]. simpl.
  split_and!; try done.
  - apply lookup_insert_eq.
  - intros k v. unfold value_nodes. by rewrite map_lookup_filter_Some.
  - intros r Hr. by apply lookup_insert_ne.
  - erewrite delete_nan_nodes_ok; [|done|apply lookup_insert_eq]. simpl.
    by rewrite value_nodes_idemp, insert_insert_eq.
Qed.

(** X6.  [count_value_nodes] leaves the store as it is and returns the
    number of nodes whose value is no NaN, which is at most [len] and is
    what [len] returns after [delete_nan_nodes]. *)
Theorem count_value_nodes_is_len_without_nan h self o d :
  objects h !! self = Some o → dicts h !! Attr.nodes o = Some d →
  ∃ n h',
    count_value_nodes self h = (Ok n, h) ∧
    n = size (value_nodes d) ∧ (n ≤ size d)%nat ∧
    len self h = (Ok (size d), h) ∧
    delete_nan_nodes self h = (Ok (), h') ∧
    len self h' = (Ok n, h') ∧ count_value_nodes self h' = (Ok n, h').
Proof.
  intros Ho Hd. eexists _, _. split_and!.
  - by apply (count_value_nodes_ok _ _ o d).
  - done.
  - apply map_subseteq_size, map_filter_subseteq.
  - by apply (len_ok _ _ o d).
  - by apply (delete_nan_nodes_ok _ _ o d).
  - eapply len_ok; [done|]. apply lookup_insert_eq.
  - erewrite count_value_nodes_ok; [|done|apply lookup_insert_eq].
    by rewrite value_nodes_idemp.
Qed.
End extras_aligned.

Lemma dates_values_iter_aligned_witness :
  ∃ ks vs,
    Timeseries.dates gauge gauge_heap = (Ok ks, gauge_heap) ∧
    Timeseries.values gauge gauge_heap = (Ok vs, gauge_heap) ∧
    Timeseries.iter gauge gauge_heap = (Ok (zip ks vs), gauge_heap) ∧
    Timeseries.len gauge gauge_heap = (Ok (length ks), gauge_heap) ∧
    ks = [jan2021 1; jan2021 2] ∧ vs = [Float 5; NpNan].
Proof.
  destruct (dates_values_iter_aligned gauge_heap gauge
              (Attr.Build "gauge" (AStr "0") "gauge" "" (AStr "m3/s") "" 0 0 0
                 BlockRight 1%positive)
              (default ∅ (nodes_of gauge_heap gauge)))
    as (ks & vs & Hd & Hv & Hi & Hl & _); [by vm_compute|reflexivity|].
  exists ks, vs.
  split; [exact Hd|]. split; [exact Hv|]. split; [exact Hi|].
  split; [exact Hl|]. clear Hi Hl. split.
  - apply (f_equal fst) in Hd. cbn [fst] in Hd.
    vm_compute in Hd. by injection Hd as <-.
  - apply (f_equal fst) in Hv. cbn [fst] in Hv.
    vm_compute in Hv. by injection Hv as <-.
Defined.

Lemma start_end_bound_witness :
  ∃ s e,
    Timeseries.start daily daily_heap = (Ok s, daily_heap) ∧
    Timeseries.end_ daily daily_heap = (Ok e, daily_heap) ∧
    s = jan2021 1 ∧ e = jan2021 4.
Proof.
  destruct (start_end_bound daily_heap daily
              (Attr.Build "daily" (AStr "0") "" "" (AStr "") "" 0 0 0
                 Undefined 1%positive)
              (default ∅ (nodes_of daily_heap daily)))
    as [_ Hne]; [by vm_compute|reflexivity|].
  destruct Hne as (s & e & Hs & He & _).
  { intros Hempty. apply (f_equal (.!! jan2021 1)) in Hempty.
    vm_compute in Hempty. discriminate Hempty. }
  exists s, e. split; [exact Hs|]. split; [exact He|]. split.
  - apply (f_equal fst) in Hs. cbn [fst] in Hs.
    vm_compute in Hs. by injection Hs as <-.
  - apply (f_equal fst) in He. cbn [fst] in He.
    vm_compute in He. by injection He as <-.
Defined.

Lemma delete_nan_nodes_keeps_the_numbers_witness :
  ∃ h',
    Timeseries.delete_nan_nodes gauge gauge_heap = (Ok (), h') ∧
    fst (Timeseries.iter gauge h') = Ok [(jan2021 1, Float 5)].
Proof.
  destruct (delete_nan_nodes_keeps_the_numbers gauge_heap gauge
              (Attr.Build "gauge" (AStr "0") "gauge" "" (AStr "m3/s") "" 0 0 0
                 BlockRight 1%positive)
              (default ∅ (nodes_of gauge_heap gauge)))
    as (h' & Hrun & _); [by vm_compute|reflexivity|].
  exists h'. split; [exact Hrun|].
  apply (f_equal snd) in Hrun. cbn [snd] in Hrun. subst h'.
  vm_compute. reflexivity.
Defined.

Lemma count_value_nodes_is_len_without_nan_witness :
  ∃ n h',
    Timeseries.count_value_nodes gauge gauge_heap = (Ok n, gauge_heap) ∧
    Timeseries.delete_nan_nodes gauge gauge_heap = (Ok (), h') ∧
    Timeseries.len gauge h' = (Ok n, h') ∧ n = 1%nat.
Proof.
  destruct (count_value_nodes_is_len_without_nan gauge_heap gauge
              (Attr.Build "gauge" (AStr "0") "gauge" "" (AStr "m3/s") "" 0 0 0
                 BlockRight 1%positive)
              (default ∅ (nodes_of gauge_heap gauge)))
    as (n & h' & Hc & _ & _ & _ & Hdel & Hlen & _);
    [by vm_compute|reflexivity|].
  exists n, h'. split; [exact Hc|]. split; [exact Hdel|].
  split; [exact Hlen|]. clear Hdel Hlen.
  apply (f_equal fst) in Hc. cbn [fst] in Hc.
    vm_compute in Hc. by injection Hc as <-.
Defined.

(** ** Copies *)

Section extras_copy.
Import Timeseries.
Implicit Types (h : heap) (o : Attr.t) (d : gmap datetime value).

(** X7.  [copy] returns for every series.  Its result is a new series
    with the nine attributes from title to z of the original, the
    interpretation [Undefined] whatever the original has, and the nodes
    of the original in a new dictionary; the original, the log and the
    files stay.  Afterwards the two are independent: adding a node to
    one, or deleting a node of one, leaves the nodes of the other. *)
Theorem copy_is_independent h self o d :
  objects h !! self = Some o → dicts h !! Attr.nodes o = Some d →
  ∃ c r h',
    copy self h = (Ok c, h') ∧
    objects h !! c = None ∧ dicts h !! r = None ∧
    objects h' !! c = Some (copied_attrs o r) ∧ dicts h' !! r = Some d ∧
    objects h' !! self = Some o ∧ dicts h' !! Attr.nodes o = Some d ∧
    log h' = log h ∧ files h' = files h ∧
    (∀ t v out h'', add_node c t v h' = (out, h'') →
                    nodes_of h'' self = Some d) ∧
    (∀ t v out h'', add_node self t v h' = (out, h'') →
                    nodes_of h'' c = Some d) ∧
    (∀ k out h'', nodes_delitem c k h' = (out, h'') →
                  nodes_of h'' self = Some d) ∧
    (∀ k out h'', nodes_delitem self k h' = (out, h'') →
                  nodes_of h'' c = Some d).
Proof.
  intros Ho Hd. pose proof (copy_ok h self o d Ho Hd) as Hc.
  simpl in Hc.
  set (c := fresh (dom (objects h))) in *.
  set (r0 := fresh (dom (dicts h))) in *.
  set (r := fresh (dom (<[r0 := ∅]> (dicts h)))) in *.
  set (h' := Heap (<[c := copied_attrs o r]> (objects h))
               (<[r := d]> (<[r0 := ∅]> (dicts h))) (log h) (files h)) in *.
  assert (self ≠ c) as Hsc by (apply fresh_obj_ne; eauto).
  assert (Attr.nodes o ≠ r0) as Hr0 by (apply fresh_dict_ne; eauto).
  assert (dicts h !! r = None) as Hr.
  { pose proof (fresh_lookup_None (<[r0 := ∅]> (dicts h))) as Hf.
    fold r in Hf. apply lookup_insert_None in Hf as [? _]. done. }
  assert (Attr.nodes o ≠ r) as Hnr by (intros Heq; by rewrite Heq, Hr in Hd).
  assert (objects h' !! self = Some o) as Ho'.
  { unfold h'. simpl. by rewrite lookup_insert_ne. }
  assert (objects h' !! c = Some (copied_attrs o r)) as Hoc.
  { unfold h'. simpl. by rewrite lookup_insert_eq. }
  assert (dicts h' !! Attr.nodes o = Some d) as Hd'.
  { unfold h'. simpl. by rewrite !lookup_insert_ne. }
  assert (dicts h' !! r = Some d) as Hdr.
  { unfold h'. simpl. by rewrite lookup_insert_eq. }
  exists c, r, h'. split; [exact Hc|].
  split; [apply fresh_lookup_None|].
  do 5 (split; [done|]). do 2 (split; [done|]).
  split_and!.
  - intros t v out h'' Hrun.
    destruct (add_node_frame _ _ _ _ _ _ _ Hoc Hrun) as (Hobj & _ & _ & Hf).
    apply nodes_of_Some. exists o. rewrite Hobj. split; [done|].
    by rewrite Hf.
  - intros t v out h'' Hrun.
    destruct (add_node_frame _ _ _ _ _ _ _ Ho' Hrun) as (Hobj & _ & _ & Hf).
    apply nodes_of_Some. exists (copied_attrs o r). rewrite Hobj.
    split; [done|]. simpl. by rewrite Hf.
  - intros k out h'' Hrun.
    destruct (nodes_delitem_frame _ _ _ _ _ _ Hoc Hrun) as (Hobj & _ & _ & Hf).
    apply nodes_of_Some. exists o. rewrite Hobj. split; [done|].
    by rewrite Hf.
  - intros k out h'' Hrun.
    destruct (nodes_delitem_frame _ _ _ _ _ _ Ho' Hrun) as (Hobj & _ & _ & Hf).
    apply nodes_of_Some. exists (copied_attrs o r). rewrite Hobj.
    split; [done|]. simpl. by rewrite Hf.
Qed.
End extras_copy.

Lemma copy_is_independent_witness :
  ∃ c r h',
    Timeseries.copy gauge gauge_heap = (Ok c, h') ∧
    objects h' !! c
    = Some (Attr.Build "gauge" (AStr "0") "gauge" "" (AStr "m3/s") "" 0 0 0
              Undefined r) ∧
    c = 2%positive.
Proof.
  destruct (copy_is_independent gauge_heap gauge
              (Attr.Build "gauge" (AStr "0") "gauge" "" (AStr "m3/s") "" 0 0 0
                 BlockRight 1%positive)
              (default ∅ (nodes_of gauge_heap gauge)))
    as (c & r & h' & Hrun & _ & _ & Hoc & _); [by vm_compute|reflexivity|].
  exists c, r, h'. split; [exact Hrun|]. split; [exact Hoc|].
  clear Hoc. apply (f_equal fst) in Hrun. cbn [fst] in Hrun.
  vm_compute in Hrun. by injection Hrun as <-.
Defined.

(** ** Aggregation, for every series *)

Section aggregate_loop.
Import Timeseries.
Implicit Types (h : heap) (o : Attr.t) (d : gmap datetime value).

Lemma next_step_cases dt t h :
  (∃ t_next, next_step dt t h = (Ok t_next, h)) ∨
  next_step dt t h = (Raise ValueError, h) ∨
  next_step dt t h = (Raise OverflowError, h).
Proof.
  unfold next_step.
  repeat (destruct (String.eqb dt _));
    try (destruct (Datetime.add_timedelta _ _); simpl; eauto);
    try (destruct (Datetime.add_months _ _); simpl; eauto).
  right. by left.
Qed.

(** The loop never gets stuck and raises nothing but the errors of the
    step; a timestep it stores is one whose end a later item has reached. *)
Lemma aggregate_loop_closed dt start interp ign (seen : datetime → Prop) h
    items :
  ∀ nodes_agg t values,
    Forall (λ kv, seen kv.1) items →
    (∀ k, k ∈ dom nodes_agg →
          ∃ t_next ts, next_step dt k h = (Ok t_next, h) ∧
                       seen ts ∧ Datetime.le t_next ts) →
    match fst (aggregate_loop dt start interp ign items nodes_agg t values h)
    with
    | Ok res =>
        ∀ k, k ∈ dom res →
             ∃ t_next ts, next_step dt k h = (Ok t_next, h) ∧
                          seen ts ∧ Datetime.le t_next ts
    | Raise e => e = ValueError ∨ e = OverflowError
    | Stuck => False
    end.
Proof.
  induction items as [|[ts v] items IH]; intros nodes_agg t values Hseen Hagg;
    simpl; [done|].
  apply Forall_cons in Hseen as [Hts Hseen]. simpl in Hts.
  destruct (Datetime.ltb ts start); [by apply IH|].
  unfold mbind, M_bind.
  destruct (next_step_cases dt t h) as [[t_next Hn]|[Hn|Hn]];
    rewrite Hn; simpl; [|by left|by right].
  destruct (Datetime.geb ts t_next) eqn:Hge; [|by apply IH].
  apply IH; [done|]. intros k [->|Hk]%elem_of_dom%lookup_insert_is_Some'.
  - exists t_next, ts. split_and!; [done..|]. by apply geb_le.
  - apply Hagg. by apply elem_of_dom.
Qed.

(** The first timestep: the items before [start] are skipped, those
    before the end of the timestep are gathered, and the first item at or
    after the end stores their aggregate at [start]. *)
Lemma aggregate_loop_skip dt start interp ign early items :
  ∀ nodes_agg t values h,
    Forall (λ kv, Datetime.lt kv.1 start) early →
    aggregate_loop dt start interp ign (early ++ items) nodes_agg t values h
    = aggregate_loop dt start interp ign items nodes_agg t values h.
Proof.
  induction early as [|[ts v] early IH]; intros nodes_agg t values h Hall;
    simpl; [done|].
  apply Forall_cons in Hall as [Hts Hall]. simpl in Hts.
  apply ltb_lt in Hts. rewrite Hts. by apply IH.
Qed.

Lemma aggregate_loop_gather dt start interp ign t t_next h inside items :
  ∀ nodes_agg values,
    next_step dt t h = (Ok t_next, h) →
    Forall (λ kv, Datetime.le start kv.1 ∧ Datetime.lt kv.1 t_next) inside →
    aggregate_loop dt start interp ign (inside ++ items) nodes_agg t values h
    = aggregate_loop dt start interp ign items nodes_agg t
        (values ++ inside.*2) h.
Proof.
  induction inside as [|[ts v] inside IH]; intros nodes_agg values Hn Hall;
    simpl; [by rewrite app_nil_r|].
  apply Forall_cons in Hall as [[Hs Hts] Hall]. simpl in Hs, Hts.
  apply ltb_ge in Hs. rewrite Hs.
  unfold mbind, M_bind. rewrite Hn.
  assert (Datetime.geb ts t_next = false) as ->.
  { unfold Datetime.geb, Datetime.leb. apply lt_gt in Hts. by rewrite Hts. }
  rewrite IH by done. by rewrite <- app_assoc.
Qed.
End aggregate_loop.

Section extras_aggregate.
Import Timeseries.
Implicit Types (h : heap) (o : Attr.t) (d : gmap datetime value).

(** X8.  [aggregate] never changes what is in the store.  With a [dt]
    other than [h], [d], [M], or an interpretation other than
    [LinearInterpolation] and [Sum], it raises [ValueError]; whenever it
    raises, the store is as before, and the error is a [ValueError] or an
    [OverflowError].  When it returns, the result is a new series with the
    title suffixed with the timestep, the eight attributes from station id
    to z of the original and the interpretation [Undefined], and its nodes
    are in a new dictionary; a timestep has a node only if the series has a
    node at or after the end of that timestep. *)
Theorem aggregate_stores_closed_timesteps h self o d dt start interp ign :
  objects h !! self = Some o → dicts h !! Attr.nodes o = Some d →
  let run := aggregate self dt start interp ign h in
  (¬ (dt = "h" ∨ dt = "d" ∨ dt = "M")%string ∨
   ¬ (interp = "LinearInterpolation" ∨ interp = "Sum")%string →
   run = (Raise ValueError, h)) ∧
  match fst run with
  | Ok ts =>
      ∃ r nodes_agg,
        objects h !! ts = None ∧ dicts h !! r = None ∧
        objects (snd run) !! ts = Some (aggregated_attrs o dt r) ∧
        dicts (snd run) !! r = Some nodes_agg ∧
        (∀ x, x ≠ ts → objects (snd run) !! x = objects h !! x) ∧
        (∀ x, is_Some (dicts h !! x) → dicts (snd run) !! x = dicts h !! x) ∧
        log (snd run) = log h ∧ files (snd run) = files h ∧
        ∀ t, t ∈ dom nodes_agg →
             ∃ t_next k, next_step dt t h = (Ok t_next, h) ∧
                         k ∈ dom d ∧ Datetime.le t_next k
  | Raise e => snd run = h ∧ (e = ValueError ∨ e = OverflowError)
  | Stuck => False
  end.
Proof.
  intros Ho Hd run.
  assert (∀ a b : string, a ≠ b → String.eqb a b = false) as Hneq.
  { intros a b. apply String.eqb_neq. }
  destruct (decide (dt = "h" ∨ dt = "d" ∨ dt = "M")%string) as [Hdt|Hdt];
    [destruct (decide (interp = "LinearInterpolation" ∨ interp = "Sum")%string)
       as [Hint|Hint]|].
  - split; [intros [?|?]; done|].
    unfold run. rewrite (aggregate_ok h self o d dt start interp ign Ho Hd Hdt Hint).
    assert (Forall (λ kv : datetime * value, kv.1 ∈ dom d)
              (omap (λ k, (k,.) <$> d !! k) (sorted_keys d))) as Hseen.
    { apply Forall_forall. intros [k v] Hin.
      apply list_elem_of_omap in Hin as (k' & Hk' & Hkv).
      destruct (d !! k') eqn:E; [|done]. simpl in Hkv.
      injection Hkv as <- <-. simpl. by apply elem_of_sorted_keys. }
    pose proof (aggregate_loop_closed dt start interp ign (λ k, k ∈ dom d) h
                  _ ∅ start [] Hseen) as Hloop.
    destruct (fst (aggregate_loop _ _ _ _ _ _ _ _ _)) as [res|e|];
      cbn [fst snd].
    + set (r0 := fresh (dom (dicts h))).
      set (r := fresh (dom (<[r0 := ∅]> (dicts h)))).
      assert (dicts h !! r = None) as Hr.
      { pose proof (fresh_lookup_None (<[r0 := ∅]> (dicts h))) as Hf.
        fold r in Hf. apply lookup_insert_None in Hf as [? _]. done. }
      exists r, res. cbn [objects dicts log files].
      split; [apply fresh_lookup_None|]. split; [done|].
      split; [by rewrite lookup_insert_eq|].
      split; [by rewrite lookup_insert_eq|].
      split; [intros x Hx; by rewrite lookup_insert_ne|].
      split.
      { intros x Hx. rewrite !lookup_insert_ne; [done|..].
        - intros <-. by apply fresh_dict_ne in Hx.
        - intros <-. rewrite Hr in Hx. by destruct Hx. }
      do 2 (split; [done|]).
      apply Hloop. intros k Hk. by apply elem_of_dom in Hk as [? ?].
    + split; [done|]. apply Hloop.
      intros k Hk. by apply elem_of_dom in Hk as [? ?].
    + apply Hloop. intros k Hk. by apply elem_of_dom in Hk as [? ?].
  - assert (run = (Raise ValueError, h)) as ->;
      [|split; [done|]; cbn [fst snd]; auto].
    unfold run, aggregate.
    assert (String.eqb dt "h" || String.eqb dt "d" || String.eqb dt "M"
            = true) as ->.
    { destruct Hdt as [->|[->| ->]]; done. }
    rewrite (Hneq interp "LinearInterpolation"), (Hneq interp "Sum")
      by (intros ->; apply Hint; auto).
    done.
  - assert (run = (Raise ValueError, h)) as ->;
      [|split; [done|]; cbn [fst snd]; auto].
    unfold run, aggregate.
    rewrite (Hneq dt "h"), (Hneq dt "d"), (Hneq dt "M")
      by (intros ->; apply Hdt; auto).
    done.
Qed.

(** X9.  The first timestep of [aggregate].  When the nodes of the
    series are, in order of their timestamps, nodes before [start], then
    nodes from [start] to before the end of the timestep that begins at
    [start], then one last node at or after that end, the result has one
    node: at [start], with the aggregate of the values of the first
    timestep; the value of the last node is in no node. *)
Theorem aggregate_first_timestep
    h self o d dt start interp ign t_next early inside last :
  objects h !! self = Some o → dicts h !! Attr.nodes o = Some d →
  (interp = "LinearInterpolation" ∨ interp = "Sum")%string →
  next_step dt start h = (Ok t_next, h) →
  items d = early ++ inside ++ [last] →
  Forall (λ kv, Datetime.lt kv.1 start) early →
  Forall (λ kv, Datetime.le start kv.1 ∧ Datetime.lt kv.1 t_next) inside →
  Datetime.le start last.1 → Datetime.le t_next last.1 →
  ∃ ts h',
    aggregate self dt start interp ign h = (Ok ts, h') ∧
    nodes_of h' ts = Some {[ start := agg_value interp ign inside.*2 ]}.
Proof.
  intros Ho Hd Hint Hn Hitems Hearly Hinside Hstart Hlast.
  assert ((dt = "h" ∨ dt = "d" ∨ dt = "M")%string) as Hdt.
  { unfold next_step in Hn.
    destruct (String.eqb dt "h") eqn:E1; [apply String.eqb_eq in E1; auto|].
    destruct (String.eqb dt "d") eqn:E2; [apply String.eqb_eq in E2; auto|].
    destruct (String.eqb dt "M") eqn:E3; [apply String.eqb_eq in E3; auto|].
    done. }
  rewrite (aggregate_ok h self o d dt start interp ign Ho Hd Hdt Hint).
  fold (items d). rewrite Hitems.
  rewrite aggregate_loop_skip by done.
  rewrite (aggregate_loop_gather _ _ _ _ _ t_next) by done.
  destruct last as [tl vl]. simpl in Hstart, Hlast. simpl.
  apply ltb_ge in Hstart. rewrite Hstart.
  unfold mbind, M_bind. rewrite Hn.
  apply geb_le in Hlast. rewrite Hlast. simpl.
  eexists _, _. split; [done|].
  apply nodes_of_Some. eexists. simpl. rewrite lookup_insert_eq.
  split; [done|]. simpl. by rewrite lookup_insert_eq.
Qed.
End extras_aggregate.

Lemma aggregate_stores_closed_timesteps_witness :
  Timeseries.aggregate daily "w" (jan2021 1) "Sum" false daily_heap
  = (Raise ValueError, daily_heap).
Proof.
  destruct (aggregate_stores_closed_timesteps daily_heap daily
              (Attr.Build "daily" (AStr "0") "" "" (AStr "") "" 0 0 0
                 Undefined 1%positive)
              (default ∅ (nodes_of daily_heap daily))
              "w" (jan2021 1) "Sum" false)
    as [Hbad _]; [by vm_compute|reflexivity|].
  apply Hbad. left. intros [?|[?|?]]; discriminate.
Defined.

Lemma aggregate_first_timestep_witness :
  ∃ ts h',
    Timeseries.aggregate daily "M" (jan2021 1) "Sum" false february_heap
    = (Ok ts, h') ∧
    nodes_of h' ts = Some {[ jan2021 1 := Float 10 ]}.
Proof.
  assert (Timeseries.agg_value "Sum" false
            [Float 1; Float 2; Float 3; Float 4] = Float 10) as <-
    by (vm_compute; reflexivity).
  apply (aggregate_first_timestep february_heap daily
           (Attr.Build "daily" (AStr "0") "" "" (AStr "") "" 0 0 0
              Undefined 1%positive)
           (default ∅ (nodes_of february_heap daily))
           "M" (jan2021 1) "Sum" false (mkDatetime 2021 2 1 0 0 0 0)
           []
           [(jan2021 1, Float 1); (jan2021 2, Float 2);
            (jan2021 3, Float 3); (jan2021 4, Float 4)]
           (mkDatetime 2021 2 1 0 0 0 0, Float 5)).
  - by vm_compute.
  - reflexivity.
  - by right.
  - reflexivity.
  - by vm_compute.
  - constructor.
  - repeat constructor; by vm_compute.
  - by vm_compute.
  - by vm_compute.
Defined.

(** ** Months *)

Section add_months.
Import Strptime.

Lemma lt_months a b :
  1 ≤ Datetime.month a ≤ 12 → 1 ≤ Datetime.month b ≤ 12 →
  Datetime.year a * 12 + Datetime.month a
  < Datetime.year b * 12 + Datetime.month b →
  Datetime.lt a b.
Proof.
  intros Ha Hb Hlt. unfold Datetime.lt, Datetime.compare, Datetime.fields.
  simpl.
  destruct (Z.compare_spec (Datetime.year a) (Datetime.year b)) as [Hy| |];
    [|done|lia].
  destruct (Z.compare_spec (Datetime.month a) (Datetime.month b)); [lia|done|lia].
Qed.

Lemma days_in_month_ge y m : 1 ≤ m ≤ 12 → 28 ≤ Datetime.days_in_month y m.
Proof.
  intros Hm. unfold Datetime.days_in_month.
  assert (28 ≤ Datetime.days_in_month_table m).
  { assert (m ∈ seqZ 1 12) as Hin by (apply elem_of_seqZ; lia).
    vm_compute seqZ in Hin.
    repeat (apply elem_of_cons in Hin as [->|Hin]; [simpl; lia|]).
    by apply elem_of_nil in Hin. }
  destruct (_ && _); lia.
Qed.

End add_months.


(** ** What reading a document leaves alone *)

Section preserves.
Import Timeseries.
Context `{FloatLib}.
Implicit Types (h : heap) (J : heap → Prop).

Lemma frame_refl h : frame h h.
Proof. by split_and!. Qed.

Lemma frame_trans h1 h2 h3 : frame h1 h2 → frame h2 h3 → frame h1 h3.
Proof.
  intros (Ho & Hd & Hf) (Ho' & Hd' & Hf'). split_and!; [eauto..|congruence].
Qed.

Lemma preserves_ret J {A} (a : A) : preserves J (mret a).
Proof. by intros h. Qed.

Lemma preserves_raise J {A} e : preserves J (raise (A:=A) e).
Proof. by intros h. Qed.

Lemma preserves_lift_option J {A} e (x : option A) :
  preserves J (lift_option e x).
Proof. destruct x; [apply preserves_ret|apply preserves_raise]. Qed.

Lemma preserves_bind J {A B} (m : M A) (f : A → M B) :
  preserves J m → (∀ a, preserves J (f a)) → preserves J (m ≫= f).
Proof.
  intros Hm Hf h HJ. unfold mbind, M_bind. specialize (Hm h HJ).
  destruct (m h) as [[a|e|] h']; simpl in *; [|done..]. by apply Hf.
Qed.

Lemma preserves_try_except J {A} (body : M A) handler :
  preserves J body → (∀ e, preserves J (handler e)) →
  preserves J (try_except body handler).
Proof.
  intros Hm Hf h HJ. unfold try_except. specialize (Hm h HJ).
  destruct (body h) as [[a|e|] h']; simpl in *; [done| |done].
  destruct (is_Exception e); simpl; [|done]. by apply Hf.
Qed.

Lemma preserves_for_each J {A} (l : list A) body :
  (∀ a, preserves J (body a)) → preserves J (for_each l body).
Proof.
  intros Hb. induction l as [|a l IH]; simpl; [apply preserves_ret|].
  apply preserves_bind; auto.
Qed.

Lemma frame_logger h0 lvl msg : preserves (frame h0) (logger lvl msg).
Proof. by intros h (Ho & Hd & Hf). Qed.

Lemma own_logger h0 ts lvl msg : preserves (own h0 ts) (logger lvl msg).
Proof.
  intros h ((Ho & Hd & Hf) & Hts & o & Hoo & Hn).
  split; [by split_and!|]. split; [done|]. by exists o.
Qed.

Lemma own_modify_obj h0 ts f :
  (∀ o, Attr.nodes (f o) = Attr.nodes o) →
  preserves (own h0 ts) (modify_obj ts f).
Proof.
  intros Hf h ((Ho & Hd & Hfiles) & Hts & o & Hoo & Hnone).
  unfold modify_obj. rewrite Hoo. simpl.
  split; [|split; [done|]].
  - split_and!; simpl; [|done..]. intros x o' Hx.
    rewrite lookup_insert_ne; [eauto|]. intros <-. congruence.
  - exists (f o). simpl. rewrite lookup_insert_eq, Hf. done.
Qed.

Lemma own_add_node h0 ts t v : preserves (own h0 ts) (add_node ts t v).
Proof.
  intros h ((Ho & Hd & Hfiles) & Hts & o & Hoo & Hnone).
  destruct (add_node ts t v h) as [out h'] eqn:Hrun. simpl.
  destruct (add_node_frame _ _ _ _ _ _ _ Hoo Hrun)
    as (Hobj & _ & Hf & Hdicts).
  split; [|split; [done|]].
  - split_and!; [| |congruence].
    + intros x o' Hx. rewrite Hobj. eauto.
    + intros x d Hx. rewrite Hdicts; [eauto|]. intros ->. congruence.
  - exists o. by rewrite Hobj.
Qed.

Create HintDb preserves discriminated.
#[local] Hint Resolve preserves_ret preserves_raise preserves_lift_option
  frame_logger own_logger own_add_node : preserves.
#[local] Hint Extern 2 (preserves _ (_ ≫= _)) =>
  apply preserves_bind; [|intros ?] : preserves.
#[local] Hint Extern 2 (preserves _ (try_except _ _)) =>
  apply preserves_try_except; [|intros ?] : preserves.
#[local] Hint Extern 2 (preserves _ (for_each _ _)) =>
  apply preserves_for_each; intros ? : preserves.
#[local] Hint Extern 2 (preserves _ (modify_obj _ _)) =>
  apply own_modify_obj; by intros [] : preserves.
#[local] Hint Extern 3 (preserves _ (if ?b then _ else _)) =>
  destruct b : preserves.
#[local] Hint Extern 3 (preserves _ (match ?x with _ => _ end)) =>
  destruct x : preserves.

Lemma own_read_event h0 ts error_value event :
  preserves (own h0 ts) (read_event ts error_value event).
Proof.
  unfold read_event, attrib, float_. auto 20 with preserves.
Qed.

Lemma new_own h0 title h :
  frame h0 h →
  ∃ ts h', new title h = (Ok ts, h') ∧ own h0 ts h'.
Proof.
  intros (Ho & Hd & Hf).
  unfold new, mbind, M_bind, alloc_dict, alloc_obj. simpl.
  eexists _, _. split; [done|].
  set (r := fresh (dom (dicts h))). set (ts := fresh (dom (objects h))).
  assert (objects h0 !! ts = None) as Hts.
  { destruct (objects h0 !! ts) as [o|] eqn:E; [|done].
    apply Ho in E. unfold ts in E. by rewrite fresh_lookup_None in E. }
  assert (dicts h0 !! r = None) as Hr.
  { destruct (dicts h0 !! r) as [d|] eqn:E; [|done].
    apply Hd in E. unfold r in E. by rewrite fresh_lookup_None in E. }
  split; [|split; [done|]].
  - split_and!; simpl; [| |done].
    + intros x o Hx. rewrite lookup_insert_ne; [eauto|]. intros <-. congruence.
    + intros x d Hx. rewrite lookup_insert_ne; [eauto|]. intros <-. congruence.
  - eexists. simpl. rewrite lookup_insert_eq. split; [done|]. done.
Qed.

Lemma frame_read_series_body h0 series type_ loc par sname unit missval :
  preserves (frame h0)
    (read_series_body series type_ loc par sname unit missval).
Proof.
  intros h Hframe. unfold read_series_body.
  destruct (new_own h0 "" h Hframe) as (ts & h1 & Hnew & Hown).
  unfold mbind at 1, M_bind at 1. rewrite Hnew.
  match goal with
  | |- frame h0 (snd (?rest h1)) =>
      assert (preserves (own h0 ts) rest) as Hrest
  end.
  { pose proof (own_read_event h0 ts).
    unfold dotted. auto 40 with preserves. }
  by destruct (Hrest h1 Hown) as [? _].
Qed.

Lemma frame_read_series h0 result series :
  preserves (frame h0) (read_series result series).
Proof.
  pose proof (frame_read_series_body h0).
  unfold read_series, child_text, log_series_error.
  auto 40 with preserves.
Qed.

Lemma frame_read_all_series h0 l :
  ∀ result, preserves (frame h0) (read_all_series result l).
Proof.
  induction l as [|s l IH]; intros result; simpl; [apply preserves_ret|].
  apply preserves_bind; [apply frame_read_series|]. intros r1. apply IH.
Qed.
End preserves.

(** ** A series of a PI document *)

Section read_series.
Import Timeseries.
Context `{FloatLib}.
Implicit Types (h : heap) (o : Attr.t) (d : gmap datetime value).
Implicit Types (result : fews_result) (rows : list (datetime * value)).

Lemma read_event_node ts mv ev k v h o d :
  objects h !! ts = Some o → dicts h !! Attr.nodes o = Some d →
  event_node mv ev = Some (k, v) → k ∉ dom d →
  read_event ts mv ev h
  = (Ok (), Heap (objects h) (<[Attr.nodes o := <[k := v]> d]> (dicts h))
              (log h) (files h)).
Proof.
  intros Ho Hd Hev Hk. unfold event_node in Hev.
  unfold read_event, attrib, lift_option, float_, mbind, M_bind, mret, M_ret.
  destruct (ev_date ev) as [date|]; [|done].
  destruct (ev_time ev) as [time|]; [|done].
  destruct (ev_flag ev) as [flag|]; [|done]. simpl in Hev.
  destruct (Py.int flag) as [n|]; [|done].
  destruct (ev_value ev) as [value_str|]; [|done]. simpl in Hev.
  cbv beta iota.
  destruct (bool_decide _ || bool_decide _).
  - simpl in Hev.
    destruct (Strptime.strptime _ _) as [t|]; [|done].
    injection Hev as <- <-. cbv beta iota.
    by rewrite (add_node_new h ts o d (PyDatetime t None) t NpNan).
  - destruct (parse_float _) as [f|]; [|done]. simpl in Hev.
    destruct (Strptime.strptime _ _) as [t|]; [|done].
    injection Hev as <- <-. unfold lift_option, mret, M_ret. cbv beta iota.
    by rewrite (add_node_new h ts o d (PyDatetime t None) t (Float f)).
Qed.

Lemma read_events_rows ts mv events : ∀ rows h o d,
  objects h !! ts = Some o → dicts h !! Attr.nodes o = Some d →
  mapM (event_node mv) events = Some rows →
  NoDup rows.*1 → (∀ k, k ∈ dom d → k ∉ rows.*1) →
  for_each events (read_event ts mv) h
  = (Ok (), Heap (objects h) (<[Attr.nodes o := fill d rows]> (dicts h))
              (log h) (files h)).
Proof.
  induction events as [|ev events IH]; intros rows h o d Ho Hd Hrows Hnd Hdom.
  - injection Hrows as <-. simpl. unfold mret, M_ret.
    rewrite insert_id by done. by destruct h.
  - simpl in Hrows.
    destruct (event_node mv ev) as [[k v]|] eqn:Hev; [|done].
    simpl in Hrows.
    destruct (mapM (event_node mv) events) as [rows'|] eqn:Hrest; [|done].
    injection Hrows as <-.
    rewrite fmap_cons in Hnd. apply NoDup_cons in Hnd as [Hnotin Hnd].
    assert (k ∉ dom d) as Hfresh.
    { intros Hin. apply (Hdom _ Hin). rewrite fmap_cons. left. }
    cbn [for_each fill foldl].
    rewrite (bind_ok _ _ _ _ _
               (read_event_node ts mv ev k v h o d Ho Hd Hev Hfresh)).
    erewrite IH; [|done|apply lookup_insert_eq|done|done|].
    + simpl. by rewrite insert_insert_eq.
    + intros k' Hk' Hin. apply elem_of_dom in Hk'.
      rewrite lookup_insert_is_Some in Hk'.
      destruct Hk' as [<-|[_ Hk']]; [done|].
      apply (Hdom k'); [by apply elem_of_dom|]. rewrite fmap_cons. by right.
Qed.

Lemma read_series_body_ok series type_ i loc par sname unit mv rows h :
  type_interpretation type_ = Some i →
  mapM (event_node mv) (s_events series) = Some rows → NoDup rows.*1 →
  let ts := fresh (dom (objects h)) in
  let r := fresh (dom (dicts h)) in
  read_series_body series (Some type_) (Some loc) (Some par) (Some sname)
    unit mv h
  = (Ok ts, Heap (<[ts := pi_attrs loc par sname unit i r]> (objects h))
              (<[r := list_to_map rows]> (dicts h))
              (log h ++ [(LogInfo, "Read values"%string)]) (files h)).
Proof.
  intros Hty Hrows Hnd ts r.
  assert (∀ h1 o,
            objects h1 !! ts = Some o → Attr.nodes o = r →
            dicts h1 !! r = Some ∅ →
            (modify_obj ts (Attr.set_interpretation i);;
             for_each (s_events series) (read_event ts mv);;
             logger LogInfo "Read values";; mret ts) h1
            = (Ok ts, Heap (<[ts := Attr.set_interpretation i o]> (objects h1))
                        (<[r := list_to_map rows]> (dicts h1))
                        (log h1 ++ [(LogInfo, "Read values"%string)])
                        (files h1))) as Hall.
  { intros h1 o Ho Hr Hd.
    rewrite (bind_ok _ _ _ _ _ (modify_obj_ok _ _ _ _ Ho)).
    erewrite bind_ok.
    2:{ apply (read_events_rows ts mv (s_events series) rows _
                 (Attr.set_interpretation i o) ∅);
          [apply lookup_insert_eq|by rewrite <- Hr in Hd|done..|set_solver]. }
    unfold mbind, M_bind, logger, mret, M_ret.
    cbn [objects dicts log files Attr.nodes Attr.set_interpretation].
    rewrite Hr. by rewrite fill_empty. }
  unfold read_series_body.
  change (dotted (Some loc) (Some par))
    with (mret (M:=M) (loc ++ Py.lit "." ++ par)).
  change (dotted (Some loc) (Some sname))
    with (mret (M:=M) (loc ++ Py.lit "." ++ sname)).
  assert (new "" h
          = (Ok ts, Heap (<[ts := Attr.Build "" (AStr "0") "" "" (AStr "") ""
                                    0%float 0%float 0%float Undefined r]>
                            (objects h))
                      (<[r := ∅]> (dicts h)) (log h) (files h))) as Hnew
    by done.
  rewrite (bind_ok _ _ _ _ _ Hnew).
  rewrite (bind_ok (mret _) _ _ _ _ eq_refl).
  do 2 (erewrite bind_ok;
        [|apply modify_obj_ok; cbn [objects]; apply lookup_insert_eq];
        cbn [objects dicts log files]; rewrite insert_insert_eq).
  rewrite (bind_ok (mret _) _ _ _ _ eq_refl).
  do 3 (erewrite bind_ok;
        [|apply modify_obj_ok; cbn [objects]; apply lookup_insert_eq];
        cbn [objects dicts log files]; rewrite insert_insert_eq).
  unfold type_interpretation in Hty.
  assert (∀ a b : text, bool_decide (Some a = Some b) = bool_decide (a = b))
    as Hsome.
  { intros a b. apply bool_decide_ext. split; congruence. }
  rewrite !Hsome.
  repeat case_bool_decide; try done; injection Hty as <-.
  all: erewrite Hall;
    [|apply lookup_insert_eq|reflexivity|apply lookup_insert_eq].
  all: cbn [objects dicts log files]; by rewrite !insert_insert_eq.
Qed.

Lemma read_series_known
    result series h hd type_ i loc par sname unit mv rows :
  s_header series = Some hd →
  h_type hd = Some (Some type_) → type_interpretation type_ = Some i →
  h_locationId hd = Some (Some loc) → h_parameterId hd = Some (Some par) →
  h_stationName hd = Some (Some sname) →
  h_units hd = Some unit → h_missVal hd = Some mv →
  mapM (event_node mv) (s_events series) = Some rows → NoDup rows.*1 →
  ∃ result' h' ts r,
    read_series result series h = (Ok result', h') ∧
    entry result' (Some (Py.to_string loc)) (Some (Py.to_string par))
      = Some (Some ts) ∧
    objects h !! ts = None ∧
    objects h' !! ts = Some (pi_attrs loc par sname unit i r) ∧
    dicts h' !! r = Some (list_to_map rows).
Proof.
  intros Hhd Hty Hi Hloc Hpar Hsname Hunit Hmv Hrows Hnd.
  unfold read_series, try_except, child_text, mbind at 1, M_bind at 1.
  rewrite Hhd, Hty, Hloc, Hpar, Hsname, Hunit, Hmv.
  unfold mbind at 1 2 3 4 5 6, M_bind at 1 2 3 4 5 6, mret, M_ret. simpl.
  set (warn := if decide _ then _ else _).
  assert (∃ h2, warn h = (Ok (), h2) ∧ objects h2 = objects h ∧
                dicts h2 = dicts h) as (h2 & Hwarn & Hobj & Hdicts).
  { unfold warn. destruct (decide _); by eexists. }
  unfold mbind at 1, M_bind at 1. rewrite Hwarn.
  unfold mbind, M_bind.
  rewrite (read_series_body_ok series type_ i loc par sname unit mv rows h2
             Hi Hrows Hnd).
  simpl. eexists _, _, _, _. split; [done|].
  split; [apply entry_insert_same|]. simpl. rewrite Hobj.
  split; [apply fresh_lookup_None|].
  split; apply lookup_insert_eq.
Qed.
End read_series.

(** ** PI documents, for every series *)

Section read_fews_entries.
Import Timeseries.
Context `{FloatLib}.
Implicit Types (h : heap) (result : fews_result).



End read_fews_entries.

Section extras_read_fews.
Import Timeseries.
Context `{FloatLib}.
Implicit Types (h : heap) (result : fews_result).

End extras_read_fews.

Section extras_read_series.
Import Timeseries.
Context `{FloatLib}.
Implicit Types (h : heap) (result : fews_result).

(** X12.  A series of a document that [read_fews] reads in full.  Its
    header has the six children, with a text for location, parameter and
    station name and one of the three types; each of its events has the
    four attributes, an integer flag, a value that is blank, the missing
    value or a number, and a date and a time that make a timestamp; and
    no two events have the same timestamp.  Then the result has, under
    the location and the parameter, a new series, whose title is location
    and parameter joined by a dot, whose station name is location and
    station name joined by a dot, whose station id, parameter and unit are
    those of the header, whose interpretation is the one of the type, and
    whose nodes are the events, with a NaN for a blank or missing value;
    unless a later series of the document has the same location and
    parameter. *)
Theorem read_fews_reads_a_series
    before series after h hd type_ i loc par sname unit mv rows :
  s_header series = Some hd →
  h_type hd = Some (Some type_) → type_interpretation type_ = Some i →
  h_locationId hd = Some (Some loc) → h_parameterId hd = Some (Some par) →
  h_stationName hd = Some (Some sname) →
  h_units hd = Some unit → h_missVal hd = Some mv →
  mapM (event_node mv) (s_events series) = Some rows → NoDup rows.*1 →
  Forall (λ s, series_keys s
               ≠ Some (Some (Py.to_string loc), Some (Py.to_string par)))
    after →
  ∃ result h' ts r,
    read_fews (Document (before ++ series :: after)) h = (Ok result, h') ∧
    entry result (Some (Py.to_string loc)) (Some (Py.to_string par))
      = Some (Some ts) ∧
    objects h !! ts = None ∧
    objects h' !! ts = Some (pi_attrs loc par sname unit i r) ∧
    dicts h' !! r = Some (list_to_map rows).
Proof.
  intros Hhd Hty Hi Hloc Hpar Hsname Hunit Hmv Hrows Hnd Hafter.
  unfold read_fews, mbind at 1, M_bind at 1, logger. cbv beta iota.
  assert (frame h (Heap (objects h) (dicts h)
                     (log h ++ [(LogInfo,
                                 "Reading FEWS PI Timeseries XML file"%string)])
                     (files h))) as Hframe by done.
  revert Hframe. generalize (∅ : fews_result).
  generalize (Heap (objects h) (dicts h)
                (log h ++ [(LogInfo,
                            "Reading FEWS PI Timeseries XML file"%string)])
                (files h)).
  induction before as [|s0 before IH]; intros h0 r0 Hframe; simpl.
  - destruct (read_series_known r0 series h0 hd type_ i loc par sname unit mv
                rows) as (r1 & h1 & ts & r & Hrun1 & Hentry & Hnew & Ho & Hd);
      try done.
    rewrite (bind_ok _ _ _ _ _ Hrun1).
    destruct (read_all_series_returns after r1 h1) as (result & h' & Hrun).
    exists result, h', ts, r. split; [done|].
    destruct (read_all_series_other_entries after _ _ Hafter _ _ _ _ Hrun)
      as [-> _].
    pose proof (frame_read_all_series h1 after r1 h1 (frame_refl h1))
      as (Hobjs & Hdicts & _).
    rewrite Hrun in Hobjs, Hdicts. simpl in Hobjs, Hdicts.
    split; [done|]. split; [|by auto].
    destruct (objects h !! ts) as [o|] eqn:E; [|done].
    apply Hframe in E. congruence.
  - destruct (read_series_returns r0 s0 h0) as (r1 & h1 & Hrun1).
    rewrite (bind_ok _ _ _ _ _ Hrun1). apply IH.
    pose proof (frame_read_series h r0 s0 h0 Hframe) as Hf.
    by rewrite Hrun1 in Hf.
Qed.
End extras_read_series.

Lemma read_fews_reads_a_series_witness :
  ∃ result h' ts r,
    read_fews (Document [pi_mean_series; pi_cumulative_series]) empty_heap
      = (Ok result, h') ∧
    entry result (Some "L1"%string) (Some "Q"%string) = Some (Some ts) ∧
    objects empty_heap !! ts = None ∧
    objects h' !! ts
    = Some (Attr.Build "L1.Q" (AStr "L1") "L1.Gauge one" "Q" (AStr "m3/s") ""
              0 0 0 BlockRight r) ∧
    dicts h' !! r
    = Some (list_to_map [(mkDatetime 2021 7 5 16 30 0 0, Float 177);
                         (mkDatetime 2021 7 5 17 30 0 0, NpNan)]).
Proof.
  eapply (read_fews_reads_a_series
           [] pi_mean_series [pi_cumulative_series] empty_heap
           _ (Py.lit "mean") BlockRight (Py.lit "L1") (Py.lit "Q")
           (Py.lit "Gauge one") (Some (Py.lit "m3/s"))
           (Some (Py.lit "-999.0"))
           [(mkDatetime 2021 7 5 16 30 0 0, Float 177);
            (mkDatetime 2021 7 5 17 30 0 0, NpNan)]);
    try reflexivity.
  - apply (bool_decide_unpack _). by vm_compute.
  - repeat constructor. by vm_compute.
Defined.

(** ** The format [uvf] *)

Section write_uvf.
Import Py Strptime Timeseries.
Context `{FloatLib}.
Implicit Types (h : heap) (o : Attr.t) (d : gmap datetime value).

Lemma start_with_file self filename c h o d :
  objects h !! self = Some o → dicts h !! Attr.nodes o = Some d →
  start self (with_file h filename c)
  = lift_option IndexError (head (sorted_keys d)) (with_file h filename c).
Proof.
  intros Ho Hd. unfold start.
  by rewrite (bind_ok _ _ _ _ _
                (get_nodes_ok (with_file h filename c) self o d Ho Hd)).
Qed.

Lemma end_with_file self filename c h o d :
  objects h !! self = Some o → dicts h !! Attr.nodes o = Some d →
  end_ self (with_file h filename c)
  = lift_option IndexError (last (sorted_keys d)) (with_file h filename c).
Proof.
  intros Ho Hd. unfold end_.
  by rewrite (bind_ok _ _ _ _ _
                (get_nodes_ok (with_file h filename c) self o d Ho Hd)).
Qed.

(** [write_uvf] on a series with nodes and a unit that is a text *)
Lemma write_uvf_ok self filename h o d u s e :
  objects h !! self = Some o → dicts h !! Attr.nodes o = Some d →
  Attr.unit o = AStr u →
  head (sorted_keys d) = Some s → last (sorted_keys d) = Some e →
  write_uvf self filename h
  = (Ok (),
     with_file h filename
       (file_of_lines (uvf_attributes o ++ uvf_header o (lit u) s e
                       ++ (uvf_body <$> items d)))).
Proof.
  intros Ho Hd Hu Hs He. unfold write_uvf.
  rewrite (bind_ok _ _ _ _ _ (open_write_ok filename h)).
  erewrite bind_ok by by apply get_obj_ok.
  do 3 rewrite (bind_ok _ _ _ _ _ (fwrite_with_file _ _ _ _)).
  erewrite bind_ok
    by (rewrite (start_with_file _ _ _ _ o d Ho Hd), Hs; reflexivity).
  erewrite bind_ok
    by (rewrite (end_with_file _ _ _ _ o d Ho Hd), He; reflexivity).
  rewrite Hu.
  rewrite (bind_ok (attr_str (AStr u)) _ _ _ _ eq_refl).
  do 3 rewrite (bind_ok _ _ _ _ _ (fwrite_with_file _ _ _ _)).
  rewrite (bind_ok _ _ _ _ _ (iter_with_file self filename _ h o d Ho Hd)).
  rewrite (for_each_ext _ (λ x, fwrite filename (uvf_body x ++ [nl])))
    by (intros [k v]; unfold uvf_body, uvf_line, uvf_field; cbn [fst snd];
        by rewrite <- ?app_assoc).
  rewrite for_each_fwrite_with_file. do 2 f_equal.
  unfold file_of_lines, uvf_attributes, uvf_header.
  rewrite !flat_map_app, flat_map_fmap. cbn [flat_map].
  rewrite Hu. rewrite ?app_nil_r, <- ?app_assoc. cbn [app]. reflexivity.
Qed.

End write_uvf.

Section extras_write_to_file.
Import Py Strptime Timeseries.
Context `{FloatLib}.
Implicit Types (h : heap) (o : Attr.t) (d : gmap datetime value).


End extras_write_to_file.

Section read_uvf_written.
Import Py Strptime Timeseries.
Context `{FloatLib}.
Implicit Types (h : heap) (o : Attr.t) (d : gmap datetime value).

Lemma int_century q :
  10 ≤ q ≤ 99 → int (zero_pad 2 q ++ lit "00") = Some (q * 100).
Proof.
  intros Hq. apply (bool_decide_eq_true_1 _). revert q Hq.
  apply (forall_range
           (λ q, bool_decide (int (zero_pad 2 q ++ lit "00") = Some (q * 100)))
           10 99).
  vm_compute. reflexivity.
Qed.

Lemma century_of_printable s :
  printable s →
  century_of s = zero_pad 2 (Datetime.year s / 100) ++ lit "00" ∧
  10 ≤ Datetime.year s / 100 ≤ 99.
Proof.
  intros (Hvalid & Hy & _).
  destruct (valid_datetime_ranges s Hvalid) as (Hy' & _).
  split; [unfold century_of; by rewrite str_int_century by lia|].
  split; [apply Z.div_le_lower_bound; lia|].
  assert (Datetime.year s / 100 < 100) by (apply Z.div_lt_upper_bound; lia).
  lia.
Qed.

Lemma slice_columns (a b c rest : text) :
  length a = 15%nat → length b = 15%nat → length c = 4%nat →
  Py.slice (a ++ b ++ c ++ rest) 30 34 = c.
Proof.
  intros Ha Hb Hc. unfold Py.slice.
  rewrite drop_app_ge by lia. rewrite Ha.
  rewrite drop_app_ge by lia. rewrite Hb.
  change (30 - 15 - 15)%nat with 0%nat. rewrite drop_0.
  change (34 - 30)%nat with 4%nat. by rewrite take_app_length'.
Qed.

Lemma length_ljust n c (s : text) :
  (length s ≤ n)%nat → length (ljust n c s) = n.
Proof. intros Hs. unfold ljust. rewrite length_app, length_replicate. lia. Qed.

Lemma no_newline_uvf_body k v :
  printable k → no_newline (uvf_field v) = true →
  no_newline (uvf_body (k, v)) = true.
Proof.
  intros Hk Hv. pose proof Hk as (Hvalid & Hy & _).
  destruct (valid_datetime_ranges k Hvalid) as (Hy' & ? & ? & ? & ? & ?).
  pose proof (Z.mod_pos_bound (Datetime.year k) 100 ltac:(lia)).
  unfold uvf_body, uvf_line. cbn [fst snd].
  rewrite strftime_uvf by lia.
  assert (0 ≤ Datetime.year k / 100 ≤ 99) as Hq.
  { split; [apply Z.div_le_lower_bound; lia|].
    assert (Datetime.year k / 100 < 100)
      by (apply Z.div_lt_upper_bound; lia).
    lia. }
  rewrite drop_app_length' by (symmetry; by apply length_zero_pad_2).
  rewrite !no_newline_app, Hv.
  assert (∀ x, 0 ≤ x ≤ 99 → no_newline (zero_pad 2 x) = true) as Hpad.
  { intros x Hx. by apply no_space_no_newline, no_space_zero_pad_2. }
  by rewrite !Hpad by lia.
Qed.

(** [read_uvf] on the file that [write_uvf] makes of the attributes and
    the nodes [d]. *)
Lemma read_uvf_written filename h o u d s e :
  files h !! filename
  = Some (file_of_lines (uvf_attributes o ++ uvf_header o u s e
                         ++ (uvf_body <$> items d))) →
  (length u ≤ 15)%nat →
  head (sorted_keys d) = Some s →
  forallb no_newline (uvf_attributes o ++ uvf_header o u s e) = true →
  uvf_nodes d → Sorted follows (sorted_keys d) →
  ∃ ts h',
    read_uvf filename h = (Ok ts, h') ∧
    nodes_of h' ts = Some (reread_uvf <$> d).
Proof.
  intros Hfile Hu Hs Hhead Hd Hfollows.
  set (rows := (λ kv : datetime * value,
                  (kv.1, uvf_field kv.2, reread_uvf kv.2)) <$> items d).
  assert (row_line <$> rows = uvf_body <$> items d) as Hlines.
  { unfold rows. by rewrite <- list_fmap_compose. }
  assert (row_date <$> rows = sorted_keys d) as Hdates.
  { unfold rows. rewrite <- list_fmap_compose. apply fst_items_sorted. }
  assert (row_node <$> rows
          = (λ kv, (kv.1, reread_uvf kv.2)) <$> items d) as Hnodes.
  { unfold rows. by rewrite <- list_fmap_compose. }
  assert (Forall row_ok rows) as Hok.
  { unfold rows. apply Forall_fmap, Forall_forall. intros [k v] Hkv.
    apply elem_of_items in Hkv.
    destruct (Hd k v Hkv) as (Hk & Hsec & [v' Hv'] & _).
    unfold row_ok, reread_uvf. simpl. by rewrite Hv'. }
  assert (printable s) as Hps.
  { assert (s ∈ dom d) as [v Hv]%elem_of_dom.
    { apply elem_of_sorted_keys.
      destruct (sorted_keys d); simplify_eq/=. left. }
    by destruct (Hd s v Hv). }
  destruct (century_of_printable s Hps) as [Hcen Hq].
  pose proof (follows_strictly_sorted _ Hfollows) as Hsorted.
  destruct (new_nodes "" h) as (ts & h1 & Hnew & Hd1 & Hf1).
  destruct (read_uvf_lines_header ts (lit "*Z" ++ [nl])
              (ljust 15 " " (Py.slice (lit (Attr.title o)) 0 15)
               ++ ljust 15 " " u ++ century_of s ++ lit " " ++ century_of e
               ++ [nl])
              (ljust 15 " " (Py.slice (lit (Attr.location o)) 0 15)
               ++ ljust 10 " " (format_9g (Attr.lat o))
               ++ ljust 10 " " (format_9g (Attr.lon o))
               ++ ljust 10 " " (format_9g (Attr.z o)) ++ [nl])
              (drop 2 (strftime s fmt_uvf) ++ drop 2 (strftime e fmt_uvf)
               ++ [nl])
              (Datetime.year s / 100 * 100) h1 ∅ Hd1)
    as (h2 & Hhdr & Hd2); [done| |].
  { rewrite slice_columns.
    - rewrite Hcen. by apply int_century.
    - apply length_ljust. unfold Py.slice. rewrite length_take. lia.
    - by apply length_ljust.
    - rewrite Hcen, length_app, length_zero_pad_2 by lia. done. }
  apply nodes_of_Some in Hd2 as (o2 & Ho2 & Hd2).
  destruct (read_uvf_lines_rows ts rows (UvfState 4 true false
                                           (Datetime.year s / 100 * 100) 0)
              h2 o2 ∅ Ho2 Hd2) as (st' & Hrows); try done.
  { right. simpl. split; [done|lia]. }
  { simpl. rewrite Hdates. apply follows_tracks_first; [|done].
    destruct (sorted_keys d) as [|a l]; [done|]. simplify_eq/=.
    split; [by rewrite Z.div_mul by lia|].
    destruct Hps as (_ & ? & _). lia. }
  { by rewrite Hdates. }
  exists ts. eexists. split.
  - unfold read_uvf. rewrite (bind_ok _ _ _ _ _ Hnew).
    erewrite bind_ok;
      [|unfold open_read; rewrite Hf1, Hfile; reflexivity].
    rewrite readlines_file.
    2:{ rewrite app_assoc, forallb_app, Hhead. simpl.
        apply forallb_forall. intros b Hb.
        apply in_map_iff in Hb as ([k v] & <- & Hkv).
        apply list_elem_of_In, elem_of_items in Hkv.
        destruct (Hd k v Hkv) as (Hk & _ & _ & Hnl).
        by apply no_newline_uvf_body. }
    rewrite <- Hlines, !map_app, map_map.
    erewrite bind_ok; [reflexivity|].
    rewrite read_uvf_lines_app.
    erewrite bind_ok.
    2:{ apply read_uvf_lines_attributes; [done..|].
        unfold uvf_attributes. repeat constructor. }
    rewrite read_uvf_lines_app.
    erewrite bind_ok.
    2:{ unfold uvf_header. cbn [map]. rewrite <- !app_assoc. exact Hhdr. }
    exact Hrows.
  - apply nodes_of_Some. exists o2. simpl. split; [done|].
    rewrite lookup_insert_eq, Hnodes. by rewrite fill_decoded.
Qed.
End read_uvf_written.

Section extras_uvf_round_trip.
Import Py Strptime Timeseries.
Context `{FloatLib}.
Implicit Types (h : heap) (o : Attr.t) (d : gmap datetime value).

(** X14.  The format [uvf].  A series with nodes is written with
    [write_to_file] to a file whose extension is [.uvf] and read with
    [read_file].  Its unit is a text of at most 15 characters; no line of
    the header holds a line break; its timestamps are whole minutes of the
    years 1000 to 9999, each less than a century of calendar years after
    the one before; and the field of each value, as ["%9.6g"] prints it,
    is one line that [read_uvf] can decode.  Then both calls return, and
    the series read has the same timestamps, each with the value decoded
    from its field: the number that [float] makes of the six significant
    digits, or a NaN for a field that begins with [-777]. *)
Theorem write_to_file_read_file_uvf_round_trip
    h self o d filename REXCHANGE u s e :
  objects h !! self = Some o → dicts h !! Attr.nodes o = Some d →
  lower (suffix filename) = lit ".uvf" →
  Attr.unit o = AStr u → (length (lit u) ≤ 15)%nat →
  head (sorted_keys d) = Some s → last (sorted_keys d) = Some e →
  forallb no_newline (uvf_attributes o ++ uvf_header o (lit u) s e) = true →
  uvf_nodes d → Sorted follows (sorted_keys d) →
  ∃ h1 ts h2 d',
    write_to_file self filename REXCHANGE h = (Ok (), h1) ∧
    read_file filename None h1 = (Ok ts, h2) ∧
    nodes_of h2 ts = Some d' ∧
    dom d' = dom d ∧
    ∀ k v, d !! k = Some v →
           uvf_value (uvf_field v) = d' !! k ∧
           d' !! k = Some (if startswith (lit "-777")
                                (strip (uvf_field v ++ [nl]))
                           then NpNan
                           else from_option Float NpNan
                                  (parse_float
                                     (strip (strip (uvf_field v ++ [nl]))))).
Proof.
  intros Ho Hd Hext Hunit Hu Hs He Hhead Hnodes Hfollows.
  destruct (read_uvf_written filename
              (with_file h filename
                 (file_of_lines (uvf_attributes o ++ uvf_header o (lit u) s e
                                 ++ (uvf_body <$> items d))))
              o (lit u) d s e) as (ts & h2 & Hread & Hd2);
    [apply lookup_insert_eq|done..|].
  eexists _, ts, h2, _. split_and!.
  - unfold write_to_file. cbv zeta. rewrite Hext.
    change (bool_decide (lit ".uvf" = lit ".txt")) with false.
    change (bool_decide (lit ".uvf" = lit ".csv")) with false.
    change (bool_decide (lit ".uvf" = lit ".uvf")) with true. cbv iota.
    by apply write_uvf_ok.
  - unfold read_file. cbv zeta. rewrite lower_lstrip_dots, Hext.
    exact Hread.
  - exact Hd2.
  - apply dom_fmap_L.
  - intros k v Hkv. rewrite lookup_fmap, Hkv.
    change (reread_uvf <$> Some v) with (Some (reread_uvf v)).
    destruct (Hnodes k v Hkv) as (_ & _ & [v' Hv'] & _).
    unfold reread_uvf. rewrite Hv'.
    change (default NpNan (Some v')) with v'. split; [done|].
    unfold uvf_value in Hv'. cbv zeta in Hv'.
    destruct (startswith _ _); [done|].
    destruct (parse_float _); [|discriminate Hv'].
    injection Hv' as <-. reflexivity.
Qed.
End extras_uvf_round_trip.


Lemma write_to_file_read_file_uvf_round_trip_witness :
  ∃ h1 ts h2 d',
    Timeseries.write_to_file gauge "gauge.uvf" None gauge_heap = (Ok (), h1) ∧
    Timeseries.read_file "gauge.uvf" None h1 = (Ok ts, h2) ∧
    nodes_of h2 ts = Some d' ∧
    dom d' = {[jan2021 1; jan2021 2]}.
Proof.
  destruct (write_to_file_read_file_uvf_round_trip gauge_heap gauge
              (Attr.Build "gauge" (AStr "0") "gauge" "" (AStr "m3/s") "" 0 0 0
                 BlockRight 1%positive)
              (<[jan2021 2 := NpNan]> (<[jan2021 1 := Float 5]> ∅))
              "gauge.uvf" None "m3/s" (jan2021 1) (jan2021 2))
    as (h1 & ts & h2 & d' & Hw & Hr & Hd' & Hdom & _).
  - vm_compute. reflexivity.
  - reflexivity.
  - reflexivity.
  - reflexivity.
  - vm_compute. lia.
  - by vm_compute.
  - by vm_compute.
  - by vm_compute.
  - apply map_Forall_insert_2; [|apply map_Forall_insert_2;
                                   [|apply map_Forall_empty]].
    + split; [by split_and!|]. split; [done|].
      split; [eexists; vm_compute; reflexivity|by vm_compute].
    + split; [by split_and!|]. split; [done|].
      split; [eexists; vm_compute; reflexivity|by vm_compute].
  - assert (Timeseries.sorted_keys
              (<[jan2021 2 := NpNan]> (<[jan2021 1 := Float 5]> ∅))
            = [jan2021 1; jan2021 2]) as -> by by vm_compute.
    repeat constructor; by vm_compute.
  - exists h1, ts, h2, d'. split; [exact Hw|]. split; [exact Hr|].
    split; [exact Hd'|]. rewrite Hdom. clear.
    rewrite !dom_insert_L, dom_empty_L. set_solver.
Defined.

(** ** What [read_txt] does with the lines it cannot take *)

Section read_txt_lines.
Import Py Strptime Timeseries.
Context `{FloatLib}.
Implicit Types (h : heap) (o : Attr.t) (d : gmap datetime value).



End read_txt_lines.

Section extras_read_txt.
Import Py Strptime Timeseries.
Context `{FloatLib}.
Implicit Types (h : heap) (o : Attr.t) (d : gmap datetime value).


End extras_read_txt.


(** ** Writing a PI document *)

Section write_fews_facts.
Import Py Strptime Timeseries.
Context `{FloatLib} `{XmlLib}.
Implicit Types (h : heap) (o : Attr.t) (d : gmap datetime value).

Lemma sorted_keys_ends d :
  d ≠ ∅ → ∃ s e, head (sorted_keys d) = Some s ∧ last (sorted_keys d) = Some e.
Proof.
  intros Hne. destruct (sorted_keys d) as [|s l] eqn:Hks.
  { destruct Hne. apply map_empty. intros k.
    apply not_elem_of_dom. rewrite <- elem_of_sorted_keys, Hks.
    apply not_elem_of_nil. }
  destruct (last (s :: l)) as [e|] eqn:Hlast; [by eauto|].
  by apply last_None in Hlast.
Qed.

Lemma start_ok h self o d :
  objects h !! self = Some o → dicts h !! Attr.nodes o = Some d →
  start self h = lift_option IndexError (head (sorted_keys d)) h.
Proof.
  intros Ho Hd. unfold start.
  by rewrite (bind_ok _ _ _ _ _ (get_nodes_ok h self o d Ho Hd)).
Qed.

Lemma end_ok h self o d :
  objects h !! self = Some o → dicts h !! Attr.nodes o = Some d →
  end_ self h = lift_option IndexError (last (sorted_keys d)) h.
Proof.
  intros Ho Hd. unfold end_.
  by rewrite (bind_ok _ _ _ _ _ (get_nodes_ok h self o d Ho Hd)).
Qed.

Lemma fews_series_cases loc par ts h :
  (∀ r, ts = Some r → live h r) →
  match fews_error h ts with
  | Some x => fews_series loc par ts h = (Raise x, h)
  | None => ∃ s, fews_series loc par ts h = (Ok s, h)
  end.
Proof.
  intros Hlive. destruct ts as [r|]; [|done].
  destruct (Hlive r eq_refl) as (o & d & Ho & Hd).
  unfold fews_error, fews_series. rewrite Ho, Hd.
  rewrite (bind_ok (lift_option _ (Some r)) _ _ _ _ eq_refl).
  rewrite (bind_ok _ _ _ _ _ (get_obj_ok _ _ _ Ho)).
  destruct (fews_supported (Attr.interpretation o)) eqn:Hi.
  2:{ by destruct (Attr.interpretation o). }
  assert (∃ t, fews_type (Attr.interpretation o) h = (Ok t, h)) as [t Ht].
  { destruct (Attr.interpretation o); try done; by eexists. }
  rewrite (bind_ok _ _ _ _ _ Ht).
  unfold get_start, get_end.
  destruct (decide _) as [Hempty|Hne].
  - apply dom_empty_inv_L in Hempty as ->.
    erewrite bind_raise; [done|]. rewrite (start_ok h r o ∅ Ho Hd).
    unfold sorted_keys. by rewrite map_to_list_empty.
  - destruct (sorted_keys_ends d) as (s & e & Hs & He).
    { intros ->. by rewrite dom_empty_L in Hne. }
    erewrite bind_ok
      by (rewrite (start_ok h r o d Ho Hd), Hs; reflexivity).
    erewrite bind_ok
      by (rewrite (end_ok h r o d Ho Hd), He; reflexivity).
    rewrite (bind_ok _ _ _ _ _ (iter_ok _ _ _ _ Ho Hd)).
    by eexists.
Qed.

Lemma first_error_app h a b :
  first_error h (a ++ b)
  = match first_error h a with Some x => Some x | None => first_error h b end.
Proof.
  induction a as [|ts a IH]; [done|]. simpl.
  by destruct (fews_error h ts).
Qed.

Lemma fews_params_cases loc params h :
  Forall (λ ts, ∀ r, ts = Some r → live h r) params.*2 →
  match first_error h params.*2 with
  | Some x => fews_params loc params h = (Raise x, h)
  | None => ∃ ss, fews_params loc params h = (Ok ss, h) ∧
                  length ss = length params
  end.
Proof.
  induction params as [|[par ts] params IH]; intros Hlive.
  - simpl. by exists [].
  - rewrite fmap_cons in Hlive. apply Forall_cons in Hlive as [Hts Hlive].
    simpl in Hts. rewrite fmap_cons. cbn [first_error fews_params snd].
    pose proof (fews_series_cases loc par ts h Hts) as Hs.
    destruct (fews_error h ts) as [x|].
    + by rewrite (bind_raise _ _ _ _ _ Hs).
    + destruct Hs as [s Hs]. rewrite (bind_ok _ _ _ _ _ Hs).
      specialize (IH Hlive). destruct (first_error h params.*2) as [x|].
      * by rewrite (bind_raise _ _ _ _ _ IH).
      * destruct IH as (ss & IH & Hlen). rewrite (bind_ok _ _ _ _ _ IH).
        exists (s :: ss). split; [done|]. simpl. by rewrite Hlen.
Qed.

Lemma fews_locations_cases (dict : ts_dict) h :
  Forall (λ ts, ∀ r, ts = Some r → live h r) (fews_entries dict) →
  match first_error h (fews_entries dict) with
  | Some x => fews_locations dict h = (Raise x, h)
  | None => ∃ ss, fews_locations dict h = (Ok ss, h) ∧
                  length ss = length (fews_entries dict)
  end.
Proof.
  induction dict as [|[loc params] dict IH]; intros Hlive.
  - simpl. by exists [].
  - unfold fews_entries in *. cbn [flat_map snd] in *.
    apply Forall_app in Hlive as [Hparams Hlive].
    rewrite first_error_app. cbn [fews_locations].
    pose proof (fews_params_cases loc params h Hparams) as Hp.
    destruct (first_error h params.*2) as [x|].
    + by rewrite (bind_raise _ _ _ _ _ Hp).
    + destruct Hp as (ss & Hp & Hlen). rewrite (bind_ok _ _ _ _ _ Hp).
      specialize (IH Hlive).
      destruct (first_error h (flat_map _ dict)) as [x|].
      * by rewrite (bind_raise _ _ _ _ _ IH).
      * destruct IH as (ss' & IH & Hlen'). rewrite (bind_ok _ _ _ _ _ IH).
        exists (ss ++ ss'). split; [done|].
        rewrite !length_app, length_fmap. by rewrite Hlen, Hlen'.
Qed.

Lemma first_error_Some h l x :
  first_error h l = Some x ↔
  ∃ before ts after,
    l = before ++ ts :: after ∧
    Forall (λ ts', fews_error h ts' = None) before ∧
    fews_error h ts = Some x.
Proof.
  induction l as [|ts l IH]; simpl.
  - split; [done|]. intros ([|? ?] & ? & ? & ? & _); done.
  - destruct (fews_error h ts) as [y|] eqn:Hts.
    + split.
      * intros [= ->]. by exists [], ts, l.
      * intros (before & ts1 & after & Hl & Hb & Hx).
        destruct before as [|ts' before]; simpl in Hl;
          injection Hl as -> ->; [congruence|].
        apply Forall_cons in Hb as [Hb _]. congruence.
    + rewrite IH. split.
      * intros (before & ts1 & after & -> & Hb & Hx).
        exists (ts :: before), ts1, after. split; [done|].
        split; [by constructor|done].
      * intros (before & ts1 & after & Hl & Hb & Hx).
        destruct before as [|ts' before]; simpl in Hl;
          injection Hl as -> ->; [congruence|].
        apply Forall_cons in Hb as [_ Hb]. by exists before, ts1, after.
Qed.

Lemma first_error_None h l :
  first_error h l = None ↔ Forall (λ ts, fews_error h ts = None) l.
Proof.
  induction l as [|ts l IH]; simpl; [by split|].
  destruct (fews_error h ts) as [y|] eqn:Hts.
  - split; [done|]. intros [Hx _]%Forall_cons. congruence.
  - rewrite IH. split; [by constructor|]. by intros [_ ?]%Forall_cons.
Qed.

Lemma first_error_writing h l : first_error (writing h) l = first_error h l.
Proof. induction l as [|ts l IH]; [done|]. simpl. by rewrite IH. Qed.
End write_fews_facts.

Section extras_write_fews.
Import Py Strptime Timeseries.
Context `{FloatLib} `{XmlLib}.
Implicit Types (h : heap) (o : Attr.t) (d : gmap datetime value).

(** X16.  [write_fews] writes the whole document or nothing.  The series
    are turned into elements in the order of the dictionaries, and the
    file is opened after the last.  The first entry that is [None], or
    whose interpretation is none of [Instantaneous], [BlockRight] and
    [CumulativePerTimestep], or that has no nodes, makes [write_fews]
    raise: [AttributeError], [Exception] and [IndexError] in turn; then no
    file is written or changed, and the store differs by one line of the
    log.  When there is no such entry, the document has one [series]
    element for each entry; the file is written with its text, unless the
    document cannot be serialised, and then again no file is touched. *)
Theorem write_fews_all_or_nothing filename (dict : ts_dict) h :
  Forall (λ ts, ∀ r, ts = Some r → live h r) (fews_entries dict) →
  (∀ before ts after x,
     fews_entries dict = before ++ ts :: after →
     Forall (λ ts', fews_error h ts' = None) before →
     fews_error h ts = Some x →
     write_fews filename dict h = (Raise x, writing h)) ∧
  (Forall (λ ts, fews_error h ts = None) (fews_entries dict) →
   ∃ series,
     length series = length (fews_entries dict) ∧
     write_fews filename dict h
     = match toprettyxml (fews_root series) with
       | inl e => (Raise e, writing h)
       | inr xmlstring => (Ok (), with_file (writing h) filename xmlstring)
       end).
Proof.
  intros Hlive.
  pose proof (fews_locations_cases dict (writing h) Hlive) as Hrun.
  rewrite first_error_writing in Hrun.
  unfold write_fews.
  rewrite (bind_ok (logger _ _) _ h () (writing h) eq_refl).
  split.
  - intros before ts after x Hl Hb Hx.
    assert (first_error h (fews_entries dict) = Some x) as Hfirst.
    { apply first_error_Some. by exists before, ts, after. }
    rewrite Hfirst in Hrun. by rewrite (bind_raise _ _ _ _ _ Hrun).
  - intros Hnone. apply first_error_None in Hnone. rewrite Hnone in Hrun.
    destruct Hrun as (series & Hrun & Hlen).
    exists series. split; [done|].
    rewrite (bind_ok _ _ _ _ _ Hrun).
    destruct (toprettyxml (fews_root series)) as [e|xmlstring]; [done|].
    rewrite (bind_ok _ _ _ _ _ (open_write_ok filename (writing h))).
    rewrite fwrite_with_file. done.
Qed.
End extras_write_fews.

Lemma write_fews_all_or_nothing_witness :
  Timeseries.write_fews "out.xml"
    [(Some "L1"%string, [(Some "Q"%string, Some gauge)]);
     (Some "L2"%string, [(Some "Q"%string, None)])]
    gauge_heap
  = (Raise AttributeError, writing gauge_heap).
Proof.
  destruct (write_fews_all_or_nothing "out.xml"
              [(Some "L1"%string, [(Some "Q"%string, Some gauge)]);
               (Some "L2"%string, [(Some "Q"%string, None)])]
              gauge_heap) as [Hraise _].
  - repeat constructor; [|done]. intros r [= <-].
    eexists _, _. split; vm_compute; reflexivity.
  - apply (Hraise [Some gauge] None []); [reflexivity| |reflexivity].
    repeat constructor.
Defined.

Section extras_write_fews_copies.
Import Py Strptime Timeseries.
Context `{FloatLib} `{XmlLib}.
Implicit Types (h : heap) (o : Attr.t) (d : gmap datetime value).

Lemma write_fews_unsupported filename loc par r h o :
  objects h !! r = Some o →
  fews_supported (Attr.interpretation o) = false →
  write_fews filename [(loc, [(par, Some r)])] h
  = (Raise Exception_, writing h).
Proof.
  intros Ho Hi. unfold write_fews.
  rewrite (bind_ok (logger _ _) _ h () (writing h) eq_refl).
  erewrite bind_raise; [done|]. cbn [fews_locations fews_params].
  erewrite bind_raise; [done|]. erewrite bind_raise; [done|].
  unfold fews_series.
  rewrite (bind_ok (lift_option _ (Some r)) _ _ _ _ eq_refl).
  assert (objects (writing h) !! r = Some o) as Ho' by done.
  rewrite (bind_ok _ _ _ _ _ (get_obj_ok _ _ _ Ho')).
  erewrite bind_raise; [done|].
  by destruct (Attr.interpretation o).
Qed.

(** X17.  No copy and no aggregate can be written to a PI document.
    Whatever the interpretation of a series, [write_fews] raises
    [Exception] for a dictionary that holds its copy, or an aggregate of
    it, and writes no file: [copy] and [aggregate] leave the
    interpretation of their result [Undefined], which has no type in a PI
    document. *)
Theorem write_fews_refuses_copies_and_aggregates
    h self o d filename loc par :
  objects h !! self = Some o → dicts h !! Attr.nodes o = Some d →
  (∃ c h',
     copy self h = (Ok c, h') ∧
     write_fews filename [(loc, [(par, Some c)])] h'
     = (Raise Exception_, writing h') ∧
     files (writing h') = files h) ∧
  (∀ dt start interp ign ts h',
     aggregate self dt start interp ign h = (Ok ts, h') →
     write_fews filename [(loc, [(par, Some ts)])] h'
     = (Raise Exception_, writing h') ∧
     files (writing h') = files h).
Proof.
  intros Ho Hd. split.
  - pose proof (copy_ok h self o d Ho Hd) as Hc. simpl in Hc.
    eexists _, _. split; [exact Hc|]. split; [|done].
    eapply write_fews_unsupported; [apply lookup_insert_eq|done].
  - intros dt start interp ign ts h' Hrun.
    destruct (aggregate_metadata h self o d dt start interp ign ts h'
                Ho Hd Hrun) as (r & Hts & _ & _).
    split; [by eapply write_fews_unsupported|].
    assert ((dt = "h" ∨ dt = "d" ∨ dt = "M")%string ∧
            (interp = "LinearInterpolation" ∨ interp = "Sum")%string)
      as [Hdt Hint].
    { unfold aggregate in Hrun.
      destruct (String.eqb dt "h") eqn:E1, (String.eqb dt "d") eqn:E2,
        (String.eqb dt "M") eqn:E3,
        (String.eqb interp "LinearInterpolation") eqn:E4,
        (String.eqb interp "Sum") eqn:E5;
        try discriminate Hrun;
        rewrite ?String.eqb_eq in *; auto. }
    rewrite (aggregate_ok h self o d dt start interp ign Ho Hd Hdt Hint)
      in Hrun.
    destruct (fst _) in Hrun; by simplify_eq.
Qed.
End extras_write_fews_copies.

Lemma write_fews_refuses_copies_and_aggregates_witness :
  ∃ c h',
    Timeseries.copy gauge gauge_heap = (Ok c, h') ∧
    Timeseries.write_fews "out.xml" [(Some "L1"%string,
                                      [(Some "Q"%string, Some c)])] h'
    = (Raise Exception_, writing h').
Proof.
  destruct (write_fews_refuses_copies_and_aggregates gauge_heap gauge
              (Attr.Build "gauge" (AStr "0") "gauge" "" (AStr "m3/s") "" 0 0 0
                 BlockRight 1%positive)
              (default ∅ (nodes_of gauge_heap gauge))
              "out.xml" (Some "L1"%string) (Some "Q"%string))
    as [(c & h' & Hcopy & Hwrite & _) _]; [by vm_compute|reflexivity|].
  exists c, h'. split; [exact Hcopy|exact Hwrite].
Defined.

(** ** Filling the gaps of a monthly series *)

Section fill_gaps.
Import Py Strptime Timeseries.
Implicit Types (h : heap) (o : Attr.t) (d : gmap datetime value).

Lemma add_months_next t :
  valid_datetime t = true → month_index t + 1 < 120000 →
  ∃ t', Datetime.add_months t 1 = Some t' ∧ valid_datetime t' = true ∧
        month_index t' = month_index t + 1 ∧ Datetime.lt t t'.
Proof.
  intros Hvalid Hlt.
  pose proof Hvalid as Hv. unfold valid_datetime in Hv.
  rewrite !andb_true_iff, !Z.leb_le in Hv.
  destruct Hv as (((((((((((((Hy1 & Hy2) & Hm1) & Hm2) & Hd1) & Hd2)
                            & Hh1) & Hh2) & Hmi1) & Hmi2) & Hs1) & Hs2)
                      & Hu1) & Hu2).
  unfold month_index in *. unfold Datetime.add_months.
  set (total := Datetime.year t * 12 + (Datetime.month t - 1 + 1)).
  replace ((Datetime.month t - 1 + 1) `mod` 12) with (total `mod` 12).
  2:{ unfold total.
      replace (Datetime.year t * 12 + (Datetime.month t - 1 + 1))
        with (Datetime.month t - 1 + 1 + Datetime.year t * 12) by lia.
      apply Z_mod_plus_full. }
  pose proof (Z.mod_pos_bound total 12 ltac:(lia)) as Hmod.
  rewrite Z.quot_div_nonneg by lia.
  pose proof (Z.div_mod total 12 ltac:(lia)) as Hdm.
  set (y := total `div` 12) in *. set (m := total `mod` 12 + 1) in *.
  assert (1 ≤ m ≤ 12) as Hm by (unfold m; lia).
  pose proof (days_in_month_ge y m Hm) as Hdim.
  pose proof (days_in_month_le y m) as Hdim'.
  assert ((1 <=? y) = true) as -> by (apply Z.leb_le; lia).
  assert ((y <=? 9999) = true) as -> by (apply Z.leb_le; lia).
  assert ((1 <=? Z.min (Datetime.day t) (Datetime.days_in_month y m)) = true)
    as -> by (apply Z.leb_le; lia).
  simpl. eexists. split; [done|]. simpl. split_and!.
  - unfold valid_datetime. simpl. rewrite !andb_true_iff, !Z.leb_le. lia.
  - unfold m, total in *. lia.
  - apply lt_months; simpl; [lia|lia|]. unfold m, total in *. lia.
Qed.

Lemma le_month_index a b :
  Datetime.le a b →
  1 ≤ Datetime.month a ≤ 12 → 1 ≤ Datetime.month b ≤ 12 →
  month_index a ≤ month_index b.
Proof.
  intros Hle Ha Hb. destruct (Z.le_gt_cases (month_index a) (month_index b))
    as [|Hgt]; [done|].
  exfalso. apply (proj2 (not_lt_le b a) Hle).
  apply lt_months; [done..|]. unfold month_index in Hgt. lia.
Qed.

Lemma valid_month t : valid_datetime t = true → 1 ≤ Datetime.month t ≤ 12.
Proof. intros Hv. by destruct (valid_datetime_ranges t Hv) as (_ & ? & _). Qed.

(** The loop of [fill_gaps] for the timestep [M] *)
Lemma fill_dates_month self h o d e :
  objects h !! self = Some o → dicts h !! Attr.nodes o = Some d →
  last (sorted_keys d) = Some e →
  valid_datetime e = true → month_index e < 119999 →
  ∀ fuel t acc,
    valid_datetime t = true → Datetime.le t e →
    (Z.to_nat (month_index e - month_index t) < fuel)%nat →
    ∃ n,
      fill_dates fuel self "M" t acc h
      = (Ok (acc ++ tail (month_dates n t)), h) ∧
      Z.of_nat n ≤ month_index e - month_index t ∧
      Forall (λ k, Datetime.le t k ∧ Datetime.le k e) (month_dates n t) ∧
      ∃ t1 t2, last (month_dates n t) = Some t1 ∧
               Datetime.add_months t1 1 = Some t2 ∧ Datetime.lt e t2.
Proof.
  intros Ho Hd He Hve Hlast.
  induction fuel as [|fuel IH]; intros t acc Hvt Hle Hfuel; [lia|].
  pose proof (le_month_index t e Hle (valid_month t Hvt) (valid_month e Hve))
    as Hmi.
  destruct (add_months_next t Hvt) as (t' & Hnext & Hvt' & Hmi' & Hlt);
    [lia|].
  cbn [fill_dates]. unfold fill_step. cbn [String.eqb Ascii.eqb Bool.eqb].
  rewrite Hnext.
  rewrite (bind_ok (lift_option _ (Some t')) _ _ _ _ eq_refl).
  erewrite bind_ok by (rewrite (end_ok h self o d Ho Hd), He; reflexivity).
  destruct (Datetime.leb t' e) eqn:Hcmp.
  - apply leb_le in Hcmp.
    pose proof (le_month_index t' e Hcmp (valid_month t' Hvt')
                  (valid_month e Hve)) as Hmi2.
    destruct (IH t' (acc ++ [t']) Hvt' Hcmp) as (n & Hrun & Hn & Hall & Hend);
      [lia|].
    exists (S n). cbn [month_dates]. rewrite Hnext. cbn [from_option tail].
    split; [|split; [lia|split]].
    + rewrite Hrun. destruct n; cbn [month_dates tail];
        by rewrite <- app_assoc.
    + constructor; [split; [apply le_refl|done]|].
      eapply Forall_impl; [exact Hall|]. intros k [Hk1 Hk2].
      split; [|done]. apply le_lteq. left.
      by eapply lt_le_trans.
    + destruct Hend as (t1 & t2 & Hl & Ht2 & Hlt2). exists t1, t2.
      split; [|done].
      destruct (month_dates n t') eqn:E; [by destruct n|].
      by rewrite last_cons, Hl.
  - exists 0%nat. cbn [month_dates tail]. rewrite app_nil_r.
    split; [done|]. split; [lia|]. split.
    + constructor; [|done]. split; [apply le_refl|done].
    + exists t, t'. split; [done|]. split; [done|].
      apply not_le_lt. intros Hc. apply leb_le in Hc. congruence.
Qed.

Lemma for_each_fill_nan self (l : list datetime) : ∀ h o d,
  objects h !! self = Some o → dicts h !! Attr.nodes o = Some d →
  NoDup l → (∀ k, k ∈ l → k ∉ dom d) →
  for_each l (λ date, setitem self (PyDatetime date None) NpNan) h
  = (Ok (), Heap (objects h)
              (<[Attr.nodes o := fill d ((λ k, (k, NpNan)) <$> l)]> (dicts h))
              (log h) (files h)).
Proof.
  induction l as [|k l IH]; intros h o d Ho Hd Hnd Hdom.
  - simpl. unfold mret, M_ret. rewrite insert_id by done. by destruct h.
  - apply NoDup_cons in Hnd as [Hnotin Hnd].
    assert (k ∉ dom d) as Hfresh by (apply Hdom; left).
    rewrite fmap_cons. cbn [for_each fill foldl fst snd]. unfold setitem.
    rewrite (bind_ok _ _ _ _ _
               (add_node_new h self o d (PyDatetime k None) k NpNan
                  Ho Hd eq_refl Hfresh)).
    erewrite IH; [|done|apply lookup_insert_eq|done|].
    + simpl. by rewrite insert_insert_eq.
    + intros k' Hk' Hin. apply elem_of_dom in Hin.
      rewrite lookup_insert_is_Some in Hin.
      destruct Hin as [<-|[_ Hin]]; [done|].
      apply (Hdom k'); [by right|by apply elem_of_dom].
Qed.

Lemma lookup_fill_nan d (l : list datetime) k :
  fill d ((λ k, (k, NpNan)) <$> l) !! k
  = if decide (k ∈ l) then Some NpNan else d !! k.
Proof.
  revert d. induction l as [|x l IH]; intros d.
  - destruct (decide (k ∈ [])) as [Hin|]; [|done].
    by apply elem_of_nil in Hin.
  - rewrite fmap_cons. cbn [fill foldl fst snd].
    change (foldl _ ?m ?rows) with (fill m rows). rewrite IH.
    destruct (decide (k ∈ l)) as [Hin|Hout];
      destruct (decide (k ∈ x :: l)) as [Hin'|Hout']; try done.
    + destruct Hout'. by right.
    + apply elem_of_cons in Hin' as [->|?]; [|done].
      apply lookup_insert_eq.
    + rewrite lookup_insert_ne; [done|]. intros <-. apply Hout'. left.
Qed.
End fill_gaps.

Section extras_fill_gaps.
Import Py Strptime Timeseries.
Implicit Types (h : heap) (o : Attr.t) (d : gmap datetime value).

(** X18.  [fill_gaps].  With a [dt] other than [d] and [M] it raises
    [ValueError], and for a series without nodes [IndexError]; the store
    stays as it is.  With [M], for a series whose last node is before the
    December of 9999, it returns: every node keeps its value, and the
    nodes added have the value [np.nan] and are at the dates of the
    sequence [start], [add_months(start, 1)],
    [add_months(add_months(start, 1), 1)] and so on, each a step from the
    one before, up to the last that is not after [end]; all of them are
    from [start] to [end], and nothing else in the store changes. *)
Theorem fill_gaps_monthly h self o d :
  objects h !! self = Some o → dicts h !! Attr.nodes o = Some d →
  (∀ dt, dt ≠ "d"%string → dt ≠ "M"%string →
         fill_gaps self dt h = (Raise ValueError, h)) ∧
  (d = ∅ → fill_gaps self "d" h = (Raise IndexError, h) ∧
           fill_gaps self "M" h = (Raise IndexError, h)) ∧
  (∀ s e,
     head (sorted_keys d) = Some s → last (sorted_keys d) = Some e →
     valid_datetime s = true → valid_datetime e = true →
     month_index e < 119999 →
     ∃ n d',
       fill_gaps self "M" h
       = (Ok (), Heap (objects h) (<[Attr.nodes o := d']> (dicts h))
                   (log h) (files h)) ∧
       Z.of_nat n ≤ month_index e - month_index s ∧
       (∀ k v, d !! k = Some v → d' !! k = Some v) ∧
       (∀ k, k ∈ dom d' ↔ k ∈ dom d ∨ k ∈ month_dates n s) ∧
       (∀ k, k ∈ dom d' → k ∉ dom d → d' !! k = Some NpNan) ∧
       Forall (λ k, Datetime.le s k ∧ Datetime.le k e) (month_dates n s) ∧
       ∃ t1 t2, last (month_dates n s) = Some t1 ∧
                Datetime.add_months t1 1 = Some t2 ∧ Datetime.lt e t2).
Proof.
  intros Ho Hd. split; [|split].
  - intros dt Hd' HM. unfold fill_gaps.
    assert (String.eqb dt "d" = false) as -> by by apply String.eqb_neq.
    assert (String.eqb dt "M" = false) as -> by by apply String.eqb_neq.
    done.
  - intros ->. unfold fill_gaps.
    split; cbn [String.eqb Ascii.eqb Bool.eqb orb];
      rewrite (bind_ok (mret ()) _ _ _ _ eq_refl);
      (erewrite bind_raise; [done|]); rewrite (start_ok h self o ∅ Ho Hd);
      unfold sorted_keys; by rewrite map_to_list_empty.
  - intros s e Hs He Hvs Hve Hlast.
    assert (s ∈ sorted_keys d) as Hsin.
    { destruct (sorted_keys d); simplify_eq/=. left. }
    assert (Datetime.le s e) as Hse.
    { eapply sorted_last_le; [apply sorted_keys_sorted|done..]. }
    pose proof (le_month_index s e Hse (valid_month s Hvs) (valid_month e Hve))
      as Hmi.
    destruct (fill_dates_month self h o d e Ho Hd He Hve Hlast
                (fill_fuel s e) s [s] Hvs Hse)
      as (n & Hrun & Hn & Hall & Hend).
    { unfold fill_fuel, month_index in *.
      destruct (valid_datetime_ranges s Hvs) as (_ & ? & _).
      destruct (valid_datetime_ranges e Hve) as (_ & ? & _).
      assert (Datetime.year s ≤ Datetime.year e).
      { apply le_lteq in Hse as [Hlt| ->]; [by apply lt_year|done]. }
      lia. }
    assert ([s] ++ tail (month_dates n s) = month_dates n s) as Hlist.
    { by destruct n. }
    rewrite Hlist in Hrun.
    set (missing := list_to_set (month_dates n s) ∖ list_to_set (sorted_keys d)
                    : gset datetime).
    exists n, (fill d ((λ k, (k, NpNan)) <$> elements missing)).
    assert (∀ k, k ∈ elements missing
                 ↔ k ∈ month_dates n s ∧ k ∉ dom d) as Hmissing.
    { intros k. unfold missing.
      rewrite elem_of_elements, elem_of_difference, !elem_of_list_to_set.
      by rewrite elem_of_sorted_keys. }
    split; [|split; [done|split; [|split; [|split; [|done]]]]].
    + unfold fill_gaps. cbn [String.eqb Ascii.eqb Bool.eqb orb].
      rewrite (bind_ok (mret ()) _ _ _ _ eq_refl).
      erewrite bind_ok by (rewrite (start_ok h self o d Ho Hd), Hs; reflexivity).
      erewrite bind_ok by (rewrite (end_ok h self o d Ho Hd), He; reflexivity).
      rewrite (bind_ok _ _ _ _ _ Hrun).
      rewrite (bind_ok _ _ _ _ _ (dates_ok _ _ _ _ Ho Hd)).
      apply (for_each_fill_nan self (elements missing) h o d Ho Hd).
      * apply NoDup_elements.
      * intros k Hk. by apply Hmissing in Hk as [_ ?].
    + intros k v Hkv. rewrite lookup_fill_nan.
      destruct (decide _) as [Hin|]; [|done].
      apply Hmissing in Hin as [_ Hin]. destruct Hin.
      apply elem_of_dom. eauto.
    + intros k. rewrite dom_fill, <- list_fmap_compose.
      change (fst ∘ (λ k0 : datetime, (k0, NpNan))) with (@id datetime).
      rewrite list_fmap_id, Hmissing.
      destruct (decide (k ∈ dom d)); naive_solver.
    + intros k Hk' Hk. rewrite lookup_fill_nan.
      destruct (decide _) as [|Hout]; [done|].
      apply elem_of_dom in Hk'. rewrite lookup_fill_nan in Hk'.
      destruct (decide _); [done|]. by apply elem_of_dom in Hk'.
Qed.
End extras_fill_gaps.

Lemma fill_gaps_monthly_witness :
  ∃ n d',
    Timeseries.fill_gaps daily "M" february_heap
    = (Ok (), Heap (objects february_heap)
                (<[1%positive := d']> (dicts february_heap))
                (log february_heap) (files february_heap)) ∧
    n = 1%nat ∧ dom d' = dom (default ∅ (nodes_of february_heap daily)).
Proof.
  destruct (fill_gaps_monthly february_heap daily
              (Attr.Build "daily" (AStr "0") "" "" (AStr "") "" 0 0 0
                 Undefined 1%positive)
              (default ∅ (nodes_of february_heap daily)))
    as (_ & _ & Hfill); [by vm_compute|reflexivity|].
  destruct (Hfill (jan2021 1) (mkDatetime 2021 2 1 0 0 0 0))
    as (n & d' & Hrun & Hn & _ & Hdom & _ & _ & Hend);
    [by vm_compute|by vm_compute|reflexivity|reflexivity|by vm_compute|].
  assert (n = 1%nat) as ->.
  { destruct n as [|[|n]]; [|done|].
    - destruct Hend as (t1 & t2 & Ht1 & Ht2 & Hlt).
      injection Ht1 as <-. vm_compute in Ht2. injection Ht2 as <-.
      vm_compute in Hlt. discriminate Hlt.
    - change (month_index _ - month_index _) with 1 in Hn. lia. }
  exists 1%nat, d'. split; [exact Hrun|]. split; [done|].
  clear Hrun Hend Hn. apply set_eq. intros k. rewrite Hdom. split; [|by left].
  intros [?|Hk]; [done|]. apply elem_of_dom.
  vm_compute in Hk.
  apply elem_of_cons in Hk as [->|Hk]; [by eexists|].
  apply elem_of_cons in Hk as [->|Hk]; [by eexists|].
  by apply elem_of_nil in Hk.
Defined.

(** ** The metadata of a ZRX file *)

Section zrx_metadata.
Import Py Strptime Timeseries.
Context `{FloatLib}.
Implicit Types (h : heap) (o : Attr.t) (d : gmap datetime value).
Implicit Types (md : zrx_metadata).

Lemma split_on_two (k1 v1 k2 v2 : text) :
  no_bar (k1 ++ v1) = true → no_bar (k2 ++ v2) = true →
  split_on (lit "|*|")
    (k1 ++ v1 ++ lit "|*|" ++ k2 ++ v2 ++ lit "|*|" ++ [nl])
  = [k1 ++ v1; k2 ++ v2; [nl]].
Proof.
  intros H1 H2. unfold split_on.
  rewrite (app_assoc k1), (app_assoc k2).
  rewrite split_on_go_word; [|done|rewrite !length_app; simpl; lia].
  rewrite split_on_go_word; [|done|rewrite !length_app; simpl; lia].
  by rewrite split_on_go_newline.
Qed.

Lemma split_on_one (k1 v1 : text) :
  no_bar (k1 ++ v1) = true →
  split_on (lit "|*|") (k1 ++ v1 ++ lit "|*|" ++ [nl]) = [k1 ++ v1; [nl]].
Proof.
  intros H1. unfold split_on. rewrite (app_assoc k1).
  rewrite split_on_go_word; [|done|rewrite !length_app; simpl; lia].
  by rewrite split_on_go_newline.
Qed.

Lemma split_on_three (k1 v1 k2 v2 w3 : text) :
  no_bar (k1 ++ v1) = true → no_bar (k2 ++ v2) = true → no_bar w3 = true →
  split_on (lit "|*|")
    (k1 ++ v1 ++ lit "|*|" ++ k2 ++ v2 ++ lit "|*|" ++ w3 ++ lit "|*|"
     ++ [nl])
  = [k1 ++ v1; k2 ++ v2; w3; [nl]].
Proof.
  intros H1 H2 H3. unfold split_on.
  rewrite (app_assoc k1), (app_assoc k2).
  rewrite split_on_go_word; [|done|rewrite !length_app; simpl; lia].
  rewrite split_on_go_word; [|done|rewrite !length_app; simpl; lia].
  rewrite split_on_go_word; [|done|rewrite !length_app; simpl; lia].
  by rewrite split_on_go_newline.
Qed.

(** The header that [write_zrx] writes, read: station id, station name,
    parameter and unit are the texts between the keys and the
    separators. *)
Lemma read_zrx_header_metadata ts o REXCHANGE h :
  no_bar (format_attr (Attr.station_id o)) = true →
  no_bar (lit (Attr.station_name o)) = true →
  no_bar (lit (Attr.param o)) = true →
  no_bar (format_attr (Attr.unit o)) = true →
  from_option no_bar true REXCHANGE = true →
  ∃ data,
    read_zrx_lines ts (ZrxMetadata (AInt 0) [] [] [] (lit "-777.0"), None)
      (map (λ b, b ++ [nl]) (zrx_header o REXCHANGE)) h
    = (Ok (ZrxMetadata
             (AStr (to_string (format_attr (Attr.station_id o))))
             (lit (Attr.station_name o)) (lit (Attr.param o))
             (format_attr (Attr.unit o)) (lit "-777.0"), data), h).
Proof.
  intros Hid Hname Hp Hu Hx.
  unfold zrx_header. rewrite !map_app. cbn [map].
  rewrite read_zrx_lines_app.
  erewrite bind_ok.
  2:{ cbn [read_zrx_lines]. rewrite <- (app_assoc (lit "##")).
      rewrite (bind_ok _ _ _ _ _ (read_zrx_line_comment ts _ _ h)).
      erewrite bind_ok.
      2:{ apply read_zrx_line_metadata; reflexivity. }
      erewrite bind_ok.
      2:{ apply read_zrx_line_metadata; [reflexivity..|].
          rewrite <- !app_assoc.
          apply (contains_app_r (lit "|*|") (lit "SANR")).
          apply contains_app_r.
          apply (contains_here (lit "|*|")
                   (lit "SNAME" ++ lit (Attr.station_name o) ++ lit "|*|"
                    ++ [nl])). }
      reflexivity. }
  assert (drop 1 ((lit "#SANR" ++ format_attr (Attr.station_id o)
                   ++ lit "|*|SNAME" ++ lit (Attr.station_name o)
                   ++ lit "|*|") ++ [nl])
          = lit "SANR" ++ format_attr (Attr.station_id o) ++ lit "|*|"
            ++ lit "SNAME" ++ lit (Attr.station_name o) ++ lit "|*|" ++ [nl])
    as -> by (by rewrite <- !app_assoc).
  rewrite split_on_two by (by rewrite no_bar_app).
  rewrite read_zrx_lines_app.
  set (md3 := fold_left zrx_block _ _).
  assert (md3 = ZrxMetadata
                  (AStr (to_string (format_attr (Attr.station_id o))))
                  (lit (Attr.station_name o)) [] [] (lit "-777.0")) as ->.
  { unfold md3. reflexivity. }
  match goal with
  | |- context [read_zrx_lines ts (?md, ?data3)
                  (map _ match REXCHANGE with Some _ => _ | None => _ end)] =>
      assert (∃ data4,
                read_zrx_lines ts (md, data3)
                  (map (λ b, b ++ [nl])
                     match REXCHANGE with
                     | Some x => [lit "#REXCHANGE" ++ x ++ lit "|*|"]
                     | None => []
                     end) h
                = (Ok (md, data4), h)) as (data4 & Hrun4)
  end.
  { destruct REXCHANGE as [x|]; [|by eexists].
    cbn [map read_zrx_lines]. eexists.
    erewrite bind_ok.
    2:{ apply read_zrx_line_metadata; [reflexivity..|].
        rewrite <- !app_assoc.
        apply (contains_app_r (lit "|*|") (lit "REXCHANGE")).
        apply contains_app_r. apply (contains_here (lit "|*|") [nl]). }
    assert (drop 1 ((lit "#REXCHANGE" ++ x ++ lit "|*|") ++ [nl])
            = lit "REXCHANGE" ++ x ++ lit "|*|" ++ [nl]) as ->
      by (by rewrite <- !app_assoc).
    rewrite split_on_one by (by rewrite no_bar_app).
    reflexivity. }
  rewrite (bind_ok _ _ _ _ _ Hrun4).
  cbn [read_zrx_lines].
  erewrite bind_ok.
  2:{ apply read_zrx_line_metadata; [reflexivity..|].
      rewrite <- !app_assoc.
      apply (contains_app_r (lit "|*|") (lit "CNAME")).
      apply contains_app_r.
      apply (contains_here (lit "|*|")
               (lit "CUNIT" ++ format_attr (Attr.unit o)
                ++ lit "|*|RINVAL-777.0|*|" ++ [nl])). }
  erewrite bind_ok.
  2:{ apply read_zrx_line_metadata; reflexivity. }
  assert (drop 1 ((lit "#CNAME" ++ lit (Attr.param o) ++ lit "|*|CUNIT"
                   ++ format_attr (Attr.unit o) ++ lit "|*|RINVAL-777.0|*|")
                  ++ [nl])
          = lit "CNAME" ++ lit (Attr.param o) ++ lit "|*|"
            ++ lit "CUNIT" ++ format_attr (Attr.unit o) ++ lit "|*|"
            ++ lit "RINVAL-777.0" ++ lit "|*|" ++ [nl])
    as -> by (by rewrite <- !app_assoc).
  rewrite split_on_three by (done || by rewrite no_bar_app).
  eexists. reflexivity.
Qed.
End zrx_metadata.

Section extras_zrx_metadata.
Import Py Strptime Timeseries.
Context `{FloatLib}.
Implicit Types (h : heap) (o : Attr.t) (d : gmap datetime value).

(** X19.  The metadata of the format [zrx].  A series is written with
    [write_to_file] to a file whose extension is [.zrx] and read with
    [read_file], under the conditions of the round trip of its nodes, and
    with no line break in the header and no bar in the station id, the
    station name, the parameter, the unit nor the exchange number.  Then the series read has the station name, the parameter and
    the unit of the original, the unit and the station id as texts (the
    text [None] for a unit that is [None]); its title is the station name,
    not the title; and location, coordinates and interpretation are those
    of a new series. *)
Theorem write_to_file_read_file_zrx_metadata
    h self o d filename REXCHANGE :
  objects h !! self = Some o → dicts h !! Attr.nodes o = Some d →
  lower (suffix filename) = lit ".zrx" →
  forallb no_newline (zrx_header o REXCHANGE) = true →
  no_bar (format_attr (Attr.station_id o)) = true →
  no_bar (lit (Attr.station_name o)) = true →
  no_bar (lit (Attr.param o)) = true →
  no_bar (format_attr (Attr.unit o)) = true →
  from_option no_bar true REXCHANGE = true →
  text_nodes d → zrx_nodes d →
  ∃ h1 ts h2 r,
    write_to_file self filename REXCHANGE h = (Ok (), h1) ∧
    read_file filename None h1 = (Ok ts, h2) ∧
    objects h !! ts = None ∧
    objects h2 !! ts
    = Some (Attr.Build (Attr.station_name o)
              (AStr (to_string (format_attr (Attr.station_id o))))
              (Attr.station_name o) (Attr.param o)
              (AStr (to_string (format_attr (Attr.unit o))))
              "" 0%float 0%float 0%float Undefined r).
Proof.
  intros Ho Hd Hext Hheader Hid Hname Hp Hu Hx Ht Hz.
  pose proof (zrx_nodes_items d Ht Hz) as Hitems.
  set (h1 := with_file h filename
               (file_of_lines
                  (zrx_header o REXCHANGE ++ (zrx_body <$> items d)))).
  set (ts := fresh (dom (objects h))).
  set (r := fresh (dom (dicts h))).
  set (o1 := Attr.Build "" (AStr "0") "" "" (AStr "") "" 0%float 0%float
               0%float Undefined r).
  set (h2 := Heap (<[ts := o1]> (objects h1)) (<[r := ∅]> (dicts h1))
               (log h1) (files h1)).
  assert (new "" h1 = (Ok ts, h2)) as Hnew by done.
  assert (objects h2 !! ts = Some o1) as Ho1 by apply lookup_insert_eq.
  assert (dicts h2 !! Attr.nodes o1 = Some ∅) as Hd1
    by apply lookup_insert_eq.
  destruct (read_zrx_header_metadata ts o REXCHANGE h2 Hid Hname Hp Hu Hx)
    as (data & Hhdr).
  match type of Hhdr with
  | _ = (Ok (?m, _), _) => set (md := m) in Hhdr
  end.
  assert (NoDup (items d).*1) as Hnd.
  { rewrite fst_items_sorted. apply NoDup_sorted_keys. }
  pose proof (read_zrx_rows ts md data (items d) h2 o1 ∅ Ho1 Hd1 eq_refl
                Hitems Hnd ltac:(set_solver)) as Hrows.
  exists h1, ts. eexists _, r. split_and!.
  - unfold write_to_file. cbv zeta. rewrite Hext.
    change (bool_decide (lit ".zrx" = lit ".txt")) with false.
    change (bool_decide (lit ".zrx" = lit ".csv")) with false.
    change (bool_decide (lit ".zrx" = lit ".uvf")) with false.
    change (bool_decide (lit ".zrx" = lit ".zrx")) with true. cbv iota.
    by apply write_zrx_ok.
  - unfold read_file. cbv zeta. rewrite lower_lstrip_dots, Hext.
    change (bool_decide (lstrip_dots (lit ".zrx") = lit "txt")) with false.
    change (bool_decide (lstrip_dots (lit ".zrx") = lit "uvf")) with false.
    change (bool_decide (lstrip_dots (lit ".zrx") = lit "zrx")) with true.
    cbv iota.
    unfold read_zrx. rewrite (bind_ok _ _ _ _ _ Hnew).
    erewrite bind_ok;
      [|unfold open_read, h2, h1, with_file; cbn [files];
        rewrite lookup_insert_eq; reflexivity].
    rewrite readlines_file.
    2:{ rewrite forallb_app, Hheader. simpl. apply forallb_forall.
        intros b Hb. apply list_elem_of_In, list_elem_of_fmap in Hb
          as ([k v] & -> & Hkv).
        rewrite Forall_forall in Hitems.
        destruct (Hitems _ Hkv) as (Hk & Hv & _).
        by apply no_newline_zrx_body. }
    rewrite map_app, map_map.
    erewrite bind_ok.
    2:{ rewrite read_zrx_lines_app, (bind_ok _ _ _ _ _ Hhdr).
        exact Hrows. }
    cbn [fst]. unfold h2. cbn [objects dicts log files].
    do 5 (erewrite bind_ok;
          [|apply modify_obj_ok; cbn [objects]; apply lookup_insert_eq];
          cbn [objects dicts log files]; rewrite insert_insert_eq).
    reflexivity.
  - apply fresh_lookup_None.
  - cbn [objects]. rewrite lookup_insert_eq. unfold md. cbn.
    by rewrite !string_of_list_ascii_of_string.
Qed.
End extras_zrx_metadata.

Lemma write_to_file_read_file_zrx_metadata_witness :
  ∃ h1 ts h2 r,
    Timeseries.write_to_file gauge "gauge.zrx" None gauge_heap = (Ok (), h1) ∧
    Timeseries.read_file "gauge.zrx" None h1 = (Ok ts, h2) ∧
    objects gauge_heap !! ts = None ∧
    objects h2 !! ts
    = Some (Attr.Build "gauge" (AStr "0") "gauge" "" (AStr "m3/s") "" 0 0 0
              Undefined r).
Proof.
  refine (write_to_file_read_file_zrx_metadata gauge_heap gauge
            (Attr.Build "gauge" (AStr "0") "gauge" "" (AStr "m3/s") "" 0 0 0
               BlockRight 1%positive)
            (<[jan2021 2 := NpNan]> (<[jan2021 1 := Float 5]> ∅))
            "gauge.zrx" None _ _ _ _ _ _ _ _ _ _ _).
  - vm_compute. reflexivity.
  - reflexivity.
  - by vm_compute.
  - by vm_compute.
  - reflexivity.
  - reflexivity.
  - reflexivity.
  - reflexivity.
  - reflexivity.
  - apply map_Forall_insert_2; [|apply map_Forall_insert_2;
                                   [|apply map_Forall_empty]].
    + split; [by split_and!|].
      split_and!; [by vm_compute|by vm_compute|].
      exists nan. by vm_compute.
    + split; [by split_and!|].
      split_and!; [by vm_compute|by vm_compute|].
      exists 5%float. by vm_compute.
  - apply map_Forall_insert_2; [|apply map_Forall_insert_2;
                                   [|apply map_Forall_empty]].
    + intros [=].
    + intros _. by vm_compute.
Defined.

(** ** Reading a binary file *)

Section read_bin.
Import Py Timeseries.
Context `{FloatLib}.
Implicit Types (h : heap) (o : Attr.t) (d : gmap datetime value).



End read_bin.

Section extras_read_bin.
Import Py Timeseries.
Context `{FloatLib}.
Implicit Types (h : heap) (o : Attr.t) (d : gmap datetime value).


End extras_read_bin.


(** ** The calendar *)

Section calendar.
Import Datetime.

Lemma days_before_year_succ y :
  days_before_year (y + 1)
  = days_before_year y + 365 + (if is_leap y then 1 else 0).
Proof.
  unfold days_before_year, is_leap. cbv zeta.
  replace (y + 1 - 1) with y by lia.
  destruct (y mod 4 =? 0) eqn:E4; destruct (y mod 100 =? 0) eqn:E100;
    destruct (y mod 400 =? 0) eqn:E400; simpl;
    rewrite ?Z.eqb_eq, ?Z.eqb_neq in *;
    Z.div_mod_to_equations; lia.
Qed.

Lemma days_before_year_mono y1 y2 :
  y1 ≤ y2 →
  days_before_year y1 + 365 * (y2 - y1) ≤ days_before_year y2
  ≤ days_before_year y1 + 366 * (y2 - y1).
Proof.
  intros Hle. replace y2 with (y1 + Z.of_nat (Z.to_nat (y2 - y1))) by lia.
  generalize (Z.to_nat (y2 - y1)) as k. clear. intros k.
  induction k as [|k IH]; [rewrite Z.add_0_r; lia|].
  replace (y1 + Z.of_nat (S k)) with (y1 + Z.of_nat k + 1) by lia.
  rewrite days_before_year_succ. destruct (is_leap _); lia.
Qed.

Lemma days_before_month_succ y m :
  1 ≤ m ≤ 11 →
  days_before_month y (m + 1) = days_before_month y m + days_in_month y m.
Proof.
  intros Hm. unfold days_before_month, days_in_month.
  assert (m = 1 ∨ m = 2 ∨ m = 3 ∨ m = 4 ∨ m = 5 ∨ m = 6 ∨ m = 7 ∨ m = 8
          ∨ m = 9 ∨ m = 10 ∨ m = 11) as Hcases by lia.
  destruct (is_leap y);
    repeat (destruct Hcases as [->|Hcases]; [reflexivity|]);
    by subst.
Qed.

Lemma days_before_month_mono y m1 m2 :
  1 ≤ m1 → m1 < m2 → m2 ≤ 12 →
  days_before_month y m1 + days_in_month y m1 ≤ days_before_month y m2.
Proof.
  intros H1 Hlt H2.
  replace m2 with (m1 + 1 + Z.of_nat (Z.to_nat (m2 - m1 - 1))) in * by lia.
  revert H2. generalize (Z.to_nat (m2 - m1 - 1)) as k. clear Hlt.
  induction k as [|k IH]; intros H2.
  - rewrite Z.add_0_r, days_before_month_succ by lia. lia.
  - replace (m1 + 1 + Z.of_nat (S k)) with (m1 + 1 + Z.of_nat k + 1) by lia.
    rewrite days_before_month_succ by lia.
    pose proof (days_in_month_ge y (m1 + 1 + Z.of_nat k) ltac:(lia)).
    specialize (IH ltac:(lia)). lia.
Qed.

Lemma days_in_year y m d :
  1 ≤ m ≤ 12 → 1 ≤ d ≤ days_in_month y m →
  1 ≤ days_before_month y m + d ≤ 365 + (if is_leap y then 1 else 0).
Proof.
  intros Hm Hd. split.
  - unfold days_before_month, days_before_month_table.
    assert (m = 1 ∨ m = 2 ∨ m = 3 ∨ m = 4 ∨ m = 5 ∨ m = 6 ∨ m = 7 ∨ m = 8
            ∨ m = 9 ∨ m = 10 ∨ m = 11 ∨ m = 12) as Hcases by lia.
    destruct (is_leap y);
      repeat (destruct Hcases as [->|Hcases]; [simpl; lia|]); subst;
      simpl; lia.
  - destruct (decide (m = 12)) as [->|].
    + revert Hd. unfold days_before_month, days_in_month. simpl.
      destruct (is_leap y); simpl; lia.
    + pose proof (days_before_month_mono y m 12 ltac:(lia) ltac:(lia)
                    ltac:(lia)) as Hmono.
      assert (days_before_month y 12 ≤ 334 + (if is_leap y then 1 else 0)).
      { unfold days_before_month. simpl. destruct (is_leap y); simpl; lia. }
      lia.
Qed.

(** The ordinal grows with the date. *)
Lemma ymd2ord_lt y1 m1 d1 y2 m2 d2 :
  1 ≤ m1 ≤ 12 → 1 ≤ d1 ≤ days_in_month y1 m1 →
  1 ≤ m2 ≤ 12 → 1 ≤ d2 ≤ days_in_month y2 m2 →
  lex_compare [y1; m1; d1] [y2; m2; d2] = Lt →
  ymd2ord y1 m1 d1 < ymd2ord y2 m2 d2.
Proof.
  intros Hm1 Hd1 Hm2 Hd2. unfold ymd2ord. simpl.
  pose proof (days_in_year y1 m1 d1 Hm1 Hd1) as Hin1.
  pose proof (days_in_year y2 m2 d2 Hm2 Hd2) as Hin2.
  destruct (Z.compare_spec y1 y2) as [->|Hy|Hy]; [| |done].
  - destruct (Z.compare_spec m1 m2) as [->|Hm|Hm]; [| |done].
    + destruct (Z.compare_spec d1 d2); [done| |done]. lia.
    + intros _.
      pose proof (days_before_month_mono y2 m1 m2 ltac:(lia) Hm ltac:(lia)).
      lia.
  - intros _.
    pose proof (days_before_year_mono (y1 + 1) y2 ltac:(lia)) as Hmono.
    rewrite days_before_year_succ in Hmono. lia.
Qed.

Lemma month_day_ok_all (leapyear : bool) n :
  0 ≤ n ≤ 364 + (if leapyear then 1 else 0) → month_day_ok leapyear n = true.
Proof.
  intros Hn. destruct leapyear.
  - revert n Hn. apply (forall_range (month_day_ok true) 0 365).
    vm_compute. reflexivity.
  - revert n Hn. apply (forall_range (month_day_ok false) 0 364).
    vm_compute. reflexivity.
Qed.

Lemma days_before_year_parts a b c e :
  0 ≤ b ≤ 3 → 0 ≤ c ≤ 24 → 0 ≤ e ≤ 3 →
  days_before_year (400 * a + 100 * b + 4 * c + e + 1)
  = 146097 * a + 36524 * b + 1461 * c + 365 * e.
Proof.
  intros Hb Hc He. unfold days_before_year. cbv zeta.
  replace (400 * a + 100 * b + 4 * c + e + 1 - 1)
    with (400 * a + 100 * b + 4 * c + e) by lia.
  assert ((400 * a + 100 * b + 4 * c + e) / 4 = 100 * a + 25 * b + c) as ->.
  { symmetry. apply (Z.div_unique _ _ _ e); lia. }
  assert ((400 * a + 100 * b + 4 * c + e) / 100 = 4 * a + b) as ->.
  { symmetry. apply (Z.div_unique _ _ _ (4 * c + e)); lia. }
  assert ((400 * a + 100 * b + 4 * c + e) / 400 = a) as ->.
  { symmetry. apply (Z.div_unique _ _ _ (100 * b + 4 * c + e)); lia. }
  lia.
Qed.

Lemma is_leap_parts a b c e :
  0 ≤ b ≤ 3 → 0 ≤ c ≤ 24 → 0 ≤ e ≤ 3 →
  is_leap (400 * a + 100 * b + 4 * c + e + 1)
  = (e =? 3) && (negb (c =? 24) || (b =? 3)).
Proof.
  intros Hb Hc He. unfold is_leap.
  assert ((400 * a + 100 * b + 4 * c + e + 1) mod 4 = (e + 1) mod 4) as ->.
  { replace (400 * a + 100 * b + 4 * c + e + 1)
      with (e + 1 + (100 * a + 25 * b + c) * 4) by lia.
    apply Z_mod_plus_full. }
  assert ((400 * a + 100 * b + 4 * c + e + 1) mod 100
          = (4 * c + e + 1) mod 100) as ->.
  { replace (400 * a + 100 * b + 4 * c + e + 1)
      with (4 * c + e + 1 + (4 * a + b) * 100) by lia.
    apply Z_mod_plus_full. }
  assert ((400 * a + 100 * b + 4 * c + e + 1) mod 400
          = (100 * b + 4 * c + e + 1) mod 400) as ->.
  { replace (400 * a + 100 * b + 4 * c + e + 1)
      with (100 * b + 4 * c + e + 1 + a * 400) by lia.
    apply Z_mod_plus_full. }
  destruct (Z.eqb_spec e 3) as [->|Hne].
  - change ((3 + 1) mod 4) with 0. cbn [Z.eqb andb].
    destruct (Z.eqb_spec c 24) as [->|Hnc].
    + change ((4 * 24 + 3 + 1) mod 100) with 0. cbn [Z.eqb negb orb].
      destruct (Z.eqb_spec b 3) as [->|Hnb]; [done|].
      apply Z.eqb_neq. rewrite Z.mod_small by lia. lia.
    + cbn [negb orb]. rewrite (Z.mod_small (4 * c + 3 + 1)) by lia.
      assert ((4 * c + 3 + 1 =? 0) = false) as -> by (apply Z.eqb_neq; lia).
      done.
  - rewrite (Z.mod_small (e + 1)) by lia.
    assert ((e + 1 =? 0) = false) as -> by (apply Z.eqb_neq; lia). done.
Qed.

(** [ord2ymd] gives a date of the calendar, which has the ordinal. *)
Lemma ord2ymd_valid n y m d :
  1 ≤ n → ord2ymd n = (y, m, d) →
  ymd2ord y m d = n ∧ 1 ≤ y ∧ 1 ≤ m ≤ 12 ∧ 1 ≤ d ≤ days_in_month y m.
Proof.
  intros Hn. unfold ord2ymd. cbv zeta.
  pose proof (Z.div_mod (n - 1) DI400Y ltac:(done)) as E1.
  pose proof (Z.mod_pos_bound (n - 1) DI400Y ltac:(done)) as B1.
  pose proof (Z.div_pos (n - 1) DI400Y ltac:(lia) ltac:(done)) as Ha.
  set (a := (n - 1) / DI400Y) in *. set (r1 := (n - 1) mod DI400Y) in *.
  pose proof (Z.div_mod r1 DI100Y ltac:(done)) as E2.
  pose proof (Z.mod_pos_bound r1 DI100Y ltac:(done)) as B2.
  set (b := r1 / DI100Y) in *. set (r2 := r1 mod DI100Y) in *.
  pose proof (Z.div_mod r2 DI4Y ltac:(done)) as E3.
  pose proof (Z.mod_pos_bound r2 DI4Y ltac:(done)) as B3.
  set (c := r2 / DI4Y) in *. set (r3 := r2 mod DI4Y) in *.
  pose proof (Z.div_mod r3 365 ltac:(done)) as E4.
  pose proof (Z.mod_pos_bound r3 365 ltac:(done)) as B4.
  set (e := r3 / 365) in *. set (r4 := r3 mod 365) in *.
  clearbody a r1 b r2 c r3 e r4.
  unfold DI400Y, DI100Y, DI4Y in *.
  assert (0 ≤ b ≤ 4 ∧ 0 ≤ c ≤ 24 ∧ 0 ≤ e ≤ 4) as (Hb & Hc & He) by lia.
  destruct (Z.eqb_spec e 4) as [->|Hne4]; cbn [orb].
  { (* the last day of a leap year *)
    intros [= <- <- <-].
    assert (r4 = 0 ∧ c ≤ 23 ∧ b ≤ 3) as (-> & Hc' & Hb') by lia.
    replace (a * 400 + 1 + b * 100 + c * 4 + 4 - 1)
      with (400 * a + 100 * b + 4 * c + 3 + 1) by lia.
    pose proof (days_before_year_parts a b c 3) as Hdby.
    pose proof (is_leap_parts a b c 3) as Hleap.
    assert ((c =? 24) = false) as Hc24 by (apply Z.eqb_neq; lia).
    rewrite Hc24 in Hleap.
    unfold ymd2ord, days_before_month, days_in_month.
    rewrite Hleap, Hdby by lia. simpl. lia. }
  destruct (Z.eqb_spec b 4) as [->|Hnb4]; cbn [orb].
  { (* the last day of a cycle of 400 years *)
    intros [= <- <- <-].
    assert (c = 0 ∧ e = 0 ∧ r4 = 0) as (-> & -> & ->) by lia.
    replace (a * 400 + 1 + 4 * 100 + 0 * 4 + 0 - 1)
      with (400 * a + 100 * 3 + 4 * 24 + 3 + 1) by lia.
    pose proof (days_before_year_parts a 3 24 3) as Hdby.
    pose proof (is_leap_parts a 3 24 3) as Hleap.
    unfold ymd2ord, days_before_month, days_in_month.
    rewrite Hleap, Hdby by lia. simpl. lia. }
  replace (a * 400 + 1 + b * 100 + c * 4 + e)
    with (400 * a + 100 * b + 4 * c + e + 1) by lia.
  pose proof (days_before_year_parts a b c e) as Hdby.
  rewrite <- (is_leap_parts a b c e) by lia.
  set (y0 := 400 * a + 100 * b + 4 * c + e + 1) in *.
  pose proof (month_day_ok_all (is_leap y0) r4) as Hmd.
  unfold month_day_ok, month_day in Hmd. cbv zeta in Hmd.
  destruct (r4 <? _).
  - intros [= <- <- <-].
    rewrite !andb_true_iff, !Z.leb_le, Z.eqb_eq in Hmd.
    unfold ymd2ord, days_before_month, days_in_month.
    destruct Hmd as ((((? & ?) & ?) & ?) & ?); [destruct (is_leap y0); lia|].
    lia.
  - intros [= <- <- <-].
    rewrite !andb_true_iff, !Z.leb_le, Z.eqb_eq in Hmd.
    unfold ymd2ord, days_before_month, days_in_month.
    destruct Hmd as ((((? & ?) & ?) & ?) & ?); [destruct (is_leap y0); lia|].
    lia.
Qed.

Lemma ymd2ord_pos y m d :
  1 ≤ y → 1 ≤ m ≤ 12 → 1 ≤ d ≤ days_in_month y m →
  days_before_year y + 1 ≤ ymd2ord y m d
  ≤ days_before_year y + 365 + (if is_leap y then 1 else 0).
Proof.
  intros Hy Hm Hd. unfold ymd2ord.
  pose proof (days_in_year y m d Hm Hd). lia.
Qed.

Lemma ymd2ord_inj y1 m1 d1 y2 m2 d2 :
  1 ≤ m1 ≤ 12 → 1 ≤ d1 ≤ days_in_month y1 m1 →
  1 ≤ m2 ≤ 12 → 1 ≤ d2 ≤ days_in_month y2 m2 →
  ymd2ord y1 m1 d1 = ymd2ord y2 m2 d2 → (y1, m1, d1) = (y2, m2, d2).
Proof.
  intros Hm1 Hd1 Hm2 Hd2 Heq.
  destruct (lex_compare [y1; m1; d1] [y2; m2; d2]) eqn:Hc.
  - apply lex_compare_eq in Hc. by simplify_eq.
  - pose proof (ymd2ord_lt _ _ _ _ _ _ Hm1 Hd1 Hm2 Hd2 Hc). lia.
  - assert (lex_compare [y2; m2; d2] [y1; m1; d1] = Lt) as Hc'.
    { by rewrite lex_compare_antisym, Hc. }
    pose proof (ymd2ord_lt _ _ _ _ _ _ Hm2 Hd2 Hm1 Hd1 Hc'). lia.
Qed.

(** ... and it is the date of the ordinal. *)
Lemma ord2ymd_ymd2ord y m d :
  1 ≤ y → 1 ≤ m ≤ 12 → 1 ≤ d ≤ days_in_month y m →
  ord2ymd (ymd2ord y m d) = (y, m, d).
Proof.
  intros Hy Hm Hd.
  pose proof (ymd2ord_pos y m d Hy Hm Hd) as Hpos.
  pose proof (days_before_year_mono 1 y Hy) as Hmono.
  change (days_before_year 1) with 0 in Hmono.
  destruct (ord2ymd (ymd2ord y m d)) as [[y' m'] d'] eqn:Hymd.
  destruct (ord2ymd_valid (ymd2ord y m d) _ _ _ ltac:(lia) Hymd)
    as (Heq & Hy' & Hm' & Hd').
  by apply ymd2ord_inj.
Qed.
End calendar.

(** ** Dates on the line of time *)

Section timeline.
Import Datetime Strptime.

Lemma valid_datetime_calendar t :
  valid_datetime t = true →
  1 ≤ year t ≤ 9999 ∧ 1 ≤ month t ≤ 12 ∧
  1 ≤ day t ≤ days_in_month (year t) (month t) ∧
  0 ≤ hour t ≤ 23 ∧ 0 ≤ minute t ≤ 59 ∧ 0 ≤ second t ≤ 59 ∧
  0 ≤ microsecond t ≤ 999999.
Proof.
  unfold valid_datetime. rewrite !andb_true_iff, !Z.leb_le. lia.
Qed.

Lemma time_us_bound t :
  valid_datetime t = true → 0 ≤ time_us t < us_per_day.
Proof.
  intros Hv. apply valid_datetime_calendar in Hv.
  unfold time_us, us_per_day. lia.
Qed.

Lemma toordinal_bound t :
  valid_datetime t = true → 1 ≤ toordinal t ≤ MAXORDINAL.
Proof.
  intros Hv. apply valid_datetime_calendar in Hv as (Hy & Hm & Hd & _).
  unfold toordinal.
  pose proof (ymd2ord_pos (year t) (month t) (day t) ltac:(lia) Hm Hd)
    as Hpos.
  pose proof (days_before_year_mono 1 (year t) ltac:(lia)) as H1.
  pose proof (days_before_year_mono (year t + 1) 10000 ltac:(lia)) as H2.
  rewrite days_before_year_succ in H2.
  change (days_before_year 1) with 0 in H1.
  change (days_before_year 10000) with MAXORDINAL in H2.
  destruct (is_leap (year t)); lia.
Qed.

Lemma compare_date_time a b :
  compare a b
  = match lex_compare [year a; month a; day a] [year b; month b; day b] with
    | Eq => lex_compare [hour a; minute a; second a; microsecond a]
              [hour b; minute b; second b; microsecond b]
    | c => c
    end.
Proof.
  unfold compare, fields. simpl.
  by repeat (destruct (_ ?= _); try done).
Qed.

Lemma since_start_lt a b :
  valid_datetime a = true → valid_datetime b = true →
  lt a b → since_start a < since_start b.
Proof.
  intros Ha Hb. unfold lt. rewrite compare_date_time.
  pose proof (time_us_bound a Ha) as Hta.
  pose proof (time_us_bound b Hb) as Htb.
  apply valid_datetime_calendar in Ha as (Hya & Hma & Hda & Hha & Hmia & Hsa
                                          & Hua).
  apply valid_datetime_calendar in Hb as (Hyb & Hmb & Hdb & Hhb & Hmib & Hsb
                                          & Hub).
  unfold since_start, toordinal.
  destruct (lex_compare [year a; month a; day a] _) eqn:Hdate; [| |done].
  - apply lex_compare_eq in Hdate. injection Hdate as -> -> ->.
    unfold time_us. simpl.
    destruct (Z.compare_spec (hour a) (hour b)); [| |done];
      [|intros _; unfold us_per_day; lia].
    destruct (Z.compare_spec (minute a) (minute b)); [| |done];
      [|intros _; unfold us_per_day; lia].
    destruct (Z.compare_spec (second a) (second b)); [| |done];
      [|intros _; unfold us_per_day; lia].
    destruct (Z.compare_spec (microsecond a) (microsecond b)); [done| |done].
    intros _. unfold us_per_day. lia.
  - intros _.
    pose proof (ymd2ord_lt _ _ _ _ _ _ Hma Hda Hmb Hdb Hdate).
    unfold us_per_day in *. lia.
Qed.

(** The order of two dates is the order of their times. *)
Lemma since_start_order a b :
  valid_datetime a = true → valid_datetime b = true →
  (lt a b ↔ since_start a < since_start b) ∧
  (le a b ↔ since_start a ≤ since_start b).
Proof.
  intros Ha Hb.
  assert (lt a b ↔ since_start a < since_start b) as Hlt.
  { split; [by apply since_start_lt|]. intros Hs.
    apply not_le_lt. intros Hle. apply le_lteq in Hle as [Hlt| ->]; [|lia].
    pose proof (since_start_lt b a Hb Ha Hlt). lia. }
  split; [done|]. rewrite le_lteq, Hlt. split.
  - intros [?| ->]; lia.
  - intros Hle. destruct (decide (a = b)) as [|Hne]; [by right|]. left.
    apply Z.le_lteq in Hle as [|Heq]; [done|]. exfalso.
    destruct (compare a b) eqn:Hc.
    + by apply compare_eq in Hc.
    + apply Hlt in Hc. lia.
    + apply lt_gt in Hc. pose proof (since_start_lt b a Hb Ha Hc). lia.
Qed.

(** Adding a timedelta moves a date by so much, and fails only beyond
    the calendar. *)
Lemma add_timedelta_spec a delta :
  valid_datetime a = true →
  us_per_day ≤ since_start a + delta < (MAXORDINAL + 1) * us_per_day →
  ∃ b, add_timedelta a delta = Some b ∧ valid_datetime b = true ∧
       since_start b = since_start a + delta.
Proof.
  intros Ha Hrange. unfold add_timedelta. cbv zeta.
  change (ymd2ord (year a) (month a) (day a) * us_per_day + time_us a)
    with (since_start a).
  set (total := since_start a + delta) in *.
  pose proof (Z.div_mod total us_per_day ltac:(done)) as Hdm.
  pose proof (Z.mod_pos_bound total us_per_day ltac:(done)) as Hrest.
  set (days := total / us_per_day) in *.
  set (rest := total mod us_per_day) in *.
  assert (1 ≤ days ≤ MAXORDINAL) as Hdays.
  { unfold us_per_day, MAXORDINAL in *. lia. }
  assert ((0 <? days) && (days <=? MAXORDINAL) = true) as ->.
  { apply andb_true_iff. rewrite Z.ltb_lt, Z.leb_le. lia. }
  destruct (ord2ymd days) as [[y m] d] eqn:Hymd.
  destruct (ord2ymd_valid days y m d ltac:(lia) Hymd) as (Hord & Hy & Hm & Hd).
  assert (y ≤ 9999) as Hy'.
  { destruct (Z.le_gt_cases y 9999) as [|Hgt]; [done|]. exfalso.
    pose proof (ymd2ord_pos y m d Hy Hm Hd) as Hpos.
    pose proof (days_before_year_mono 10000 y ltac:(lia)) as Hmono.
    change (days_before_year 10000) with MAXORDINAL in Hmono. lia. }
  eexists. split; [done|].
  assert (0 ≤ rest < 86400000000) as Hrest' by (unfold us_per_day in *; lia).
  clearbody rest. clear Hrest.
  split.
  - unfold valid_datetime. simpl.
    rewrite !andb_true_iff, !Z.leb_le.
    Z.div_mod_to_equations. lia.
  - unfold since_start, toordinal, time_us. simpl. rewrite Hord.
    rewrite Hdm. unfold us_per_day.
    Z.div_mod_to_equations. lia.
Qed.

(** The next day, at the same time of day *)
Lemma add_timedelta_day a :
  valid_datetime a = true → toordinal a < MAXORDINAL →
  ∃ b, add_timedelta a us_per_day = Some b ∧ valid_datetime b = true ∧
       since_start b = since_start a + us_per_day ∧
       toordinal b = toordinal a + 1 ∧ time_us b = time_us a ∧ lt a b.
Proof.
  intros Ha Hlast.
  pose proof (time_us_bound a Ha) as Hta.
  pose proof (toordinal_bound a Ha) as Hoa.
  destruct (add_timedelta_spec a us_per_day Ha) as (b & Hb & Hvb & Hsb).
  { unfold since_start, us_per_day, MAXORDINAL in *. lia. }
  exists b. split_and!; [done|done|done| | |].
  - pose proof (time_us_bound b Hvb) as Htb.
    unfold since_start, us_per_day in *. lia.
  - pose proof (time_us_bound b Hvb) as Htb.
    unfold since_start, us_per_day in *. lia.
  - apply since_start_order; [done|done|]. unfold us_per_day in *. lia.
Qed.
End timeline.

Section fill_gaps_daily.
Import Datetime Py Strptime Timeseries.
Implicit Types (h : heap) (o : Attr.t) (d : gmap datetime value).

Lemma since_start_inj a b :
  valid_datetime a = true → valid_datetime b = true →
  since_start a = since_start b → a = b.
Proof.
  intros Ha Hb Heq. apply compare_eq.
  destruct (compare a b) eqn:Hc; [done|..].
  - apply (since_start_order a b Ha Hb) in Hc. lia.
  - apply lt_gt in Hc. apply (since_start_order b a Hb Ha) in Hc. lia.
Qed.

Lemma since_start_bound t :
  valid_datetime t = true →
  us_per_day ≤ since_start t < (MAXORDINAL + 1) * us_per_day.
Proof.
  intros Hv. pose proof (time_us_bound t Hv). pose proof (toordinal_bound t Hv).
  unfold since_start, us_per_day, MAXORDINAL in *. lia.
Qed.

Lemma add_timedelta_eq a delta b :
  valid_datetime a = true → valid_datetime b = true →
  since_start b = since_start a + delta → add_timedelta a delta = Some b.
Proof.
  intros Ha Hb Heq. pose proof (since_start_bound b Hb) as Hrange.
  destruct (add_timedelta_spec a delta Ha) as (b' & -> & Hb' & Heq');
    [by rewrite <- Heq|].
  f_equal. apply since_start_inj; [done..|lia].
Qed.

Lemma add_timedelta_Some a delta b :
  valid_datetime a = true → add_timedelta a delta = Some b →
  valid_datetime b = true ∧ since_start b = since_start a + delta.
Proof.
  intros Ha Hb.
  assert (us_per_day ≤ since_start a + delta < (MAXORDINAL + 1) * us_per_day)
    as Hrange.
  { revert Hb. unfold add_timedelta. cbv zeta.
    change (ymd2ord (Datetime.year a) (Datetime.month a) (Datetime.day a)
            * us_per_day + time_us a)
      with (since_start a).
    destruct (_ && _) eqn:Hin; [intros _|done].
    apply andb_true_iff in Hin. rewrite Z.ltb_lt, Z.leb_le in Hin.
    pose proof (Z.div_mod (since_start a + delta) us_per_day ltac:(done)).
    pose proof (Z.mod_pos_bound (since_start a + delta) us_per_day
                  ltac:(done)).
    unfold us_per_day, MAXORDINAL in *. lia. }
  destruct (add_timedelta_spec a delta Ha Hrange) as (b' & Hb' & ? & ?).
  by simplify_eq.
Qed.

(** The dates of [day_dates] are whole days from the first. *)
Lemma elem_of_day_dates n : ∀ t k,
  valid_datetime t = true →
  k ∈ day_dates n t
  ↔ ∃ i, 0 ≤ i ≤ Z.of_nat n ∧ add_timedelta t (i * us_per_day) = Some k.
Proof.
  induction n as [|n IH]; intros t k Ht.
  - cbn [day_dates]. rewrite list_elem_of_singleton. split.
    + intros ->. exists 0. split; [lia|]. apply add_timedelta_eq; [done..|lia].
    + intros (i & Hi & Hk). assert (i = 0) as -> by lia.
      apply add_timedelta_Some in Hk as [Hvk Hk]; [|done].
      apply since_start_inj; [done..|lia].
  - cbn [day_dates]. rewrite elem_of_cons.
    destruct (add_timedelta t us_per_day) as [t'|] eqn:Hnext.
    + apply add_timedelta_Some in Hnext as [Ht' Hs']; [|done].
      cbn [from_option]. rewrite (IH t' k Ht'). split.
      * intros [->|(i & Hi & Hk)].
        -- exists 0. split; [lia|]. apply add_timedelta_eq; [done..|lia].
        -- exists (i + 1). split; [lia|].
           apply add_timedelta_Some in Hk as [Hvk Hk]; [|done].
           apply add_timedelta_eq; [done..|lia].
      * intros (i & Hi & Hk).
        apply add_timedelta_Some in Hk as [Hvk Hk]; [|done].
        destruct (decide (i = 0)) as [->|Hne].
        -- left. apply since_start_inj; [done..|lia].
        -- right. exists (i - 1). split; [lia|].
           apply add_timedelta_eq; [done..|lia].
    + cbn [from_option]. split.
      * intros [->|Hk]; [|by apply elem_of_nil in Hk].
        exists 0. split; [lia|]. apply add_timedelta_eq; [done..|lia].
      * intros (i & Hi & Hk).
        apply add_timedelta_Some in Hk as [Hvk Hk]; [|done].
        destruct (decide (i = 0)) as [->|Hne].
        { left. apply since_start_inj; [done..|lia]. }
        exfalso.
        pose proof (since_start_bound k Hvk) as Hbk.
        pose proof (since_start_bound t Ht) as Hbt.
        destruct (add_timedelta_spec t us_per_day Ht) as (? & ? & _);
          [|congruence].
        unfold us_per_day, MAXORDINAL in *. lia.
Qed.

Lemma timedelta_us_since_start a b :
  timedelta_us a b = since_start a - since_start b.
Proof. unfold timedelta_us, since_start, toordinal. lia. Qed.

(** The loop of [fill_gaps] for the timestep [d] *)
Lemma fill_dates_day self h o d e :
  objects h !! self = Some o → dicts h !! Attr.nodes o = Some d →
  last (sorted_keys d) = Some e →
  valid_datetime e = true → toordinal e < MAXORDINAL →
  ∀ fuel t acc,
    valid_datetime t = true → Datetime.le t e →
    (Z.to_nat (timedelta_us e t / us_per_day) < fuel)%nat →
    fill_dates fuel self "d" t acc h
    = (Ok (acc ++ tail (day_dates (Z.to_nat (timedelta_us e t / us_per_day))
                          t)), h).
Proof.
  intros Ho Hd He Hve Hlast.
  pose proof (time_us_bound e Hve) as Hte.
  induction fuel as [|fuel IH]; intros t acc Hvt Hle Hfuel; [lia|].
  pose proof (time_us_bound t Hvt) as Htt.
  apply (since_start_order t e Hvt Hve) in Hle.
  destruct (add_timedelta_day t Hvt)
    as (t' & Hnext & Hvt' & Hs' & _ & _ & _).
  { unfold since_start, us_per_day in *. lia. }
  rewrite timedelta_us_since_start in *.
  cbn [fill_dates]. unfold fill_step. cbn [String.eqb Ascii.eqb Bool.eqb].
  rewrite Hnext.
  rewrite (bind_ok (lift_option _ (Some t')) _ _ _ _ eq_refl).
  erewrite bind_ok by (rewrite (end_ok h self o d Ho Hd), He; reflexivity).
  destruct (Datetime.leb t' e) eqn:Hcmp.
  - apply leb_le in Hcmp. pose proof Hcmp as Hle'.
    apply (since_start_order t' e Hvt' Hve) in Hcmp.
    assert ((since_start e - since_start t) / us_per_day
            = (since_start e - since_start t') / us_per_day + 1) as Hdiv.
    { rewrite Hs'.
      replace (since_start e - since_start t)
        with (since_start e - (since_start t + us_per_day) + 1 * us_per_day)
        by lia.
      by rewrite Z.div_add. }
    assert (0 ≤ (since_start e - since_start t') / us_per_day) as Hnn.
    { apply Z.div_pos; [lia|done]. }
    rewrite Hdiv, Z2Nat.inj_add, Nat.add_1_r by lia.
    rewrite IH; [|done|done|rewrite timedelta_us_since_start; lia].
    rewrite timedelta_us_since_start.
    cbn [day_dates tail]. rewrite Hnext. cbn [from_option].
    rewrite <- app_assoc. 
    generalize (Z.to_nat ((since_start e - since_start t') / us_per_day)).
    by intros [|n].
  - assert (since_start e < since_start t') as Hlt.
    { apply (since_start_order e t' Hve Hvt'). apply not_le_lt.
      intros Hc. apply leb_le in Hc. congruence. }
    assert ((since_start e - since_start t) / us_per_day = 0) as ->.
    { apply Z.div_small. lia. }
    cbn [Z.to_nat day_dates tail]. by rewrite app_nil_r.
Qed.

Lemma fill_fuel_enough s e :
  valid_datetime s = true → valid_datetime e = true → Datetime.le s e →
  (Z.to_nat (timedelta_us e s / us_per_day) < fill_fuel s e)%nat.
Proof.
  intros Hs He Hle. unfold fill_fuel.
  apply (since_start_order s e Hs He) in Hle.
  rewrite timedelta_us_since_start.
  pose proof (time_us_bound s Hs). pose proof (time_us_bound e He).
  apply valid_datetime_calendar in Hs as (Hys & Hms & Hds & _).
  apply valid_datetime_calendar in He as (Hye & Hme & Hde & _).
  pose proof (ymd2ord_pos (Datetime.year s) (Datetime.month s)
                (Datetime.day s) ltac:(lia) Hms Hds) as Hos.
  pose proof (ymd2ord_pos (Datetime.year e) (Datetime.month e)
                (Datetime.day e) ltac:(lia) Hme Hde) as Hoe.
  fold (toordinal s) in Hos. fold (toordinal e) in Hoe.
  assert (Datetime.year s ≤ Datetime.year e) as Hyears.
  { destruct (Z.le_gt_cases (Datetime.year s) (Datetime.year e)) as [|Hgt];
      [done|]. exfalso.
    pose proof (days_before_year_mono (Datetime.year e + 1) (Datetime.year s)
                  ltac:(lia)) as Hm.
    rewrite days_before_year_succ in Hm.
    unfold since_start, us_per_day in *.
    destruct (is_leap (Datetime.year e)); lia. }
  pose proof (days_before_year_mono (Datetime.year s) (Datetime.year e)
                Hyears) as Hmono.
  assert ((since_start e - since_start s) / us_per_day
          < toordinal e - toordinal s + 1) as Hdays.
  { apply Z.div_lt_upper_bound; [done|].
    unfold since_start, us_per_day in *. lia. }
  assert (0 ≤ (since_start e - since_start s) / us_per_day)
    by (apply Z.div_pos; [lia|done]).
  destruct (is_leap (Datetime.year e)); lia.
Qed.
End fill_gaps_daily.

Section extras_fill_gaps_daily.
Import Py Strptime Timeseries.
Implicit Types (h : heap) (o : Attr.t) (d : gmap datetime value).

(** X21.  [fill_gaps] with the timestep [d].  For a series whose last
    node is before the last day of the year 9999 it returns, and leaves no
    day out: with [n] the whole days of [end - start], the series then has
    a node at [start + timedelta(i)] for each [i] from 0 to [n], which is
    [i] days after [start] at the time of day of [start], and from [start]
    to [end].  Every node that was there keeps its value, the nodes added
    are at these dates only and have the value [np.nan], and nothing else
    in the store changes. *)
Theorem fill_gaps_daily h self o d s e :
  objects h !! self = Some o → dicts h !! Attr.nodes o = Some d →
  head (sorted_keys d) = Some s → last (sorted_keys d) = Some e →
  valid_datetime s = true → valid_datetime e = true →
  toordinal e < Datetime.MAXORDINAL →
  let n := timedelta_us e s / Datetime.us_per_day in
  ∃ d',
    fill_gaps self "d" h
    = (Ok (), Heap (objects h) (<[Attr.nodes o := d']> (dicts h))
                (log h) (files h)) ∧
    (∀ k v, d !! k = Some v → d' !! k = Some v) ∧
    (∀ k, k ∈ dom d'
          ↔ k ∈ dom d
            ∨ ∃ i, 0 ≤ i ≤ n ∧
                   Datetime.add_timedelta s (i * Datetime.us_per_day)
                   = Some k) ∧
    (∀ k, k ∈ dom d' → k ∉ dom d → d' !! k = Some NpNan) ∧
    (∀ i, 0 ≤ i ≤ n →
          ∃ k, Datetime.add_timedelta s (i * Datetime.us_per_day) = Some k ∧
               k ∈ dom d' ∧
               toordinal k = toordinal s + i ∧
               Datetime.time_us k = Datetime.time_us s ∧
               Datetime.le s k ∧ Datetime.le k e).
Proof.
  intros Ho Hd Hs He Hvs Hve Hlast n.
  assert (s ∈ sorted_keys d) as Hsin.
  { destruct (sorted_keys d); simplify_eq/=. left. }
  assert (Datetime.le s e) as Hse.
  { eapply sorted_last_le; [apply sorted_keys_sorted|done..]. }
  pose proof (fill_dates_day self h o d e Ho Hd He Hve Hlast
                (fill_fuel s e) s [s] Hvs Hse
                (fill_fuel_enough s e Hvs Hve Hse)) as Hrun.
  fold n in Hrun.
  assert (0 ≤ n) as Hn.
  { unfold n. rewrite timedelta_us_since_start.
    apply Z.div_pos; [|done].
    apply (since_start_order s e Hvs Hve) in Hse. lia. }
  assert ([s] ++ tail (day_dates (Z.to_nat n) s) = day_dates (Z.to_nat n) s)
    as Hlist.
  { by destruct (Z.to_nat n). }
  rewrite Hlist in Hrun.
  assert (∀ k, k ∈ day_dates (Z.to_nat n) s
               ↔ ∃ i, 0 ≤ i ≤ n ∧
                      Datetime.add_timedelta s (i * Datetime.us_per_day)
                      = Some k) as Hdays.
  { intros k. rewrite elem_of_day_dates by done. by rewrite Z2Nat.id. }
  set (missing := list_to_set (day_dates (Z.to_nat n) s)
                  ∖ list_to_set (sorted_keys d) : gset datetime).
  exists (fill d ((λ k, (k, NpNan)) <$> elements missing)).
  assert (∀ k, k ∈ elements missing
               ↔ k ∈ day_dates (Z.to_nat n) s ∧ k ∉ dom d) as Hmissing.
  { intros k. unfold missing.
    rewrite elem_of_elements, elem_of_difference, !elem_of_list_to_set.
    by rewrite elem_of_sorted_keys. }
  assert (∀ k, k ∈ dom (fill d ((λ k, (k, NpNan)) <$> elements missing))
               ↔ k ∈ dom d ∨ k ∈ day_dates (Z.to_nat n) s) as Hdom.
  { intros k. rewrite dom_fill, <- list_fmap_compose.
    change (fst ∘ (λ k0 : datetime, (k0, NpNan))) with (@id datetime).
    rewrite list_fmap_id, Hmissing.
    destruct (decide (k ∈ dom d)); naive_solver. }
  split; [|split; [|split; [|split]]].
  - unfold fill_gaps. cbn [String.eqb Ascii.eqb Bool.eqb orb].
    rewrite (bind_ok (mret ()) _ _ _ _ eq_refl).
    erewrite bind_ok by (rewrite (start_ok h self o d Ho Hd), Hs; reflexivity).
    erewrite bind_ok by (rewrite (end_ok h self o d Ho Hd), He; reflexivity).
    rewrite (bind_ok _ _ _ _ _ Hrun).
    rewrite (bind_ok _ _ _ _ _ (dates_ok _ _ _ _ Ho Hd)).
    apply (for_each_fill_nan self (elements missing) h o d Ho Hd).
    + apply NoDup_elements.
    + intros k Hk. by apply Hmissing in Hk as [_ ?].
  - intros k v Hkv. rewrite lookup_fill_nan.
    destruct (decide _) as [Hin|]; [|done].
    apply Hmissing in Hin as [_ Hin]. destruct Hin.
    apply elem_of_dom. eauto.
  - intros k. by rewrite Hdom, Hdays.
  - intros k Hk' Hk. rewrite lookup_fill_nan.
    destruct (decide _) as [|Hout]; [done|].
    apply elem_of_dom in Hk'. rewrite lookup_fill_nan in Hk'.
    destruct (decide _); [done|]. by apply elem_of_dom in Hk'.
  - intros i Hi.
    pose proof (since_start_bound s Hvs) as Hbs.
    pose proof (since_start_bound e Hve) as Hbe.
    pose proof (time_us_bound s Hvs) as Hts.
    assert (i * Datetime.us_per_day ≤ since_start e - since_start s) as Hup.
    { etrans; [|apply (Z.mul_div_le _ Datetime.us_per_day); done].
      fold (timedelta_us e s). rewrite <- timedelta_us_since_start.
      fold n. rewrite (Z.mul_comm Datetime.us_per_day).
      apply Z.mul_le_mono_nonneg_r; [done|lia]. }
    destruct (add_timedelta_spec s (i * Datetime.us_per_day) Hvs)
      as (k & Hk & Hvk & Hsk).
    { unfold Datetime.us_per_day in *. lia. }
    pose proof (time_us_bound k Hvk) as Htk.
    exists k. split; [done|]. split; [apply Hdom; right; apply Hdays; eauto|].
    split_and!.
    + unfold since_start, Datetime.us_per_day in *. lia.
    + unfold since_start, Datetime.us_per_day in *. lia.
    + apply (since_start_order s k Hvs Hvk).
      unfold Datetime.us_per_day in *. lia.
    + apply (since_start_order k e Hvk Hve). lia.
Qed.
End extras_fill_gaps_daily.

Lemma fill_gaps_daily_witness :
  ∃ d',
    Timeseries.fill_gaps daily "d" february_heap
    = (Ok (), Heap (objects february_heap)
                (<[1%positive := d']> (dicts february_heap))
                (log february_heap) (files february_heap)) ∧
    d' !! mkDatetime 2021 1 15 0 0 0 0 = Some NpNan.
Proof.
  destruct (fill_gaps_daily february_heap daily
              (Attr.Build "daily" (AStr "0") "" "" (AStr "") "" 0 0 0
                 Undefined 1%positive)
              (default ∅ (nodes_of february_heap daily))
              (jan2021 1) (mkDatetime 2021 2 1 0 0 0 0))
    as (d' & Hrun & _ & Hdom & Hnan & _);
    [by vm_compute|reflexivity|by vm_compute|by vm_compute|reflexivity
    |reflexivity|by vm_compute|].
  exists d'. split; [exact Hrun|]. apply Hnan.
  - apply Hdom. right. exists 14.
    change (Timeseries.timedelta_us _ _ / Datetime.us_per_day) with 31.
    split; [lia|]. vm_compute. reflexivity.
  - by vm_compute.
Defined.
